(** * Host datapath (bpf_host.c, lib/fib.h, node_config.h): a shallow embedding

    The tc programs attached to the host devices are modelled as functions
    in a small state monad.  The state is the packet context
    ([struct __ctx_buff]), the per-CPU connection-tracking transfer buffers,
    the tail-call program array and the notifications sent so far; the
    tables and subsystems the programs only consume (ipcache, endpoint map,
    connection tracking, policy, NAT, encapsulation) are reached through
    the functions of the class [Externals].

    Conditional compilation ([#ifdef ENABLE_...]) is modelled by the record
    [config]: one boolean per feature macro. *)

From Stdlib Require Import ZArith Bool List Lia.
From stdpp Require Import base option list gmap.

Open Scope Z_scope.

(** ** Verdicts and drop reasons *)

(** Modelled from the spec: lib/common.h is not among the sources.  §4.7:
    verdict codes are [CTX_ACT_OK] (continue to the stack),
    [CTX_ACT_REDIRECT] / [CTX_ACT_TX] (terminal) and negative values, which
    drop and carry the reason.  The numbers are the ones of tc
    ([TC_ACT_OK], [TC_ACT_SHOT], [TC_ACT_REDIRECT]) and of the drop-reason
    table; the development only uses their sign and that they differ. *)
Definition CTX_ACT_OK : Z := 0.
Definition CTX_ACT_DROP : Z := 2.
Definition CTX_ACT_TX : Z := 7.
Definition CTX_ACT_REDIRECT : Z := 7.
Definition TC_ACT_REDIRECT : Z := 7.

Definition DROP_INVALID : Z := -134.
Definition DROP_UNKNOWN_L3 : Z := -139.
Definition DROP_MISSED_TAIL_CALL : Z := -140.
Definition DROP_WRITE_ERROR : Z := -141.
Definition DROP_UNROUTABLE : Z := -151.
Definition DROP_FRAG_NOSUPPORT : Z := -157.
Definition DROP_CT_UNKNOWN_PROTO : Z := -137.
Definition DROP_UNSUPPORTED_L2 : Z := -166.
Definition DROP_NO_FIB : Z := -169.
Definition DROP_UNENCRYPTED_TRAFFIC : Z := -195.
Definition DROP_VLAN_FILTERED : Z := -182.
Definition DROP_INVALID_TC_BUFFER : Z := -184.

(** Modelled from the spec: [IS_ERR] (lib/common.h) holds of the negative
    verdicts and of the bare drop action. *)
Definition IS_ERR (x : Z) : bool := (x <? 0) || (x =? CTX_ACT_DROP).

(** ** Identities (node_config.h) *)

Definition UNKNOWN_ID : Z := 0.
Definition HOST_ID : Z := 1.
Definition WORLD_ID : Z := 2.
Definition UNMANAGED_ID : Z := 3.
Definition HEALTH_ID : Z := 4.
Definition INIT_ID : Z := 5.
Definition LOCAL_NODE_ID : Z := 6.
Definition REMOTE_NODE_ID : Z := 6.
Definition KUBE_APISERVER_NODE_ID : Z := 7.
Definition ENCRYPTED_OVERLAY_ID : Z := 11.

Definition CILIUM_NET_IFINDEX : Z := 1.
Definition CILIUM_HOST_IFINDEX : Z := 1.

(** [union macaddr]: the six bytes of an Ethernet address. *)
Definition macaddr := list Z.

(** ** Build configuration *)

(** One field per feature macro tested by the sources; [secctx_from_ipcache],
    [interface_mac] and [direct_routing_dev_ifindex] are the [CONFIG(...)]
    values.
    [ETH_HLEN] is 14 on devices with an Ethernet header and 0 on L3
    devices; [IS_L3_DEV] defaults to [false] in node_config.h and may be
    defined by the including program. *)
Record config := {
  ENABLE_IPV4 : bool;
  ENABLE_IPV6 : bool;
  ENABLE_HOST_FIREWALL : bool;
  ENABLE_HOST_ROUTING : bool;
  ENABLE_NODEPORT : bool;
  ENABLE_NODEPORT_ACCELERATION : bool;
  HAVE_ENCAP : bool;
  ENABLE_IPV4_FRAGMENTS : bool;
  ENABLE_IPV6_FRAGMENTS : bool;
  ENABLE_MASQUERADE_IPV4 : bool;
  ENABLE_MASQUERADE_IPV6 : bool;
  ENABLE_SRV6 : bool;
  TUNNEL_MODE : bool;
  ENABLE_VTEP : bool;
  ENABLE_IPSEC : bool;
  ENABLE_WIREGUARD : bool;
  ENCRYPTION_STRICT_MODE : bool;
  ENABLE_L2_ANNOUNCEMENTS : bool;
  ENABLE_ARP_PASSTHROUGH : bool;
  ENABLE_ARP_RESPONDER : bool;
  ENABLE_IDENTITY_MARK : bool;
  ENABLE_EGRESS_GATEWAY_COMMON : bool;
  ENABLE_L7_LB : bool;
  ENABLE_BANDWIDTH_MANAGER : bool;
  ENABLE_HEALTH_CHECK : bool;
  ENABLE_SKIP_FIB : bool;
  ETH_HLEN : Z;
  IS_L3_DEV : Z -> bool;
  VTEP_MASK : Z;
  THIS_INTERFACE_IFINDEX : Z;
  secctx_from_ipcache : bool;
  interface_mac : macaddr;
  direct_routing_dev_ifindex : Z;
  neigh_resolver_available : bool;
}.
Existing Class config.

(** node_config.h: the world identity is split by address family only when
    both families are compiled in. *)
Definition WORLD_IPV4_ID (cfg : config) : Z :=
  if ENABLE_IPV4 cfg && ENABLE_IPV6 cfg then 9 else 2.
Definition WORLD_IPV6_ID (cfg : config) : Z :=
  if ENABLE_IPV4 cfg && ENABLE_IPV6 cfg then 10 else 2.

(** node_config.h, [VLAN_FILTER(ifindex, vlan_id)]: the static allow-list,
    a switch over the interface with a switch over the VLAN id inside. *)
Definition VLAN_FILTER (ifindex vlan_id : Z) : bool :=
  if ifindex =? 116 then
    (if (vlan_id =? 4000) || (vlan_id =? 4001) then true else false)
  else if ifindex =? 117 then
    (if (vlan_id =? 4003) || (vlan_id =? 4004) || (vlan_id =? 4005)
     then true else false)
  else false.

(** bpf_host.c *)
Definition allow_vlan (ifindex vlan_id : Z) : bool := VLAN_FILTER ifindex vlan_id.

(** Bit 0 is skipped for robustness, as it's used in some places to
    indicate from_host itself. *)
Definition FROM_HOST_FLAG_NEED_HOSTFW : Z := Z.shiftl 1 1.
Definition FROM_HOST_FLAG_HOST_ID : Z := Z.shiftl 1 2.

(** ** Data model *)

(** Remote-endpoint (ipcache) record. *)
Record remote_endpoint_info := {
  sec_identity : Z;
  tunnel_endpoint : Z;
  flag_skip_tunnel : bool;
  flag_has_tunnel_ep : bool;
}.

(** Local-endpoint record. *)
Record endpoint_info := {
  ep_ifindex : Z;
  ep_flags : Z;
  ep_sec_id : Z;
}.

Record iphdr := {
  ip4_saddr : Z;
  ip4_daddr : Z;
  ip4_protocol : Z;
  ip4_frag_off : Z;
}.

(** [union v6addr], read through its two 64-bit halves [d1], [d2].  An
    address is in network byte order: as with the [__be32] addresses of
    [iphdr], a half is held as the number its bytes spell, [d1] for bytes
    0..7 and [d2] for bytes 8..15. *)
Record v6addr := { d1 : Z; d2 : Z }.

Record ipv6hdr := {
  ip6_saddr : v6addr;
  ip6_daddr : v6addr;
  ip6_nexthdr : Z;
}.

Record ipv4_ct_tuple := {
  t4_daddr : Z;
  t4_saddr : Z;
  t4_dport : Z;
  t4_sport : Z;
  t4_nexthdr : Z;
  t4_flags : Z;
}.

Record ipv6_ct_tuple := {
  t6_daddr : v6addr;
  t6_saddr : v6addr;
  t6_dport : Z;
  t6_sport : Z;
  t6_nexthdr : Z;
  t6_flags : Z;
}.

(** The connection-tracking transfer buffers: the tuple and the result of
    the lookup made before the chain boundary. *)
Record ct_buffer4 := {
  cb4_tuple : ipv4_ct_tuple;
  cb4_ct_state : Z;
  cb4_monitor : Z;
  cb4_ret : Z;
  cb4_l4_off : Z;
}.

Record ct_buffer6 := {
  cb6_tuple : ipv6_ct_tuple;
  cb6_ct_state : Z;
  cb6_monitor : Z;
  cb6_ret : Z;
  cb6_l4_off : Z;
}.

Definition ipv4_ct_tuple_zero : ipv4_ct_tuple :=
  {| t4_daddr := 0; t4_saddr := 0; t4_dport := 0; t4_sport := 0;
     t4_nexthdr := 0; t4_flags := 0 |}.
Definition v6addr_zero : v6addr := {| d1 := 0; d2 := 0 |}.
Definition ipv6_ct_tuple_zero : ipv6_ct_tuple :=
  {| t6_daddr := v6addr_zero; t6_saddr := v6addr_zero; t6_dport := 0;
     t6_sport := 0; t6_nexthdr := 0; t6_flags := 0 |}.

(** [struct ct_buffer4 ct_buffer = {}] *)
Definition ct_buffer4_zero : ct_buffer4 :=
  {| cb4_tuple := ipv4_ct_tuple_zero; cb4_ct_state := 0; cb4_monitor := 0;
     cb4_ret := 0; cb4_l4_off := 0 |}.
Definition ct_buffer6_zero : ct_buffer6 :=
  {| cb6_tuple := ipv6_ct_tuple_zero; cb6_ct_state := 0; cb6_monitor := 0;
     cb6_ret := 0; cb6_l4_off := 0 |}.

Record trace_ctx := { reason : Z; monitor : Z }.

Definition TRACE_REASON_UNKNOWN : Z := 5.
Definition TRACE_REASON_ENCRYPTED : Z := 128.
Definition TRACE_PAYLOAD_LEN : Z := 128.

(** The value the handlers initialise their [trace] with. *)
Definition trace_unknown : trace_ctx :=
  {| reason := TRACE_REASON_UNKNOWN; monitor := TRACE_PAYLOAD_LEN |}.

Inductive trace_point :=
| TRACE_TO_STACK | TRACE_FROM_HOST | TRACE_FROM_STACK | TRACE_FROM_PROXY
| TRACE_FROM_NETWORK | TRACE_TO_NETWORK.

Inductive metric_dir := METRIC_INGRESS | METRIC_EGRESS.

Inductive dbg_type :=
| DBG_IP_ID_MAP_SUCCEED4 | DBG_IP_ID_MAP_FAILED4
| DBG_IP_ID_MAP_SUCCEED6 | DBG_IP_ID_MAP_FAILED6.

(** Monitoring is fire-and-forget: every notification the sources send is
    recorded, in order, in the state. *)
Inductive event :=
| EvDbg (type : dbg_type) (arg1 arg2 : Z)
| EvDrop (src dst dst_id error ext_err exitcode : Z) (dir : metric_dir)
| EvTrace (obs : trace_point) (src dst dst_id ifindex reason monitor proto : Z)
| EvMetrics (len : Z) (dir : metric_dir) (reason : Z).

(** The packet context, [struct __ctx_buff] (an [__sk_buff]): the fields the
    sources read or write directly, the metadata slots [cb] and the frame. *)
Record ctx_buff := {
  mark : Z;
  vlan_present : bool;
  vlan_tci : Z;
  ifindex : Z;
  ingress_ifindex : Z;
  tc_index : Z;
  cb : gmap Z Z;
  frame : list Z;
}.

(** A pointer test, [if (p)]. *)
Definition non_null {A} (p : option A) : bool :=
  match p with Some _ => true | None => false end.


(** node_config.h *)
Definition CILIUM_NET_MAC : macaddr := [0xce; 0x72; 0xa7; 0x03; 0x88; 0x57].
Definition CILIUM_HOST_MAC : macaddr := [0xce; 0x72; 0xa7; 0x03; 0x88; 0x56].
Definition NATIVE_DEV_MAC_BY_IFINDEX (_ : Z) : macaddr :=
  [0xce; 0x72; 0xa7; 0x03; 0x88; 0x56].

Record vtep_value := { vtep_mac : Z; vtep_tunnel_endpoint : Z }.

(** The first six bytes of a [__u64] in memory (little-endian target), as
    [eth_store_daddr] reads [&vtep->vtep_mac]. *)
Definition macaddr_of_u64 (m : Z) : macaddr :=
  map (fun i => Z.land (Z.shiftr m (8 * i)) 0xff) [0; 1; 2; 3; 4; 5].

(** The first 32-bit word of an address, bytes 0..3, and the address with
    that word overwritten: a [__be32] that shares its storage with a
    16-byte address, as [ipv4_dst] does with [ipv6_dst] in
    [struct bpf_fib_lookup]. *)
Definition v6addr_p1 (a : v6addr) : Z := Z.shiftr (d1 a) 32.
Definition v6addr_set_p1 (a : v6addr) (v : Z) : v6addr :=
  {| d1 := Z.lor (Z.shiftl v 32) (Z.land (d1 a) 0xffffffff); d2 := d2 a |}.

(** [struct bpf_fib_lookup_padded], the fields fib.h reads.  [ipv4_dst]
    and [ipv6_dst] are the two members of one union: [fib_ipv6_dst] is its
    storage and [fib_ipv4_dst] reads the first word of it. *)
Record bpf_fib_lookup := {
  fib_family : Z;
  fib_ifindex : Z;
  fib_ipv6_dst : v6addr;
  fib_smac : macaddr;
  fib_dmac : macaddr;
}.

Definition fib_ipv4_dst (l : bpf_fib_lookup) : Z := v6addr_p1 (fib_ipv6_dst l).

(** [struct bpf_redir_neigh]; [ipv6_nh] is the storage that [ipv4_nh]
    shares. *)
Record bpf_redir_neigh := { nh_family : Z; ipv6_nh : v6addr }.

(** ** The machine state *)

(** [world] stands for everything the programs reach only through the
    external functions: the ipcache, the endpoint map, connection tracking,
    policy and NAT tables. *)
Record state (world : Type) := mkState {
  ctx : ctx_buff;
  cilium_tail_call_buffer4 : list ct_buffer4;
  cilium_tail_call_buffer6 : list ct_buffer6;
  cilium_calls : Z -> bool;
  tail_call_cnt : nat;
  events : list event;
  ext : world;
}.
Arguments mkState {world}.
Arguments ctx {world}.
Arguments cilium_tail_call_buffer4 {world}.
Arguments cilium_tail_call_buffer6 {world}.
Arguments cilium_calls {world}.
Arguments tail_call_cnt {world}.
Arguments events {world}.
Arguments ext {world}.

(** An external function reads and may change the packet context and the
    world; it has no access to the transfer buffers of bpf_host.c. *)
Definition eff (world A : Type) : Type := world -> ctx_buff -> A * ctx_buff * world.

(** A tail call into a program of another object either is taken (the
    program ends with the callee's verdict) or is missed with an error. *)
Inductive tail_result := TailTaken (verdict : Z) | TailMissed (err : Z).

(** ** External collaborators

    The headers under lib/ other than fib.h are not among the sources.
    Each function the sources call from them is a parameter here, of the
    type the call site gives it (out-parameters are returned next to the
    result), so that what is proved of bpf_host.c and fib.h holds for every
    implementation of the collaborators. *)
Class Externals (world : Type) := {
  (* bpf/ctx/skb.h, lib/common.h: packet access *)
  ____revalidate_data_pull4 : ctx_buff -> bool -> Z -> option iphdr;
  ____revalidate_data_pull6 : ctx_buff -> bool -> Z -> option ipv6hdr;
  validate_ethertype : ctx_buff -> bool * Z;
  eth_is_supported_ethertype : Z -> bool;
  eth_store_daddr : macaddr -> Z -> eff world Z;
  eth_store_saddr : macaddr -> Z -> eff world Z;
  eth_store_daddr_aligned : macaddr -> Z -> eff world Z;
  eth_store_saddr_aligned : macaddr -> Z -> eff world Z;
  eth_store_proto : Z -> Z -> eff world Z;
  ctx_get_protocol : ctx_buff -> Z;
  ctx_change_head : Z -> Z -> eff world Z;
  ctx_redirect : Z -> Z -> eff world Z;
  redirect_neigh : Z -> option bpf_redir_neigh -> Z -> eff world Z;
  ctx_full_len : ctx_buff -> Z;
  ctx_get_xfer : ctx_buff -> Z -> Z;
  (* lib/common.h, lib/overloadable.h: marks carried by the context *)
  tc_index_from_ingress_proxy : ctx_buff -> bool;
  tc_index_from_egress_proxy : ctx_buff -> bool;
  ctx_skip_nodeport : ctx_buff -> bool;
  ctx_skip_nodeport_clear : ctx_buff -> ctx_buff;
  ctx_skip_nodeport_set : ctx_buff -> ctx_buff;
  ctx_skip_host_fw : ctx_buff -> bool;
  ctx_snat_done : ctx_buff -> bool;
  ctx_snat_done_set : ctx_buff -> ctx_buff;
  ctx_is_overlay : ctx_buff -> bool;
  ctx_mark_is_wireguard : ctx_buff -> bool;
  ctx_egw_done : ctx_buff -> bool;
  get_identity : ctx_buff -> Z;
  get_epid : ctx_buff -> Z;
  (* lib/identity.h *)
  identity_is_reserved : Z -> bool;
  identity_is_world_ipv4 : Z -> bool;
  identity_is_world_ipv6 : Z -> bool;
  identity_is_cluster : Z -> bool;
  (* lib/eps.h: the remote-endpoint and local-endpoint tables *)
  lookup_ip4_remote_endpoint : world -> Z -> Z -> option remote_endpoint_info;
  lookup_ip6_remote_endpoint : world -> v6addr -> Z -> option remote_endpoint_info;
  lookup_ip4_endpoint : world -> iphdr -> option endpoint_info;
  lookup_ip6_endpoint : world -> ipv6hdr -> option endpoint_info;
  __lookup_ip4_endpoint : world -> Z -> option endpoint_info;
  __lookup_ip6_endpoint : world -> v6addr -> option endpoint_info;
  (* lib/ipv4.h, lib/ipv6.h *)
  ipfrag_encode_ipv4 : iphdr -> Z;
  ipfrag_is_fragment : Z -> bool;
  ipv4_hdrlen : iphdr -> Z;
  ipv6_get_fraginfo : ctx_buff -> ipv6hdr -> Z;
  ipv6_hdrlen : ctx_buff -> Z -> Z * Z;
  (* lib/icmp6.h *)
  icmp6_host_handle : Z -> Z -> bool -> eff world (Z * Z);
  (* lib/nodeport.h, lib/nodeport_egress.h *)
  nodeport_lb4 : iphdr -> Z -> Z -> bool -> Z -> eff world (Z * bool * Z);
  nodeport_lb6 : ipv6hdr -> Z -> bool -> Z -> eff world (Z * bool * Z);
  handle_nat_fwd : Z -> Z -> Z -> bool -> trace_ctx -> Z -> eff world (Z * trace_ctx * Z);
  (* lib/host_firewall.h *)
  ipv4_host_policy_egress_lookup : Z -> Z -> iphdr -> ct_buffer4 -> eff world (bool * ct_buffer4);
  ipv4_host_policy_ingress_lookup : iphdr -> ct_buffer4 -> eff world (bool * ct_buffer4);
  __ipv4_host_policy_egress : bool -> iphdr -> ct_buffer4 -> trace_ctx -> Z
      -> eff world (Z * trace_ctx * Z);
  __ipv4_host_policy_ingress : iphdr -> ct_buffer4 -> Z -> trace_ctx -> Z
      -> eff world (Z * Z * trace_ctx * Z);
  ipv4_host_policy_egress : Z -> Z -> iphdr -> trace_ctx -> Z -> eff world (Z * trace_ctx * Z);
  ipv6_host_policy_egress_lookup : Z -> Z -> ipv6hdr -> ct_buffer6 -> eff world (bool * ct_buffer6);
  ipv6_host_policy_ingress_lookup : ipv6hdr -> ct_buffer6 -> eff world (bool * ct_buffer6);
  __ipv6_host_policy_egress : bool -> ipv6hdr -> ct_buffer6 -> trace_ctx -> Z
      -> eff world (Z * trace_ctx * Z);
  __ipv6_host_policy_ingress : ipv6hdr -> ct_buffer6 -> Z -> trace_ctx -> Z
      -> eff world (Z * Z * trace_ctx * Z);
  ipv6_host_policy_egress : Z -> Z -> ipv6hdr -> trace_ctx -> Z -> eff world (Z * trace_ctx * Z);
  (* lib/local_delivery.h *)
  ipv4_local_delivery : Z -> Z -> Z -> iphdr -> endpoint_info -> metric_dir -> bool -> bool -> Z
      -> eff world Z;
  ipv6_local_delivery : Z -> Z -> Z -> endpoint_info -> metric_dir -> bool -> bool -> eff world Z;
  (* lib/encap.h, lib/vtep.h *)
  encap_and_redirect_with_nodeid : remote_endpoint_info -> Z -> Z -> trace_ctx -> Z -> eff world Z;
  __encap_and_redirect_with_nodeid : remote_endpoint_info -> Z -> Z -> Z -> trace_ctx -> Z
      -> eff world Z;
  cilium_vtep_map : world -> Z -> option vtep_value;
  (* lib/neigh.h: the static neighbour table *)
  neigh_lookup_ip4 : world -> Z -> option macaddr;
  neigh_lookup_ip6 : world -> v6addr -> option macaddr;
  (* lib/srv6.h *)
  is_srv6_packet : ipv6hdr -> bool;
  srv6_lookup_sid : world -> v6addr -> bool;
  (* lib/tailcall.h: programs of other objects *)
  tail_call_srv6_decap : eff world Z;
  tail_call_egress_policy : Z -> eff world tail_result;
  (* lib/encrypt.h, lib/wireguard.h *)
  do_decrypt : Z -> eff world Z;
  ipsec_maybe_redirect_to_encrypt : Z -> Z -> eff world Z;
  ctx_is_wireguard : ctx_buff -> Z -> Z -> Z -> bool;
  wg_maybe_redirect_to_encrypt : Z -> Z -> eff world Z;
  strict_allow : world -> ctx_buff -> Z -> bool;
  (* lib/edt.h, lib/lb.h *)
  edt_sched_departure : Z -> eff world Z;
  lb_handle_health : Z -> eff world Z;
  (* lib/egress_gateway.h, lib/conntrack.h *)
  ct_extract_ports4 : iphdr -> Z -> Z -> ipv4_ct_tuple -> eff world (Z * ipv4_ct_tuple);
  ct_is_reply4 : world -> ipv4_ct_tuple -> bool;
  __ipv4_ct_tuple_reverse : ipv4_ct_tuple -> ipv4_ct_tuple;
  egress_gw_handle_packet : ipv4_ct_tuple -> Z -> Z -> trace_ctx -> eff world (Z * trace_ctx);
  ct_extract_ports6 : ipv6hdr -> Z -> Z -> ipv6_ct_tuple -> eff world (Z * ipv6_ct_tuple);
  ct_is_reply6 : world -> ipv6_ct_tuple -> bool;
  __ipv6_ct_tuple_reverse : ipv6_ct_tuple -> ipv6_ct_tuple;
  egress_gw_handle_packet_v6 : ipv6_ct_tuple -> Z -> Z -> trace_ctx -> eff world (Z * trace_ctx);
  (* lib/l2_responder.h, lib/arp.h, lib/config_map.h *)
  config_get_agent_liveness : world -> Z;
  ktime_get_ns : world -> Z;
  arp_validate : ctx_buff -> macaddr -> option (macaddr * Z * Z);
  cilium_l2_responder_v4 : world -> Z -> Z -> bool;
  cilium_l2_responder_v6 : world -> v6addr -> Z -> bool;
  l2_responder_v4_sent : Z -> Z -> world -> world;
  l2_responder_v6_sent : v6addr -> Z -> world -> world;
  arp_respond : macaddr -> Z -> macaddr -> Z -> Z -> eff world Z;
  icmp6_ndisc_validate : ctx_buff -> ipv6hdr -> macaddr -> option v6addr;
  icmp6_send_ndisc_adv : Z -> macaddr -> bool -> eff world Z;
}.

(** ** The program monad *)

(** A statement either falls through with a value ([Next]), executes a C
    [return] of the enclosing function ([Return]), or ends the whole program
    because a tail call was taken ([Exit]): a taken tail call never comes
    back, its callee's verdict is the program's. *)
Inductive outcome (R A : Type) :=
| Next (a : A)
| Return (r : R)
| Exit (verdict : Z).
Arguments Next {R A}.
Arguments Return {R A}.
Arguments Exit {R A}.

Definition prog (world R A : Type) : Type := state world -> outcome R A * state world.

Definition pure {world R A} (a : A) : prog world R A := fun s => (Next a, s).

(** [return r;] *)
Definition ret {world R A} (r : R) : prog world R A := fun s => (Return r, s).

Definition bind {world R A B} (m : prog world R A) (k : A -> prog world R B)
  : prog world R B :=
  fun s =>
    match m s with
    | (Next a, s') => k a s'
    | (Return r, s') => (Return r, s')
    | (Exit v, s') => (Exit v, s')
    end.

(** The program ends here with verdict [v]. *)
Definition exit {world R A} (v : Z) : prog world R A := fun s => (Exit v, s).

(** A function call: the callee's [return] is the value of the call. *)
Definition call {world R R' : Type} (body : prog world R R) : prog world R' R :=
  fun s =>
    match body s with
    | (Next r, s') => (Next r, s')
    | (Return r, s') => (Next r, s')
    | (Exit v, s') => (Exit v, s')
    end.

(** The verdict a program hands to the kernel. *)
Definition run {world : Type} (p : prog world Z Z) (s : state world) : Z * state world :=
  match p s with
  | (Next v, s') => (v, s')
  | (Return v, s') => (v, s')
  | (Exit v, s') => (v, s')
  end.

Declare Scope prog_scope.
Delimit Scope prog_scope with prog.
Notation "'let*' x ':=' c1 'in' c2" := (bind c1 (fun x => c2))
  (at level 10, x pattern, c1 at level 200, c2 at level 200) : prog_scope.
Notation "c1 ;; c2" := (bind c1 (fun _ => c2))
  (at level 100, right associativity) : prog_scope.
Open Scope prog_scope.

Section StateOps.
Context {world : Type}.

Definition set_ctx (s : state world) (c : ctx_buff) : state world :=
  mkState c (cilium_tail_call_buffer4 s) (cilium_tail_call_buffer6 s)
          (cilium_calls s) (tail_call_cnt s) (events s) (ext s).

Definition set_ctx_ext (s : state world) (c : ctx_buff) (w : world) : state world :=
  mkState c (cilium_tail_call_buffer4 s) (cilium_tail_call_buffer6 s)
          (cilium_calls s) (tail_call_cnt s) (events s) w.

Definition set_ext (s : state world) (w : world) : state world :=
  mkState (ctx s) (cilium_tail_call_buffer4 s) (cilium_tail_call_buffer6 s)
          (cilium_calls s) (tail_call_cnt s) (events s) w.

Definition set_buffer4 (s : state world) (m : list ct_buffer4) : state world :=
  mkState (ctx s) m (cilium_tail_call_buffer6 s)
          (cilium_calls s) (tail_call_cnt s) (events s) (ext s).

Definition set_buffer6 (s : state world) (m : list ct_buffer6) : state world :=
  mkState (ctx s) (cilium_tail_call_buffer4 s) m
          (cilium_calls s) (tail_call_cnt s) (events s) (ext s).

Definition set_tail_call_cnt (s : state world) (n : nat) : state world :=
  mkState (ctx s) (cilium_tail_call_buffer4 s) (cilium_tail_call_buffer6 s)
          (cilium_calls s) n (events s) (ext s).

Definition add_event (s : state world) (e : event) : state world :=
  mkState (ctx s) (cilium_tail_call_buffer4 s) (cilium_tail_call_buffer6 s)
          (cilium_calls s) (tail_call_cnt s) (events s ++ [e]) (ext s).

(** [s'] is [s] with notifications appended: the packet context, the
    transfer buffers, the program array and the world are the same. *)
Definition only_events_added (s s' : state world) : Prop :=
  ctx s' = ctx s
  /\ cilium_tail_call_buffer4 s' = cilium_tail_call_buffer4 s
  /\ cilium_tail_call_buffer6 s' = cilium_tail_call_buffer6 s
  /\ cilium_calls s' = cilium_calls s
  /\ tail_call_cnt s' = tail_call_cnt s
  /\ ext s' = ext s
  /\ exists evs, events s' = events s ++ evs.

(** Reading the context or the world. *)
Definition get_ctx {R} : prog world R ctx_buff := fun s => (Next (ctx s), s).
Definition gets_ctx {R A} (f : ctx_buff -> A) : prog world R A :=
  fun s => (Next (f (ctx s)), s).
Definition gets_ext {R A} (f : world -> A) : prog world R A :=
  fun s => (Next (f (ext s)), s).
Definition gets_both {R A} (f : world -> ctx_buff -> A) : prog world R A :=
  fun s => (Next (f (ext s) (ctx s)), s).
Definition modify_ctx {R} (f : ctx_buff -> ctx_buff) : prog world R unit :=
  fun s => (Next tt, set_ctx s (f (ctx s))).
Definition modify_ext {R} (f : world -> world) : prog world R unit :=
  fun s => (Next tt, set_ext s (f (ext s))).

(** Calling an external function. *)
Definition extern {R A} (f : eff world A) : prog world R A :=
  fun s => let '(a, c, w) := f (ext s) (ctx s) in (Next a, set_ctx_ext s c w).

Definition emit {R} (e : event) : prog world R unit :=
  fun s => (Next tt, add_event s e).

(** [if (c) stmt] *)
Definition when {R} (c : bool) (p : prog world R unit) : prog world R unit :=
  if c then p else pure tt.

(** *** Metadata slots (bpf/ctx/skb.h) *)

(** Modelled from the spec, §3: the per-packet scratch slots [cb[0..4]] of
    the context; the slot numbers are those of the [CB_*] enumeration. *)
Definition CB_SRC_LABEL : Z := 0.
Definition CB_PROXY_MAGIC : Z := 0.
Definition CB_DST_ENDPOINT_ID : Z := 0.
Definition CB_IPCACHE_SRC_LABEL : Z := 1.
Definition CB_TRACED : Z := 1.
Definition CB_FROM_HOST : Z := 3.

Definition cb_get (c : ctx_buff) (off : Z) : Z := default 0 (cb c !! off).

Definition cb_set (c : ctx_buff) (off data : Z) : ctx_buff :=
  {| mark := mark c; vlan_present := vlan_present c; vlan_tci := vlan_tci c;
     ifindex := ifindex c; ingress_ifindex := ingress_ifindex c;
     tc_index := tc_index c; cb := <[off := data]> (cb c); frame := frame c |}.

Definition set_mark (c : ctx_buff) (m : Z) : ctx_buff :=
  {| mark := m; vlan_present := vlan_present c; vlan_tci := vlan_tci c;
     ifindex := ifindex c; ingress_ifindex := ingress_ifindex c;
     tc_index := tc_index c; cb := cb c; frame := frame c |}.

Definition ctx_store_meta {R} (off data : Z) : prog world R unit :=
  modify_ctx (fun c => cb_set c off data).

Definition ctx_load_meta {R} (off : Z) : prog world R Z :=
  gets_ctx (fun c => cb_get c off).

Definition ctx_load_and_clear_meta {R} (off : Z) : prog world R Z :=
  let* val := ctx_load_meta off in
  ctx_store_meta off 0 ;;
  pure val.

(** All five slots are zeroed. *)
Definition cb_clear (c : ctx_buff) : ctx_buff :=
  {| mark := mark c; vlan_present := vlan_present c; vlan_tci := vlan_tci c;
     ifindex := ifindex c; ingress_ifindex := ingress_ifindex c;
     tc_index := tc_index c; cb := ∅; frame := frame c |}.

Definition bpf_clear_meta {R} : prog world R unit := modify_ctx cb_clear.

(** *** Per-CPU array maps (kernel helpers) *)

Definition BPF_ANY : Z := 0.
Definition BPF_NOEXIST : Z := 1.
Definition BPF_EXIST : Z := 2.
Definition EINVAL : Z := 22.
Definition E2BIG : Z := 7.
Definition EEXIST : Z := 17.

(** An array map is the list of its slots, as many as the map was created
    with; a key past the end has no element. *)
Definition map_lookup_elem {V} (m : list V) (key : Z) : option V :=
  if key <? 0 then None else m !! Z.to_nat key.

(** An update fails on unknown flags, on a key past the end, and with
    [BPF_NOEXIST] (every slot of an array exists); it then leaves the map
    as it was. *)
Definition map_update_elem {V} (m : list V) (key : Z) (value : V) (flags : Z)
  : Z * list V :=
  if BPF_EXIST <? flags then (- EINVAL, m)
  else if (key <? 0) || (Z.of_nat (length m) <=? key) then (- E2BIG, m)
  else if flags =? BPF_NOEXIST then (- EEXIST, m)
  else (0, <[Z.to_nat key := value]> m).

(** *** Tail calls (lib/tailcall.h) *)

Definition MAX_TAIL_CALL_CNT : nat := 33.

Definition CILIUM_CALL_DROP_NOTIFY : Z := 1.
Definition CILIUM_CALL_IPV4_FROM_HOST : Z := 5.
Definition CILIUM_CALL_IPV4_FROM_NETDEV : Z := 6.
Definition CILIUM_CALL_IPV6_FROM_HOST : Z := 8.
Definition CILIUM_CALL_IPV6_FROM_NETDEV : Z := 9.
Definition CILIUM_CALL_IPV4_CONT_FROM_HOST : Z := 26.
Definition CILIUM_CALL_IPV4_CONT_FROM_NETDEV : Z := 27.
Definition CILIUM_CALL_IPV6_CONT_FROM_HOST : Z := 28.
Definition CILIUM_CALL_IPV6_CONT_FROM_NETDEV : Z := 29.
Definition CILIUM_CALL_SRV6_DECAP : Z := 35.

(** A tail call is taken when the slot of the program array holds a program
    and the chain has not used up its budget. *)
Definition tail_call_possible (s : state world) (index : Z) : bool :=
  cilium_calls s index && (tail_call_cnt s <? MAX_TAIL_CALL_CNT)%nat.

(** [tail_call_static]: when taken, [target] runs in place of the caller. *)
Definition tail_call_static {R} (index : Z) (target : prog world Z Z)
  : prog world R unit :=
  fun s =>
    if tail_call_possible s index then
      let '(v, s') := run target (set_tail_call_cnt s (S (tail_call_cnt s))) in
      (Exit v, s')
    else (Next tt, s).

(** Modelled from the spec: [tail_call_internal] (lib/tailcall.h) is not
    among the sources.  §4.7: "a continuation to the next fragment is
    itself a possibly-failing operation (bounded chain-call budget
    exhausted, or target fragment missing)"; a missed call yields
    [DROP_MISSED_TAIL_CALL] with the index as extended error. *)
Definition tail_call_internal {R} (index : Z) (target : prog world Z Z) (ext_err : Z)
  : prog world R (Z * Z) :=
  tail_call_static index target ;;
  pure (DROP_MISSED_TAIL_CALL, index).

(** [invoke_tailcall_if(COND, NAME, FUNC, EXT_ERR)]: a tail call when the
    condition is compiled in, a plain call of [FUNC] otherwise. *)
Definition invoke_tailcall_if {R} (cond : bool) (index : Z) (func : prog world Z Z)
    (ext_err : Z) : prog world R (Z * Z) :=
  if cond then tail_call_internal index func ext_err
  else (let* r := call func in pure (r, ext_err)).

(** *** Notifications (lib/drop.h, lib/trace.h, lib/dbg.h, lib/metrics.h) *)

(** Modelled from the spec: the [send_drop_notify] family (lib/drop.h) is
    not among the sources.  §7: an error becomes a drop notification that
    carries the reason and the extended sub-reason, and the drop verdict is
    returned; the [_with_exitcode] form returns the exit code it is given
    instead. *)
Definition send_drop_notify_error_with_exitcode_ext {R}
    (src error ext_err exitcode : Z) (dir : metric_dir) : prog world R Z :=
  emit (EvDrop src 0 0 error ext_err exitcode dir) ;;
  pure exitcode.

Definition send_drop_notify_error_ext {R} (src error ext_err : Z) (dir : metric_dir)
  : prog world R Z :=
  send_drop_notify_error_with_exitcode_ext src error ext_err CTX_ACT_DROP dir.

Definition send_drop_notify_error {R} (src error : Z) (dir : metric_dir)
  : prog world R Z :=
  send_drop_notify_error_with_exitcode_ext src error 0 CTX_ACT_DROP dir.

Definition send_drop_notify {R} (src dst dst_id error : Z) (dir : metric_dir)
  : prog world R Z :=
  emit (EvDrop src dst dst_id error 0 CTX_ACT_DROP dir) ;;
  pure CTX_ACT_DROP.

Definition send_trace_notify {R} (obs : trace_point)
    (src dst dst_id ifindex reason monitor proto : Z) : prog world R unit :=
  emit (EvTrace obs src dst dst_id ifindex reason monitor proto).

Definition cilium_dbg {R} (type : dbg_type) (arg1 arg2 : Z) : prog world R unit :=
  emit (EvDbg type arg1 arg2).

Definition update_metrics {R} (len : Z) (dir : metric_dir) (reason : Z)
  : prog world R unit :=
  emit (EvMetrics len dir reason).

(** [s'] has the program array and the tail-call budget of [s]: a tail
    call possible in one is possible in the other. *)
Definition same_program_array (s s' : state world) : Prop :=
  cilium_calls s' = cilium_calls s /\ tail_call_cnt s' = tail_call_cnt s.

(** A program that takes no tail call, whatever else it does. *)
Definition keeps_program_array {R A} (p : prog world R A) : Prop :=
  forall s, same_program_array s (snd (p s)).

(** A straight-line program: it takes no tail call and does not return
    from the enclosing function. *)
Definition falls_through {R A} (p : prog world R A) : Prop :=
  forall s, exists a s', p s = (Next a, s') /\ same_program_array s s'.

(** The state in which [handle_ipv4_cont] / [handle_ipv6_cont] starts when
    [tail_handle_ipv4] / [tail_handle_ipv6], having left [handle_ipv4] /
    [handle_ipv6] in state [s], crosses the chain boundary:
    [CB_SRC_LABEL] is stored, the tail call is taken, and
    [tail_handle_ipv4_cont] loads and clears [CB_SRC_LABEL]. *)
Definition across_chain_boundary (src_sec_identity : Z) (s : state world) : state world :=
  let s := set_ctx s (cb_set (ctx s) CB_SRC_LABEL src_sec_identity) in
  let s := set_tail_call_cnt s (S (tail_call_cnt s)) in
  set_ctx s (cb_set (ctx s) CB_SRC_LABEL 0).

End StateOps.

(** ** lib/fib.h *)

Section Model.
Context {cfg : config} {world : Type} `{!Externals world}.

(** [sizeof(struct ethhdr)] *)
Definition __ETH_HLEN : Z := 14.

Definition AF_INET : Z := 2.
Definition AF_INET6 : Z := 10.

(** Results of the kernel's FIB lookup, and the extended error of a miss in
    the neighbour map. *)
Definition BPF_FIB_LKUP_RET_SUCCESS : Z := 0.
Definition BPF_FIB_LKUP_RET_NO_NEIGH : Z := 7.
Definition BPF_FIB_MAP_NO_NEIGH : Z := 100.

Definition add_l2_hdr {R} : prog world R Z :=
  call (
    let* proto := gets_ctx ctx_get_protocol in
    let* r := extern (ctx_change_head __ETH_HLEN 0) in
    if negb (r =? 0) then ret DROP_INVALID
    else
      let* r := extern (eth_store_proto proto 0) in
      if r <? 0 then ret DROP_WRITE_ERROR
      else ret 0).

(** The result is the return value and the value left in
    [*l2_hdr_required]. *)
Definition maybe_add_l2_hdr {R} (ifindex : Z) (l2_hdr_required : bool)
  : prog world R (Z * bool) :=
  call (
    if IS_L3_DEV cfg ifindex then
      (* The packet is going to be redirected to L3 dev, so
         skip L2 addr settings. *)
      ret (0, false)
    else if ETH_HLEN cfg =? 0 then
      (* The packet is going to be redirected from L3 to L2
         device, so we need to create L2 header first. *)
      let* r := add_l2_hdr in
      ret (r, l2_hdr_required)
    else ret (0, l2_hdr_required)).

Definition fib_ok (r : Z) : bool := (r =? CTX_ACT_TX) || (r =? CTX_ACT_REDIRECT).

(** A [fib_params] that is [NULL] is never dereferenced by the callers'
    combinations of arguments; where the text dereferences it the model
    reads this all-zero structure. *)
Definition fib_params_null : bpf_fib_lookup :=
  {| fib_family := 0; fib_ifindex := 0;
     fib_ipv6_dst := v6addr_zero; fib_smac := []; fib_dmac := [] |}.

(** The first statement of [fib_do_redirect], "determine if we need to
    append layer 2 header": it returns the error of [maybe_add_l2_hdr], or
    falls through saying whether to jump to [out_send]. *)
Definition fib_l2_hdr_check (needs_l2_check : bool) (oif : Z) (ext_err : Z)
  : prog world (Z * Z) bool :=
  if needs_l2_check then
    let* (r, l2_hdr_required) := maybe_add_l2_hdr oif true in
    if negb (r =? 0) then ret (r, ext_err)
    else pure (negb l2_hdr_required)
  else pure false.

(** [fib_do_redirect]: the result is the return value and the value left
    in [*ext_err]. *)
Definition fib_do_redirect {R} (needs_l2_check : bool)
    (fib_params : option bpf_fib_lookup) (allow_neigh_map : bool)
    (fib_result : Z) (oif : Z) (ext_err : Z) : prog world R (Z * Z) :=
  call (
    let out_send : prog world (Z * Z) (Z * Z) :=
      (let* r := extern (ctx_redirect oif 0) in ret (r, ext_err)) in
    let l := default fib_params_null fib_params in
    (* determine if we need to append layer 2 header *)
    let* to_out_send := fib_l2_hdr_check needs_l2_check oif ext_err in
    if to_out_send then out_send
    else
      (* determine if we are performing redirect or redirect_neigh *)
      (if fib_result =? BPF_FIB_LKUP_RET_SUCCESS then
         let* r := extern (eth_store_daddr (fib_dmac l) 0) in
         if r <? 0 then ret (DROP_WRITE_ERROR, ext_err)
         else
           let* r := extern (eth_store_saddr (fib_smac l) 0) in
           if r <? 0 then ret (DROP_WRITE_ERROR, ext_err)
           else pure tt
       else if fib_result =? BPF_FIB_LKUP_RET_NO_NEIGH then
         (* If we are able to resolve neighbors on demand, always
            prefer that over the BPF neighbor map since the latter
            might be less accurate in some asymmetric corner cases. *)
         if neigh_resolver_available cfg then
           match fib_params with
           | Some l =>
               let nh_params :=
                 {| nh_family := fib_family l; ipv6_nh := fib_ipv6_dst l |} in
               let* r := extern (redirect_neigh oif (Some nh_params) 0) in
               ret (r, ext_err)
           | None =>
               let* r := extern (redirect_neigh oif None 0) in
               ret (r, ext_err)
           end
         else
           let smac := NATIVE_DEV_MAC_BY_IFINDEX oif in
           let* dmac :=
             (if allow_neigh_map then
                (* The neigh_record_ip{4,6} locations are mainly from
                   inbound client traffic on the load-balancer where we
                   know that replies need to go back to them. *)
                gets_ext (fun w =>
                  if fib_family l =? AF_INET then neigh_lookup_ip4 w (fib_ipv4_dst l)
                  else neigh_lookup_ip6 w (fib_ipv6_dst l))
              else pure None) in
           match dmac with
           | None => ret (DROP_NO_FIB, BPF_FIB_MAP_NO_NEIGH)
           | Some dmac =>
               let* r := extern (eth_store_daddr_aligned dmac 0) in
               if r <? 0 then ret (DROP_WRITE_ERROR, ext_err)
               else
                 let* r := extern (eth_store_saddr_aligned smac 0) in
                 if r <? 0 then ret (DROP_WRITE_ERROR, ext_err)
                 else pure tt
           end
       else pure tt) ;;
      out_send).

(** ** bpf_host.c *)

(** [revalidate_data] and [revalidate_data_pull] are
    [____revalidate_data_pull] at the L3 offset of the device. *)
Definition revalidate_data4 (c : ctx_buff) : option iphdr :=
  ____revalidate_data_pull4 c false (ETH_HLEN cfg).
Definition revalidate_data6 (c : ctx_buff) : option ipv6hdr :=
  ____revalidate_data_pull6 c false (ETH_HLEN cfg).
Definition revalidate_data_pull4 (c : ctx_buff) : option iphdr :=
  ____revalidate_data_pull4 c true (ETH_HLEN cfg).
Definition revalidate_data_pull6 (c : ctx_buff) : option ipv6hdr :=
  ____revalidate_data_pull6 c true (ETH_HLEN cfg).

(** The last 32-bit word of the address, [p4], which the code reads as
    word 3 of the address taken as four [__u32]: bytes 12..15, the second
    word of [d2]. *)
Definition v6addr_p4 (a : v6addr) : Z := Z.land (d2 a) 0xffffffff.

Definition rewrite_dmac_to_host {R} : prog world R Z :=
  call (
    let cilium_net_mac := CILIUM_NET_MAC in
    (* Rewrite to destination MAC of cilium_net (remote peer) *)
    let* r := extern (eth_store_daddr cilium_net_mac 0) in
    if r <? 0 then ret DROP_WRITE_ERROR
    else ret CTX_ACT_OK).

(** [resolve_srcid_ipv6]: the result is the returned identity together with
    the value left in [*sec_identity] (here [ipcache_id], initially the
    caller's). *)
Definition resolve_srcid_ipv6 {R} (ip6 : ipv6hdr) (srcid_from_ipcache : Z)
    (ipcache_id : Z) (from_host : bool) : prog world R (Z * Z) :=
  call (
    let src_id := WORLD_IPV6_ID cfg in
    (* Packets from the proxy will already have a real identity. *)
    let* (srcid_from_ipcache, ipcache_id) :=
      (if identity_is_reserved srcid_from_ipcache then
         let src := ip6_saddr ip6 in
         let* info := gets_ext (fun w => lookup_ip6_remote_endpoint w src 0) in
         let '(srcid_from_ipcache, ipcache_id) :=
           match info with
           | Some info =>
               let ipcache_id := sec_identity info in
               (* ignore the ipcache if it reports the source as HOST_ID *)
               (if negb (ipcache_id =? HOST_ID) then ipcache_id
                else srcid_from_ipcache, ipcache_id)
           | None => (srcid_from_ipcache, ipcache_id)
           end in
         cilium_dbg (if non_null info then DBG_IP_ID_MAP_SUCCEED6 else DBG_IP_ID_MAP_FAILED6)
                    (v6addr_p4 src) srcid_from_ipcache ;;
         pure (srcid_from_ipcache, ipcache_id)
       else pure (srcid_from_ipcache, ipcache_id)) in
    let src_id :=
      if from_host then srcid_from_ipcache
      else if secctx_from_ipcache cfg then srcid_from_ipcache
      else src_id in
    ret (src_id, ipcache_id)).

Definition resolve_srcid_ipv4 {R} (ip4 : iphdr) (srcid_from_proxy : Z)
    (ipcache_id : Z) (from_host : bool) : prog world R (Z * Z) :=
  call (
    let src_id := WORLD_IPV4_ID cfg in
    let srcid_from_ipcache := srcid_from_proxy in
    (* Packets from the proxy will already have a real identity. *)
    let* (srcid_from_ipcache, ipcache_id) :=
      (if identity_is_reserved srcid_from_ipcache then
         let* info := gets_ext (fun w => lookup_ip4_remote_endpoint w (ip4_saddr ip4) 0) in
         let '(srcid_from_ipcache, ipcache_id) :=
           match info with
           | Some info =>
               let ipcache_id := sec_identity info in
               (* ignore the ipcache if it reports the source as HOST_ID *)
               (if negb (ipcache_id =? HOST_ID) then ipcache_id
                else srcid_from_ipcache, ipcache_id)
           | None => (srcid_from_ipcache, ipcache_id)
           end in
         cilium_dbg (if non_null info then DBG_IP_ID_MAP_SUCCEED4 else DBG_IP_ID_MAP_FAILED4)
                    (ip4_saddr ip4) srcid_from_ipcache ;;
         pure (srcid_from_ipcache, ipcache_id)
       else pure (srcid_from_ipcache, ipcache_id)) in
    let src_id :=
      if from_host then srcid_from_ipcache
      (* If we could not derive the secctx from the packet itself but
         from the ipcache instead, then use the ipcache identity. *)
      else if secctx_from_ipcache cfg then srcid_from_ipcache
      else src_id in
    ret (src_id, ipcache_id)).


(** Constants of the headers that are not among the sources (linux/if_ether.h,
    lib/common.h, lib/icmp6.h, lib/nat_46x64.h, lib/eps.h). *)
Definition ETH_P_IP : Z := 0x0800.
Definition ETH_P_IPV6 : Z := 0x86DD.
Definition ETH_P_ARP : Z := 0x0806.
Definition IPPROTO_ICMPV6 : Z := 58.
Definition NEXTHDR_ICMP : Z := 58.
Definition SKIP_HOST_FIREWALL : Z := -2.
Definition NAT_46X64_RECIRC : Z := 100.
Definition ENDPOINT_MASK_HOST_DELIVERY : Z := 1.
Definition XFER_FLAGS : Z := 0.
Definition XFER_PKT_NO_SVC : Z := 1.
Definition XFER_PKT_SNAT_DONE : Z := 4.
Definition TRACE_EP_ID_UNKNOWN : Z := 0.
Definition TRACE_IFINDEX_UNKNOWN : Z := 0.

Definition MARK_MAGIC_HOST_MASK : Z := 0x0F00.
Definition MARK_MAGIC_SNAT_DONE : Z := 0x0300.
Definition MARK_MAGIC_OVERLAY : Z := 0x0400.
Definition MARK_MAGIC_EGW_DONE : Z := 0x0500.
Definition MARK_MAGIC_PROXY_TO_WORLD : Z := 0x0800.
Definition MARK_MAGIC_PROXY_EGRESS_EPID : Z := 0x0900.
Definition MARK_MAGIC_PROXY_INGRESS : Z := 0x0A00.
Definition MARK_MAGIC_PROXY_EGRESS : Z := 0x0B00.
Definition MARK_MAGIC_HOST : Z := 0x0C00.
Definition MARK_MAGIC_DECRYPT : Z := 0x0D00.
Definition MARK_MAGIC_ENCRYPT : Z := 0x0E00.
Definition MARK_MAGIC_IDENTITY : Z := 0x0F00.

(** [bpf_htons] on a little-endian target: the two bytes are swapped. *)
Definition bpf_htons (x : Z) : Z :=
  Z.lor (Z.shiftl (Z.land x 0xff) 8) (Z.land (Z.shiftr x 8) 0xff).

(** [cilium_tail_call_buffer4], [cilium_tail_call_buffer6]: per-CPU arrays
    with [max_entries] 1. *)
Definition tail_call_buffer4_update {R} (key : Z) (value : ct_buffer4) (flags : Z)
  : prog world R Z :=
  fun s =>
    let '(r, m) := map_update_elem (cilium_tail_call_buffer4 s) key value flags in
    (Next r, set_buffer4 s m).

Definition tail_call_buffer4_lookup {R} (key : Z) : prog world R (option ct_buffer4) :=
  fun s => (Next (map_lookup_elem (cilium_tail_call_buffer4 s) key), s).

Definition tail_call_buffer6_update {R} (key : Z) (value : ct_buffer6) (flags : Z)
  : prog world R Z :=
  fun s =>
    let '(r, m) := map_update_elem (cilium_tail_call_buffer6 s) key value flags in
    (Next r, set_buffer6 s m).

Definition tail_call_buffer6_lookup {R} (key : Z) : prog world R (option ct_buffer6) :=
  fun s => (Next (map_lookup_elem (cilium_tail_call_buffer6 s) key), s).

(** The first statements of [handle_ipv4_cont] and [handle_ipv6_cont]:
    whether the packet comes from the proxy, and the mark it is delivered
    with. *)
Definition proxy_provenance (from_host : bool) (c : ctx_buff) : bool * Z :=
  let magic := MARK_MAGIC_IDENTITY in
  let from_proxy := false in
  let '(from_proxy, magic) :=
    if from_host && tc_index_from_ingress_proxy c
    then (true, MARK_MAGIC_PROXY_INGRESS) else (from_proxy, magic) in
  let '(from_proxy, magic) :=
    if from_host && tc_index_from_egress_proxy c
    then (true, MARK_MAGIC_PROXY_EGRESS) else (from_proxy, magic) in
  (from_proxy, magic).

(** The value stored in [CB_FROM_HOST] before the chain boundary. *)
Definition from_host_flags (need_hostfw is_host_id : bool) : Z :=
  Z.lor (if need_hostfw then FROM_HOST_FLAG_NEED_HOSTFW else 0)
        (if is_host_id then FROM_HOST_FLAG_HOST_ID else 0).

(** [handle_ipv6] up to the store into the transfer buffer: the fragment
    gate, the ICMPv6 handling, the NodePort load balancer and the host-firewall
    pre-check.  It falls through with [need_hostfw], [is_host_id], the
    connection-tracking result [ct_buffer] and the values of
    [*punt_to_stack] and [*ext_err], or returns from [handle_ipv6].
    Without [ENABLE_HOST_FIREWALL] the pre-check is not compiled and
    [need_hostfw] stays [false]. *)
Definition handle_ipv6_precheck (secctx ipcache_srcid : Z) (from_host : bool)
    (punt_to_stack : bool) (ext_err : Z)
  : prog world (Z * bool * Z) (bool * bool * ct_buffer6 * bool * Z) :=
  let ct_buffer := ct_buffer6_zero in
  let* c := get_ctx in
  match revalidate_data6 c with
  | None => ret (DROP_INVALID, punt_to_stack, ext_err)
  | Some ip6 =>
      (if negb (ENABLE_IPV6_FRAGMENTS cfg) then
         let* fraginfo := gets_ctx (fun c => ipv6_get_fraginfo c ip6) in
         if fraginfo <? 0 then ret (fraginfo, punt_to_stack, ext_err)
         else if ipfrag_is_fragment fraginfo then
           ret (DROP_FRAG_NOSUPPORT, punt_to_stack, ext_err)
         else pure tt
       else pure tt) ;;
      let* (skip_host_firewall, ext_err) :=
        (if ENABLE_HOST_FIREWALL cfg || negb from_host then
           let nexthdr := ip6_nexthdr ip6 in
           let* (hdrlen, nexthdr) := gets_ctx (fun c => ipv6_hdrlen c nexthdr) in
           if hdrlen <? 0 then ret (hdrlen, punt_to_stack, ext_err)
           else if nexthdr =? IPPROTO_ICMPV6 then
             let* (r, ext_err) :=
               extern (icmp6_host_handle (ETH_HLEN cfg + hdrlen) ext_err (negb from_host)) in
             if r =? SKIP_HOST_FIREWALL then pure (true, ext_err)
             else if IS_ERR r then ret (r, punt_to_stack, ext_err)
             else pure (false, ext_err)
           else pure (false, ext_err)
         else pure (false, ext_err)) in
      let* (punt_to_stack, ext_err) :=
        (if ENABLE_NODEPORT cfg && negb from_host then
           let* skip := gets_ctx ctx_skip_nodeport in
           if negb skip then
             let* (r, punt_to_stack, ext_err) :=
               extern (nodeport_lb6 ip6 secctx punt_to_stack ext_err) in
             (* nodeport_lb6() returns with TC_ACT_REDIRECT for
                traffic to L7 LB. *)
             if (r <? 0) || (r =? TC_ACT_REDIRECT) then ret (r, punt_to_stack, ext_err)
             else if punt_to_stack then ret (r, punt_to_stack, ext_err)
             else pure (punt_to_stack, ext_err)
           else pure (punt_to_stack, ext_err)
         else pure (punt_to_stack, ext_err)) in
      if ENABLE_HOST_FIREWALL cfg then
        if skip_host_firewall then
          (* goto skip_host_firewall *)
          pure (false, false, ct_buffer, punt_to_stack, ext_err)
        else if from_host then
          (* egress path of cilium_host *)
          let* (found, ct_buffer) :=
            extern (ipv6_host_policy_egress_lookup secctx ipcache_srcid ip6 ct_buffer) in
          if found then
            if cb6_ret ct_buffer <? 0 then
              ret (cb6_ret ct_buffer, punt_to_stack, ext_err)
            else pure (true, secctx =? HOST_ID, ct_buffer, punt_to_stack, ext_err)
          else pure (false, false, ct_buffer, punt_to_stack, ext_err)
        else
          let* skip := gets_ctx ctx_skip_host_fw in
          if negb skip then
            (* Verifier workaround: R5 invalid mem access 'scalar'. *)
            let* c := get_ctx in
            match revalidate_data6 c with
            | None => ret (DROP_INVALID, punt_to_stack, ext_err)
            | Some ip6 =>
              (* ingress path of the native device *)
              let* (found, ct_buffer) :=
                extern (ipv6_host_policy_ingress_lookup ip6 ct_buffer) in
              if found then
                if cb6_ret ct_buffer <? 0 then
                  ret (cb6_ret ct_buffer, punt_to_stack, ext_err)
                else pure (true, false, ct_buffer, punt_to_stack, ext_err)
              else pure (false, false, ct_buffer, punt_to_stack, ext_err)
            end
          else pure (false, false, ct_buffer, punt_to_stack, ext_err)
      else pure (false, false, ct_buffer, punt_to_stack, ext_err)
  end.

(** [handle_ipv6]: the result is the return value with the values left in
    [*punt_to_stack] and [*ext_err]. *)
Definition handle_ipv6 {R} (secctx ipcache_srcid : Z) (from_host : bool)
    (punt_to_stack : bool) (ext_err : Z) : prog world R (Z * bool * Z) :=
  call (
    let* (need_hostfw, is_host_id, ct_buffer, punt_to_stack, ext_err) :=
      handle_ipv6_precheck secctx ipcache_srcid from_host punt_to_stack ext_err in
    when (ENABLE_HOST_FIREWALL cfg)
         ((if need_hostfw then
             let zero := 0 in
             let* r := tail_call_buffer6_update zero ct_buffer 0 in
             if r <? 0 then ret (DROP_INVALID_TC_BUFFER, punt_to_stack, ext_err)
             else pure tt
           else pure tt) ;;
          ctx_store_meta CB_FROM_HOST (from_host_flags need_hostfw is_host_id)) ;;
    ret (CTX_ACT_OK, punt_to_stack, ext_err)).

(** The policy decision of the apply phase, from the transfer buffer
    [ct_buffer] read back after the chain boundary: it falls through with
    the header, [trace] and [*ext_err], or returns from
    [handle_ipv6_cont]. *)
Definition ipv6_host_firewall_enforce (from_host is_host_id : bool) (ip6 : ipv6hdr)
    (ct_buffer : ct_buffer6) (trace : trace_ctx) (ext_err : Z)
  : prog world (Z * Z) (ipv6hdr * trace_ctx * Z) :=
  let remote_id := WORLD_IPV6_ID cfg in
  if (d1 (t6_saddr (cb6_tuple ct_buffer)) =? 0)
     && (d2 (t6_saddr (cb6_tuple ct_buffer)) =? 0) then
    (* The map value is zeroed so the map update didn't happen somehow. *)
    ret (DROP_INVALID_TC_BUFFER, ext_err)
  else
    let* (r, trace, ext_err) :=
      (if from_host then
         extern (__ipv6_host_policy_egress is_host_id ip6 ct_buffer trace ext_err)
       else
         let* (r, remote_id, trace, ext_err) :=
           extern (__ipv6_host_policy_ingress ip6 ct_buffer remote_id trace ext_err) in
         pure (r, trace, ext_err)) in
    if IS_ERR r || (r =? CTX_ACT_REDIRECT) then ret (r, ext_err)
    else if from_host then
      let* c := get_ctx in
      match revalidate_data6 c with
      | None => ret (DROP_INVALID, ext_err)
      | Some ip6 => pure (ip6, trace, ext_err)
      end
    else pure (ip6, trace, ext_err).

(** The host-firewall block of [handle_ipv6_cont], the apply phase; it is
    compiled only with [ENABLE_HOST_FIREWALL]. *)
Definition ipv6_host_firewall_apply (from_host : bool) (ip6 : ipv6hdr) (trace : trace_ctx)
    (ext_err : Z) : prog world (Z * Z) (ipv6hdr * trace_ctx * Z) :=
  if ENABLE_HOST_FIREWALL cfg then
    let* from_host_raw := ctx_load_and_clear_meta CB_FROM_HOST in
    if negb (Z.land from_host_raw FROM_HOST_FLAG_NEED_HOSTFW =? 0) then
      let zero := 0 in
      let* ct_buffer := tail_call_buffer6_lookup zero in
      match ct_buffer with
      | None => ret (DROP_INVALID_TC_BUFFER, ext_err)
      | Some ct_buffer =>
        let is_host_id := negb (Z.land from_host_raw FROM_HOST_FLAG_HOST_ID =? 0) in
        ipv6_host_firewall_enforce from_host is_host_id ip6 ct_buffer trace ext_err
      end
    else pure (ip6, trace, ext_err)
  else pure (ip6, trace, ext_err).

(** The block of [handle_ipv4_cont] and [handle_ipv6_cont] under
    [TUNNEL_MODE], up to the label [skip_tunnel]: a destination with a
    tunnel endpoint is encapsulated and the handler returns. *)
Definition handle_cont_tunnel (secctx : Z) (info : option remote_endpoint_info)
    (trace : trace_ctx) (proto : Z) (ext_err : Z) : prog world (Z * Z) unit :=
  if TUNNEL_MODE cfg then
    match info with
    | Some i =>
      if flag_skip_tunnel i then pure tt
      else if flag_has_tunnel_ep i then
        let* r := extern (encap_and_redirect_with_nodeid i secctx (sec_identity i)
                            trace proto) in
        ret (r, ext_err)
      else pure tt
    | None => pure tt
    end
  else pure tt.

(** [handle_ipv6_cont]: the result is the return value with the value left
    in [*ext_err].  [ip6] is the header as read at the last
    [revalidate_data]. *)
Definition handle_ipv6_cont {R} (secctx : Z) (from_host : bool) (ext_err : Z)
  : prog world R (Z * Z) :=
  call (
    let trace := {| reason := TRACE_REASON_UNKNOWN; monitor := TRACE_PAYLOAD_LEN |} in
    let l3_off := ETH_HLEN cfg in
    let* c := get_ctx in
    let '(from_proxy, magic) := proxy_provenance from_host c in
    match revalidate_data6 c with
    | None => ret (DROP_INVALID, ext_err)
    | Some ip6 =>
      let* (ip6, trace, ext_err) := ipv6_host_firewall_apply from_host ip6 trace ext_err in
      (* Perform SRv6 Decap if incoming skb is a known SID. *)
      (if ENABLE_SRV6 cfg && negb from_host then
         let* sid := gets_ext (fun w => srv6_lookup_sid w (ip6_daddr ip6)) in
         if is_srv6_packet ip6 && sid then
           let* (r, ext_err) :=
             tail_call_internal CILIUM_CALL_SRV6_DECAP (extern tail_call_srv6_decap) ext_err in
           ret (r, ext_err)
         else pure tt
       else pure tt) ;;
      (* Without bpf_redirect_neigh() helper, we cannot redirect a
         packet to a local endpoint in the direct routing mode, as
         the redirect bypasses nf_conntrack table. *)
      (if negb (ENABLE_HOST_ROUTING cfg) && negb from_host
       then ret (CTX_ACT_OK, ext_err) else pure tt) ;;
      (* Lookup the address in the list of local endpoints and host IPs *)
      let* ep := gets_ext (fun w => lookup_ip6_endpoint w ip6) in
      match ep with
      | Some ep =>
        (* Let through packets to the node-ip so they are
           processed by the local ip stack. *)
        if negb (Z.land (ep_flags ep) ENDPOINT_MASK_HOST_DELIVERY =? 0) then
          ret (CTX_ACT_OK, ext_err)
        else
          let* l3_off :=
            (if ENABLE_HOST_ROUTING cfg && negb from_host then
               (* add L2 header for L2-less interface, such as cilium_wg0 *)
               let* (r, l2_hdr_required) := maybe_add_l2_hdr (ep_ifindex ep) true in
               if negb (r =? 0) then ret (r, ext_err)
               else if l2_hdr_required && (ETH_HLEN cfg =? 0) then
                 (* l2 header is added *)
                 pure (l3_off + __ETH_HLEN)
               else pure l3_off
             else pure l3_off) in
          let* r := extern (ipv6_local_delivery l3_off secctx magic ep METRIC_INGRESS
                                                from_host false) in
          ret (r, ext_err)
      | None =>
        (* Below remainder is only relevant when traffic is pushed via
           cilium_host.  For traffic coming from external, we're done here. *)
        if negb from_host then ret (CTX_ACT_OK, ext_err)
        else
          let dst := ip6_daddr ip6 in
          let* info := gets_ext (fun w => lookup_ip6_remote_endpoint w dst 0) in
          handle_cont_tunnel secctx info trace (bpf_htons ETH_P_IPV6) ext_err ;;
          (* skip_tunnel: *)
          match info with
          | None => ret (DROP_UNROUTABLE, ext_err)
          | Some i =>
            if negb from_proxy && identity_is_world_ipv6 (sec_identity i) then
              (* See IPv4 comment. *)
              ret (DROP_UNROUTABLE, ext_err)
            else
              (if ENABLE_IPSEC cfg && negb (TUNNEL_MODE cfg) then
                 if from_proxy && negb (identity_is_cluster (sec_identity i)) then
                   modify_ctx (fun c => set_mark c MARK_MAGIC_PROXY_TO_WORLD)
                 else pure tt
               else pure tt) ;;
              ret (CTX_ACT_OK, ext_err)
          end
      end
    end).

Definition tail_handle_ipv6_cont {R} (from_host : bool) : prog world R Z :=
  call (
    let* src_sec_identity := ctx_load_and_clear_meta CB_SRC_LABEL in
    let ext_err := 0 in
    let* (r, ext_err) := handle_ipv6_cont src_sec_identity from_host ext_err in
    let* r :=
      (if from_host && (r =? CTX_ACT_OK) then
         (* If we are attached to cilium_host at egress, this will
            rewrite the destination MAC address to the MAC of cilium_net. *)
         rewrite_dmac_to_host
       else pure r) in
    if IS_ERR r then
      let* v := send_drop_notify_error_ext src_sec_identity r ext_err METRIC_INGRESS in
      ret v
    else ret r).

Definition tail_handle_ipv6_cont_from_host {R} : prog world R Z :=
  call (let* r := tail_handle_ipv6_cont true in ret r).

Definition tail_handle_ipv6_cont_from_netdev {R} : prog world R Z :=
  call (let* r := tail_handle_ipv6_cont false in ret r).

Definition tail_handle_ipv6 {R} (ipcache_srcid : Z) (from_host : bool) : prog world R Z :=
  call (
    let* src_sec_identity := ctx_load_and_clear_meta CB_SRC_LABEL in
    let punt_to_stack := false in
    let ext_err := 0 in
    let* (r, punt_to_stack, ext_err) :=
      handle_ipv6 src_sec_identity ipcache_srcid from_host punt_to_stack ext_err in
    (* TC_ACT_REDIRECT is not an error, but it means we should stop here. *)
    let* (r, ext_err) :=
      (if r =? CTX_ACT_OK then
         if punt_to_stack then ret r
         else
           ctx_store_meta CB_SRC_LABEL src_sec_identity ;;
           if from_host then
             invoke_tailcall_if (ENABLE_HOST_FIREWALL cfg) CILIUM_CALL_IPV6_CONT_FROM_HOST
                                tail_handle_ipv6_cont_from_host ext_err
           else
             invoke_tailcall_if (ENABLE_HOST_FIREWALL cfg) CILIUM_CALL_IPV6_CONT_FROM_NETDEV
                                tail_handle_ipv6_cont_from_netdev ext_err
       else pure (r, ext_err)) in
    (* Catch errors from both handle_ipv6 and invoke_tailcall_if here. *)
    if IS_ERR r then
      let* v := send_drop_notify_error_ext src_sec_identity r ext_err METRIC_INGRESS in
      ret v
    else ret r).

Definition tail_handle_ipv6_from_host {R} : prog world R Z :=
  call (
    let ipcache_srcid := 0 in
    let* ipcache_srcid :=
      (if ENABLE_HOST_FIREWALL cfg && negb (ENABLE_MASQUERADE_IPV6 cfg)
       then ctx_load_and_clear_meta CB_IPCACHE_SRC_LABEL
       else pure ipcache_srcid) in
    let* r := tail_handle_ipv6 ipcache_srcid true in
    ret r).

Definition tail_handle_ipv6_from_netdev {R} : prog world R Z :=
  call (let* r := tail_handle_ipv6 0 false in ret r).

(** [handle_to_netdev_ipv6] (compiled with [ENABLE_HOST_FIREWALL]): the
    result is the return value with the values left in [*trace] and
    [*ext_err]. *)
Definition handle_to_netdev_ipv6 {R} (src_sec_identity : Z) (trace : trace_ctx)
    (ext_err : Z) : prog world R (Z * trace_ctx * Z) :=
  call (
    let ipcache_srcid := 0 in
    let* c := get_ctx in
    match revalidate_data_pull6 c with
    | None => ret (DROP_INVALID, trace, ext_err)
    | Some ip6 =>
      let nexthdr := ip6_nexthdr ip6 in
      let* (hdrlen, nexthdr) := gets_ctx (fun c => ipv6_hdrlen c nexthdr) in
      if hdrlen <? 0 then ret (hdrlen, trace, ext_err)
      else
        let* ext_err :=
          (if nexthdr =? IPPROTO_ICMPV6 then
             let* (r, ext_err) :=
               extern (icmp6_host_handle (ETH_HLEN cfg + hdrlen) ext_err false) in
             if r =? SKIP_HOST_FIREWALL then ret (CTX_ACT_OK, trace, ext_err)
             else if IS_ERR r then ret (r, trace, ext_err)
             else pure ext_err
           else pure ext_err) in
        (* The code below only cares about host-originating yes/no,
           and currently breaks when being passed a fine-grained pod
           src_sec_identity. *)
        let src_sec_identity :=
          if negb (src_sec_identity =? HOST_ID) then 0 else src_sec_identity in
        let* (srcid, ipcache_srcid) :=
          resolve_srcid_ipv6 ip6 src_sec_identity ipcache_srcid true in
        (* to-netdev is attached to the egress path of the native device. *)
        let* r := extern (ipv6_host_policy_egress srcid ipcache_srcid ip6 trace ext_err) in
        ret r
    end).


(** [handle_ipv4] up to the store into the transfer buffer: the fragment
    gate, the NodePort load balancer and the host-firewall
    pre-check.  It falls through with [need_hostfw], [is_host_id], the
    connection-tracking result [ct_buffer] and the values of
    [*punt_to_stack] and [*ext_err], or returns from [handle_ipv4].
    Without [ENABLE_HOST_FIREWALL] the pre-check is not compiled and
    [need_hostfw] stays [false]. *)
Definition handle_ipv4_precheck (secctx ipcache_srcid : Z) (from_host : bool)
    (punt_to_stack : bool) (ext_err : Z)
  : prog world (Z * bool * Z) (bool * bool * ct_buffer4 * bool * Z) :=
  let ct_buffer := ct_buffer4_zero in
  let* c := get_ctx in
  match revalidate_data4 c with
  | None => ret (DROP_INVALID, punt_to_stack, ext_err)
  | Some ip4 =>
      (* If IPv4 fragmentation is disabled
         AND a IPv4 fragmented packet is received,
         then drop the packet. *)
      (if negb (ENABLE_IPV4_FRAGMENTS cfg) then
         let fraginfo := ipfrag_encode_ipv4 ip4 in
         if ipfrag_is_fragment fraginfo then
           ret (DROP_FRAG_NOSUPPORT, punt_to_stack, ext_err)
         else pure tt
       else pure tt) ;;
      let* (punt_to_stack, ext_err) :=
        (if ENABLE_NODEPORT cfg && negb from_host then
           let* skip := gets_ctx ctx_skip_nodeport in
           if negb skip then
             let* (r, punt_to_stack, ext_err) :=
               extern (nodeport_lb4 ip4 (ETH_HLEN cfg) secctx punt_to_stack ext_err) in
             (if ENABLE_IPV6 cfg && (r =? NAT_46X64_RECIRC) then
                ctx_store_meta CB_SRC_LABEL secctx ;;
                let* (r, ext_err) :=
                  tail_call_internal CILIUM_CALL_IPV6_FROM_NETDEV
                                     tail_handle_ipv6_from_netdev ext_err in
                ret (r, punt_to_stack, ext_err)
              else pure tt) ;;
             (* nodeport_lb4() returns with TC_ACT_REDIRECT for
                traffic to L7 LB. *)
             if (r <? 0) || (r =? TC_ACT_REDIRECT) then ret (r, punt_to_stack, ext_err)
             else if punt_to_stack then ret (r, punt_to_stack, ext_err)
             else pure (punt_to_stack, ext_err)
           else pure (punt_to_stack, ext_err)
         else pure (punt_to_stack, ext_err)) in
      if ENABLE_HOST_FIREWALL cfg then
        if from_host then
          (* We're on the egress path of cilium_host. *)
          let* (found, ct_buffer) :=
            extern (ipv4_host_policy_egress_lookup secctx ipcache_srcid ip4 ct_buffer) in
          if found then
            if cb4_ret ct_buffer <? 0 then
              ret (cb4_ret ct_buffer, punt_to_stack, ext_err)
            else pure (true, secctx =? HOST_ID, ct_buffer, punt_to_stack, ext_err)
          else pure (false, false, ct_buffer, punt_to_stack, ext_err)
        else
          let* skip := gets_ctx ctx_skip_host_fw in
          if negb skip then
            (* Verifier workaround: R5 invalid mem access 'scalar'. *)
            let* c := get_ctx in
            match revalidate_data4 c with
            | None => ret (DROP_INVALID, punt_to_stack, ext_err)
            | Some ip4 =>
              (* We're on the ingress path of the native device. *)
              let* (found, ct_buffer) :=
                extern (ipv4_host_policy_ingress_lookup ip4 ct_buffer) in
              if found then
                if cb4_ret ct_buffer <? 0 then
                  ret (cb4_ret ct_buffer, punt_to_stack, ext_err)
                else pure (true, false, ct_buffer, punt_to_stack, ext_err)
              else pure (false, false, ct_buffer, punt_to_stack, ext_err)
            end
          else pure (false, false, ct_buffer, punt_to_stack, ext_err)
      else pure (false, false, ct_buffer, punt_to_stack, ext_err)
  end.

(** [handle_ipv4]: the result is the return value with the values left in
    [*punt_to_stack] and [*ext_err]. *)
Definition handle_ipv4 {R} (secctx ipcache_srcid : Z) (from_host : bool)
    (punt_to_stack : bool) (ext_err : Z) : prog world R (Z * bool * Z) :=
  call (
    let* (need_hostfw, is_host_id, ct_buffer, punt_to_stack, ext_err) :=
      handle_ipv4_precheck secctx ipcache_srcid from_host punt_to_stack ext_err in
    when (ENABLE_HOST_FIREWALL cfg)
         ((if need_hostfw then
             let zero := 0 in
             let* r := tail_call_buffer4_update zero ct_buffer 0 in
             if r <? 0 then ret (DROP_INVALID_TC_BUFFER, punt_to_stack, ext_err)
             else pure tt
           else pure tt) ;;
          ctx_store_meta CB_FROM_HOST (from_host_flags need_hostfw is_host_id)) ;;
    ret (CTX_ACT_OK, punt_to_stack, ext_err)).

(** The policy decision of the apply phase, from the transfer buffer
    [ct_buffer] read back after the chain boundary: it falls through with
    the header, [trace] and [*ext_err], or returns from
    [handle_ipv4_cont]. *)
Definition ipv4_host_firewall_enforce (from_host is_host_id : bool) (ip4 : iphdr)
    (ct_buffer : ct_buffer4) (trace : trace_ctx) (ext_err : Z)
  : prog world (Z * Z) (iphdr * trace_ctx * Z) :=
  let remote_id := 0 in
  if t4_saddr (cb4_tuple ct_buffer) =? 0 then
    (* The map value is zeroed so the map update didn't happen somehow. *)
    ret (DROP_INVALID_TC_BUFFER, ext_err)
  else
    let* (r, trace, ext_err) :=
      (if from_host then
         extern (__ipv4_host_policy_egress is_host_id ip4 ct_buffer trace ext_err)
       else
         let* (r, remote_id, trace, ext_err) :=
           extern (__ipv4_host_policy_ingress ip4 ct_buffer remote_id trace ext_err) in
         pure (r, trace, ext_err)) in
    if IS_ERR r || (r =? CTX_ACT_REDIRECT) then ret (r, ext_err)
    else if from_host then
      let* c := get_ctx in
      match revalidate_data4 c with
      | None => ret (DROP_INVALID, ext_err)
      | Some ip4 => pure (ip4, trace, ext_err)
      end
    else pure (ip4, trace, ext_err).

(** The host-firewall block of [handle_ipv4_cont], the apply phase; it is
    compiled only with [ENABLE_HOST_FIREWALL]. *)
Definition ipv4_host_firewall_apply (from_host : bool) (ip4 : iphdr) (trace : trace_ctx)
    (ext_err : Z) : prog world (Z * Z) (iphdr * trace_ctx * Z) :=
  if ENABLE_HOST_FIREWALL cfg then
    let* from_host_raw := ctx_load_and_clear_meta CB_FROM_HOST in
    if negb (Z.land from_host_raw FROM_HOST_FLAG_NEED_HOSTFW =? 0) then
      let zero := 0 in
      let* ct_buffer := tail_call_buffer4_lookup zero in
      match ct_buffer with
      | None => ret (DROP_INVALID_TC_BUFFER, ext_err)
      | Some ct_buffer =>
        let is_host_id := negb (Z.land from_host_raw FROM_HOST_FLAG_HOST_ID =? 0) in
        ipv4_host_firewall_enforce from_host is_host_id ip4 ct_buffer trace ext_err
      end
    else pure (ip4, trace, ext_err)
  else pure (ip4, trace, ext_err).

(** The block of [handle_ipv4_cont] under [ENABLE_VTEP], up to the label
    [skip_vtep]: VTEP integration in bpf_host to support pod L7 proxy. *)
Definition handle_ipv4_cont_vtep (secctx : Z) (ip4 : iphdr) (trace : trace_ctx)
    (ext_err : Z) : prog world (Z * Z) unit :=
  if ENABLE_VTEP cfg then
    let vkey := Z.land (ip4_daddr ip4) (VTEP_MASK cfg) in
    let* vtep := gets_ext (fun w => cilium_vtep_map w vkey) in
    match vtep with
    | None => pure tt
    | Some vtep =>
      if negb (vtep_mac vtep =? 0) && negb (vtep_tunnel_endpoint vtep =? 0) then
        let* r := extern (eth_store_daddr (macaddr_of_u64 (vtep_mac vtep)) 0) in
        if r <? 0 then ret (DROP_WRITE_ERROR, ext_err)
        else
          let fake_info :=
            {| sec_identity := 0; tunnel_endpoint := vtep_tunnel_endpoint vtep;
               flag_skip_tunnel := false; flag_has_tunnel_ep := true |} in
          let* r := extern (__encap_and_redirect_with_nodeid fake_info secctx
                              (WORLD_IPV4_ID cfg) (WORLD_IPV4_ID cfg) trace
                              (bpf_htons ETH_P_IP)) in
          ret (r, ext_err)
      else pure tt
    end
  else pure tt.

(** [handle_ipv4_cont]: the result is the return value with the value left
    in [*ext_err].  [ip4] is the header as read at the last
    [revalidate_data]. *)
Definition handle_ipv4_cont {R} (secctx : Z) (from_host : bool) (ext_err : Z)
  : prog world R (Z * Z) :=
  call (
    let trace := {| reason := TRACE_REASON_UNKNOWN; monitor := TRACE_PAYLOAD_LEN |} in
    let* c := get_ctx in
    let '(from_proxy, magic) := proxy_provenance from_host c in
    match revalidate_data4 c with
    | None => ret (DROP_INVALID, ext_err)
    | Some ip4 =>
      let* (ip4, trace, ext_err) := ipv4_host_firewall_apply from_host ip4 trace ext_err in
      (* Without bpf_redirect_neigh() helper, we cannot redirect a
         packet to a local endpoint in the direct routing mode, as
         the redirect bypasses nf_conntrack table. *)
      (if negb (ENABLE_HOST_ROUTING cfg) && negb from_host
       then ret (CTX_ACT_OK, ext_err) else pure tt) ;;
      (* Lookup the address in the list of local endpoints and host IPs *)
      let* ep := gets_ext (fun w => lookup_ip4_endpoint w ip4) in
      match ep with
      | Some ep =>
        let l3_off := ETH_HLEN cfg in
        (* Let through packets to the node-ip so they are processed by
           the local ip stack. *)
        if negb (Z.land (ep_flags ep) ENDPOINT_MASK_HOST_DELIVERY =? 0) then
          ret (CTX_ACT_OK, ext_err)
        else
          let* (l3_off, ip4) :=
            (if ENABLE_HOST_ROUTING cfg && negb from_host then
               (* add L2 header for L2-less interface, such as cilium_wg0 *)
               let* (r, l2_hdr_required) := maybe_add_l2_hdr (ep_ifindex ep) true in
               if negb (r =? 0) then ret (r, ext_err)
               else if l2_hdr_required && (ETH_HLEN cfg =? 0) then
                 (* l2 header is added *)
                 let l3_off := l3_off + __ETH_HLEN in
                 let* c := get_ctx in
                 match ____revalidate_data_pull4 c false l3_off with
                 | None => ret (DROP_INVALID, ext_err)
                 | Some ip4 => pure (l3_off, ip4)
                 end
               else pure (l3_off, ip4)
             else pure (l3_off, ip4)) in
          let* r := extern (ipv4_local_delivery l3_off secctx magic ip4 ep METRIC_INGRESS
                                                from_host false 0) in
          ret (r, ext_err)
      | None =>
        (* Below remainder is only relevant when traffic is pushed via
           cilium_host.  For traffic coming from external, we're done here. *)
        if negb from_host then ret (CTX_ACT_OK, ext_err)
        else
          handle_ipv4_cont_vtep secctx ip4 trace ext_err ;;
          (* skip_vtep: *)
          let* info := gets_ext (fun w => lookup_ip4_remote_endpoint w (ip4_daddr ip4) 0) in
          handle_cont_tunnel secctx info trace (bpf_htons ETH_P_IP) ext_err ;;
          (* skip_tunnel: *)
          match info with
          | None => ret (DROP_UNROUTABLE, ext_err)
          | Some i =>
            if negb from_proxy && identity_is_world_ipv4 (sec_identity i) then
              (* We have received a packet for which no ipcache entry exists,
                 we do not know what to do with this packet, drop it.
                 Note that we do not drop packets from proxy even if
                 they are going to WORLD_ID. *)
              ret (DROP_UNROUTABLE, ext_err)
            else
              (if ENABLE_IPSEC cfg && negb (TUNNEL_MODE cfg) then
                 if from_proxy && negb (identity_is_cluster (sec_identity i)) then
                   modify_ctx (fun c => set_mark c MARK_MAGIC_PROXY_TO_WORLD)
                 else pure tt
               else pure tt) ;;
              ret (CTX_ACT_OK, ext_err)
          end
      end
    end).

Definition tail_handle_ipv4_cont {R} (from_host : bool) : prog world R Z :=
  call (
    let* src_sec_identity := ctx_load_and_clear_meta CB_SRC_LABEL in
    let ext_err := 0 in
    let* (r, ext_err) := handle_ipv4_cont src_sec_identity from_host ext_err in
    let* r :=
      (if from_host && (r =? CTX_ACT_OK) then
         (* If we are attached to cilium_host at egress, this will
            rewrite the destination MAC address to the MAC of cilium_net. *)
         rewrite_dmac_to_host
       else pure r) in
    if IS_ERR r then
      let* v := send_drop_notify_error_ext src_sec_identity r ext_err METRIC_INGRESS in
      ret v
    else ret r).

Definition tail_handle_ipv4_cont_from_host {R} : prog world R Z :=
  call (let* r := tail_handle_ipv4_cont true in ret r).

Definition tail_handle_ipv4_cont_from_netdev {R} : prog world R Z :=
  call (let* r := tail_handle_ipv4_cont false in ret r).

Definition tail_handle_ipv4 {R} (ipcache_srcid : Z) (from_host : bool) : prog world R Z :=
  call (
    let* src_sec_identity := ctx_load_and_clear_meta CB_SRC_LABEL in
    let punt_to_stack := false in
    let ext_err := 0 in
    let* (r, punt_to_stack, ext_err) :=
      handle_ipv4 src_sec_identity ipcache_srcid from_host punt_to_stack ext_err in
    (* TC_ACT_REDIRECT is not an error, but it means we should stop here. *)
    let* (r, ext_err) :=
      (if r =? CTX_ACT_OK then
         if punt_to_stack then ret r
         else
           ctx_store_meta CB_SRC_LABEL src_sec_identity ;;
           if from_host then
             invoke_tailcall_if (ENABLE_HOST_FIREWALL cfg) CILIUM_CALL_IPV4_CONT_FROM_HOST
                                tail_handle_ipv4_cont_from_host ext_err
           else
             invoke_tailcall_if (ENABLE_HOST_FIREWALL cfg) CILIUM_CALL_IPV4_CONT_FROM_NETDEV
                                tail_handle_ipv4_cont_from_netdev ext_err
       else pure (r, ext_err)) in
    (* Catch errors from both handle_ipv4 and invoke_tailcall_if here. *)
    if IS_ERR r then
      let* v := send_drop_notify_error_ext src_sec_identity r ext_err METRIC_INGRESS in
      ret v
    else ret r).

Definition tail_handle_ipv4_from_host {R} : prog world R Z :=
  call (
    let ipcache_srcid := 0 in
    let* ipcache_srcid :=
      (if ENABLE_HOST_FIREWALL cfg && negb (ENABLE_MASQUERADE_IPV4 cfg)
       then ctx_load_and_clear_meta CB_IPCACHE_SRC_LABEL
       else pure ipcache_srcid) in
    let* r := tail_handle_ipv4 ipcache_srcid true in
    ret r).

Definition tail_handle_ipv4_from_netdev {R} : prog world R Z :=
  call (let* r := tail_handle_ipv4 0 false in ret r).

(** [handle_to_netdev_ipv4] (compiled with [ENABLE_HOST_FIREWALL]). *)
Definition handle_to_netdev_ipv4 {R} (src_sec_identity : Z) (trace : trace_ctx)
    (ext_err : Z) : prog world R (Z * trace_ctx * Z) :=
  call (
    let ipcache_srcid := 0 in
    let* c := get_ctx in
    match revalidate_data_pull4 c with
    | None => ret (DROP_INVALID, trace, ext_err)
    | Some ip4 =>
      (* The code below only cares about host-originating yes/no,
         and currently breaks when being passed a fine-grained pod
         src_sec_identity. *)
      let src_sec_identity :=
        if negb (src_sec_identity =? HOST_ID) then 0 else src_sec_identity in
      let* (src_id, ipcache_srcid) :=
        resolve_srcid_ipv4 ip4 src_sec_identity ipcache_srcid true in
      (* We need to pass the srcid from ipcache to host firewall. *)
      let* r := extern (ipv4_host_policy_egress src_id ipcache_srcid ip4 trace ext_err) in
      ret r
    end).

(** node_config.h *)
Definition L2_ANNOUNCEMENTS_MAX_LIVENESS : Z := 3000000000.

(** [handle_l2_announcement] (compiled with [ENABLE_L2_ANNOUNCEMENTS]);
    [ip6] is [None] for the [NULL] passed on ARP. *)
Definition handle_l2_announcement {R} (ip6 : option ipv6hdr) : prog world R Z :=
  call (
    let mac := interface_mac cfg in
    let* time := gets_ext config_get_agent_liveness in
    if time =? 0 then ret CTX_ACT_OK
    else
      (* If the agent is not active for X seconds, we can't trust the
         contents of the responder map anymore. *)
      let* now := gets_ext ktime_get_ns in
      if L2_ANNOUNCEMENTS_MAX_LIVENESS <? (now - time) mod 2 ^ 64 then ret CTX_ACT_OK
      else
        match ip6 with
        | None =>
          let* c := get_ctx in
          match arp_validate c mac with
          | None => ret CTX_ACT_OK
          | Some (smac, sip, tip) =>
            let key_ifindex := ingress_ifindex c in
            let* stats := gets_ext (fun w => cilium_l2_responder_v4 w tip key_ifindex) in
            if negb stats then ret CTX_ACT_OK
            else
              let* r := extern (arp_respond mac tip smac sip 0) in
              when (r =? CTX_ACT_REDIRECT)
                   (modify_ext (l2_responder_v4_sent tip key_ifindex)) ;;
              ret r
          end
        | Some ip6 =>
          if ENABLE_IPV6 cfg then
            let* c := get_ctx in
            match icmp6_ndisc_validate c ip6 mac with
            | None => ret CTX_ACT_OK
            | Some tip6 =>
              let key_ifindex := ingress_ifindex c in
              let* stats := gets_ext (fun w => cilium_l2_responder_v6 w tip6 key_ifindex) in
              if negb stats then ret CTX_ACT_OK
              else
                let l3_off := ETH_HLEN cfg in
                let* r := extern (icmp6_send_ndisc_adv l3_off mac false) in
                when (r =? CTX_ACT_REDIRECT)
                     (modify_ext (l2_responder_v6_sent tip6 key_ifindex)) ;;
                ret r
            end
          else ret CTX_ACT_OK
        end).


(** The [ENABLE_L2_ANNOUNCEMENTS] block of the IPv6 case of [do_netdev]: it
    falls through with the revalidated header, or returns from
    [do_netdev]. *)
Definition do_netdev_l2_announcement6 (identity : Z) (ip6 : ipv6hdr)
  : prog world Z ipv6hdr :=
  if ENABLE_L2_ANNOUNCEMENTS cfg && (ip6_nexthdr ip6 =? NEXTHDR_ICMP) then
    let* r := handle_l2_announcement (Some ip6) in
    if negb (r =? CTX_ACT_OK) then ret r
    else
      (* Verifier invalidates ip6 for some reason.. sigh *)
      let* c := get_ctx in
      match revalidate_data_pull6 c with
      | None =>
        let* v := send_drop_notify_error identity DROP_INVALID METRIC_INGRESS in
        ret v
      | Some ip6 => pure ip6
      end
  else pure ip6.

Definition do_netdev {R} (proto : Z) (identity : Z) (obs_point : trace_point)
    (from_host : bool) : prog world R Z :=
  call (
    let trace := {| reason := TRACE_REASON_UNKNOWN; monitor := TRACE_PAYLOAD_LEN |} in
    let ipcache_srcid := 0 in
    let ext_err := 0 in
    bpf_clear_meta ;;
    if (ENABLE_ARP_PASSTHROUGH cfg || ENABLE_ARP_RESPONDER cfg || ENABLE_L2_ANNOUNCEMENTS cfg)
       && (proto =? bpf_htons ETH_P_ARP) then
      let* c := get_ctx in
      send_trace_notify obs_point UNKNOWN_ID UNKNOWN_ID TRACE_EP_ID_UNKNOWN
                        (ingress_ifindex c) (reason trace) (monitor trace) proto ;;
      let* r :=
        (if ENABLE_L2_ANNOUNCEMENTS cfg then handle_l2_announcement None
         else pure CTX_ACT_OK) in
      ret r
    else if ENABLE_IPV6 cfg && (proto =? bpf_htons ETH_P_IPV6) then
      let* c := get_ctx in
      match revalidate_data_pull6 c with
      | None =>
        let* v := send_drop_notify_error identity DROP_INVALID METRIC_INGRESS in
        ret v
      | Some ip6 =>
        let* ip6 := do_netdev_l2_announcement6 identity ip6 in
        let* (identity, ipcache_srcid) :=
          resolve_srcid_ipv6 ip6 identity ipcache_srcid from_host in
        ctx_store_meta CB_SRC_LABEL identity ;;
        when (ENABLE_HOST_FIREWALL cfg && negb (ENABLE_MASQUERADE_IPV6 cfg) && from_host)
             (* If we don't rely on BPF-based masquerading, we need
                to pass the srcid from ipcache to host firewall. *)
             (ctx_store_meta CB_IPCACHE_SRC_LABEL ipcache_srcid) ;;
        let* trace :=
          (if ENABLE_WIREGUARD cfg && negb from_host then
             let* c := get_ctx in
             let '(hdrlen, next_proto) := ipv6_hdrlen c (ip6_nexthdr ip6) in
             if (0 <? hdrlen)
                && ctx_is_wireguard c (ETH_HLEN cfg + hdrlen) next_proto ipcache_srcid
             then pure {| reason := TRACE_REASON_ENCRYPTED; monitor := monitor trace |}
             else pure trace
           else pure trace) in
        let* c := get_ctx in
        send_trace_notify obs_point ipcache_srcid UNKNOWN_ID TRACE_EP_ID_UNKNOWN
                          (ingress_ifindex c) (reason trace) (monitor trace) proto ;;
        let* (r, ext_err) :=
          (if from_host
           then tail_call_internal CILIUM_CALL_IPV6_FROM_HOST tail_handle_ipv6_from_host ext_err
           else tail_call_internal CILIUM_CALL_IPV6_FROM_NETDEV tail_handle_ipv6_from_netdev
                                   ext_err) in
        (* See comment below for IPv4. *)
        let* v := send_drop_notify_error_with_exitcode_ext identity r ext_err CTX_ACT_OK
                                                           METRIC_INGRESS in
        ret v
      end
    else if ENABLE_IPV4 cfg && (proto =? bpf_htons ETH_P_IP) then
      (* This is the first time revalidate_data() is going to be called.
         Make sure that we don't legitimately drop the packet if the skb
         arrived with the header not being not in the linear data. *)
      let* c := get_ctx in
      match revalidate_data_pull4 c with
      | None =>
        let* v := send_drop_notify_error identity DROP_INVALID METRIC_INGRESS in
        ret v
      | Some ip4 =>
        let* (identity, ipcache_srcid) :=
          resolve_srcid_ipv4 ip4 identity ipcache_srcid from_host in
        ctx_store_meta CB_SRC_LABEL identity ;;
        when (ENABLE_HOST_FIREWALL cfg && negb (ENABLE_MASQUERADE_IPV4 cfg) && from_host)
             (* If we don't rely on BPF-based masquerading, we need
                to pass the srcid from ipcache to host firewall. *)
             (ctx_store_meta CB_IPCACHE_SRC_LABEL ipcache_srcid) ;;
        let* trace :=
          (if ENABLE_WIREGUARD cfg && negb from_host then
             let* c := get_ctx in
             let next_proto := ip4_protocol ip4 in
             let hdrlen := ipv4_hdrlen ip4 in
             if ctx_is_wireguard c (ETH_HLEN cfg + hdrlen) next_proto ipcache_srcid
             then pure {| reason := TRACE_REASON_ENCRYPTED; monitor := monitor trace |}
             else pure trace
           else pure trace) in
        let* c := get_ctx in
        send_trace_notify obs_point ipcache_srcid UNKNOWN_ID TRACE_EP_ID_UNKNOWN
                          (ingress_ifindex c) (reason trace) (monitor trace) proto ;;
        let* (r, ext_err) :=
          (if from_host
           then tail_call_internal CILIUM_CALL_IPV4_FROM_HOST tail_handle_ipv4_from_host ext_err
           else tail_call_internal CILIUM_CALL_IPV4_FROM_NETDEV tail_handle_ipv4_from_netdev
                                   ext_err) in
        (* We are not returning an error here to always allow traffic to
           the stack in case maps have become unavailable.

           Note: Since drop notification requires a tail call as well,
           this notification is unlikely to succeed. *)
        let* v := send_drop_notify_error_with_exitcode_ext identity r ext_err CTX_ACT_OK
                                                           METRIC_INGRESS in
        ret v
      end
    else
      let* c := get_ctx in
      send_trace_notify obs_point UNKNOWN_ID UNKNOWN_ID TRACE_EP_ID_UNKNOWN
                        (ingress_ifindex c) (reason trace) (monitor trace) proto ;;
      if ENABLE_HOST_FIREWALL cfg then
        let* v := send_drop_notify_error identity DROP_UNKNOWN_L3 METRIC_INGRESS in
        ret v
      else
        (* Pass unknown traffic to the stack *)
        ret CTX_ACT_OK).

(** The label [drop_err] of [cil_from_netdev]. *)
Definition from_netdev_drop_err {A} (src_id r : Z) : prog world Z A :=
  let* v := send_drop_notify_error src_id r METRIC_INGRESS in
  ret v.

(** [cil_from_netdev]: from-netdev is attached as a tc ingress filter to one
    or more physical devices managed by Cilium (e.g., eth0). *)
Definition cil_from_netdev {R} : prog world R Z :=
  call (
    let src_id := UNKNOWN_ID in
    let* flags :=
      (if ENABLE_NODEPORT_ACCELERATION cfg
       then gets_ctx (fun c => ctx_get_xfer c XFER_FLAGS) else pure 0) in
    (* Filter allowed vlan id's and pass them back to kernel.
       We will see the packet again in from-netdev@eth0.vlanXXX. *)
    let* c := get_ctx in
    (if vlan_present c then
       let vlan_id := Z.land (vlan_tci c) 0xfff in
       if negb (vlan_id =? 0) then
         if allow_vlan (ifindex c) vlan_id then ret CTX_ACT_OK
         else from_netdev_drop_err src_id DROP_VLAN_FILTERED
       else pure tt
     else pure tt) ;;
    modify_ctx ctx_skip_nodeport_clear ;;
    when (ENABLE_NODEPORT_ACCELERATION cfg)
         (when (negb (Z.land flags XFER_PKT_NO_SVC =? 0)) (modify_ctx ctx_skip_nodeport_set) ;;
          when (HAVE_ENCAP cfg && negb (Z.land flags XFER_PKT_SNAT_DONE =? 0))
               (modify_ctx ctx_snat_done_set)) ;;
    let* (ok, proto) := gets_ctx validate_ethertype in
    (if negb ok then
       if ENABLE_HOST_FIREWALL cfg then from_netdev_drop_err src_id DROP_UNSUPPORTED_L2
       else
         send_trace_notify TRACE_TO_STACK src_id UNKNOWN_ID TRACE_EP_ID_UNKNOWN
                           TRACE_IFINDEX_UNKNOWN TRACE_REASON_UNKNOWN 0 proto ;;
         (* Pass unknown traffic to the stack *)
         ret CTX_ACT_OK
     else pure tt) ;;
    (if ENABLE_IPSEC cfg then
       (* If the packet needs decryption, we want to send it straight to
          the stack.  We therefore ignore the return value from
          do_decrypt. *)
       extern (do_decrypt proto) ;;
       let* c := get_ctx in
       if mark c =? MARK_MAGIC_DECRYPT then ret CTX_ACT_OK else pure tt
     else pure tt) ;;
    let* r := do_netdev proto UNKNOWN_ID TRACE_FROM_NETWORK false in
    ret r).


(** [#define host_egress_policy_hook(ctx, src_sec_identity, ext_err) CTX_ACT_OK] *)
Definition host_egress_policy_hook (src_sec_identity ext_err : Z) : Z := CTX_ACT_OK.

(** [#define host_wg_encrypt_hook(ctx, proto, src_sec_identity)] *)
Definition host_wg_encrypt_hook {R} (proto src_sec_identity : Z) : prog world R Z :=
  extern (wg_maybe_redirect_to_encrypt proto src_sec_identity).

(** The label [drop_err] of [cil_to_netdev]. *)
Definition to_netdev_drop_err {A} (src_sec_identity r ext_err : Z) : prog world Z A :=
  let* v := send_drop_notify_error_ext src_sec_identity r ext_err METRIC_EGRESS in
  ret v.

(** The egress-gateway block of [cil_to_netdev] (compiled with
    [ENABLE_EGRESS_GATEWAY_COMMON]), up to the label [skip_egress_gateway]:
    it falls through with the values of [ret], [src_sec_identity],
    [dst_sec_identity] and [trace], or returns from [cil_to_netdev]. *)
Definition to_netdev_egress_gateway (proto r src_sec_identity dst_sec_identity : Z)
    (trace : trace_ctx) (ext_err : Z) : prog world Z (Z * Z * Z * trace_ctx) :=
  let drop_err (src r : Z) : prog world Z (Z * Z * Z * trace_ctx) :=
    to_netdev_drop_err src r ext_err in
  let skip_egress_gateway (r : Z) : prog world Z (Z * Z * Z * trace_ctx) :=
    pure (r, src_sec_identity, dst_sec_identity, trace) in
  let after_switch (r src dst : Z) (trace : trace_ctx)
    : prog world Z (Z * Z * Z * trace_ctx) :=
    if IS_ERR r then drop_err src r
    else if negb (r =? CTX_ACT_OK) then ret r
    else pure (r, src, dst, trace) in
  if src_sec_identity =? HOST_ID then skip_egress_gateway r
  else
    let* c := get_ctx in
    if ctx_egw_done c then skip_egress_gateway r
    else if proto =? bpf_htons ETH_P_IP then
      match revalidate_data4 c with
      | None => drop_err src_sec_identity DROP_INVALID
      | Some ip4 =>
        let fraginfo := ipfrag_encode_ipv4 ip4 in
        let tuple4 :=
          {| t4_daddr := ip4_daddr ip4; t4_saddr := ip4_saddr ip4; t4_dport := 0;
             t4_sport := 0; t4_nexthdr := ip4_protocol ip4; t4_flags := 0 |} in
        let l4_off := ETH_HLEN cfg + ipv4_hdrlen ip4 in
        let* (r, tuple4) := extern (ct_extract_ports4 ip4 fraginfo l4_off tuple4) in
        if IS_ERR r then
          if r =? DROP_CT_UNKNOWN_PROTO then skip_egress_gateway r
          else drop_err src_sec_identity r
        else
          (* Only handle outbound connections: *)
          let* is_reply := gets_ext (fun w => ct_is_reply4 w tuple4) in
          if is_reply then skip_egress_gateway r
          else
            let* src_ep := gets_ext (fun w => __lookup_ip4_endpoint w (ip4_saddr ip4)) in
            let src_sec_identity :=
              match src_ep with Some e => ep_sec_id e | None => src_sec_identity end in
            let* info := gets_ext (fun w => lookup_ip4_remote_endpoint w (ip4_daddr ip4) 0) in
            let dst_sec_identity :=
              match info with Some i => sec_identity i | None => dst_sec_identity end in
            (* lower-level code expects CT tuple to be flipped: *)
            let tuple4 := __ipv4_ct_tuple_reverse tuple4 in
            let* (r, trace) :=
              extern (egress_gw_handle_packet tuple4 src_sec_identity dst_sec_identity trace) in
            after_switch r src_sec_identity dst_sec_identity trace
      end
    else if ENABLE_IPV6 cfg && (proto =? bpf_htons ETH_P_IPV6) then
      match revalidate_data6 c with
      | None => drop_err src_sec_identity DROP_INVALID
      | Some ip6 =>
        let fraginfo := ipv6_get_fraginfo c ip6 in
        if fraginfo <? 0 then drop_err src_sec_identity fraginfo
        else
          let '(hdrlen, nexthdr) := ipv6_hdrlen c (ip6_nexthdr ip6) in
          let tuple6 :=
            {| t6_daddr := ip6_daddr ip6; t6_saddr := ip6_saddr ip6; t6_dport := 0;
               t6_sport := 0; t6_nexthdr := nexthdr; t6_flags := 0 |} in
          let l4_off := ETH_HLEN cfg + hdrlen in
          if l4_off <? 0 then drop_err src_sec_identity l4_off
          else
            let* (r, tuple6) := extern (ct_extract_ports6 ip6 fraginfo l4_off tuple6) in
            if IS_ERR r then
              if r =? DROP_CT_UNKNOWN_PROTO then skip_egress_gateway r
              else drop_err src_sec_identity r
            else
              (* Only handle outbound connections: *)
              let* is_reply := gets_ext (fun w => ct_is_reply6 w tuple6) in
              if is_reply then skip_egress_gateway r
              else
                let* src_ep := gets_ext (fun w => __lookup_ip6_endpoint w (ip6_saddr ip6)) in
                let src_sec_identity :=
                  match src_ep with Some e => ep_sec_id e | None => src_sec_identity end in
                let* info :=
                  gets_ext (fun w => lookup_ip6_remote_endpoint w (ip6_daddr ip6) 0) in
                let dst_sec_identity :=
                  match info with Some i => sec_identity i | None => dst_sec_identity end in
                (* lower-level code expects CT tuple to be flipped: *)
                let tuple6 := __ipv6_ct_tuple_reverse tuple6 in
                let* (r, trace) :=
                  extern (egress_gw_handle_packet_v6 tuple6 src_sec_identity
                                                     dst_sec_identity trace) in
                after_switch r src_sec_identity dst_sec_identity trace
      end
    else skip_egress_gateway r.

(** [cil_to_netdev] from the label [skip_host_firewall] to its end. *)
Definition to_netdev_after_host_firewall (proto src_sec_identity dst_sec_identity : Z)
    (trace : trace_ctx) (ext_err : Z) : prog world Z Z :=
  let r := host_egress_policy_hook src_sec_identity ext_err in
  when (IS_ERR r) (to_netdev_drop_err src_sec_identity r ext_err) ;;
  let* (r, src_sec_identity, dst_sec_identity, trace) :=
    (if ENABLE_EGRESS_GATEWAY_COMMON cfg
     then to_netdev_egress_gateway proto r src_sec_identity dst_sec_identity trace ext_err
     else pure (r, src_sec_identity, dst_sec_identity, trace)) in
  (* skip_egress_gateway: *)
  let* r :=
    (if ENABLE_BANDWIDTH_MANAGER cfg then
       let* r := extern (edt_sched_departure proto) in
       (* No send_drop_notify_error() here given we're rate-limiting. *)
       if r <? 0 then
         let* c := get_ctx in
         update_metrics (ctx_full_len c) METRIC_EGRESS (Z.land (- r) 0xff) ;;
         ret CTX_ACT_DROP
       else pure r
     else pure r) in
  let* (r, trace) :=
    (if ENABLE_IPSEC cfg then
       let* c := get_ctx in
       if negb (Z.land (mark c) MARK_MAGIC_HOST_MASK =? MARK_MAGIC_ENCRYPT) then
         let* r := extern (ipsec_maybe_redirect_to_encrypt proto src_sec_identity) in
         if r =? CTX_ACT_REDIRECT then ret r
         else if IS_ERR r then to_netdev_drop_err src_sec_identity r ext_err
         else pure (r, trace)
       else
         pure (r, {| reason := Z.lor (reason trace) TRACE_REASON_ENCRYPTED;
                     monitor := monitor trace |})
     else pure (r, trace)) in
  let* (r, trace) :=
    (if ENABLE_WIREGUARD cfg then
       (* Redirect the packet to the WireGuard tunnel device for encryption
          if needed.  Skip redirect to the WireGuard tunnel device if the
          pkt has been already encrypted. *)
       let* c := get_ctx in
       let* (r, trace) :=
         (if negb (ctx_mark_is_wireguard c) then
            let* r := host_wg_encrypt_hook proto src_sec_identity in
            if r =? CTX_ACT_REDIRECT then ret r
            else if IS_ERR r then to_netdev_drop_err src_sec_identity r ext_err
            else pure (r, trace)
          else
            pure (r, {| reason := Z.lor (reason trace) TRACE_REASON_ENCRYPTED;
                        monitor := monitor trace |})) in
       (if ENCRYPTION_STRICT_MODE cfg then
          let* allowed := gets_both (fun w c => strict_allow w c proto) in
          when (negb allowed)
               (to_netdev_drop_err src_sec_identity DROP_UNENCRYPTED_TRAFFIC ext_err)
        else pure tt) ;;
       pure (r, trace)
     else pure (r, trace)) in
  let* (r, to_exit) :=
    (if ENABLE_HEALTH_CHECK cfg then
       let* r := extern (lb_handle_health proto) in
       pure (r, negb (r =? CTX_ACT_OK))
     else pure (r, false)) in
  let* (r, trace, ext_err) :=
    (if ENABLE_NODEPORT cfg && negb to_exit then
       let* c := get_ctx in
       if negb (ctx_snat_done c) && negb (ctx_is_overlay c) && negb (ctx_mark_is_wireguard c)
       then
         (* handle_nat_fwd tail calls in the majority of cases,
            so control might never return to this program. *)
         let* (r, trace, ext_err) :=
           extern (handle_nat_fwd 0 src_sec_identity proto false trace ext_err) in
         if r =? CTX_ACT_REDIRECT then ret r
         else pure (r, trace, ext_err)
       else pure (r, trace, ext_err)
     else pure (r, trace, ext_err)) in
  (* exit: *)
  when (IS_ERR r) (to_netdev_drop_err src_sec_identity r ext_err) ;;
  send_trace_notify TRACE_TO_NETWORK src_sec_identity dst_sec_identity
                    TRACE_EP_ID_UNKNOWN (THIS_INTERFACE_IFINDEX cfg)
                    (reason trace) (monitor trace) proto ;;
  ret r.

(** The host-firewall block of [cil_to_netdev] (compiled with
    [ENABLE_HOST_FIREWALL]), entered when the packet is not marked as
    SNAT-done: it falls through to [skip_host_firewall] with the values of
    [trace] and [ext_err], or returns from [cil_to_netdev]. *)
Definition to_netdev_host_firewall (proto src_sec_identity : Z) (trace : trace_ctx)
    (ext_err : Z) : prog world Z (trace_ctx * Z) :=
  if negb (eth_is_supported_ethertype proto) then
    to_netdev_drop_err src_sec_identity DROP_UNSUPPORTED_L2 ext_err
  else
    let* (r, trace, ext_err) :=
      (if (ENABLE_ARP_PASSTHROUGH cfg || ENABLE_ARP_RESPONDER cfg)
          && (proto =? bpf_htons ETH_P_ARP) then pure (CTX_ACT_OK, trace, ext_err)
       else if ENABLE_IPV6 cfg && (proto =? bpf_htons ETH_P_IPV6) then
         handle_to_netdev_ipv6 src_sec_identity trace ext_err
       else if ENABLE_IPV4 cfg && (proto =? bpf_htons ETH_P_IP) then
         handle_to_netdev_ipv4 src_sec_identity trace ext_err
       else pure (DROP_UNKNOWN_L3, trace, ext_err)) in
    if r =? CTX_ACT_REDIRECT then ret r
    else if IS_ERR r then to_netdev_drop_err src_sec_identity r ext_err
    else pure (trace, ext_err).

(** [cil_to_netdev]: to-netdev is attached as a tc egress filter to one or
    more physical devices managed by Cilium (e.g., eth0). *)
Definition cil_to_netdev {R} : prog world R Z :=
  call (
    let* c := get_ctx in
    let magic := Z.land (mark c) MARK_MAGIC_HOST_MASK in
    let dst_sec_identity := UNKNOWN_ID in
    let src_sec_identity := UNKNOWN_ID in
    let trace := {| reason := TRACE_REASON_UNKNOWN; monitor := 0 |} in
    let ext_err := 0 in
    bpf_clear_meta ;;
    let* c := get_ctx in
    let src_sec_identity :=
      if (magic =? MARK_MAGIC_HOST) || (magic =? MARK_MAGIC_OVERLAY)
         || ctx_mark_is_wireguard c then HOST_ID
      else if ENABLE_IDENTITY_MARK cfg && (magic =? MARK_MAGIC_IDENTITY) then get_identity c
      else if ENABLE_EGRESS_GATEWAY_COMMON cfg && (magic =? MARK_MAGIC_EGW_DONE)
      then get_identity c
      else src_sec_identity in
    (* Filter allowed vlan id's and pass them back to kernel. *)
    (if vlan_present c then
       let vlan_id := Z.land (vlan_tci c) 0xfff in
       if negb (vlan_id =? 0) then
         if allow_vlan (ifindex c) vlan_id then ret CTX_ACT_OK
         else to_netdev_drop_err src_sec_identity DROP_VLAN_FILTERED ext_err
       else pure tt
     else pure tt) ;;
    (if ENABLE_L7_LB cfg && (magic =? MARK_MAGIC_PROXY_EGRESS_EPID) then
       let lxc_id := get_epid c in
       modify_ctx (fun c => set_mark c 0) ;;
       let* t := extern (tail_call_egress_policy (Z.land lxc_id 0xffff)) in
       match t with
       | TailTaken v => exit v
       | TailMissed r => to_netdev_drop_err src_sec_identity r ext_err
       end
     else pure tt) ;;
    (* Load the ethertype just once: *)
    let* (_, proto) := gets_ctx validate_ethertype in
    let* (trace, ext_err) :=
      (if ENABLE_HOST_FIREWALL cfg then
         (* This was initially added for Egress GW. There it's no longer
            needed, but it potentially also helps other paths
            (LB-to-remote-backend ?). *)
         let* c := get_ctx in
         if ctx_snat_done c then pure (trace, ext_err)
         else to_netdev_host_firewall proto src_sec_identity trace ext_err
       else pure (trace, ext_err)) in
    (* skip_host_firewall: *)
    to_netdev_after_host_firewall proto src_sec_identity dst_sec_identity trace ext_err).

(** *** Conditions on the way through the continuation handlers *)

(** The packet is handed to a VTEP: the block under [ENABLE_VTEP] of
    [handle_ipv4_cont] finds a tunnel endpoint for the destination. *)
Definition vtep_redirects (w : world) (ip4 : iphdr) : bool :=
  ENABLE_VTEP cfg
  && match cilium_vtep_map w (Z.land (ip4_daddr ip4) (VTEP_MASK cfg)) with
     | Some vtep => negb (vtep_mac vtep =? 0) && negb (vtep_tunnel_endpoint vtep =? 0)
     | None => false
     end.

(** The packet is encapsulated towards the tunnel endpoint of its
    remote-endpoint entry: the block under [TUNNEL_MODE]. *)
Definition tunnel_redirects (info : remote_endpoint_info) : bool :=
  TUNNEL_MODE cfg && negb (flag_skip_tunnel info) && flag_has_tunnel_ep info.

(** The value of [src_sec_identity] in [cil_to_netdev] after the mark has
    been inspected. *)
Definition to_netdev_src_sec_identity (c : ctx_buff) : Z :=
  let magic := Z.land (mark c) MARK_MAGIC_HOST_MASK in
  if (magic =? MARK_MAGIC_HOST) || (magic =? MARK_MAGIC_OVERLAY)
     || ctx_mark_is_wireguard c then HOST_ID
  else if ENABLE_IDENTITY_MARK cfg && (magic =? MARK_MAGIC_IDENTITY) then get_identity c
  else if ENABLE_EGRESS_GATEWAY_COMMON cfg && (magic =? MARK_MAGIC_EGW_DONE)
  then get_identity c
  else UNKNOWN_ID.

(** The destination's L2 address in the neighbour map, as [fib_do_redirect]
    looks it up: [neigh_lookup_ip4] or [neigh_lookup_ip6] by the family of
    [fib_params]. *)
Definition neigh_map_dmac (w : world) (l : bpf_fib_lookup) : option macaddr :=
  if fib_family l =? AF_INET then neigh_lookup_ip4 w (fib_ipv4_dst l)
  else neigh_lookup_ip6 w (fib_ipv6_dst l).

(** The packet is handed to SRv6 decapsulation: the block under
    [ENABLE_SRV6] of [handle_ipv6_cont]. *)
Definition srv6_decaps (w : world) (from_host : bool) (ip6 : ipv6hdr) : bool :=
  ENABLE_SRV6 cfg && negb from_host
  && (is_srv6_packet ip6 && srv6_lookup_sid w (ip6_daddr ip6)).

End Model.

(** The same build without the host firewall. *)
Definition without_host_firewall (cfg : config) : config :=
  {| ENABLE_IPV4 := ENABLE_IPV4 cfg; ENABLE_IPV6 := ENABLE_IPV6 cfg;
     ENABLE_HOST_FIREWALL := false;
     ENABLE_HOST_ROUTING := ENABLE_HOST_ROUTING cfg; ENABLE_NODEPORT := ENABLE_NODEPORT cfg;
     ENABLE_NODEPORT_ACCELERATION := ENABLE_NODEPORT_ACCELERATION cfg;
     HAVE_ENCAP := HAVE_ENCAP cfg; ENABLE_IPV4_FRAGMENTS := ENABLE_IPV4_FRAGMENTS cfg;
     ENABLE_IPV6_FRAGMENTS := ENABLE_IPV6_FRAGMENTS cfg;
     ENABLE_MASQUERADE_IPV4 := ENABLE_MASQUERADE_IPV4 cfg;
     ENABLE_MASQUERADE_IPV6 := ENABLE_MASQUERADE_IPV6 cfg;
     ENABLE_SRV6 := ENABLE_SRV6 cfg; TUNNEL_MODE := TUNNEL_MODE cfg;
     ENABLE_VTEP := ENABLE_VTEP cfg; ENABLE_IPSEC := ENABLE_IPSEC cfg;
     ENABLE_WIREGUARD := ENABLE_WIREGUARD cfg;
     ENCRYPTION_STRICT_MODE := ENCRYPTION_STRICT_MODE cfg;
     ENABLE_L2_ANNOUNCEMENTS := ENABLE_L2_ANNOUNCEMENTS cfg;
     ENABLE_ARP_PASSTHROUGH := ENABLE_ARP_PASSTHROUGH cfg;
     ENABLE_ARP_RESPONDER := ENABLE_ARP_RESPONDER cfg;
     ENABLE_IDENTITY_MARK := ENABLE_IDENTITY_MARK cfg;
     ENABLE_EGRESS_GATEWAY_COMMON := ENABLE_EGRESS_GATEWAY_COMMON cfg;
     ENABLE_L7_LB := ENABLE_L7_LB cfg;
     ENABLE_BANDWIDTH_MANAGER := ENABLE_BANDWIDTH_MANAGER cfg;
     ENABLE_HEALTH_CHECK := ENABLE_HEALTH_CHECK cfg; ENABLE_SKIP_FIB := ENABLE_SKIP_FIB cfg;
     ETH_HLEN := ETH_HLEN cfg; IS_L3_DEV := IS_L3_DEV cfg; VTEP_MASK := VTEP_MASK cfg;
     THIS_INTERFACE_IFINDEX := THIS_INTERFACE_IFINDEX cfg;
     secctx_from_ipcache := secctx_from_ipcache cfg; interface_mac := interface_mac cfg;
     direct_routing_dev_ifindex := direct_routing_dev_ifindex cfg;
     neigh_resolver_available := neigh_resolver_available cfg |}.

(** ** The source-identity resolver as the specification words it

    §4.2: if the in-band identity is one of the reserved placeholder values,
    the source address is looked up in the remote-endpoint table and, if
    found, its identity is adopted unless it is the host sentinel; the
    final selection uses this ipcache-derived identity from the host, and
    otherwise only with [secctx_from_ipcache], falling back to the world
    identity of the address family.  A pure function of the in-band
    identity, the direction, the table's answer for the address and the
    flag. *)
Definition ipcache_derived_identity (reserved : bool)
    (info : option remote_endpoint_info) (inband : Z) : Z :=
  if reserved then
    match info with
    | Some i => if sec_identity i =? HOST_ID then inband else sec_identity i
    | None => inband
    end
  else inband.

Definition resolve_srcid_spec (world_id : Z) (secctx_flag reserved : bool)
    (info : option remote_endpoint_info) (inband : Z) (from_host : bool) : Z :=
  if from_host then ipcache_derived_identity reserved info inband
  else if secctx_flag then ipcache_derived_identity reserved info inband
  else world_id.

(** The identity left in [*sec_identity]: the table's, when it was looked
    up and found. *)
Definition ipcache_out (reserved : bool) (info : option remote_endpoint_info)
    (ipcache_id : Z) : Z :=
  if reserved then
    match info with Some i => sec_identity i | None => ipcache_id end
  else ipcache_id.

(** ** A concrete node

    An executable instance of the collaborators, used to run the programs
    on concrete packets: the ipcache is a list of prefixes searched for the
    longest match, the endpoint map a list of addresses, frames are byte
    lists with an Ethernet header followed by the IP header, and the
    host-firewall and policy results are fields of the world. *)
Module Scenario.

Record node := {
  ipcache4 : list (Z * Z * remote_endpoint_info);
  ipcache6 : list (v6addr * remote_endpoint_info);
  endpoints4 : list (Z * endpoint_info);
  endpoints6 : list (v6addr * endpoint_info);
  neigh4 : list (Z * macaddr);
  hostfw_enforce : bool;
  ct_ret : Z;
  policy_verdict : Z;
  redirects : list (bool * Z);
}.

Definition v6addr_eqb (a b : v6addr) : bool := (d1 a =? d1 b) && (d2 a =? d2 b).

(** Longest-prefix match over [(prefix, length, info)] entries. *)
Definition prefix_matches (addr prefix len : Z) : bool :=
  Z.shiftr addr (32 - len) =? Z.shiftr prefix (32 - len).

Fixpoint lpm4 (tbl : list (Z * Z * remote_endpoint_info)) (addr : Z)
    (best : option (Z * remote_endpoint_info)) : option remote_endpoint_info :=
  match tbl with
  | [] => snd <$> best
  | (prefix, len, info) :: tbl =>
    let better :=
      match best with Some (l, _) => l <? len | None => true end in
    lpm4 tbl addr (if prefix_matches addr prefix len && better then Some (len, info) else best)
  end.

Fixpoint assoc {K V} (eqb : K -> K -> bool) (l : list (K * V)) (k : K) : option V :=
  match l with
  | [] => None
  | (k', v) :: l => if eqb k k' then Some v else assoc eqb l k
  end.

(** Big-endian fields of a frame. *)
Definition byte_at (f : list Z) (i : Z) : Z := default 0 (f !! Z.to_nat i).
Definition be16_at (f : list Z) (i : Z) : Z := byte_at f i * 256 + byte_at f (i + 1).
Definition be32_at (f : list Z) (i : Z) : Z := be16_at f i * 65536 + be16_at f (i + 2).
Definition be64_at (f : list Z) (i : Z) : Z := be32_at f i * 4294967296 + be32_at f (i + 4).

Definition parse_ip4 (c : ctx_buff) (pull : bool) (l3_off : Z) : option iphdr :=
  if Z.of_nat (length (frame c)) <? l3_off + 20 then None
  else Some {| ip4_saddr := be32_at (frame c) (l3_off + 12);
               ip4_daddr := be32_at (frame c) (l3_off + 16);
               ip4_protocol := byte_at (frame c) (l3_off + 9);
               ip4_frag_off := be16_at (frame c) (l3_off + 6) |}.

Definition parse_ip6 (c : ctx_buff) (pull : bool) (l3_off : Z) : option ipv6hdr :=
  if Z.of_nat (length (frame c)) <? l3_off + 40 then None
  else Some {| ip6_saddr := {| d1 := be64_at (frame c) (l3_off + 8);
                               d2 := be64_at (frame c) (l3_off + 16) |};
               ip6_daddr := {| d1 := be64_at (frame c) (l3_off + 24);
                               d2 := be64_at (frame c) (l3_off + 32) |};
               ip6_nexthdr := byte_at (frame c) (l3_off + 6) |}.

Definition ethertype (c : ctx_buff) : bool * Z :=
  if Z.of_nat (length (frame c)) <? 14 then (false, 0)
  else let proto := bpf_htons (be16_at (frame c) 12) in
       (0x0600 <=? be16_at (frame c) 12, proto).

Definition const {A} (a : A) : eff node A := fun w c => (a, c, w).

(** A redirect is recorded with its target interface, and with whether it
    went through the neighbour resolver ([redirect_neigh]) or not
    ([ctx_redirect]). *)
Definition redirect (neigh : bool) (oif : Z) : eff node Z :=
  fun w c =>
    (CTX_ACT_REDIRECT, c,
     {| ipcache4 := ipcache4 w; ipcache6 := ipcache6 w; endpoints4 := endpoints4 w;
        endpoints6 := endpoints6 w; neigh4 := neigh4 w; hostfw_enforce := hostfw_enforce w;
        ct_ret := ct_ret w; policy_verdict := policy_verdict w;
        redirects := redirects w ++ [(neigh, oif)] |}).

Definition hostfw_lookup4 (ip4 : iphdr) (b : ct_buffer4) : eff node (bool * ct_buffer4) :=
  fun w c =>
    (if hostfw_enforce w then
       (true, {| cb4_tuple := {| t4_daddr := ip4_daddr ip4; t4_saddr := ip4_saddr ip4;
                                 t4_dport := 0; t4_sport := 0;
                                 t4_nexthdr := ip4_protocol ip4; t4_flags := 0 |};
                 cb4_ct_state := 0; cb4_monitor := 0; cb4_ret := ct_ret w;
                 cb4_l4_off := 34 |})
     else (false, b), c, w).

Definition hostfw_lookup6 (ip6 : ipv6hdr) (b : ct_buffer6) : eff node (bool * ct_buffer6) :=
  fun w c =>
    (if hostfw_enforce w then
       (true, {| cb6_tuple := {| t6_daddr := ip6_daddr ip6; t6_saddr := ip6_saddr ip6;
                                 t6_dport := 0; t6_sport := 0;
                                 t6_nexthdr := ip6_nexthdr ip6; t6_flags := 0 |};
                 cb6_ct_state := 0; cb6_monitor := 0; cb6_ret := ct_ret w;
                 cb6_l4_off := 54 |})
     else (false, b), c, w).

Definition policy {A} (k : Z -> A) : eff node A := fun w c => (k (policy_verdict w), c, w).

#[export] Instance node_externals : Externals node := {|
  ____revalidate_data_pull4 := parse_ip4;
  ____revalidate_data_pull6 := parse_ip6;
  validate_ethertype := ethertype;
  eth_is_supported_ethertype := fun proto => 0x0600 <=? bpf_htons proto;
  eth_store_daddr := fun _ _ => const 0;
  eth_store_saddr := fun _ _ => const 0;
  eth_store_daddr_aligned := fun _ _ => const 0;
  eth_store_saddr_aligned := fun _ _ => const 0;
  eth_store_proto := fun _ _ => const 0;
  ctx_get_protocol := fun c => snd (ethertype c);
  ctx_change_head := fun _ _ => const 0;
  ctx_redirect := fun oif _ => redirect false oif;
  redirect_neigh := fun oif _ _ => redirect true oif;
  ctx_full_len := fun c => Z.of_nat (length (frame c));
  ctx_get_xfer := fun _ _ => 0;
  tc_index_from_ingress_proxy := fun c => Z.testbit (tc_index c) 0;
  tc_index_from_egress_proxy := fun c => Z.testbit (tc_index c) 1;
  ctx_skip_nodeport := fun c => Z.testbit (tc_index c) 2;
  ctx_skip_nodeport_clear := fun c => c;
  ctx_skip_nodeport_set := fun c => c;
  ctx_skip_host_fw := fun c => Z.testbit (tc_index c) 4;
  ctx_snat_done := fun c => Z.land (mark c) MARK_MAGIC_HOST_MASK =? MARK_MAGIC_SNAT_DONE;
  ctx_snat_done_set := fun c => set_mark c MARK_MAGIC_SNAT_DONE;
  ctx_is_overlay := fun c => Z.land (mark c) MARK_MAGIC_HOST_MASK =? MARK_MAGIC_OVERLAY;
  ctx_mark_is_wireguard := fun _ => false;
  ctx_egw_done := fun c => Z.land (mark c) MARK_MAGIC_HOST_MASK =? MARK_MAGIC_EGW_DONE;
  get_identity := fun c => Z.shiftr (mark c) 16;
  get_epid := fun c => Z.shiftr (mark c) 16;
  identity_is_reserved := fun id =>
    (id <? UNMANAGED_ID) || (id =? REMOTE_NODE_ID) || (id =? KUBE_APISERVER_NODE_ID)
    || (id =? 9) || (id =? 10);
  identity_is_world_ipv4 := fun id => (id =? WORLD_ID) || (id =? 9);
  identity_is_world_ipv6 := fun id => (id =? WORLD_ID) || (id =? 10);
  identity_is_cluster := fun id => negb ((id =? WORLD_ID) || (id =? 9) || (id =? 10));
  lookup_ip4_remote_endpoint := fun w addr _ => lpm4 (ipcache4 w) addr None;
  lookup_ip6_remote_endpoint := fun w addr _ => assoc v6addr_eqb (ipcache6 w) addr;
  lookup_ip4_endpoint := fun w ip4 => assoc Z.eqb (endpoints4 w) (ip4_daddr ip4);
  lookup_ip6_endpoint := fun w ip6 => assoc v6addr_eqb (endpoints6 w) (ip6_daddr ip6);
  __lookup_ip4_endpoint := fun w addr => assoc Z.eqb (endpoints4 w) addr;
  __lookup_ip6_endpoint := fun w addr => assoc v6addr_eqb (endpoints6 w) addr;
  neigh_lookup_ip4 := fun w addr => assoc Z.eqb (neigh4 w) addr;
  neigh_lookup_ip6 := fun _ _ => None;
  ipfrag_encode_ipv4 := fun ip4 => Z.land (ip4_frag_off ip4) 0x3fff;
  ipfrag_is_fragment := fun f => negb (f =? 0);
  ipv4_hdrlen := fun _ => 20;
  ipv6_get_fraginfo := fun _ _ => 0;
  ipv6_hdrlen := fun _ nexthdr => (40, nexthdr);
  icmp6_host_handle := fun _ ext_err _ => const (CTX_ACT_OK, ext_err);
  nodeport_lb4 := fun _ _ _ punt ext_err => const (CTX_ACT_OK, punt, ext_err);
  nodeport_lb6 := fun _ _ punt ext_err => const (CTX_ACT_OK, punt, ext_err);
  handle_nat_fwd := fun _ _ _ _ trace ext_err => const (CTX_ACT_OK, trace, ext_err);
  ipv4_host_policy_egress_lookup := fun _ _ ip4 b => hostfw_lookup4 ip4 b;
  ipv4_host_policy_ingress_lookup := hostfw_lookup4;
  __ipv4_host_policy_egress := fun _ _ _ trace ext_err => policy (fun v => (v, trace, ext_err));
  __ipv4_host_policy_ingress := fun _ _ remote_id trace ext_err =>
    policy (fun v => (v, remote_id, trace, ext_err));
  ipv4_host_policy_egress := fun _ _ _ trace ext_err => policy (fun v => (v, trace, ext_err));
  ipv6_host_policy_egress_lookup := fun _ _ ip6 b => hostfw_lookup6 ip6 b;
  ipv6_host_policy_ingress_lookup := hostfw_lookup6;
  __ipv6_host_policy_egress := fun _ _ _ trace ext_err => policy (fun v => (v, trace, ext_err));
  __ipv6_host_policy_ingress := fun _ _ remote_id trace ext_err =>
    policy (fun v => (v, remote_id, trace, ext_err));
  ipv6_host_policy_egress := fun _ _ _ trace ext_err => policy (fun v => (v, trace, ext_err));
  ipv4_local_delivery := fun _ _ _ _ _ _ _ _ _ => const CTX_ACT_REDIRECT;
  ipv6_local_delivery := fun _ _ _ _ _ _ _ => const CTX_ACT_REDIRECT;
  encap_and_redirect_with_nodeid := fun _ _ _ _ _ => const CTX_ACT_REDIRECT;
  __encap_and_redirect_with_nodeid := fun _ _ _ _ _ _ => const CTX_ACT_REDIRECT;
  cilium_vtep_map := fun _ _ => None;
  is_srv6_packet := fun _ => false;
  srv6_lookup_sid := fun _ _ => false;
  tail_call_srv6_decap := const CTX_ACT_OK;
  tail_call_egress_policy := fun _ => const (TailMissed DROP_MISSED_TAIL_CALL);
  do_decrypt := fun _ => const 0;
  ipsec_maybe_redirect_to_encrypt := fun _ _ => const CTX_ACT_OK;
  ctx_is_wireguard := fun _ _ _ _ => false;
  wg_maybe_redirect_to_encrypt := fun _ _ => const CTX_ACT_OK;
  strict_allow := fun _ _ _ => true;
  edt_sched_departure := fun _ => const CTX_ACT_OK;
  lb_handle_health := fun _ => const CTX_ACT_OK;
  ct_extract_ports4 := fun _ _ _ t => const (0, t);
  ct_is_reply4 := fun _ _ => false;
  __ipv4_ct_tuple_reverse := fun t =>
    {| t4_daddr := t4_saddr t; t4_saddr := t4_daddr t; t4_dport := t4_sport t;
       t4_sport := t4_dport t; t4_nexthdr := t4_nexthdr t; t4_flags := t4_flags t |};
  egress_gw_handle_packet := fun _ _ _ trace => const (CTX_ACT_OK, trace);
  ct_extract_ports6 := fun _ _ _ t => const (0, t);
  ct_is_reply6 := fun _ _ => false;
  __ipv6_ct_tuple_reverse := fun t =>
    {| t6_daddr := t6_saddr t; t6_saddr := t6_daddr t; t6_dport := t6_sport t;
       t6_sport := t6_dport t; t6_nexthdr := t6_nexthdr t; t6_flags := t6_flags t |};
  egress_gw_handle_packet_v6 := fun _ _ _ trace => const (CTX_ACT_OK, trace);
  config_get_agent_liveness := fun _ => 0;
  ktime_get_ns := fun _ => 0;
  arp_validate := fun _ _ => None;
  cilium_l2_responder_v4 := fun _ _ _ => false;
  cilium_l2_responder_v6 := fun _ _ _ => false;
  l2_responder_v4_sent := fun _ _ w => w;
  l2_responder_v6_sent := fun _ _ w => w;
  arp_respond := fun _ _ _ _ _ => const CTX_ACT_REDIRECT;
  icmp6_ndisc_validate := fun _ _ _ => None;
  icmp6_send_ndisc_adv := fun _ _ _ => const CTX_ACT_REDIRECT;
|}.


(** A build of bpf_host.c for a device with an Ethernet header, both
    address families, native routing. *)
Definition build (hostfw host_routing tunnel secctx resolver : bool) (eth_hlen : Z)
    (l3_dev : Z -> bool) : config :=
  {| ENABLE_IPV4 := true; ENABLE_IPV6 := true; ENABLE_HOST_FIREWALL := hostfw;
     ENABLE_HOST_ROUTING := host_routing; ENABLE_NODEPORT := false;
     ENABLE_NODEPORT_ACCELERATION := false; HAVE_ENCAP := false;
     ENABLE_IPV4_FRAGMENTS := true; ENABLE_IPV6_FRAGMENTS := true;
     ENABLE_MASQUERADE_IPV4 := false; ENABLE_MASQUERADE_IPV6 := false;
     ENABLE_SRV6 := false; TUNNEL_MODE := tunnel; ENABLE_VTEP := false;
     ENABLE_IPSEC := false; ENABLE_WIREGUARD := false; ENCRYPTION_STRICT_MODE := false;
     ENABLE_L2_ANNOUNCEMENTS := false; ENABLE_ARP_PASSTHROUGH := false;
     ENABLE_ARP_RESPONDER := true; ENABLE_IDENTITY_MARK := true;
     ENABLE_EGRESS_GATEWAY_COMMON := false; ENABLE_L7_LB := false;
     ENABLE_BANDWIDTH_MANAGER := false; ENABLE_HEALTH_CHECK := false;
     ENABLE_SKIP_FIB := false; ETH_HLEN := eth_hlen; IS_L3_DEV := l3_dev;
     VTEP_MASK := 0xffffff; THIS_INTERFACE_IFINDEX := 2; secctx_from_ipcache := secctx;
     interface_mac := CILIUM_HOST_MAC; direct_routing_dev_ifindex := 2;
     neigh_resolver_available := resolver |}.

(** Host firewall on, host routing on. *)
Definition cfg_hostfw : config := build true true false false true 14 (fun _ => false).
(** Host firewall off. *)
Definition cfg_plain : config := build false true false false true 14 (fun _ => false).

Definition be16_bytes (x : Z) : list Z := [Z.land (Z.shiftr x 8) 0xff; Z.land x 0xff].
Definition be32_bytes (x : Z) : list Z :=
  be16_bytes (Z.shiftr x 16) ++ be16_bytes (Z.land x 0xffff).
Definition be64_bytes (x : Z) : list Z :=
  be32_bytes (Z.shiftr x 32) ++ be32_bytes (Z.land x 0xffffffff).

Definition eth_header (ethertype : Z) : list Z :=
  CILIUM_NET_MAC ++ CILIUM_HOST_MAC ++ be16_bytes ethertype.

(** An Ethernet frame with a 20-byte IPv4 header (TCP, not fragmented). *)
Definition ipv4_frame (src dst : Z) : list Z :=
  eth_header ETH_P_IP
  ++ [0x45; 0; 0; 40; 0; 0; 0; 0; 64; 6; 0; 0] ++ be32_bytes src ++ be32_bytes dst.

(** An Ethernet frame with an IPv6 header (TCP). *)
Definition ipv6_frame (src dst : v6addr) : list Z :=
  eth_header ETH_P_IPV6
  ++ [0x60; 0; 0; 0; 0; 20; 6; 64]
  ++ be64_bytes (d1 src) ++ be64_bytes (d2 src)
  ++ be64_bytes (d1 dst) ++ be64_bytes (d2 dst).

Definition ip (a b c d : Z) : Z := ((a * 256 + b) * 256 + c) * 256 + d.

Definition packet (f : list Z) : ctx_buff :=
  {| mark := 0; vlan_present := false; vlan_tci := 0; ifindex := 2; ingress_ifindex := 2;
     tc_index := 0; cb := ∅; frame := f |}.

Definition vlan_packet (dev tci : Z) (f : list Z) : ctx_buff :=
  {| mark := 0; vlan_present := true; vlan_tci := tci; ifindex := dev;
     ingress_ifindex := dev; tc_index := 0; cb := ∅; frame := f |}.

Definition marked_packet (m : Z) (f : list Z) : ctx_buff :=
  {| mark := m; vlan_present := false; vlan_tci := 0; ifindex := 2; ingress_ifindex := 2;
     tc_index := 0; cb := ∅; frame := f |}.

Definition entry (id : Z) : remote_endpoint_info :=
  {| sec_identity := id; tunnel_endpoint := 0; flag_skip_tunnel := false;
     flag_has_tunnel_ep := false |}.

(** The node: the catch-all prefix maps to the world, 10.0.0.5 is a remote
    workload with identity 2000, 192.168.0.1 is the node itself and
    10.0.1.7 a local workload. *)
Definition the_node (enforce : bool) (verdict : Z) : node :=
  {| ipcache4 := [(ip 0 0 0 0, 0, entry WORLD_ID); (ip 10 0 0 5, 32, entry 2000);
                  (ip 192 168 0 1, 32, entry HOST_ID)];
     ipcache6 := [({| d1 := 0xfd00; d2 := 5 |}, entry 2000)];
     endpoints4 := [(ip 192 168 0 1, {| ep_ifindex := 1; ep_flags := 1; ep_sec_id := HOST_ID |});
                    (ip 10 0 1 7, {| ep_ifindex := 7; ep_flags := 0; ep_sec_id := 3000 |})];
     endpoints6 := [({| d1 := 0xfd00; d2 := 1 |},
                     {| ep_ifindex := 1; ep_flags := 1; ep_sec_id := HOST_ID |})];
     neigh4 := [];
     hostfw_enforce := enforce;
     ct_ret := 0;
     policy_verdict := verdict;
     redirects := [] |}.

(** A CPU whose transfer buffers have their one slot, zero-initialised, and
    whose program array is fully populated. *)
Definition cpu (c : ctx_buff) (w : node) : state node :=
  mkState c [ct_buffer4_zero] [ct_buffer6_zero] (fun _ => true) 0 [] w.

(** A CPU on which the maps have become unavailable: no slot in the
    transfer buffers, no program in the program array. *)
Definition cpu_without_maps (c : ctx_buff) (w : node) : state node :=
  mkState c [] [] (fun _ => false) 0 [] w.

Definition hdr4 (src dst : Z) : iphdr :=
  {| ip4_saddr := src; ip4_daddr := dst; ip4_protocol := 6; ip4_frag_off := 0 |}.
Definition hdr6 (src dst : v6addr) : ipv6hdr :=
  {| ip6_saddr := src; ip6_daddr := dst; ip6_nexthdr := 6 |}.
Definition fd00 (n : Z) : v6addr := {| d1 := 0xfd00; d2 := n |}.

(** A verdict of the host policy. *)
Definition DROP_POLICY_DENY : Z := -181.

(** From the remote workload to the node. *)
Definition to_node4 : ctx_buff := packet (ipv4_frame (ip 10 0 0 5) (ip 192 168 0 1)).
Definition to_node6 : ctx_buff := packet (ipv6_frame (fd00 5) (fd00 1)).

(** From the node. *)
Definition from_node4 (dst : Z) : ctx_buff := packet (ipv4_frame (ip 192 168 0 1) dst).
Definition from_node6 (dst : v6addr) : ctx_buff := packet (ipv6_frame (fd00 1) dst).

(** The same, handed over by the ingress proxy. *)
Definition from_proxy (c : ctx_buff) : ctx_buff :=
  {| mark := mark c; vlan_present := vlan_present c; vlan_tci := vlan_tci c;
     ifindex := ifindex c; ingress_ifindex := ingress_ifindex c; tc_index := 1;
     cb := cb c; frame := frame c |}.

(** The state in which the continuation handler starts after [handle_ipv4]
    / [handle_ipv6] has run on the packet to the node, with the host
    firewall enforcing and the policy giving [verdict]. *)
Definition to_node4_cont (verdict : Z) : state node :=
  across_chain_boundary 2000
    (snd (handle_ipv4 (cfg:=cfg_hostfw) (R:=Z) 2000 2000 false false 0
            (cpu to_node4 (the_node true verdict)))).
Definition to_node6_cont (verdict : Z) : state node :=
  across_chain_boundary 2000
    (snd (handle_ipv6 (cfg:=cfg_hostfw) (R:=Z) 2000 2000 false false 0
            (cpu to_node6 (the_node true verdict)))).

(** The continuation is to enforce, but the transfer buffers are gone. *)
Definition enforce_without_buffer (c : ctx_buff) : state node :=
  cpu_without_maps (cb_set c CB_FROM_HOST (from_host_flags true false)) (the_node true 0).

(** The continuation is to enforce, but the slot of the transfer buffer was
    never written. *)
Definition enforce_with_zeroed_buffer (c : ctx_buff) : state node :=
  cpu (cb_set c CB_FROM_HOST (from_host_flags true false)) (the_node true 0).

(** Builds without the neighbour resolver, and with interface 42 an L3
    device. *)
Definition cfg_no_resolver : config := build false true false false false 14 (fun _ => false).
Definition cfg_l3 : config := build false true false false true 14 (fun i => i =? 42).
Definition cfg_l3_no_resolver : config :=
  build false true false false false 14 (fun i => i =? 42).

(** The FIB parameters of a lookup towards [dst]. *)
Definition fib_to (dst : Z) : bpf_fib_lookup :=
  {| fib_family := AF_INET; fib_ifindex := 5;
     fib_ipv6_dst := v6addr_set_p1 v6addr_zero dst;
     fib_smac := CILIUM_HOST_MAC; fib_dmac := CILIUM_NET_MAC |}.

(** A frame tagged with [vlan_id] on the device [dev]. *)
Definition tagged (dev vlan_id : Z) : ctx_buff :=
  vlan_packet dev vlan_id (ipv4_frame (ip 10 0 0 5) (ip 192 168 0 1)).

(** A packet from the node that has been through SNAT. *)
Definition snat_done4 : ctx_buff :=
  marked_packet MARK_MAGIC_SNAT_DONE (ipv4_frame (ip 192 168 0 1) (ip 8 8 8 8)).

End Scenario.

(** * The rest of lib/fib.h and bpf_host.c

    The FIB entry points of lib/fib.h, and the programs of bpf_host.c
    attached to cilium_host and cilium_net, with the host-policy program
    the endpoints tail-call into. *)

(** Constants of headers that are not among the sources (lib/common.h,
    linux/if_packet.h); of the tail-call indices and of the metadata slot
    the development only uses that they differ from the others. *)
Definition DROP_NO_TUNNEL_ENDPOINT : Z := -160.
Definition MARK_MAGIC_TO_PROXY : Z := 0x0200.
Definition PACKET_HOST : Z := 0.
Definition CB_ENCRYPT_IDENTITY : Z := 4.
Definition CILIUM_CALL_IPV4_TO_HOST_POLICY_ONLY : Z := 22.
Definition CILIUM_CALL_IPV6_TO_HOST_POLICY_ONLY : Z := 23.

(** The [struct bpf_fib_lookup] handed to the kernel: the fields of
    [bpf_fib_lookup] together with the source address, which fib.h writes
    and never reads.  [fib_ipv6_src] is the storage of the union of
    [ipv4_src] and [ipv6_src]. *)
Record fib_lookup_args := {
  fib_l : bpf_fib_lookup;
  fib_ipv6_src : v6addr;
}.

(** [struct bpf_fib_lookup_padded fib_params = {0}] *)
Definition fib_lookup_args_zero : fib_lookup_args :=
  {| fib_l := fib_params_null; fib_ipv6_src := v6addr_zero |}.

(** [(__s8)ret]: the low eight bits, read as a signed number. *)
Definition to_s8 (x : Z) : Z := (x + 128) mod 256 - 128.

(** [DEBUG], the one feature macro of these functions that [config] does
    not have. *)
Record debug_config := { DEBUG : bool }.
Existing Class debug_config.

(** A trace notification, among the notifications recorded in the state. *)
Definition is_trace (e : event) : bool :=
  match e with EvTrace _ _ _ _ _ _ _ _ => true | _ => false end.

(** The collaborators of these functions, as in [Externals]. *)
Class HostExternals (world : Type) := {
  (* bpf/ctx/skb.h, bpf/helpers.h *)
  ctx_get_ifindex : ctx_buff -> Z;
  ctx_change_type : Z -> eff world Z;
  fib_lookup : fib_lookup_args -> Z -> eff world (Z * bpf_fib_lookup);
  (* lib/l3.h *)
  ipv4_l3 : Z -> option macaddr -> option macaddr -> iphdr -> eff world Z;
  ipv6_l3 : Z -> option macaddr -> option macaddr -> metric_dir -> eff world Z;
  (* lib/edt.h, lib/identity.h, lib/proxy.h *)
  edt_set_aggregate : Z -> ctx_buff -> ctx_buff;
  inherit_identity_from_host : Z -> eff world (Z * Z);
  ctx_redirect_to_proxy_first : Z -> eff world Z;
  (* lib/host_firewall.h *)
  ipv4_host_policy_ingress : Z -> trace_ctx -> Z -> eff world (Z * Z * trace_ctx * Z);
  ipv6_host_policy_ingress : Z -> trace_ctx -> Z -> eff world (Z * Z * trace_ctx * Z);
  (* lib/local_delivery.h, lib/tailcall.h *)
  local_delivery_fill_meta : Z -> bool -> bool -> bool -> Z -> ctx_buff -> ctx_buff;
  tail_call_policy : Z -> eff world tail_result;
}.

Section HostModel.
Context {cfg : config} {dbg : debug_config} {world : Type}
        `{!Externals world} `{!HostExternals world}.

(** ** lib/fib.h, the entry points *)

(** [switch (ret)] of the entry points: the lookup found no route when its
    result is neither [BPF_FIB_LKUP_RET_SUCCESS] nor
    [BPF_FIB_LKUP_RET_NO_NEIGH]. *)
Definition fib_failed (r : Z) : bool :=
  negb ((r =? BPF_FIB_LKUP_RET_SUCCESS) || (r =? BPF_FIB_LKUP_RET_NO_NEIGH)).

(** [fib_redirect]: the result is the return value with the values left in
    [*ext_err] and [*oif]. *)
Definition fib_redirect {R} (needs_l2_check : bool) (fib_params : fib_lookup_args)
    (use_neigh_map : bool) (ext_err : Z) (oif : Z) : prog world R (Z * Z * Z) :=
  call (
    if negb (ENABLE_SKIP_FIB cfg) || negb (neigh_resolver_available cfg) then
      let* (r, l) := extern (fib_lookup fib_params 0) in
      if (r =? BPF_FIB_LKUP_RET_SUCCESS) || (r =? BPF_FIB_LKUP_RET_NO_NEIGH) then
        let oif := fib_ifindex l in
        let* (r, ext_err) :=
          fib_do_redirect needs_l2_check (Some l) use_neigh_map r oif ext_err in
        ret (r, ext_err, oif)
      else
        ret (DROP_NO_FIB, to_s8 r, oif)
    else
      let oif := if ENABLE_SKIP_FIB cfg then direct_routing_dev_ifindex cfg else oif in
      let* (r, ext_err) :=
        fib_do_redirect needs_l2_check None use_neigh_map BPF_FIB_LKUP_RET_NO_NEIGH
                        oif ext_err in
      ret (r, ext_err, oif)).

(** [fib_lookup_v6] will perform a fib lookup with the src and dest
    addresses provided; the result is the return value and [fib_params] as
    the lookup leaves it. *)
Definition fib_lookup_v6 {R} (fib_params : fib_lookup_args) (ipv6_src ipv6_dst : v6addr)
    (flags : Z) : prog world R (Z * bpf_fib_lookup) :=
  call (
    let* ifx := gets_ctx ctx_get_ifindex in
    let fib_params :=
      {| fib_l := {| fib_family := AF_INET6; fib_ifindex := ifx;
                     fib_ipv6_dst := ipv6_dst;
                     fib_smac := fib_smac (fib_l fib_params);
                     fib_dmac := fib_dmac (fib_l fib_params) |};
         fib_ipv6_src := ipv6_src |} in
    let* r := extern (fib_lookup fib_params flags) in
    ret r).

Definition fib_redirect_v6 {R} (l3_off : Z) (ip6 : ipv6hdr) (needs_l2_check : bool)
    (allow_neigh_map : bool) (ext_err : Z) (oif : Z) : prog world R (Z * Z * Z) :=
  call (
    let fib_params := fib_lookup_args_zero in
    if negb (ENABLE_SKIP_FIB cfg) || negb (neigh_resolver_available cfg) then
      let* (fib_result, l) :=
        fib_lookup_v6 fib_params (ip6_saddr ip6) (ip6_daddr ip6) 0 in
      if (fib_result =? BPF_FIB_LKUP_RET_SUCCESS)
         || (fib_result =? BPF_FIB_LKUP_RET_NO_NEIGH) then
        let oif := fib_ifindex l in
        let* r := extern (ipv6_l3 l3_off None None METRIC_EGRESS) in
        if negb (r =? CTX_ACT_OK) then ret (r, ext_err, oif)
        else
          let* (r, ext_err) :=
            fib_do_redirect needs_l2_check (Some l) allow_neigh_map fib_result oif
                            ext_err in
          ret (r, ext_err, oif)
      else
        ret (DROP_NO_FIB, to_s8 fib_result, oif)
    else
      let* r := extern (ipv6_l3 l3_off None None METRIC_EGRESS) in
      if negb (r =? CTX_ACT_OK) then ret (r, ext_err, oif)
      else
        let oif := if ENABLE_SKIP_FIB cfg then direct_routing_dev_ifindex cfg else oif in
        let* (r, ext_err) :=
          fib_do_redirect needs_l2_check None allow_neigh_map BPF_FIB_LKUP_RET_NO_NEIGH
                          oif ext_err in
        ret (r, ext_err, oif)).

(** [fib_lookup_v4] will perform a fib lookup with the src and dest
    addresses provided. *)
Definition fib_lookup_v4 {R} (fib_params : fib_lookup_args) (ipv4_src ipv4_dst : Z)
    (flags : Z) : prog world R (Z * bpf_fib_lookup) :=
  call (
    let* ifx := gets_ctx ctx_get_ifindex in
    let fib_params :=
      {| fib_l := {| fib_family := AF_INET; fib_ifindex := ifx;
                     fib_ipv6_dst :=
                       v6addr_set_p1 (fib_ipv6_dst (fib_l fib_params)) ipv4_dst;
                     fib_smac := fib_smac (fib_l fib_params);
                     fib_dmac := fib_dmac (fib_l fib_params) |};
         fib_ipv6_src := v6addr_set_p1 (fib_ipv6_src fib_params) ipv4_src |} in
    let* r := extern (fib_lookup fib_params flags) in
    ret r).

Definition fib_redirect_v4 {R} (l3_off : Z) (ip4 : iphdr) (needs_l2_check : bool)
    (allow_neigh_map : bool) (ext_err : Z) (oif : Z) : prog world R (Z * Z * Z) :=
  call (
    let fib_params := fib_lookup_args_zero in
    if negb (ENABLE_SKIP_FIB cfg) || negb (neigh_resolver_available cfg) then
      let* (fib_result, l) :=
        fib_lookup_v4 fib_params (ip4_saddr ip4) (ip4_daddr ip4) 0 in
      if (fib_result =? BPF_FIB_LKUP_RET_SUCCESS)
         || (fib_result =? BPF_FIB_LKUP_RET_NO_NEIGH) then
        let oif := fib_ifindex l in
        let* r := extern (ipv4_l3 l3_off None None ip4) in
        if negb (r =? CTX_ACT_OK) then ret (r, ext_err, oif)
        else
          let* (r, ext_err) :=
            fib_do_redirect needs_l2_check (Some l) allow_neigh_map fib_result oif
                            ext_err in
          ret (r, ext_err, oif)
      else
        ret (DROP_NO_FIB, to_s8 fib_result, oif)
    else
      let* r := extern (ipv4_l3 l3_off None None ip4) in
      if negb (r =? CTX_ACT_OK) then ret (r, ext_err, oif)
      else
        let oif := if ENABLE_SKIP_FIB cfg then direct_routing_dev_ifindex cfg else oif in
        let* (r, ext_err) :=
          fib_do_redirect needs_l2_check None allow_neigh_map BPF_FIB_LKUP_RET_NO_NEIGH
                          oif ext_err in
        ret (r, ext_err, oif)).

(** ** bpf_host.c, the programs of cilium_host and cilium_net *)

(** [do_netdev_encrypt_encap] (compiled with [ENABLE_IPSEC] and
    [TUNNEL_MODE]). *)
Definition do_netdev_encrypt_encap {R} (proto : Z) (src_id : Z) : prog world R Z :=
  call (
    let trace := {| reason := TRACE_REASON_ENCRYPTED; monitor := 0 |} in
    if negb (eth_is_supported_ethertype proto) then ret DROP_UNSUPPORTED_L2
    else
      let* ep :=
        (if ENABLE_IPV6 cfg && (proto =? bpf_htons ETH_P_IPV6) then
           let* c := get_ctx in
           match revalidate_data6 c with
           | None => ret DROP_INVALID
           | Some ip6 =>
             gets_ext (fun w => lookup_ip6_remote_endpoint w (ip6_daddr ip6) 0)
           end
         else if ENABLE_IPV4 cfg && (proto =? bpf_htons ETH_P_IP) then
           let* c := get_ctx in
           match revalidate_data4 c with
           | None => ret DROP_INVALID
           | Some ip4 =>
             gets_ext (fun w => lookup_ip4_remote_endpoint w (ip4_daddr ip4) 0)
           end
         else pure None) in
      match ep with
      | None => ret DROP_NO_TUNNEL_ENDPOINT
      | Some ep =>
        if negb (flag_has_tunnel_ep ep) then ret DROP_NO_TUNNEL_ENDPOINT
        else
          modify_ctx (fun c => set_mark c 0) ;;
          let* r := extern (encap_and_redirect_with_nodeid ep src_id 0 trace proto) in
          ret r
      end).

(** [cil_from_host]: from-host is attached as a tc egress filter to the
    node's 'cilium_host' interface if present. *)
Definition cil_from_host {R} : prog world R Z :=
  call (
    let obs_point := TRACE_FROM_HOST in
    let identity := UNKNOWN_ID in
    (* Traffic from the host ns going through cilium_host device must
       not be subject to EDT rate-limiting. *)
    modify_ctx (edt_set_aggregate 0) ;;
    let* (ok, proto) := gets_ctx validate_ethertype in
    (if negb ok then
       let dst_sec_identity := UNKNOWN_ID in
       let src_sec_identity := HOST_ID in
       if ENABLE_HOST_FIREWALL cfg then
         let* v := send_drop_notify src_sec_identity dst_sec_identity TRACE_EP_ID_UNKNOWN
                                    DROP_UNSUPPORTED_L2 METRIC_EGRESS in
         ret v
       else
         send_trace_notify TRACE_TO_STACK src_sec_identity dst_sec_identity
                           TRACE_EP_ID_UNKNOWN TRACE_IFINDEX_UNKNOWN
                           TRACE_REASON_UNKNOWN 0 proto ;;
         (* Pass unknown traffic to the stack *)
         ret CTX_ACT_OK
     else pure tt) ;;
    (if ENABLE_L7_LB cfg then
       let* c := get_ctx in
       if Z.land (mark c) MARK_MAGIC_HOST_MASK =? MARK_MAGIC_PROXY_EGRESS_EPID then
         let lxc_id := Z.land (get_epid c) 0xffff in
         modify_ctx (fun c => set_mark c 0) ;;
         let* t := extern (tail_call_egress_policy lxc_id) in
         match t with
         | TailTaken v => exit v
         | TailMissed r =>
           let* v := send_drop_notify_error UNKNOWN_ID r METRIC_EGRESS in
           ret v
         end
       else pure tt
     else pure tt) ;;
    let* (magic, identity) := extern (inherit_identity_from_host identity) in
    let obs_point :=
      if (magic =? MARK_MAGIC_PROXY_INGRESS) || (magic =? MARK_MAGIC_PROXY_EGRESS)
      then TRACE_FROM_PROXY else obs_point in
    (if ENABLE_IPSEC cfg && (magic =? MARK_MAGIC_ENCRYPT) then
       let* c := get_ctx in
       send_trace_notify TRACE_FROM_STACK identity UNKNOWN_ID TRACE_EP_ID_UNKNOWN
                         (ingress_ifindex c) TRACE_REASON_ENCRYPTED 0 proto ;;
       let* r :=
         (if TUNNEL_MODE cfg then
            let* r := do_netdev_encrypt_encap proto identity in
            if IS_ERR r then
              let* v := send_drop_notify_error identity r METRIC_EGRESS in
              ret v
            else pure r
          else pure CTX_ACT_OK) in
       ret r
     else pure tt) ;;
    let* r := do_netdev proto identity obs_point true in
    ret r).

(** [tail_ipv6_host_policy_ingress], the program at
    [CILIUM_CALL_IPV6_TO_HOST_POLICY_ONLY]. *)
Definition tail_ipv6_host_policy_ingress {R} : prog world R Z :=
  call (
    let trace := {| reason := TRACE_REASON_UNKNOWN; monitor := 0 |} in
    let* src_id := ctx_load_meta CB_SRC_LABEL in
    let* traced_raw := ctx_load_meta CB_TRACED in
    let traced := negb (traced_raw =? 0) in
    let ext_err := 0 in
    let* (r, src_id, trace, ext_err) :=
      extern (ipv6_host_policy_ingress src_id trace ext_err) in
    if IS_ERR r then
      let* v := send_drop_notify_error_ext src_id r ext_err METRIC_INGRESS in
      ret v
    else
      when (negb traced)
           (send_trace_notify TRACE_TO_STACK src_id UNKNOWN_ID TRACE_EP_ID_UNKNOWN
                              CILIUM_HOST_IFINDEX (reason trace) (monitor trace)
                              (bpf_htons ETH_P_IPV6)) ;;
      ret r).

(** [tail_ipv4_host_policy_ingress], the program at
    [CILIUM_CALL_IPV4_TO_HOST_POLICY_ONLY]. *)
Definition tail_ipv4_host_policy_ingress {R} : prog world R Z :=
  call (
    let trace := {| reason := TRACE_REASON_UNKNOWN; monitor := TRACE_PAYLOAD_LEN |} in
    let* src_id := ctx_load_meta CB_SRC_LABEL in
    let* traced_raw := ctx_load_meta CB_TRACED in
    let traced := negb (traced_raw =? 0) in
    let ext_err := 0 in
    let* (r, src_id, trace, ext_err) :=
      extern (ipv4_host_policy_ingress src_id trace ext_err) in
    if IS_ERR r then
      let* v := send_drop_notify_error_ext src_id r ext_err METRIC_INGRESS in
      ret v
    else
      when (negb traced)
           (send_trace_notify TRACE_TO_STACK src_id UNKNOWN_ID TRACE_EP_ID_UNKNOWN
                              CILIUM_HOST_IFINDEX (reason trace) (monitor trace)
                              (bpf_htons ETH_P_IP)) ;;
      ret r).

(** The label [out] of [cil_to_host]. *)
Definition to_host_out {A} (r src_id ext_err : Z) (traced : bool) (trace : trace_ctx)
    (proto : Z) : prog world Z A :=
  if IS_ERR r then
    let* v := send_drop_notify_error_ext src_id r ext_err METRIC_INGRESS in
    ret v
  else
    when (negb traced)
         (send_trace_notify TRACE_TO_STACK src_id UNKNOWN_ID TRACE_EP_ID_UNKNOWN
                            CILIUM_HOST_IFINDEX (reason trace) (monitor trace) proto) ;;
    ret r.

(** The block of [cil_to_host] compiled with [ENABLE_IPSEC]: it falls
    through with the values of [ret], [proto], [trace] and [ext_err], or
    jumps to [out]. *)
Definition to_host_ipsec (r proto src_id : Z) (traced : bool) (trace : trace_ctx)
    (ext_err : Z) : prog world Z (Z * Z * trace_ctx * Z) :=
  (* Encryption stack needs this when IPSec headers are rewritten without
     FIB helper because we do not yet know correct MAC address which will
     cause the stack to mark as PACKET_OTHERHOST and drop. *)
  extern (ctx_change_type PACKET_HOST) ;;
  (if negb (TUNNEL_MODE cfg) then
     let* c := get_ctx in
     when ((mark c =? 0) && (THIS_INTERFACE_IFINDEX cfg =? CILIUM_NET_IFINDEX))
          (modify_ctx (fun c => set_mark c MARK_MAGIC_PROXY_TO_WORLD))
   else pure tt) ;;
  if ENABLE_NODEPORT cfg then
    let* c := get_ctx in
    if negb (Z.land (mark c) MARK_MAGIC_HOST_MASK =? MARK_MAGIC_ENCRYPT) then
      (* goto skip_ipsec_nodeport_revdnat *)
      pure (r, proto, trace, ext_err)
    else
      let* (ok, proto) := gets_ctx validate_ethertype in
      if negb ok then
        (* goto skip_ipsec_nodeport_revdnat *)
        pure (r, proto, trace, ext_err)
      else
        (* handle_nat_fwd() tail calls in the majority of cases, so control
           might never return to this program. *)
        let* (r, trace, ext_err) :=
          extern (handle_nat_fwd 0 src_id proto true trace ext_err) in
        if IS_ERR r then to_host_out r src_id ext_err traced trace proto
        else pure (r, proto, trace, ext_err)
  else pure (r, proto, trace, ext_err).

(** The block of [cil_to_host] compiled with [ENABLE_HOST_FIREWALL], up to
    the label [out]: the values of [ret], [proto] and [ext_err]. *)
Definition to_host_firewall (proto src_id : Z) (traced : bool) (ext_err : Z)
  : prog world Z (Z * Z * Z) :=
  let* (ok, proto) := gets_ctx validate_ethertype in
  if negb ok then pure (DROP_UNSUPPORTED_L2, proto, ext_err)
  else if (ENABLE_ARP_PASSTHROUGH cfg || ENABLE_ARP_RESPONDER cfg)
          && (proto =? bpf_htons ETH_P_ARP) then
    pure (CTX_ACT_OK, proto, ext_err)
  else if ENABLE_IPV6 cfg && (proto =? bpf_htons ETH_P_IPV6) then
    ctx_store_meta CB_SRC_LABEL src_id ;;
    ctx_store_meta CB_TRACED (if traced then 1 else 0) ;;
    let* (r, ext_err) :=
      tail_call_internal CILIUM_CALL_IPV6_TO_HOST_POLICY_ONLY
                         tail_ipv6_host_policy_ingress ext_err in
    pure (r, proto, ext_err)
  else if ENABLE_IPV4 cfg && (proto =? bpf_htons ETH_P_IP) then
    ctx_store_meta CB_SRC_LABEL src_id ;;
    ctx_store_meta CB_TRACED (if traced then 1 else 0) ;;
    let* (r, ext_err) :=
      tail_call_internal CILIUM_CALL_IPV4_TO_HOST_POLICY_ONLY
                         tail_ipv4_host_policy_ingress ext_err in
    pure (r, proto, ext_err)
  else pure (DROP_UNKNOWN_L3, proto, ext_err).

(** [cil_to_host]: to-host is attached as a tc ingress filter to both the
    'cilium_host' and 'cilium_net' devices if present. *)
Definition cil_to_host {R} : prog world R Z :=
  call (
    let* magic := ctx_load_meta CB_PROXY_MAGIC in
    let proto := 0 in
    let trace := {| reason := TRACE_REASON_UNKNOWN; monitor := 0 |} in
    let r := CTX_ACT_OK in
    let traced := false in
    let src_id := 0 in
    let ext_err := 0 in
    let* c := get_ctx in
    (* Prefer ctx->mark when it is set to one of the expected values. *)
    let magic :=
      if Z.land (mark c) MARK_MAGIC_HOST_MASK =? MARK_MAGIC_TO_PROXY then mark c
      else if ENABLE_IPSEC cfg
              && (Z.land (mark c) MARK_MAGIC_HOST_MASK =? MARK_MAGIC_ENCRYPT)
      then mark c
      else magic in
    if Z.land magic 0xFFFF =? MARK_MAGIC_TO_PROXY then
      (* Upper 16 bits may carry proxy port number *)
      let port := Z.land (Z.shiftr magic 16) 0xffff in
      (* We already traced this in the previous prog with more
         background context, skip trace here. *)
      let traced := true in
      ctx_store_meta CB_PROXY_MAGIC 0 ;;
      let* r := extern (ctx_redirect_to_proxy_first port) in
      to_host_out r src_id ext_err traced trace proto
    else
      let* src_id :=
        (if ENABLE_IPSEC cfg
            && (Z.land magic MARK_MAGIC_HOST_MASK =? MARK_MAGIC_ENCRYPT) then
           modify_ctx (fun c => set_mark c magic) ;;
           ctx_load_meta CB_ENCRYPT_IDENTITY
         else pure src_id) in
      let* (r, proto, trace, ext_err) :=
        (if ENABLE_IPSEC cfg then to_host_ipsec r proto src_id traced trace ext_err
         else pure (r, proto, trace, ext_err)) in
      let* (r, proto, ext_err) :=
        (if ENABLE_HOST_FIREWALL cfg then to_host_firewall proto src_id traced ext_err
         else pure (CTX_ACT_OK, proto, ext_err)) in
      to_host_out r src_id ext_err traced trace proto).

(** [to_host_from_lxc]: handles packet from a local endpoint entering the
    host namespace.  Applies ingress host policies. *)
Definition to_host_from_lxc {R} : prog world R Z :=
  call (
    let ext_err := 0 in
    let* (ok, proto) := gets_ctx validate_ethertype in
    let* (r, ext_err) :=
      (if negb ok then pure (DROP_UNSUPPORTED_L2, ext_err)
       else if (ENABLE_ARP_PASSTHROUGH cfg || ENABLE_ARP_RESPONDER cfg)
               && (proto =? bpf_htons ETH_P_ARP) then
         pure (CTX_ACT_OK, ext_err)
       else if ENABLE_IPV6 cfg && (proto =? bpf_htons ETH_P_IPV6) then
         ctx_store_meta CB_SRC_LABEL 0 ;;
         ctx_store_meta CB_TRACED 1 ;;
         invoke_tailcall_if (ENABLE_IPV4 cfg && ENABLE_IPV6 cfg || DEBUG dbg)
                            CILIUM_CALL_IPV6_TO_HOST_POLICY_ONLY
                            tail_ipv6_host_policy_ingress ext_err
       else if ENABLE_IPV4 cfg && (proto =? bpf_htons ETH_P_IP) then
         ctx_store_meta CB_SRC_LABEL 0 ;;
         ctx_store_meta CB_TRACED 1 ;;
         invoke_tailcall_if (ENABLE_IPV4 cfg && ENABLE_IPV6 cfg || DEBUG dbg)
                            CILIUM_CALL_IPV4_TO_HOST_POLICY_ONLY
                            tail_ipv4_host_policy_ingress ext_err
       else pure (DROP_UNKNOWN_L3, ext_err)) in
    if IS_ERR r then
      let* v := send_drop_notify_error_ext UNKNOWN_ID r ext_err METRIC_INGRESS in
      ret v
    else ret r).

(** [from_host_to_lxc]: handles packets that left the host namespace and
    will enter a local endpoint's namespace.  Applies egress host policies
    before handling control back to bpf_lxc.  The result is the return
    value and the value left in [*ext_err]. *)
Definition from_host_to_lxc {R} (ext_err : Z) : prog world R (Z * Z) :=
  call (
    let trace := {| reason := TRACE_REASON_UNKNOWN; monitor := 0 |} in
    let* (ok, proto) := gets_ctx validate_ethertype in
    if negb ok then ret (DROP_UNSUPPORTED_L2, ext_err)
    else if (ENABLE_ARP_PASSTHROUGH cfg || ENABLE_ARP_RESPONDER cfg)
            && (proto =? bpf_htons ETH_P_ARP) then
      ret (CTX_ACT_OK, ext_err)
    else if ENABLE_IPV6 cfg && (proto =? bpf_htons ETH_P_IPV6) then
      let* c := get_ctx in
      match revalidate_data6 c with
      | None => ret (DROP_INVALID, ext_err)
      | Some ip6 =>
        let* (r, trace, ext_err) :=
          extern (ipv6_host_policy_egress HOST_ID 0 ip6 trace ext_err) in
        ret (r, ext_err)
      end
    else if ENABLE_IPV4 cfg && (proto =? bpf_htons ETH_P_IP) then
      let* c := get_ctx in
      match revalidate_data4 c with
      | None => ret (DROP_INVALID, ext_err)
      | Some ip4 =>
        (* We only arrive here from bpf_lxc if we know the src_id is
           HOST_ID. *)
        let* (r, trace, ext_err) :=
          extern (ipv4_host_policy_egress HOST_ID 0 ip4 trace ext_err) in
        ret (r, ext_err)
      end
    else ret (DROP_UNKNOWN_L3, ext_err)).

(** [cil_host_policy]: when per-endpoint routes are enabled, packets to
    and from local endpoints will tail call into this program to enforce
    egress and ingress host policies. *)
Definition cil_host_policy {R} : prog world R Z :=
  call (
    if ENABLE_HOST_FIREWALL cfg then
      let* from_host_raw := ctx_load_meta CB_FROM_HOST in
      let from_host := negb (from_host_raw =? 0) in
      if from_host then
        let* lxc_id := ctx_load_meta CB_DST_ENDPOINT_ID in
        let src_sec_identity := HOST_ID in
        let ext_err := 0 in
        let* (r, ext_err) := from_host_to_lxc ext_err in
        let* r :=
          (if IS_ERR r then pure r
           else
             modify_ctx (local_delivery_fill_meta src_sec_identity false true false 0) ;;
             let* t := extern (tail_call_policy (Z.land lxc_id 0xffff)) in
             match t with
             | TailTaken v => exit v
             | TailMissed r => pure r
             end) in
        (* drop_err: *)
        let* v := send_drop_notify_error_ext src_sec_identity r ext_err METRIC_EGRESS in
        ret v
      else
        let* r := to_host_from_lxc in
        ret r
    else ret 0).

End HostModel.

(** ** The concrete node, continued

    The collaborators of the FIB entry points and of the cilium_host and
    cilium_net programs on the node of [Scenario]: the routing table knows
    the destinations the ipcache does not map to the world, the L3 rewrite
    refuses a packet whose TTL or hop limit has run out, and the ingress
    host policy gives the verdict of the node. *)
Module HostScenario.
Import Scenario.

(** A result of the kernel's FIB lookup without a route, and the verdict of
    the L3 rewrite for an expired TTL. *)
Definition BPF_FIB_LKUP_RET_NOT_FWDED : Z := 4.
Definition DROP_TTL_EXCEEDED : Z := -196.

Definition route (p : fib_lookup_args) : eff node (Z * bpf_fib_lookup) :=
  fun w c =>
    let l := fib_l p in
    let known :=
      if fib_family l =? AF_INET then
        match lpm4 (ipcache4 w) (fib_ipv4_dst l) None with
        | Some i => negb (sec_identity i =? WORLD_ID)
        | None => false
        end
      else non_null (assoc v6addr_eqb (ipcache6 w) (fib_ipv6_dst l)) in
    if known then
      let l' := {| fib_family := fib_family l; fib_ifindex := 5;
                   fib_ipv6_dst := fib_ipv6_dst l;
                   fib_smac := CILIUM_HOST_MAC;
                   fib_dmac := default [] (assoc Z.eqb (neigh4 w) (fib_ipv4_dst l)) |} in
      (if non_null (assoc Z.eqb (neigh4 w) (fib_ipv4_dst l))
       then BPF_FIB_LKUP_RET_SUCCESS else BPF_FIB_LKUP_RET_NO_NEIGH, l', c, w)
    else (BPF_FIB_LKUP_RET_NOT_FWDED, l, c, w).

Definition l3 (ttl_off : Z) (l3_off : Z) : eff node Z :=
  fun w c =>
    (if byte_at (frame c) (l3_off + ttl_off) <=? 1 then DROP_TTL_EXCEEDED else CTX_ACT_OK,
     c, w).

Definition identity_from_mark (identity : Z) : eff node (Z * Z) :=
  fun w c =>
    let magic := Z.land (mark c) MARK_MAGIC_HOST_MASK in
    (magic,
     if magic =? MARK_MAGIC_HOST then HOST_ID
     else if (magic =? MARK_MAGIC_IDENTITY) || (magic =? MARK_MAGIC_ENCRYPT)
             || (magic =? MARK_MAGIC_PROXY_INGRESS) || (magic =? MARK_MAGIC_PROXY_EGRESS)
     then Z.shiftr (mark c) 16
     else identity,
     set_mark c 0, w).

#[export] Instance node_host_externals : HostExternals node := {|
  ctx_get_ifindex := ifindex;
  ctx_change_type := fun _ => const 0;
  fib_lookup := fun p _ => route p;
  ipv4_l3 := fun l3_off _ _ _ => l3 8 l3_off;
  ipv6_l3 := fun l3_off _ _ _ => l3 7 l3_off;
  edt_set_aggregate := fun _ c => c;
  inherit_identity_from_host := identity_from_mark;
  ctx_redirect_to_proxy_first := fun port => redirect false port;
  ipv4_host_policy_ingress := fun src trace ext_err =>
    policy (fun v => (v, src, trace, ext_err));
  ipv6_host_policy_ingress := fun src trace ext_err =>
    policy (fun v => (v, src, trace, ext_err));
  local_delivery_fill_meta := fun _ _ _ _ _ c => c;
  tail_call_policy := fun _ => const (TailMissed DROP_MISSED_TAIL_CALL);
|}.

#[export] Instance no_debug : debug_config := {| DEBUG := false |}.

(** Variants of a build: without fragment support, with [ENABLE_SKIP_FIB],
    with IPsec, with the L7 load balancer. *)
Definition variant (base : config) (no_frag skip_fib ipsec l7_lb : bool) : config :=
  {| ENABLE_IPV4 := ENABLE_IPV4 base; ENABLE_IPV6 := ENABLE_IPV6 base;
     ENABLE_HOST_FIREWALL := ENABLE_HOST_FIREWALL base;
     ENABLE_HOST_ROUTING := ENABLE_HOST_ROUTING base;
     ENABLE_NODEPORT := ENABLE_NODEPORT base;
     ENABLE_NODEPORT_ACCELERATION := ENABLE_NODEPORT_ACCELERATION base;
     HAVE_ENCAP := HAVE_ENCAP base;
     ENABLE_IPV4_FRAGMENTS := negb no_frag; ENABLE_IPV6_FRAGMENTS := negb no_frag;
     ENABLE_MASQUERADE_IPV4 := ENABLE_MASQUERADE_IPV4 base;
     ENABLE_MASQUERADE_IPV6 := ENABLE_MASQUERADE_IPV6 base;
     ENABLE_SRV6 := ENABLE_SRV6 base; TUNNEL_MODE := TUNNEL_MODE base;
     ENABLE_VTEP := ENABLE_VTEP base; ENABLE_IPSEC := ipsec;
     ENABLE_WIREGUARD := ENABLE_WIREGUARD base;
     ENCRYPTION_STRICT_MODE := ENCRYPTION_STRICT_MODE base;
     ENABLE_L2_ANNOUNCEMENTS := ENABLE_L2_ANNOUNCEMENTS base;
     ENABLE_ARP_PASSTHROUGH := ENABLE_ARP_PASSTHROUGH base;
     ENABLE_ARP_RESPONDER := ENABLE_ARP_RESPONDER base;
     ENABLE_IDENTITY_MARK := ENABLE_IDENTITY_MARK base;
     ENABLE_EGRESS_GATEWAY_COMMON := ENABLE_EGRESS_GATEWAY_COMMON base;
     ENABLE_L7_LB := l7_lb;
     ENABLE_BANDWIDTH_MANAGER := ENABLE_BANDWIDTH_MANAGER base;
     ENABLE_HEALTH_CHECK := ENABLE_HEALTH_CHECK base;
     ENABLE_SKIP_FIB := skip_fib; ETH_HLEN := ETH_HLEN base; IS_L3_DEV := IS_L3_DEV base;
     VTEP_MASK := VTEP_MASK base; THIS_INTERFACE_IFINDEX := THIS_INTERFACE_IFINDEX base;
     secctx_from_ipcache := secctx_from_ipcache base;
     interface_mac := interface_mac base;
     direct_routing_dev_ifindex := direct_routing_dev_ifindex base;
     neigh_resolver_available := neigh_resolver_available base |}.

Definition cfg_no_frag : config := variant cfg_plain true false false false.
Definition cfg_skip_fib : config := variant cfg_plain false true false false.
Definition cfg_ipsec : config := variant cfg_plain false false true false.
Definition cfg_l7_lb : config := variant cfg_plain false false false true.
(** Tunnel routing, with and without IPsec. *)
Definition cfg_tunnel : config := build false true true false true 14 (fun _ => false).
Definition cfg_ipsec_tunnel : config := variant cfg_tunnel false false true false.
(** Without host routing. *)
Definition cfg_legacy_routing : config := build false false false false true 14 (fun _ => false).
(** Attached to a device without an Ethernet header. *)
Definition cfg_l3_src : config := build false true false false true 0 (fun _ => false).
(** A build with IPv4 only. *)
Definition cfg_v4_only : config :=
  {| ENABLE_IPV4 := true; ENABLE_IPV6 := false; ENABLE_HOST_FIREWALL := true;
     ENABLE_HOST_ROUTING := true; ENABLE_NODEPORT := false;
     ENABLE_NODEPORT_ACCELERATION := false; HAVE_ENCAP := false;
     ENABLE_IPV4_FRAGMENTS := true; ENABLE_IPV6_FRAGMENTS := true;
     ENABLE_MASQUERADE_IPV4 := false; ENABLE_MASQUERADE_IPV6 := false;
     ENABLE_SRV6 := false; TUNNEL_MODE := false; ENABLE_VTEP := false;
     ENABLE_IPSEC := false; ENABLE_WIREGUARD := false; ENCRYPTION_STRICT_MODE := false;
     ENABLE_L2_ANNOUNCEMENTS := false; ENABLE_ARP_PASSTHROUGH := false;
     ENABLE_ARP_RESPONDER := true; ENABLE_IDENTITY_MARK := true;
     ENABLE_EGRESS_GATEWAY_COMMON := false; ENABLE_L7_LB := false;
     ENABLE_BANDWIDTH_MANAGER := false; ENABLE_HEALTH_CHECK := false;
     ENABLE_SKIP_FIB := false; ETH_HLEN := 14; IS_L3_DEV := fun _ => false;
     VTEP_MASK := 0xffffff; THIS_INTERFACE_IFINDEX := 2; secctx_from_ipcache := false;
     interface_mac := CILIUM_HOST_MAC; direct_routing_dev_ifindex := 2;
     neigh_resolver_available := true |}.

(** The node with a remote node behind a tunnel: 10.0.2.0/24 and fd00::2
    are reached through the tunnel endpoint 192.168.0.2. *)
Definition tunnel_entry : remote_endpoint_info :=
  {| sec_identity := 4000; tunnel_endpoint := ip 192 168 0 2; flag_skip_tunnel := false;
     flag_has_tunnel_ep := true |}.

Definition node_with_tunnel : node :=
  {| ipcache4 := (ip 10 0 2 0, 24, tunnel_entry) :: ipcache4 (the_node false 0);
     ipcache6 := (fd00 2, tunnel_entry) :: ipcache6 (the_node false 0);
     endpoints4 := endpoints4 (the_node false 0);
     endpoints6 := endpoints6 (the_node false 0);
     neigh4 := []; hostfw_enforce := false; ct_ret := 0; policy_verdict := 0;
     redirects := [] |}.

(** Frames: a fragment, a packet whose TTL has run out, a frame too short
    for an Ethernet header, and an LLDP frame. *)
Definition fragment4 : ctx_buff :=
  packet (<[20%nat := 0x20]> (ipv4_frame (ip 10 0 0 5) (ip 192 168 0 1))).
Definition expired4 (dst : Z) : ctx_buff :=
  packet (<[22%nat := 1]> (ipv4_frame (ip 192 168 0 1) dst)).
Definition expired6 (dst : v6addr) : ctx_buff :=
  packet (<[21%nat := 1]> (ipv6_frame (fd00 1) dst)).
Definition runt : ctx_buff := packet [0; 1; 2].
Definition lldp : ctx_buff := packet (eth_header 0x88cc ++ [0; 0; 0; 0]).

(** A packet carrying [m] in its mark. *)
Definition marked4 (m : Z) : ctx_buff :=
  marked_packet m (ipv4_frame (ip 192 168 0 1) (ip 10 0 0 5)).

(** States: a packet from the node to the remote workload; a packet from
    the host to the local workload 10.0.1.7, handed over by bpf_lxc with
    [CB_FROM_HOST] set; a packet from the network marked for decryption. *)
Definition to_workload : state node := cpu (from_node4 (ip 10 0 0 5)) (the_node false 0).
Definition from_host_to_local : state node :=
  cpu (cb_set (from_node4 (ip 10 0 1 7)) CB_FROM_HOST 1) (the_node true 0).
Definition to_decrypt : state node :=
  cpu (marked_packet MARK_MAGIC_DECRYPT (ipv4_frame (ip 10 0 0 5) (ip 192 168 0 1)))
      (the_node false 0).

End HostScenario.

(** * Properties *)

Section Proofs.
Context {cfg : config} {world : Type} `{!Externals world}.

(** *** Sequencing *)

Lemma bind_next {R A B} (m : prog world R A) (k : A -> prog world R B) s a s1 :
  m s = (Next a, s1) -> bind m k s = k a s1.
Proof. unfold bind. intros ->. reflexivity. Qed.

Lemma bind_return {R A B} (m : prog world R A) (k : A -> prog world R B) s r s1 :
  m s = (Return r, s1) -> bind m k s = (Return r, s1).
Proof. unfold bind. intros ->. reflexivity. Qed.

Lemma bind_exit {R A B} (m : prog world R A) (k : A -> prog world R B) s v s1 :
  m s = (Exit v, s1) -> bind m k s = (Exit v, s1).
Proof. unfold bind. intros ->. reflexivity. Qed.

(** ** Source-identity resolution *)

(** What a run of the resolver yields, and the state it leaves. *)
Lemma resolve_srcid_ipv4_run {R} ip4 inband ipc from_host (s : state world) :
  resolve_srcid_ipv4 (cfg:=cfg) (R:=R) ip4 inband ipc from_host s =
    let info := lookup_ip4_remote_endpoint (ext s) (ip4_saddr ip4) 0 in
    let reserved := identity_is_reserved inband in
    (Next (resolve_srcid_spec (WORLD_IPV4_ID cfg) (secctx_from_ipcache cfg)
                              reserved info inband from_host,
           ipcache_out reserved info ipc),
     if reserved then
       add_event s (EvDbg (if non_null info then DBG_IP_ID_MAP_SUCCEED4
                           else DBG_IP_ID_MAP_FAILED4)
                          (ip4_saddr ip4) (ipcache_derived_identity reserved info inband))
     else s).
Proof.
  unfold resolve_srcid_ipv4, resolve_srcid_spec, ipcache_derived_identity, ipcache_out.
  unfold call, bind. simpl.
  destruct (identity_is_reserved inband); simpl.
  - unfold gets_ext, cilium_dbg, emit, pure, ret, bind. simpl.
    destruct (lookup_ip4_remote_endpoint (ext s) (ip4_saddr ip4) 0) as [i|]; simpl.
    + destruct (sec_identity i =? HOST_ID); simpl;
        destruct from_host, (secctx_from_ipcache cfg); reflexivity.
    + destruct from_host, (secctx_from_ipcache cfg); reflexivity.
  - unfold pure, ret. simpl. destruct from_host, (secctx_from_ipcache cfg); reflexivity.
Qed.

Lemma resolve_srcid_ipv6_run {R} ip6 inband ipc from_host (s : state world) :
  resolve_srcid_ipv6 (cfg:=cfg) (R:=R) ip6 inband ipc from_host s =
    let info := lookup_ip6_remote_endpoint (ext s) (ip6_saddr ip6) 0 in
    let reserved := identity_is_reserved inband in
    (Next (resolve_srcid_spec (WORLD_IPV6_ID cfg) (secctx_from_ipcache cfg)
                              reserved info inband from_host,
           ipcache_out reserved info ipc),
     if reserved then
       add_event s (EvDbg (if non_null info then DBG_IP_ID_MAP_SUCCEED6
                           else DBG_IP_ID_MAP_FAILED6)
                          (v6addr_p4 (ip6_saddr ip6))
                          (ipcache_derived_identity reserved info inband))
     else s).
Proof.
  unfold resolve_srcid_ipv6, resolve_srcid_spec, ipcache_derived_identity, ipcache_out.
  unfold call, bind. simpl.
  destruct (identity_is_reserved inband); simpl.
  - unfold gets_ext, cilium_dbg, emit, pure, ret, bind. simpl.
    destruct (lookup_ip6_remote_endpoint (ext s) (ip6_saddr ip6) 0) as [i|]; simpl.
    + destruct (sec_identity i =? HOST_ID); simpl;
        destruct from_host, (secctx_from_ipcache cfg); reflexivity.
    + destruct from_host, (secctx_from_ipcache cfg); reflexivity.
  - unfold pure, ret. simpl. destruct from_host, (secctx_from_ipcache cfg); reflexivity.
Qed.


(** C1 (amended).  For a source address present in the remote-endpoint table
    with a non-host, non-reserved identity, and an in-band identity that is
    one of the reserved placeholder values, [resolve_srcid_ipv4] and
    [resolve_srcid_ipv6] return the table identity when the direction is
    from-host or [secctx_from_ipcache] is set, and the world identity of the
    address family otherwise; the table identity is also what is left in
    [*sec_identity].  An in-band identity that is not reserved is not looked
    up: it is returned instead of the table identity (the world identity
    under the same exception). *)
Theorem resolve_srcid_adopts_table_identity :
  (forall (s : state world) (ip4 : iphdr) (inband ipc : Z) (from_host : bool)
          (info : remote_endpoint_info),
      lookup_ip4_remote_endpoint (ext s) (ip4_saddr ip4) 0 = Some info ->
      sec_identity info <> HOST_ID ->
      identity_is_reserved (sec_identity info) = false ->
      (identity_is_reserved inband = true ->
       fst (resolve_srcid_ipv4 (R:=Z) ip4 inband ipc from_host s)
       = Next (if from_host || secctx_from_ipcache cfg then sec_identity info
               else WORLD_IPV4_ID cfg,
               sec_identity info))
      /\ (identity_is_reserved inband = false ->
          fst (resolve_srcid_ipv4 (R:=Z) ip4 inband ipc from_host s)
          = Next (if from_host || secctx_from_ipcache cfg then inband
                  else WORLD_IPV4_ID cfg,
                  ipc)))
  /\ (forall (s : state world) (ip6 : ipv6hdr) (inband ipc : Z) (from_host : bool)
             (info : remote_endpoint_info),
      lookup_ip6_remote_endpoint (ext s) (ip6_saddr ip6) 0 = Some info ->
      sec_identity info <> HOST_ID ->
      identity_is_reserved (sec_identity info) = false ->
      (identity_is_reserved inband = true ->
       fst (resolve_srcid_ipv6 (R:=Z) ip6 inband ipc from_host s)
       = Next (if from_host || secctx_from_ipcache cfg then sec_identity info
               else WORLD_IPV6_ID cfg,
               sec_identity info))
      /\ (identity_is_reserved inband = false ->
          fst (resolve_srcid_ipv6 (R:=Z) ip6 inband ipc from_host s)
          = Next (if from_host || secctx_from_ipcache cfg then inband
                  else WORLD_IPV6_ID cfg,
                  ipc))).
Proof.
  split; intros s hdr inband ipc from_host info Hlookup Hhost _.
  - rewrite resolve_srcid_ipv4_run; cbn zeta; rewrite Hlookup.
    apply Z.eqb_neq in Hhost.
    split; intros ->; simpl;
      unfold resolve_srcid_spec, ipcache_derived_identity; rewrite ?Hhost;
      destruct from_host, (secctx_from_ipcache cfg); reflexivity.
  - rewrite resolve_srcid_ipv6_run; cbn zeta; rewrite Hlookup.
    apply Z.eqb_neq in Hhost.
    split; intros ->; simpl;
      unfold resolve_srcid_spec, ipcache_derived_identity; rewrite ?Hhost;
      destruct from_host, (secctx_from_ipcache cfg); reflexivity.
Qed.

Lemma only_events_added_refl (s : state world) : only_events_added s s.
Proof. repeat split; exists []; symmetry; apply app_nil_r. Qed.

Lemma only_events_added_event (s : state world) e : only_events_added s (add_event s e).
Proof. repeat split; exists [e]; reflexivity. Qed.

(** C9.  [resolve_srcid_ipv4] and [resolve_srcid_ipv6] leave the packet
    context (and the tables and transfer buffers) as they found it, only
    appending a debug notification; the identity they return is the pure
    function [resolve_srcid_spec] of the in-band identity, the direction,
    the table's answer for the source address and the configuration flag;
    and running them again on the state they leave, with the same
    arguments, yields the same result. *)
Theorem resolve_srcid_read_only_idempotent :
  forall (s : state world) (inband ipc : Z) (from_host : bool),
    (forall ip4 : iphdr,
        let r := resolve_srcid_ipv4 (R:=Z) ip4 inband ipc from_host s in
        only_events_added s (snd r)
        /\ fst r = Next (resolve_srcid_spec (WORLD_IPV4_ID cfg) (secctx_from_ipcache cfg)
                           (identity_is_reserved inband)
                           (lookup_ip4_remote_endpoint (ext s) (ip4_saddr ip4) 0)
                           inband from_host,
                         ipcache_out (identity_is_reserved inband)
                           (lookup_ip4_remote_endpoint (ext s) (ip4_saddr ip4) 0) ipc)
        /\ fst (resolve_srcid_ipv4 (R:=Z) ip4 inband ipc from_host (snd r)) = fst r)
    /\ (forall ip6 : ipv6hdr,
        let r := resolve_srcid_ipv6 (R:=Z) ip6 inband ipc from_host s in
        only_events_added s (snd r)
        /\ fst r = Next (resolve_srcid_spec (WORLD_IPV6_ID cfg) (secctx_from_ipcache cfg)
                           (identity_is_reserved inband)
                           (lookup_ip6_remote_endpoint (ext s) (ip6_saddr ip6) 0)
                           inband from_host,
                         ipcache_out (identity_is_reserved inband)
                           (lookup_ip6_remote_endpoint (ext s) (ip6_saddr ip6) 0) ipc)
        /\ fst (resolve_srcid_ipv6 (R:=Z) ip6 inband ipc from_host (snd r)) = fst r).
Proof.
  intros s inband ipc from_host; split; intros hdr; cbn zeta.
  - assert (Hs : only_events_added s
                   (snd (resolve_srcid_ipv4 (R:=Z) hdr inband ipc from_host s))).
    { rewrite resolve_srcid_ipv4_run; cbn zeta; simpl.
      destruct (identity_is_reserved inband);
        [apply only_events_added_event | apply only_events_added_refl]. }
    split; [exact Hs|]. split.
    + rewrite resolve_srcid_ipv4_run; reflexivity.
    + rewrite !resolve_srcid_ipv4_run; cbn zeta; simpl.
      destruct (identity_is_reserved inband); reflexivity.
  - assert (Hs : only_events_added s
                   (snd (resolve_srcid_ipv6 (R:=Z) hdr inband ipc from_host s))).
    { rewrite resolve_srcid_ipv6_run; cbn zeta; simpl.
      destruct (identity_is_reserved inband);
        [apply only_events_added_event | apply only_events_added_refl]. }
    split; [exact Hs|]. split.
    + rewrite resolve_srcid_ipv6_run; reflexivity.
    + rewrite !resolve_srcid_ipv6_run; cbn zeta; simpl.
      destruct (identity_is_reserved inband); reflexivity.
Qed.


(** ** The host firewall across the chain boundary *)

Lemma handle_ipv4_store_fails (s : state world) secctx ipc from_host punt ext_err
    is_host_id b punt' ext_err' s1 :
  ENABLE_HOST_FIREWALL cfg = true ->
  handle_ipv4_precheck secctx ipc from_host punt ext_err s
  = (Next (true, is_host_id, b, punt', ext_err'), s1) ->
  fst (map_update_elem (cilium_tail_call_buffer4 s1) 0 b 0) < 0 ->
  fst (handle_ipv4 (R:=Z) secctx ipc from_host punt ext_err s)
  = Next (DROP_INVALID_TC_BUFFER, punt', ext_err').
Proof.
  intros Hfw Hpre Hfail.
  unfold handle_ipv4, call, bind. rewrite Hpre, Hfw.
  unfold when, bind, tail_call_buffer4_update.
  destruct (map_update_elem (cilium_tail_call_buffer4 s1) 0 b 0) as [r m].
  simpl in Hfail. apply Z.ltb_lt in Hfail. rewrite Hfail. reflexivity.
Qed.

Lemma handle_ipv4_cont_buffer_invalid (s : state world) secctx from_host ext_err ip4 :
  ENABLE_HOST_FIREWALL cfg = true ->
  revalidate_data4 (ctx s) = Some ip4 ->
  Z.land (cb_get (ctx s) CB_FROM_HOST) FROM_HOST_FLAG_NEED_HOSTFW <> 0 ->
  (map_lookup_elem (cilium_tail_call_buffer4 s) 0 = None
   \/ exists b, map_lookup_elem (cilium_tail_call_buffer4 s) 0 = Some b
               /\ t4_saddr (cb4_tuple b) = 0) ->
  fst (handle_ipv4_cont (R:=Z) secctx from_host ext_err s)
  = Next (DROP_INVALID_TC_BUFFER, ext_err).
Proof.
  intros Hfw Hrev Hflag Hbuf.
  unfold handle_ipv4_cont, call, bind, get_ctx.
  destruct (proxy_provenance from_host (ctx s)) as [from_proxy magic].
  rewrite Hrev.
  unfold ipv4_host_firewall_apply, bind, ctx_load_and_clear_meta, bind,
    ctx_load_meta, gets_ctx, ctx_store_meta, modify_ctx, pure.
  rewrite Hfw.
  all: apply Z.eqb_neq in Hflag; rewrite Hflag; simpl.
  all: unfold tail_call_buffer4_lookup; simpl.
  all: destruct Hbuf as [Hb | (b & Hb & Hz)]; rewrite Hb; [reflexivity|].
  all: unfold ipv4_host_firewall_enforce; rewrite Hz; reflexivity.
Qed.

Lemma handle_ipv6_store_fails (s : state world) secctx ipc from_host punt ext_err
    is_host_id b punt' ext_err' s1 :
  ENABLE_HOST_FIREWALL cfg = true ->
  handle_ipv6_precheck secctx ipc from_host punt ext_err s
  = (Next (true, is_host_id, b, punt', ext_err'), s1) ->
  fst (map_update_elem (cilium_tail_call_buffer6 s1) 0 b 0) < 0 ->
  fst (handle_ipv6 (R:=Z) secctx ipc from_host punt ext_err s)
  = Next (DROP_INVALID_TC_BUFFER, punt', ext_err').
Proof.
  intros Hfw Hpre Hfail.
  unfold handle_ipv6, call, bind. rewrite Hpre, Hfw.
  unfold when, bind, tail_call_buffer6_update.
  destruct (map_update_elem (cilium_tail_call_buffer6 s1) 0 b 0) as [r m].
  simpl in Hfail. apply Z.ltb_lt in Hfail. rewrite Hfail. reflexivity.
Qed.

Lemma handle_ipv6_cont_buffer_invalid (s : state world) secctx from_host ext_err ip6 :
  ENABLE_HOST_FIREWALL cfg = true ->
  revalidate_data6 (ctx s) = Some ip6 ->
  Z.land (cb_get (ctx s) CB_FROM_HOST) FROM_HOST_FLAG_NEED_HOSTFW <> 0 ->
  (map_lookup_elem (cilium_tail_call_buffer6 s) 0 = None
   \/ exists b, map_lookup_elem (cilium_tail_call_buffer6 s) 0 = Some b
               /\ d1 (t6_saddr (cb6_tuple b)) = 0 /\ d2 (t6_saddr (cb6_tuple b)) = 0) ->
  fst (handle_ipv6_cont (R:=Z) secctx from_host ext_err s)
  = Next (DROP_INVALID_TC_BUFFER, ext_err).
Proof.
  intros Hfw Hrev Hflag Hbuf.
  unfold handle_ipv6_cont, call, bind, get_ctx.
  destruct (proxy_provenance from_host (ctx s)) as [from_proxy magic].
  rewrite Hrev.
  unfold ipv6_host_firewall_apply, bind, ctx_load_and_clear_meta, bind,
    ctx_load_meta, gets_ctx, ctx_store_meta, modify_ctx, pure.
  rewrite Hfw.
  all: apply Z.eqb_neq in Hflag; rewrite Hflag; simpl.
  all: unfold tail_call_buffer6_lookup; simpl.
  all: destruct Hbuf as [Hb | (b & Hb & Hz1 & Hz2)]; rewrite Hb; [reflexivity|].
  all: unfold ipv6_host_firewall_enforce; rewrite Hz1, Hz2; reflexivity.
Qed.

(** C2.  With the host firewall enabled the firewall path fails closed on
    the transfer buffer.  Pre-check: when [handle_ipv4] / [handle_ipv6] has
    determined [need_hostfw = true] and the store into the per-CPU buffer
    fails, it returns [DROP_INVALID_TC_BUFFER].  Apply: when
    [handle_ipv4_cont] / [handle_ipv6_cont] is to enforce (the
    [FROM_HOST_FLAG_NEED_HOSTFW] bit is set in [CB_FROM_HOST]) and finds
    the buffer absent, or its tuple's source address all-zero, it returns
    [DROP_INVALID_TC_BUFFER]. *)
Theorem host_firewall_fails_closed_on_transfer_buffer :
  ENABLE_HOST_FIREWALL cfg = true ->
  (forall (s : state world) secctx ipc from_host punt ext_err is_host_id b punt' ext_err' s1,
      handle_ipv4_precheck secctx ipc from_host punt ext_err s
      = (Next (true, is_host_id, b, punt', ext_err'), s1) ->
      fst (map_update_elem (cilium_tail_call_buffer4 s1) 0 b 0) < 0 ->
      fst (handle_ipv4 (R:=Z) secctx ipc from_host punt ext_err s)
      = Next (DROP_INVALID_TC_BUFFER, punt', ext_err'))
  /\ (forall (s : state world) secctx ipc from_host punt ext_err is_host_id b punt' ext_err' s1,
      handle_ipv6_precheck secctx ipc from_host punt ext_err s
      = (Next (true, is_host_id, b, punt', ext_err'), s1) ->
      fst (map_update_elem (cilium_tail_call_buffer6 s1) 0 b 0) < 0 ->
      fst (handle_ipv6 (R:=Z) secctx ipc from_host punt ext_err s)
      = Next (DROP_INVALID_TC_BUFFER, punt', ext_err'))
  /\ (forall (s : state world) secctx from_host ext_err ip4,
      revalidate_data4 (ctx s) = Some ip4 ->
      Z.land (cb_get (ctx s) CB_FROM_HOST) FROM_HOST_FLAG_NEED_HOSTFW <> 0 ->
      (map_lookup_elem (cilium_tail_call_buffer4 s) 0 = None
       \/ exists b, map_lookup_elem (cilium_tail_call_buffer4 s) 0 = Some b
                   /\ t4_saddr (cb4_tuple b) = 0) ->
      fst (handle_ipv4_cont (R:=Z) secctx from_host ext_err s)
      = Next (DROP_INVALID_TC_BUFFER, ext_err))
  /\ (forall (s : state world) secctx from_host ext_err ip6,
      revalidate_data6 (ctx s) = Some ip6 ->
      Z.land (cb_get (ctx s) CB_FROM_HOST) FROM_HOST_FLAG_NEED_HOSTFW <> 0 ->
      (map_lookup_elem (cilium_tail_call_buffer6 s) 0 = None
       \/ exists b, map_lookup_elem (cilium_tail_call_buffer6 s) 0 = Some b
                   /\ d1 (t6_saddr (cb6_tuple b)) = 0 /\ d2 (t6_saddr (cb6_tuple b)) = 0) ->
      fst (handle_ipv6_cont (R:=Z) secctx from_host ext_err s)
      = Next (DROP_INVALID_TC_BUFFER, ext_err)).
Proof.
  intros Hfw. repeat split; intros.
  - eapply handle_ipv4_store_fails; eauto.
  - eapply handle_ipv6_store_fails; eauto.
  - eapply handle_ipv4_cont_buffer_invalid; eauto.
  - eapply handle_ipv6_cont_buffer_invalid; eauto.
Qed.


(** *** The kernel's array map: what was stored is what is read *)

Lemma map_update_lookup {V} (m m' : list V) (key : Z) (v : V) (flags r : Z) :
  map_update_elem m key v flags = (r, m') -> 0 <= r -> map_lookup_elem m' key = Some v.
Proof.
  unfold map_update_elem, map_lookup_elem.
  destruct (BPF_EXIST <? flags); [intros [= <- <-]; unfold EINVAL; lia|].
  destruct (key <? 0) eqn:Hk; simpl; [intros [= <- <-]; unfold E2BIG; lia|].
  destruct (Z.of_nat (length m) <=? key) eqn:Hlen; [intros [= <- <-]; unfold E2BIG; lia|].
  destruct (flags =? BPF_NOEXIST); [intros [= <- <-]; unfold EEXIST; lia|].
  intros [= <- <-] _. apply list_lookup_insert_eq.
  apply Z.leb_gt in Hlen. apply Z.ltb_ge in Hk. lia.
Qed.

Lemma map_update_fails {V} (m m' : list V) (key : Z) (v : V) (flags r : Z) :
  map_update_elem m key v flags = (r, m') -> r < 0 -> m' = m.
Proof.
  unfold map_update_elem.
  destruct (BPF_EXIST <? flags); [intros [= <- <-]; reflexivity|].
  destruct ((key <? 0) || (Z.of_nat (length m) <=? key)); [intros [= <- <-]; reflexivity|].
  destruct (flags =? BPF_NOEXIST); [intros [= <- <-]; reflexivity|].
  intros [= <- <-]. lia.
Qed.

(** *** The flags in [CB_FROM_HOST]: what was encoded is what is decoded *)

Lemma from_host_flags_need (need_hostfw is_host_id : bool) :
  negb (Z.land (from_host_flags need_hostfw is_host_id) FROM_HOST_FLAG_NEED_HOSTFW =? 0)
  = need_hostfw.
Proof. destruct need_hostfw, is_host_id; reflexivity. Qed.

Lemma from_host_flags_host_id (need_hostfw is_host_id : bool) :
  negb (Z.land (from_host_flags need_hostfw is_host_id) FROM_HOST_FLAG_HOST_ID =? 0)
  = is_host_id.
Proof. destruct need_hostfw, is_host_id; reflexivity. Qed.

Lemma cb_get_set_eq c off v : cb_get (cb_set c off v) off = v.
Proof. unfold cb_get, cb_set; simpl. rewrite lookup_insert_eq. reflexivity. Qed.

Lemma cb_get_set_ne c off off' v :
  off <> off' -> cb_get (cb_set c off v) off' = cb_get c off'.
Proof.
  intros Hne. unfold cb_get, cb_set; simpl.
  rewrite lookup_insert_ne by exact Hne. reflexivity.
Qed.

(** Crossing the chain boundary leaves the transfer buffers and the slot
    [CB_FROM_HOST] as the pre-check phase wrote them. *)
Lemma across_chain_boundary_keeps (src : Z) (s : state world) :
  cilium_tail_call_buffer4 (across_chain_boundary src s) = cilium_tail_call_buffer4 s
  /\ cilium_tail_call_buffer6 (across_chain_boundary src s) = cilium_tail_call_buffer6 s
  /\ cb_get (ctx (across_chain_boundary src s)) CB_FROM_HOST = cb_get (ctx s) CB_FROM_HOST.
Proof.
  repeat split. unfold across_chain_boundary. simpl.
  rewrite !cb_get_set_ne by (unfold CB_SRC_LABEL, CB_FROM_HOST; lia). reflexivity.
Qed.

Lemma handle_ipv4_store_ok (s : state world) secctx ipc from_host punt ext_err
    is_host_id x punt' ext_err' s1 :
  ENABLE_HOST_FIREWALL cfg = true ->
  handle_ipv4_precheck secctx ipc from_host punt ext_err s
  = (Next (true, is_host_id, x, punt', ext_err'), s1) ->
  0 <= fst (map_update_elem (cilium_tail_call_buffer4 s1) 0 x 0) ->
  exists s2,
    handle_ipv4 (R:=Z) secctx ipc from_host punt ext_err s
    = (Next (CTX_ACT_OK, punt', ext_err'), s2)
    /\ map_lookup_elem (cilium_tail_call_buffer4 s2) 0 = Some x
    /\ cb_get (ctx s2) CB_FROM_HOST = from_host_flags true is_host_id.
Proof.
  intros Hfw Hpre Hok.
  unfold handle_ipv4, call, bind. rewrite Hpre, Hfw.
  unfold when, bind, tail_call_buffer4_update.
  destruct (map_update_elem (cilium_tail_call_buffer4 s1) 0 x 0) as [r m] eqn:Hupd.
  simpl in Hok. assert (Hr : (r <? 0) = false) by (apply Z.ltb_ge; exact Hok).
  rewrite Hr. unfold pure, ctx_store_meta, modify_ctx, ret.
  eexists; split; [reflexivity|]. simpl. split.
  - eapply map_update_lookup; eauto.
  - apply cb_get_set_eq.
Qed.

Lemma ipv4_apply_reads_buffer (s3 : state world) from_host is_host_id x ip4 trace e :
  ENABLE_HOST_FIREWALL cfg = true ->
  map_lookup_elem (cilium_tail_call_buffer4 s3) 0 = Some x ->
  cb_get (ctx s3) CB_FROM_HOST = from_host_flags true is_host_id ->
  ipv4_host_firewall_apply from_host ip4 trace e s3
  = ipv4_host_firewall_enforce from_host is_host_id ip4 x trace e
      (set_ctx s3 (cb_set (ctx s3) CB_FROM_HOST 0)).
Proof.
  intros Hfw Hbuf Hcb.
  unfold ipv4_host_firewall_apply, bind, ctx_load_and_clear_meta, bind, ctx_load_meta,
    gets_ctx, ctx_store_meta, modify_ctx, pure.
  rewrite Hfw, Hcb, from_host_flags_need, from_host_flags_host_id.
  unfold tail_call_buffer4_lookup. simpl. rewrite Hbuf. reflexivity.
Qed.

Lemma handle_ipv6_store_ok (s : state world) secctx ipc from_host punt ext_err
    is_host_id x punt' ext_err' s1 :
  ENABLE_HOST_FIREWALL cfg = true ->
  handle_ipv6_precheck secctx ipc from_host punt ext_err s
  = (Next (true, is_host_id, x, punt', ext_err'), s1) ->
  0 <= fst (map_update_elem (cilium_tail_call_buffer6 s1) 0 x 0) ->
  exists s2,
    handle_ipv6 (R:=Z) secctx ipc from_host punt ext_err s
    = (Next (CTX_ACT_OK, punt', ext_err'), s2)
    /\ map_lookup_elem (cilium_tail_call_buffer6 s2) 0 = Some x
    /\ cb_get (ctx s2) CB_FROM_HOST = from_host_flags true is_host_id.
Proof.
  intros Hfw Hpre Hok.
  unfold handle_ipv6, call, bind. rewrite Hpre, Hfw.
  unfold when, bind, tail_call_buffer6_update.
  destruct (map_update_elem (cilium_tail_call_buffer6 s1) 0 x 0) as [r m] eqn:Hupd.
  simpl in Hok. assert (Hr : (r <? 0) = false) by (apply Z.ltb_ge; exact Hok).
  rewrite Hr. unfold pure, ctx_store_meta, modify_ctx, ret.
  eexists; split; [reflexivity|]. simpl. split.
  - eapply map_update_lookup; eauto.
  - apply cb_get_set_eq.
Qed.

Lemma ipv6_apply_reads_buffer (s3 : state world) from_host is_host_id x ip6 trace e :
  ENABLE_HOST_FIREWALL cfg = true ->
  map_lookup_elem (cilium_tail_call_buffer6 s3) 0 = Some x ->
  cb_get (ctx s3) CB_FROM_HOST = from_host_flags true is_host_id ->
  ipv6_host_firewall_apply from_host ip6 trace e s3
  = ipv6_host_firewall_enforce from_host is_host_id ip6 x trace e
      (set_ctx s3 (cb_set (ctx s3) CB_FROM_HOST 0)).
Proof.
  intros Hfw Hbuf Hcb.
  unfold ipv6_host_firewall_apply, bind, ctx_load_and_clear_meta, bind, ctx_load_meta,
    gets_ctx, ctx_store_meta, modify_ctx, pure.
  rewrite Hfw, Hcb, from_host_flags_need, from_host_flags_host_id.
  unfold tail_call_buffer6_lookup. simpl. rewrite Hbuf. reflexivity.
Qed.

(** *** The chain boundary

    [tail_handle_ipv4] / [tail_handle_ipv6], when [handle_ipv4] /
    [handle_ipv6] has returned [CTX_ACT_OK] in state [s2], tail-calls the
    continuation, which runs [handle_ipv4_cont] / [handle_ipv6_cont] from
    [across_chain_boundary src s2]. *)

Lemma ctx_load_and_clear_meta_run {R} off (s : state world) :
  ctx_load_and_clear_meta (R:=R) off s
  = (Next (cb_get (ctx s) off), set_ctx s (cb_set (ctx s) off 0)).
Proof. reflexivity. Qed.

Lemma run_call_bind_ret (p : prog world Z Z) (s : state world) :
  run (call (let* r := p in ret r)) s = run p s.
Proof. unfold run, call, bind, ret. destruct (p s) as [[r|r|v] s']; reflexivity. Qed.

(** [tail_handle_ipv4_cont] entered with [src] in [CB_SRC_LABEL]. *)
Lemma tail_handle_ipv4_cont_starts (s : state world) (from_host : bool) :
  let src := cb_get (ctx s) CB_SRC_LABEL in
  tail_handle_ipv4_cont (R:=Z) from_host s
  = call (let* (r, ext_err) := handle_ipv4_cont src from_host 0 in
          let* r := (if from_host && (r =? CTX_ACT_OK) then rewrite_dmac_to_host
                     else pure r) in
          if IS_ERR r then
            let* v := send_drop_notify_error_ext src r ext_err METRIC_INGRESS in
            ret v
          else ret r)
      (set_ctx s (cb_set (ctx s) CB_SRC_LABEL 0)).
Proof.
  intros src. unfold tail_handle_ipv4_cont, call at 1.
  rewrite (bind_next _ _ _ _ _ (ctx_load_and_clear_meta_run _ _)). reflexivity.
Qed.

Lemma tail_handle_ipv4_crosses_boundary (s s2 : state world) ipcache_srcid (from_host : bool)
    ext_err :
  ENABLE_HOST_FIREWALL cfg = true ->
  let src := cb_get (ctx s) CB_SRC_LABEL in
  let index := if from_host then CILIUM_CALL_IPV4_CONT_FROM_HOST
               else CILIUM_CALL_IPV4_CONT_FROM_NETDEV in
  handle_ipv4 (R:=Z) src ipcache_srcid from_host false 0
    (set_ctx s (cb_set (ctx s) CB_SRC_LABEL 0))
  = (Next (CTX_ACT_OK, false, ext_err), s2) ->
  tail_call_possible s2 index = true ->
  tail_handle_ipv4 (R:=Z) ipcache_srcid from_host s
  = let '(v, s') :=
      run (let* (r, ext_err) := handle_ipv4_cont src from_host 0 in
           let* r := (if from_host && (r =? CTX_ACT_OK) then rewrite_dmac_to_host
                      else pure r) in
           if IS_ERR r then
             let* v := send_drop_notify_error_ext src r ext_err METRIC_INGRESS in
             ret v
           else ret r)
          (across_chain_boundary src s2) in
    (Exit v, s').
Proof.
  intros Hfw src index Hhandle Hcall.
  unfold tail_handle_ipv4, call at 1.
  rewrite (bind_next _ _ _ _ _ (ctx_load_and_clear_meta_run _ _)). fold src. cbv zeta.
  rewrite (bind_next _ _ _ _ _ Hhandle). cbv beta iota.
  change (CTX_ACT_OK =? CTX_ACT_OK) with true. cbv iota.
  rewrite Hfw. unfold invoke_tailcall_if, tail_call_internal.
  set (s3 := set_ctx s2 (cb_set (ctx s2) CB_SRC_LABEL src)).
  assert (Hstore : ctx_store_meta (R:=Z) CB_SRC_LABEL src s2 = (Next tt, s3)) by reflexivity.
  assert (Hcall3 : tail_call_possible s3 index = true) by exact Hcall.
  assert (Hcont : forall fh : bool,
    run (tail_handle_ipv4_cont fh) (set_tail_call_cnt s3 (S (tail_call_cnt s3)))
    = run (let* (r, ext_err) := handle_ipv4_cont src fh 0 in
           let* r := (if fh && (r =? CTX_ACT_OK) then rewrite_dmac_to_host
                      else pure r) in
           if IS_ERR r then
             let* v := send_drop_notify_error_ext src r ext_err METRIC_INGRESS in
             ret v
           else ret r) (across_chain_boundary src s2)).
  { intros fh. unfold run at 1. rewrite tail_handle_ipv4_cont_starts.
    simpl ctx. rewrite cb_get_set_eq.
    change (set_ctx (set_tail_call_cnt s3 (S (tail_call_cnt s3))) _)
      with (across_chain_boundary src s2).
    unfold run, call.
    match goal with |- context [?p (across_chain_boundary src s2)] =>
      destruct (p (across_chain_boundary src s2)) as [[r|r|v] s4] end; reflexivity. }
  unfold bind at 1. rewrite (bind_next _ _ _ _ _ Hstore).
  subst index.
  destruct from_host; unfold bind at 1, tail_call_static; rewrite Hcall3.
  - unfold tail_handle_ipv4_cont_from_host. rewrite run_call_bind_ret, Hcont.
    destruct (run _ _); reflexivity.
  - unfold tail_handle_ipv4_cont_from_netdev. rewrite run_call_bind_ret, Hcont.
    destruct (run _ _); reflexivity.
Qed.

(** [tail_handle_ipv6_cont] entered with [src] in [CB_SRC_LABEL]. *)
Lemma tail_handle_ipv6_cont_starts (s : state world) (from_host : bool) :
  let src := cb_get (ctx s) CB_SRC_LABEL in
  tail_handle_ipv6_cont (R:=Z) from_host s
  = call (let* (r, ext_err) := handle_ipv6_cont src from_host 0 in
          let* r := (if from_host && (r =? CTX_ACT_OK) then rewrite_dmac_to_host
                     else pure r) in
          if IS_ERR r then
            let* v := send_drop_notify_error_ext src r ext_err METRIC_INGRESS in
            ret v
          else ret r)
      (set_ctx s (cb_set (ctx s) CB_SRC_LABEL 0)).
Proof.
  intros src. unfold tail_handle_ipv6_cont, call at 1.
  rewrite (bind_next _ _ _ _ _ (ctx_load_and_clear_meta_run _ _)). reflexivity.
Qed.

Lemma tail_handle_ipv6_crosses_boundary (s s2 : state world) ipcache_srcid (from_host : bool)
    ext_err :
  ENABLE_HOST_FIREWALL cfg = true ->
  let src := cb_get (ctx s) CB_SRC_LABEL in
  let index := if from_host then CILIUM_CALL_IPV6_CONT_FROM_HOST
               else CILIUM_CALL_IPV6_CONT_FROM_NETDEV in
  handle_ipv6 (R:=Z) src ipcache_srcid from_host false 0
    (set_ctx s (cb_set (ctx s) CB_SRC_LABEL 0))
  = (Next (CTX_ACT_OK, false, ext_err), s2) ->
  tail_call_possible s2 index = true ->
  tail_handle_ipv6 (R:=Z) ipcache_srcid from_host s
  = let '(v, s') :=
      run (let* (r, ext_err) := handle_ipv6_cont src from_host 0 in
           let* r := (if from_host && (r =? CTX_ACT_OK) then rewrite_dmac_to_host
                      else pure r) in
           if IS_ERR r then
             let* v := send_drop_notify_error_ext src r ext_err METRIC_INGRESS in
             ret v
           else ret r)
          (across_chain_boundary src s2) in
    (Exit v, s').
Proof.
  intros Hfw src index Hhandle Hcall.
  unfold tail_handle_ipv6, call at 1.
  rewrite (bind_next _ _ _ _ _ (ctx_load_and_clear_meta_run _ _)). fold src. cbv zeta.
  rewrite (bind_next _ _ _ _ _ Hhandle). cbv beta iota.
  change (CTX_ACT_OK =? CTX_ACT_OK) with true. cbv iota.
  rewrite Hfw. unfold invoke_tailcall_if, tail_call_internal.
  set (s3 := set_ctx s2 (cb_set (ctx s2) CB_SRC_LABEL src)).
  assert (Hstore : ctx_store_meta (R:=Z) CB_SRC_LABEL src s2 = (Next tt, s3)) by reflexivity.
  assert (Hcall3 : tail_call_possible s3 index = true) by exact Hcall.
  assert (Hcont : forall fh : bool,
    run (tail_handle_ipv6_cont fh) (set_tail_call_cnt s3 (S (tail_call_cnt s3)))
    = run (let* (r, ext_err) := handle_ipv6_cont src fh 0 in
           let* r := (if fh && (r =? CTX_ACT_OK) then rewrite_dmac_to_host
                      else pure r) in
           if IS_ERR r then
             let* v := send_drop_notify_error_ext src r ext_err METRIC_INGRESS in
             ret v
           else ret r) (across_chain_boundary src s2)).
  { intros fh. unfold run at 1. rewrite tail_handle_ipv6_cont_starts.
    simpl ctx. rewrite cb_get_set_eq.
    change (set_ctx (set_tail_call_cnt s3 (S (tail_call_cnt s3))) _)
      with (across_chain_boundary src s2).
    unfold run, call.
    match goal with |- context [?p (across_chain_boundary src s2)] =>
      destruct (p (across_chain_boundary src s2)) as [[r|r|v] s4] end; reflexivity. }
  unfold bind at 1. rewrite (bind_next _ _ _ _ _ Hstore).
  subst index.
  destruct from_host; unfold bind at 1, tail_call_static; rewrite Hcall3.
  - unfold tail_handle_ipv6_cont_from_host. rewrite run_call_bind_ret, Hcont.
    destruct (run _ _); reflexivity.
  - unfold tail_handle_ipv6_cont_from_netdev. rewrite run_call_bind_ret, Hcont.
    destruct (run _ _); reflexivity.
Qed.

(** *** The apply phase, written out

    The host-firewall block of [handle_ipv4_cont] / [handle_ipv6_cont] once
    the buffer has been read: the zero test on the stored tuple, the call
    of the host policy on the buffer, and what follows its verdict. *)

Lemma ipv4_enforce_run (s4 : state world) from_host is_host_id x ip4 trace e :
  ipv4_host_firewall_enforce from_host is_host_id ip4 x trace e s4
  = if t4_saddr (cb4_tuple x) =? 0 then (Return (DROP_INVALID_TC_BUFFER, e), s4)
    else if from_host then
      let '(r, trace', e', c, w) :=
        __ipv4_host_policy_egress is_host_id ip4 x trace e (ext s4) (ctx s4) in
      if IS_ERR r || (r =? CTX_ACT_REDIRECT) then (Return (r, e'), set_ctx_ext s4 c w)
      else match revalidate_data4 c with
           | None => (Return (DROP_INVALID, e'), set_ctx_ext s4 c w)
           | Some ip4' => (Next (ip4', trace', e'), set_ctx_ext s4 c w)
           end
    else
      let '(r, _, trace', e', c, w) :=
        __ipv4_host_policy_ingress ip4 x 0 trace e (ext s4) (ctx s4) in
      if IS_ERR r || (r =? CTX_ACT_REDIRECT) then (Return (r, e'), set_ctx_ext s4 c w)
      else (Next (ip4, trace', e'), set_ctx_ext s4 c w).
Proof.
  unfold ipv4_host_firewall_enforce.
  destruct (t4_saddr (cb4_tuple x) =? 0); [reflexivity|].
  destruct from_host.
  - unfold bind, extern.
    destruct (__ipv4_host_policy_egress _ _ _ _ _ _ _) as [[[[r t'] e'] c] w].
    destruct (IS_ERR r || (r =? CTX_ACT_REDIRECT)); [reflexivity|].
    unfold get_ctx. simpl. destruct (revalidate_data4 c); reflexivity.
  - unfold bind, extern.
    destruct (__ipv4_host_policy_ingress _ _ _ _ _ _ _) as [[[[[r rid] t'] e'] c] w].
    unfold pure.
    destruct (IS_ERR r || (r =? CTX_ACT_REDIRECT)); reflexivity.
Qed.

Lemma ipv6_enforce_run (s4 : state world) from_host is_host_id x ip6 trace e :
  ipv6_host_firewall_enforce from_host is_host_id ip6 x trace e s4
  = if (d1 (t6_saddr (cb6_tuple x)) =? 0) && (d2 (t6_saddr (cb6_tuple x)) =? 0)
    then (Return (DROP_INVALID_TC_BUFFER, e), s4)
    else if from_host then
      let '(r, trace', e', c, w) :=
        __ipv6_host_policy_egress is_host_id ip6 x trace e (ext s4) (ctx s4) in
      if IS_ERR r || (r =? CTX_ACT_REDIRECT) then (Return (r, e'), set_ctx_ext s4 c w)
      else match revalidate_data6 c with
           | None => (Return (DROP_INVALID, e'), set_ctx_ext s4 c w)
           | Some ip6' => (Next (ip6', trace', e'), set_ctx_ext s4 c w)
           end
    else
      let '(r, _, trace', e', c, w) :=
        __ipv6_host_policy_ingress ip6 x (WORLD_IPV6_ID cfg) trace e (ext s4) (ctx s4) in
      if IS_ERR r || (r =? CTX_ACT_REDIRECT) then (Return (r, e'), set_ctx_ext s4 c w)
      else (Next (ip6, trace', e'), set_ctx_ext s4 c w).
Proof.
  unfold ipv6_host_firewall_enforce.
  destruct ((d1 (t6_saddr (cb6_tuple x)) =? 0) && (d2 (t6_saddr (cb6_tuple x)) =? 0));
    [reflexivity|].
  destruct from_host.
  - unfold bind, extern.
    destruct (__ipv6_host_policy_egress _ _ _ _ _ _ _) as [[[[r t'] e'] c] w].
    destruct (IS_ERR r || (r =? CTX_ACT_REDIRECT)); [reflexivity|].
    unfold get_ctx. simpl. destruct (revalidate_data6 c); reflexivity.
  - unfold bind, extern.
    destruct (__ipv6_host_policy_ingress _ _ _ _ _ _ _) as [[[[[r rid] t'] e'] c] w].
    unfold pure.
    destruct (IS_ERR r || (r =? CTX_ACT_REDIRECT)); reflexivity.
Qed.


(** A verdict of the host policy that is an error or a redirect ends
    [handle_ipv4_cont] / [handle_ipv6_cont]. *)
Lemma handle_ipv4_cont_policy_verdict (s3 : state world) secctx (from_host : bool)
    is_host_id x e ip4
    (r : Z) (trace' : trace_ctx) (e' : Z) (c : ctx_buff) (w : world) :
  let s4 := set_ctx s3 (cb_set (ctx s3) CB_FROM_HOST 0) in
  ENABLE_HOST_FIREWALL cfg = true ->
  map_lookup_elem (cilium_tail_call_buffer4 s3) 0 = Some x ->
  cb_get (ctx s3) CB_FROM_HOST = from_host_flags true is_host_id ->
  revalidate_data4 (ctx s3) = Some ip4 ->
  t4_saddr (cb4_tuple x) <> 0 ->
  (if from_host
   then __ipv4_host_policy_egress is_host_id ip4 x trace_unknown e (ext s4) (ctx s4)
        = (r, trace', e', c, w)
   else exists rid,
       __ipv4_host_policy_ingress ip4 x 0 trace_unknown e (ext s4) (ctx s4)
       = (r, rid, trace', e', c, w)) ->
  IS_ERR r || (r =? CTX_ACT_REDIRECT) = true ->
  handle_ipv4_cont (R:=Z) secctx from_host e s3 = (Next (r, e'), set_ctx_ext s4 c w).
Proof.
  intros s4 Hfw Hbuf Hcb Hrev Hsrc Hpol Hr.
  unfold handle_ipv4_cont, call, bind, get_ctx.
  destruct (proxy_provenance from_host (ctx s3)) as [from_proxy magic].
  rewrite Hrev. unfold bind. fold trace_unknown.
  rewrite (ipv4_apply_reads_buffer s3 from_host is_host_id x ip4 trace_unknown e Hfw Hbuf Hcb).
  fold s4. rewrite ipv4_enforce_run.
  apply Z.eqb_neq in Hsrc. rewrite Hsrc.
  destruct from_host.
  - rewrite Hpol, Hr. reflexivity.
  - destruct Hpol as (rid & Hpol). rewrite Hpol, Hr. reflexivity.
Qed.

Lemma handle_ipv6_cont_policy_verdict (s3 : state world) secctx (from_host : bool)
    is_host_id x e ip6
    (r : Z) (trace' : trace_ctx) (e' : Z) (c : ctx_buff) (w : world) :
  let s4 := set_ctx s3 (cb_set (ctx s3) CB_FROM_HOST 0) in
  ENABLE_HOST_FIREWALL cfg = true ->
  map_lookup_elem (cilium_tail_call_buffer6 s3) 0 = Some x ->
  cb_get (ctx s3) CB_FROM_HOST = from_host_flags true is_host_id ->
  revalidate_data6 (ctx s3) = Some ip6 ->
  (d1 (t6_saddr (cb6_tuple x)) =? 0) && (d2 (t6_saddr (cb6_tuple x)) =? 0) = false ->
  (if from_host
   then __ipv6_host_policy_egress is_host_id ip6 x trace_unknown e (ext s4) (ctx s4)
        = (r, trace', e', c, w)
   else exists rid,
       __ipv6_host_policy_ingress ip6 x (WORLD_IPV6_ID cfg) trace_unknown e (ext s4) (ctx s4)
       = (r, rid, trace', e', c, w)) ->
  IS_ERR r || (r =? CTX_ACT_REDIRECT) = true ->
  handle_ipv6_cont (R:=Z) secctx from_host e s3 = (Next (r, e'), set_ctx_ext s4 c w).
Proof.
  intros s4 Hfw Hbuf Hcb Hrev Hsrc Hpol Hr.
  unfold handle_ipv6_cont, call, bind, get_ctx.
  destruct (proxy_provenance from_host (ctx s3)) as [from_proxy magic].
  rewrite Hrev. unfold bind. fold trace_unknown.
  rewrite (ipv6_apply_reads_buffer s3 from_host is_host_id x ip6 trace_unknown e Hfw Hbuf Hcb).
  fold s4. rewrite ipv6_enforce_run. rewrite Hsrc.
  destruct from_host.
  - rewrite Hpol, Hr. reflexivity.
  - destruct Hpol as (rid & Hpol). rewrite Hpol, Hr. reflexivity.
Qed.

(** C3.  Transfer-buffer round trip.  When the pre-check phase of
    [handle_ipv4] / [handle_ipv6] has determined [need_hostfw = true] with
    the connection-tracking result [x] and the store succeeds, the handler
    returns [CTX_ACT_OK] and across the chain boundary the buffer still
    holds exactly [x].  The apply phase then decides from [x]: a zeroed
    source address in [x] gives [DROP_INVALID_TC_BUFFER]; otherwise the
    verdict is that of [__ipv4_host_policy_egress] (with the [is_host_id]
    the pre-check computed) or [__ipv4_host_policy_ingress] called on [x],
    an error or redirect verdict is returned, and any other verdict lets
    the packet fall through (from the host, after a new
    [revalidate_data]).  [handle_ipv4_cont] / [handle_ipv6_cont] return
    the error or redirect verdict decided from [x]. *)
Theorem transfer_buffer_round_trip :
  ENABLE_HOST_FIREWALL cfg = true ->
  (forall (s : state world) secctx ipc from_host punt ext_err is_host_id x punt' ext_err' s1,
      handle_ipv4_precheck secctx ipc from_host punt ext_err s
      = (Next (true, is_host_id, x, punt', ext_err'), s1) ->
      0 <= fst (map_update_elem (cilium_tail_call_buffer4 s1) 0 x 0) ->
      exists s2,
        handle_ipv4 (R:=Z) secctx ipc from_host punt ext_err s
        = (Next (CTX_ACT_OK, punt', ext_err'), s2)
        /\ forall src,
            let s3 := across_chain_boundary src s2 in
            let s4 := set_ctx s3 (cb_set (ctx s3) CB_FROM_HOST 0) in
            map_lookup_elem (cilium_tail_call_buffer4 s3) 0 = Some x
            /\ (forall ip4 trace e,
                   ipv4_host_firewall_apply from_host ip4 trace e s3
                   = if t4_saddr (cb4_tuple x) =? 0
                     then (Return (DROP_INVALID_TC_BUFFER, e), s4)
                     else if from_host then
                       let '(r, trace', e', c, w) :=
                         __ipv4_host_policy_egress is_host_id ip4 x trace e
                           (ext s4) (ctx s4) in
                       if IS_ERR r || (r =? CTX_ACT_REDIRECT)
                       then (Return (r, e'), set_ctx_ext s4 c w)
                       else match revalidate_data4 c with
                            | None => (Return (DROP_INVALID, e'), set_ctx_ext s4 c w)
                            | Some ip4' => (Next (ip4', trace', e'), set_ctx_ext s4 c w)
                            end
                     else
                       let '(r, _, trace', e', c, w) :=
                         __ipv4_host_policy_ingress ip4 x 0 trace e (ext s4) (ctx s4) in
                       if IS_ERR r || (r =? CTX_ACT_REDIRECT)
                       then (Return (r, e'), set_ctx_ext s4 c w)
                       else (Next (ip4, trace', e'), set_ctx_ext s4 c w))
            /\ (forall secctx' e ip4 (r : Z) (trace' : trace_ctx) (e' : Z) (c : ctx_buff)
                       (w : world),
                   revalidate_data4 (ctx s3) = Some ip4 ->
                   t4_saddr (cb4_tuple x) <> 0 ->
                   (if from_host
                    then __ipv4_host_policy_egress is_host_id ip4 x trace_unknown e
                           (ext s4) (ctx s4)
                         = (r, trace', e', c, w)
                    else exists rid,
                        __ipv4_host_policy_ingress ip4 x 0 trace_unknown e
                          (ext s4) (ctx s4)
                        = (r, rid, trace', e', c, w)) ->
                   IS_ERR r || (r =? CTX_ACT_REDIRECT) = true ->
                   handle_ipv4_cont (R:=Z) secctx' from_host e s3
                   = (Next (r, e'), set_ctx_ext s4 c w)))
  /\ (forall (s : state world) secctx ipc from_host punt ext_err is_host_id x punt' ext_err' s1,
      handle_ipv6_precheck secctx ipc from_host punt ext_err s
      = (Next (true, is_host_id, x, punt', ext_err'), s1) ->
      0 <= fst (map_update_elem (cilium_tail_call_buffer6 s1) 0 x 0) ->
      exists s2,
        handle_ipv6 (R:=Z) secctx ipc from_host punt ext_err s
        = (Next (CTX_ACT_OK, punt', ext_err'), s2)
        /\ forall src,
            let s3 := across_chain_boundary src s2 in
            let s4 := set_ctx s3 (cb_set (ctx s3) CB_FROM_HOST 0) in
            map_lookup_elem (cilium_tail_call_buffer6 s3) 0 = Some x
            /\ (forall ip6 trace e,
                   ipv6_host_firewall_apply from_host ip6 trace e s3
                   = if (d1 (t6_saddr (cb6_tuple x)) =? 0)
                        && (d2 (t6_saddr (cb6_tuple x)) =? 0)
                     then (Return (DROP_INVALID_TC_BUFFER, e), s4)
                     else if from_host then
                       let '(r, trace', e', c, w) :=
                         __ipv6_host_policy_egress is_host_id ip6 x trace e
                           (ext s4) (ctx s4) in
                       if IS_ERR r || (r =? CTX_ACT_REDIRECT)
                       then (Return (r, e'), set_ctx_ext s4 c w)
                       else match revalidate_data6 c with
                            | None => (Return (DROP_INVALID, e'), set_ctx_ext s4 c w)
                            | Some ip6' => (Next (ip6', trace', e'), set_ctx_ext s4 c w)
                            end
                     else
                       let '(r, _, trace', e', c, w) :=
                         __ipv6_host_policy_ingress ip6 x (WORLD_IPV6_ID cfg) trace e
                           (ext s4) (ctx s4) in
                       if IS_ERR r || (r =? CTX_ACT_REDIRECT)
                       then (Return (r, e'), set_ctx_ext s4 c w)
                       else (Next (ip6, trace', e'), set_ctx_ext s4 c w))
            /\ (forall secctx' e ip6 (r : Z) (trace' : trace_ctx) (e' : Z) (c : ctx_buff)
                       (w : world),
                   revalidate_data6 (ctx s3) = Some ip6 ->
                   (d1 (t6_saddr (cb6_tuple x)) =? 0)
                   && (d2 (t6_saddr (cb6_tuple x)) =? 0) = false ->
                   (if from_host
                    then __ipv6_host_policy_egress is_host_id ip6 x trace_unknown e
                           (ext s4) (ctx s4)
                         = (r, trace', e', c, w)
                    else exists rid,
                        __ipv6_host_policy_ingress ip6 x (WORLD_IPV6_ID cfg) trace_unknown e
                          (ext s4) (ctx s4)
                        = (r, rid, trace', e', c, w)) ->
                   IS_ERR r || (r =? CTX_ACT_REDIRECT) = true ->
                   handle_ipv6_cont (R:=Z) secctx' from_host e s3
                   = (Next (r, e'), set_ctx_ext s4 c w))).
Proof.
  intros Hfw; split; intros s secctx ipc from_host punt ext_err is_host_id x punt' ext_err'
                          s1 Hpre Hok.
  - destruct (handle_ipv4_store_ok _ _ _ _ _ _ _ _ _ _ _ Hfw Hpre Hok)
      as (s2 & Hrun & Hbuf & Hcb).
    exists s2; split; [exact Hrun|]. intros src s3 s4.
    destruct (across_chain_boundary_keeps src s2) as (Hb4 & _ & Hslot).
    assert (Hbuf3 : map_lookup_elem (cilium_tail_call_buffer4 s3) 0 = Some x)
      by (unfold s3; rewrite Hb4; exact Hbuf).
    assert (Hcb3 : cb_get (ctx s3) CB_FROM_HOST = from_host_flags true is_host_id)
      by (unfold s3; rewrite Hslot; exact Hcb).
    split; [exact Hbuf3|]. split.
    + intros hdr trace e.
      rewrite (ipv4_apply_reads_buffer s3 from_host is_host_id x hdr trace e Hfw Hbuf3 Hcb3).
      apply ipv4_enforce_run.
    + intros secctx' e ip4 r trace' e' c w Hrev Hsrc Hpol Hr.
      exact (handle_ipv4_cont_policy_verdict s3 secctx' from_host is_host_id x e ip4
               r trace' e' c w Hfw Hbuf3 Hcb3 Hrev Hsrc Hpol Hr).
  - destruct (handle_ipv6_store_ok _ _ _ _ _ _ _ _ _ _ _ Hfw Hpre Hok)
      as (s2 & Hrun & Hbuf & Hcb).
    exists s2; split; [exact Hrun|]. intros src s3 s4.
    destruct (across_chain_boundary_keeps src s2) as (_ & Hb6 & Hslot).
    assert (Hbuf3 : map_lookup_elem (cilium_tail_call_buffer6 s3) 0 = Some x)
      by (unfold s3; rewrite Hb6; exact Hbuf).
    assert (Hcb3 : cb_get (ctx s3) CB_FROM_HOST = from_host_flags true is_host_id)
      by (unfold s3; rewrite Hslot; exact Hcb).
    split; [exact Hbuf3|]. split.
    + intros hdr trace e.
      rewrite (ipv6_apply_reads_buffer s3 from_host is_host_id x hdr trace e Hfw Hbuf3 Hcb3).
      apply ipv6_enforce_run.
    + intros secctx' e ip6 r trace' e' c w Hrev Hsrc Hpol Hr.
      exact (handle_ipv6_cont_policy_verdict s3 secctx' from_host is_host_id x e ip6
               r trace' e' c w Hfw Hbuf3 Hcb3 Hrev Hsrc Hpol Hr).
Qed.

(** *** The continuation handlers after the host firewall *)

Lemma handle_ipv4_cont_host_delivery (s s1 : state world) secctx from_host ext_err
    ip4 ip4' trace' ext_err' ep :
  revalidate_data4 (ctx s) = Some ip4 ->
  ipv4_host_firewall_apply from_host ip4 trace_unknown ext_err s
  = (Next (ip4', trace', ext_err'), s1) ->
  lookup_ip4_endpoint (ext s1) ip4' = Some ep ->
  Z.land (ep_flags ep) ENDPOINT_MASK_HOST_DELIVERY <> 0 ->
  handle_ipv4_cont (R:=Z) secctx from_host ext_err s = (Next (CTX_ACT_OK, ext_err'), s1).
Proof.
  intros Hrev Happly Hep Hflag.
  unfold handle_ipv4_cont, call, bind, get_ctx.
  destruct (proxy_provenance from_host (ctx s)) as [from_proxy magic].
  rewrite Hrev. unfold bind. fold trace_unknown. rewrite Happly.
  destruct (negb (ENABLE_HOST_ROUTING cfg) && negb from_host); [reflexivity|].
  unfold pure, gets_ext. rewrite Hep.
  apply Z.eqb_neq in Hflag. rewrite Hflag. reflexivity.
Qed.

Lemma handle_ipv6_cont_host_delivery (s s1 : state world) secctx from_host ext_err
    ip6 ip6' trace' ext_err' ep :
  revalidate_data6 (ctx s) = Some ip6 ->
  ipv6_host_firewall_apply from_host ip6 trace_unknown ext_err s
  = (Next (ip6', trace', ext_err'), s1) ->
  srv6_decaps (ext s1) from_host ip6' = false ->
  lookup_ip6_endpoint (ext s1) ip6' = Some ep ->
  Z.land (ep_flags ep) ENDPOINT_MASK_HOST_DELIVERY <> 0 ->
  handle_ipv6_cont (R:=Z) secctx from_host ext_err s = (Next (CTX_ACT_OK, ext_err'), s1).
Proof.
  intros Hrev Happly Hsrv Hep Hflag.
  unfold handle_ipv6_cont, call, bind, get_ctx.
  destruct (proxy_provenance from_host (ctx s)) as [from_proxy magic].
  rewrite Hrev. unfold bind. fold trace_unknown. rewrite Happly.
  unfold srv6_decaps in Hsrv.
  destruct (ENABLE_SRV6 cfg && negb from_host); simpl in Hsrv.
  - unfold gets_ext, bind. rewrite Hsrv. unfold pure.
    destruct (negb (ENABLE_HOST_ROUTING cfg) && negb from_host); [reflexivity|].
    rewrite Hep. apply Z.eqb_neq in Hflag. rewrite Hflag. reflexivity.
  - unfold pure.
    destruct (negb (ENABLE_HOST_ROUTING cfg) && negb from_host); [reflexivity|].
    unfold gets_ext. rewrite Hep. apply Z.eqb_neq in Hflag. rewrite Hflag. reflexivity.
Qed.

(** C8 (amended).  Host delivery.  In [handle_ipv4_cont] / [handle_ipv6_cont], once the
    packet has been revalidated and the host-firewall apply phase has let it
    through (and, for IPv6, the packet is not handed to SRv6
    decapsulation), a destination that matches a local endpoint flagged
    [ENDPOINT_MASK_HOST_DELIVERY] gives [CTX_ACT_OK]; nothing after the
    firewall touches the state, so no redirect is issued. *)
Theorem host_delivery_passes_to_stack :
  (forall (s s1 : state world) secctx from_host ext_err ip4 ip4' trace' ext_err' ep,
      revalidate_data4 (ctx s) = Some ip4 ->
      ipv4_host_firewall_apply from_host ip4 trace_unknown ext_err s
      = (Next (ip4', trace', ext_err'), s1) ->
      lookup_ip4_endpoint (ext s1) ip4' = Some ep ->
      Z.land (ep_flags ep) ENDPOINT_MASK_HOST_DELIVERY <> 0 ->
      handle_ipv4_cont (R:=Z) secctx from_host ext_err s
      = (Next (CTX_ACT_OK, ext_err'), s1))
  /\ (forall (s s1 : state world) secctx from_host ext_err ip6 ip6' trace' ext_err' ep,
      revalidate_data6 (ctx s) = Some ip6 ->
      ipv6_host_firewall_apply from_host ip6 trace_unknown ext_err s
      = (Next (ip6', trace', ext_err'), s1) ->
      srv6_decaps (ext s1) from_host ip6' = false ->
      lookup_ip6_endpoint (ext s1) ip6' = Some ep ->
      Z.land (ep_flags ep) ENDPOINT_MASK_HOST_DELIVERY <> 0 ->
      handle_ipv6_cont (R:=Z) secctx from_host ext_err s
      = (Next (CTX_ACT_OK, ext_err'), s1)).
Proof.
  split; intros.
  - eapply handle_ipv4_cont_host_delivery; eauto.
  - eapply handle_ipv6_cont_host_delivery; eauto.
Qed.

Lemma handle_ipv4_cont_vtep_skips (s : state world) secctx ip4 trace ext_err :
  vtep_redirects (ext s) ip4 = false ->
  handle_ipv4_cont_vtep secctx ip4 trace ext_err s = (Next tt, s).
Proof.
  unfold vtep_redirects, handle_ipv4_cont_vtep. intros Hvtep.
  destruct (ENABLE_VTEP cfg); [|reflexivity]. simpl in Hvtep.
  unfold bind, gets_ext.
  destruct (cilium_vtep_map (ext s) _) as [v|]; [|reflexivity].
  rewrite Hvtep. reflexivity.
Qed.

Lemma handle_cont_tunnel_skips (s : state world) secctx info trace proto ext_err :
  match info with Some i => tunnel_redirects i = false | None => True end ->
  handle_cont_tunnel secctx info trace proto ext_err s = (Next tt, s).
Proof.
  unfold tunnel_redirects, handle_cont_tunnel. intros Htun.
  destruct (TUNNEL_MODE cfg); [|reflexivity].
  destruct info as [i|]; [|reflexivity]. simpl in Htun.
  destruct (flag_skip_tunnel i); [reflexivity|]. simpl in Htun.
  rewrite Htun. reflexivity.
Qed.


Lemma handle_ipv4_cont_unroutable (s s1 : state world) secctx ext_err
    ip4 ip4' trace' ext_err' :
  revalidate_data4 (ctx s) = Some ip4 ->
  ipv4_host_firewall_apply true ip4 trace_unknown ext_err s
  = (Next (ip4', trace', ext_err'), s1) ->
  lookup_ip4_endpoint (ext s1) ip4' = None ->
  vtep_redirects (ext s1) ip4' = false ->
  let info := lookup_ip4_remote_endpoint (ext s1) (ip4_daddr ip4') 0 in
  let from_proxy := fst (proxy_provenance true (ctx s)) in
  (info = None ->
   handle_ipv4_cont (R:=Z) secctx true ext_err s = (Next (DROP_UNROUTABLE, ext_err'), s1))
  /\ (forall i, info = Some i -> tunnel_redirects i = false ->
      identity_is_world_ipv4 (sec_identity i) = true -> from_proxy = false ->
      handle_ipv4_cont (R:=Z) secctx true ext_err s = (Next (DROP_UNROUTABLE, ext_err'), s1))
  /\ (forall i, info = Some i -> tunnel_redirects i = false -> from_proxy = true ->
      fst (handle_ipv4_cont (R:=Z) secctx true ext_err s) = Next (CTX_ACT_OK, ext_err')).
Proof.
  intros Hrev Happly Hep Hvtep info from_proxy.
  assert (Hhead : handle_ipv4_cont (R:=Z) secctx true ext_err s
    = call (handle_cont_tunnel secctx info trace' (bpf_htons ETH_P_IP) ext_err' ;;
            match info with
            | None => ret (DROP_UNROUTABLE, ext_err')
            | Some i =>
              if negb from_proxy && identity_is_world_ipv4 (sec_identity i) then
                ret (DROP_UNROUTABLE, ext_err')
              else
                (if ENABLE_IPSEC cfg && negb (TUNNEL_MODE cfg) then
                   if from_proxy && negb (identity_is_cluster (sec_identity i)) then
                     modify_ctx (fun c => set_mark c MARK_MAGIC_PROXY_TO_WORLD)
                   else pure tt
                 else pure tt) ;;
                ret (CTX_ACT_OK, ext_err')
            end) s1).
  { unfold handle_ipv4_cont, call, bind, get_ctx. subst from_proxy.
    destruct (proxy_provenance true (ctx s)) as [from_proxy magic]. simpl fst.
    rewrite Hrev. unfold bind. fold trace_unknown. rewrite Happly.
    rewrite andb_false_r. unfold pure at 1. unfold gets_ext at 1. rewrite Hep.
    change (negb true) with false. cbv beta iota.
    rewrite (handle_ipv4_cont_vtep_skips _ _ _ _ _ Hvtep).
    reflexivity. }
  rewrite Hhead. clearbody info from_proxy. unfold call, bind.
  repeat split.
  - intros ->. rewrite handle_cont_tunnel_skips by exact I. reflexivity.
  - intros i -> Htun Hworld ->.
    rewrite handle_cont_tunnel_skips by exact Htun.
    rewrite Hworld. reflexivity.
  - intros i -> Htun ->.
    rewrite handle_cont_tunnel_skips by exact Htun. simpl negb. simpl andb.
    destruct (ENABLE_IPSEC cfg && negb (TUNNEL_MODE cfg)); [|reflexivity].
    destruct (negb (identity_is_cluster (sec_identity i))); reflexivity.
Qed.

Lemma handle_ipv6_cont_unroutable (s s1 : state world) secctx ext_err
    ip6 ip6' trace' ext_err' :
  revalidate_data6 (ctx s) = Some ip6 ->
  ipv6_host_firewall_apply true ip6 trace_unknown ext_err s
  = (Next (ip6', trace', ext_err'), s1) ->
  lookup_ip6_endpoint (ext s1) ip6' = None ->
  let info := lookup_ip6_remote_endpoint (ext s1) (ip6_daddr ip6') 0 in
  let from_proxy := fst (proxy_provenance true (ctx s)) in
  (info = None ->
   handle_ipv6_cont (R:=Z) secctx true ext_err s = (Next (DROP_UNROUTABLE, ext_err'), s1))
  /\ (forall i, info = Some i -> tunnel_redirects i = false ->
      identity_is_world_ipv6 (sec_identity i) = true -> from_proxy = false ->
      handle_ipv6_cont (R:=Z) secctx true ext_err s = (Next (DROP_UNROUTABLE, ext_err'), s1))
  /\ (forall i, info = Some i -> tunnel_redirects i = false -> from_proxy = true ->
      fst (handle_ipv6_cont (R:=Z) secctx true ext_err s) = Next (CTX_ACT_OK, ext_err')).
Proof.
  intros Hrev Happly Hep info from_proxy.
  assert (Hhead : handle_ipv6_cont (R:=Z) secctx true ext_err s
    = call (handle_cont_tunnel secctx info trace' (bpf_htons ETH_P_IPV6) ext_err' ;;
            match info with
            | None => ret (DROP_UNROUTABLE, ext_err')
            | Some i =>
              if negb from_proxy && identity_is_world_ipv6 (sec_identity i) then
                ret (DROP_UNROUTABLE, ext_err')
              else
                (if ENABLE_IPSEC cfg && negb (TUNNEL_MODE cfg) then
                   if from_proxy && negb (identity_is_cluster (sec_identity i)) then
                     modify_ctx (fun c => set_mark c MARK_MAGIC_PROXY_TO_WORLD)
                   else pure tt
                 else pure tt) ;;
                ret (CTX_ACT_OK, ext_err')
            end) s1).
  { unfold handle_ipv6_cont, call, bind, get_ctx. subst from_proxy.
    destruct (proxy_provenance true (ctx s)) as [from_proxy magic]. simpl fst.
    rewrite Hrev. unfold bind. fold trace_unknown. rewrite Happly.
    rewrite !andb_false_r. unfold pure at 1 2. unfold gets_ext at 1. rewrite Hep.
    change (negb true) with false. cbv beta iota.
    reflexivity. }
  rewrite Hhead. clearbody info from_proxy. unfold call, bind.
  repeat split.
  - intros ->. rewrite handle_cont_tunnel_skips by exact I. reflexivity.
  - intros i -> Htun Hworld ->.
    rewrite handle_cont_tunnel_skips by exact Htun.
    rewrite Hworld. reflexivity.
  - intros i -> Htun ->.
    rewrite handle_cont_tunnel_skips by exact Htun. simpl negb. simpl andb.
    destruct (ENABLE_IPSEC cfg && negb (TUNNEL_MODE cfg)); [|reflexivity].
    destruct (negb (identity_is_cluster (sec_identity i))); reflexivity.
Qed.

(** C4 (amended).  Unroutable destinations.  For a packet from the host that has been
    revalidated, that the host-firewall apply phase has let through, whose
    destination is not a local endpoint and (IPv4) is not handed to a
    VTEP: [handle_ipv4_cont] / [handle_ipv6_cont] return [DROP_UNROUTABLE]
    when the destination has no remote-endpoint entry, and when its entry
    is not encapsulated towards a tunnel endpoint, maps to the world
    identity and the packet is not from a proxy; a packet from a proxy is
    let through with [CTX_ACT_OK] whatever the identity of the entry. *)
Theorem unknown_destination_from_host_is_unroutable :
  (forall (s s1 : state world) secctx ext_err ip4 ip4' trace' ext_err',
      revalidate_data4 (ctx s) = Some ip4 ->
      ipv4_host_firewall_apply true ip4 trace_unknown ext_err s
      = (Next (ip4', trace', ext_err'), s1) ->
      lookup_ip4_endpoint (ext s1) ip4' = None ->
      vtep_redirects (ext s1) ip4' = false ->
      let info := lookup_ip4_remote_endpoint (ext s1) (ip4_daddr ip4') 0 in
      let from_proxy := fst (proxy_provenance true (ctx s)) in
      (info = None ->
       handle_ipv4_cont (R:=Z) secctx true ext_err s
       = (Next (DROP_UNROUTABLE, ext_err'), s1))
      /\ (forall i, info = Some i -> tunnel_redirects i = false ->
          identity_is_world_ipv4 (sec_identity i) = true -> from_proxy = false ->
          handle_ipv4_cont (R:=Z) secctx true ext_err s
          = (Next (DROP_UNROUTABLE, ext_err'), s1))
      /\ (forall i, info = Some i -> tunnel_redirects i = false -> from_proxy = true ->
          fst (handle_ipv4_cont (R:=Z) secctx true ext_err s)
          = Next (CTX_ACT_OK, ext_err')))
  /\ (forall (s s1 : state world) secctx ext_err ip6 ip6' trace' ext_err',
      revalidate_data6 (ctx s) = Some ip6 ->
      ipv6_host_firewall_apply true ip6 trace_unknown ext_err s
      = (Next (ip6', trace', ext_err'), s1) ->
      lookup_ip6_endpoint (ext s1) ip6' = None ->
      let info := lookup_ip6_remote_endpoint (ext s1) (ip6_daddr ip6') 0 in
      let from_proxy := fst (proxy_provenance true (ctx s)) in
      (info = None ->
       handle_ipv6_cont (R:=Z) secctx true ext_err s
       = (Next (DROP_UNROUTABLE, ext_err'), s1))
      /\ (forall i, info = Some i -> tunnel_redirects i = false ->
          identity_is_world_ipv6 (sec_identity i) = true -> from_proxy = false ->
          handle_ipv6_cont (R:=Z) secctx true ext_err s
          = (Next (DROP_UNROUTABLE, ext_err'), s1))
      /\ (forall i, info = Some i -> tunnel_redirects i = false -> from_proxy = true ->
          fst (handle_ipv6_cont (R:=Z) secctx true ext_err s)
          = Next (CTX_ACT_OK, ext_err'))).
Proof.
  split; intros.
  - eapply handle_ipv4_cont_unroutable; eauto.
  - eapply handle_ipv6_cont_unroutable; eauto.
Qed.

(** *** fib_do_redirect *)

(** Towards an L2 device, from a device with an Ethernet header, the
    L2-header check of [fib_do_redirect] falls through to the switch. *)
Lemma fib_l2_hdr_check_l2_device (s : state world) needs_l2_check oif ext_err :
  needs_l2_check = false \/ (IS_L3_DEV cfg oif = false /\ ETH_HLEN cfg <> 0) ->
  fib_l2_hdr_check needs_l2_check oif ext_err s = (Next false, s).
Proof.
  unfold fib_l2_hdr_check. intros [-> | [Hl3 Heth]]; [reflexivity|].
  destruct needs_l2_check; [|reflexivity].
  unfold maybe_add_l2_hdr, call, bind. rewrite Hl3.
  apply Z.eqb_neq in Heth. rewrite Heth. reflexivity.
Qed.

(** C5 (amended).  [fib_do_redirect] with the FIB result [BPF_FIB_LKUP_RET_NO_NEIGH],
    once the L2-header check has fallen through to the switch.  With the
    neighbour resolver the function returns what [redirect_neigh] to [oif]
    returns, with the next hop of [fib_params] when there is one.  Without
    it, the neighbour map is consulted when [allow_neigh_map] is set: with
    no entry (or when the map is not allowed) the function returns
    [DROP_NO_FIB] and leaves [BPF_FIB_MAP_NO_NEIGH] in [*ext_err], touching
    nothing; with an entry it stores that address as the destination MAC,
    the device's as the source, and redirects with [ctx_redirect]. *)
Theorem fib_no_neigh_resolver_then_map
    (s s1 : state world) needs_l2_check fib_params allow_neigh_map oif ext_err :
  fib_l2_hdr_check needs_l2_check oif ext_err s = (Next false, s1) ->
  let result := fib_do_redirect (R:=Z) needs_l2_check fib_params allow_neigh_map
                  BPF_FIB_LKUP_RET_NO_NEIGH oif ext_err s in
  (neigh_resolver_available cfg = true ->
   forall r c w,
     redirect_neigh oif
       ((fun l => {| nh_family := fib_family l; ipv6_nh := fib_ipv6_dst l |}) <$> fib_params)
       0 (ext s1) (ctx s1) = (r, c, w) ->
     result = (Next (r, ext_err), set_ctx_ext s1 c w))
  /\ (neigh_resolver_available cfg = false ->
      (allow_neigh_map = false ->
       result = (Next (DROP_NO_FIB, BPF_FIB_MAP_NO_NEIGH), s1))
      /\ (forall l, allow_neigh_map = true -> fib_params = Some l ->
          (neigh_map_dmac (ext s1) l = None ->
           result = (Next (DROP_NO_FIB, BPF_FIB_MAP_NO_NEIGH), s1))
          /\ (forall dmac, neigh_map_dmac (ext s1) l = Some dmac ->
              result
              = call (let* r := extern (eth_store_daddr_aligned dmac 0) in
                      if r <? 0 then ret (DROP_WRITE_ERROR, ext_err)
                      else
                        let* r := extern (eth_store_saddr_aligned
                                            (NATIVE_DEV_MAC_BY_IFINDEX oif) 0) in
                        if r <? 0 then ret (DROP_WRITE_ERROR, ext_err)
                        else
                          let* r := extern (ctx_redirect oif 0) in
                          ret (r, ext_err)) s1))).
Proof.
  intros Hl2 result. subst result.
  unfold fib_do_redirect, call. cbv zeta. rewrite (bind_next _ _ _ _ _ Hl2).
  change (BPF_FIB_LKUP_RET_NO_NEIGH =? BPF_FIB_LKUP_RET_SUCCESS) with false.
  change (BPF_FIB_LKUP_RET_NO_NEIGH =? BPF_FIB_LKUP_RET_NO_NEIGH) with true.
  cbv iota. split.
  - intros Hres r c w Hred. rewrite Hres.
    destruct fib_params as [l|]; simpl in Hred;
      unfold bind, extern; rewrite Hred; reflexivity.
  - intros Hres. rewrite Hres. split.
    + intros ->. reflexivity.
    + intros l -> ->. simpl default.
      split; [intros Hd | intros dmac Hd]; unfold neigh_map_dmac in Hd;
        unfold call, bind, gets_ext, extern; rewrite Hd; [reflexivity|].
      destruct (eth_store_daddr_aligned dmac 0 (ext s1) (ctx s1)) as [[r1 c1] w1].
      destruct (r1 <? 0); [reflexivity|]. simpl.
      destruct (eth_store_saddr_aligned _ 0 w1 c1) as [[r2 c2] w2].
      destruct (r2 <? 0); [reflexivity|]. simpl.
      destruct (ctx_redirect oif 0 w2 c2) as [[r3 c3] w3]. reflexivity.
Qed.

(** *** The VLAN filter of the entry points *)

Lemma cil_from_netdev_vlan (s : state world) :
  vlan_present (ctx s) = true ->
  Z.land (vlan_tci (ctx s)) 0xfff <> 0 ->
  cil_from_netdev (R:=Z) s
  = if allow_vlan (ifindex (ctx s)) (Z.land (vlan_tci (ctx s)) 0xfff)
    then (Next CTX_ACT_OK, s)
    else (Next CTX_ACT_DROP,
          add_event s (EvDrop UNKNOWN_ID 0 0 DROP_VLAN_FILTERED 0 CTX_ACT_DROP METRIC_INGRESS)).
Proof.
  intros Hp Hid. apply Z.eqb_neq in Hid.
  unfold cil_from_netdev, call.
  assert (Hflags : forall A (k : Z -> prog world Z A),
    bind (if ENABLE_NODEPORT_ACCELERATION cfg
          then gets_ctx (fun c => ctx_get_xfer c XFER_FLAGS) else pure 0) k s
    = k (if ENABLE_NODEPORT_ACCELERATION cfg then ctx_get_xfer (ctx s) XFER_FLAGS else 0) s).
  { intros A k. destruct (ENABLE_NODEPORT_ACCELERATION cfg); reflexivity. }
  rewrite Hflags. unfold bind at 1, get_ctx. rewrite Hp, Hid. simpl negb. cbv iota.
  destruct (allow_vlan _ _); reflexivity.
Qed.

Lemma cil_to_netdev_vlan (s : state world) :
  vlan_present (ctx s) = true ->
  Z.land (vlan_tci (ctx s)) 0xfff <> 0 ->
  let s1 := set_ctx s (cb_clear (ctx s)) in
  cil_to_netdev (R:=Z) s
  = if allow_vlan (ifindex (ctx s)) (Z.land (vlan_tci (ctx s)) 0xfff)
    then (Next CTX_ACT_OK, s1)
    else (Next CTX_ACT_DROP,
          add_event s1 (EvDrop (to_netdev_src_sec_identity (cb_clear (ctx s))) 0 0
                               DROP_VLAN_FILTERED 0 CTX_ACT_DROP METRIC_EGRESS)).
Proof.
  intros Hp Hid s1. apply Z.eqb_neq in Hid.
  unfold cil_to_netdev, call, bind at 1, get_ctx. cbv zeta.
  unfold bind at 1, bpf_clear_meta, modify_ctx. unfold bind at 1. fold s1.
  change (vlan_present (ctx s1)) with (vlan_present (ctx s)).
  change (vlan_tci (ctx s1)) with (vlan_tci (ctx s)).
  change (ifindex (ctx s1)) with (ifindex (ctx s)).
  rewrite Hp, Hid. simpl negb. cbv iota.
  unfold bind at 1.
  destruct (allow_vlan _ _); reflexivity.
Qed.

Lemma allow_vlan_116 (vlan_id : Z) :
  allow_vlan 116 vlan_id = true <-> vlan_id = 4000 \/ vlan_id = 4001.
Proof.
  unfold allow_vlan, VLAN_FILTER. simpl.
  destruct (vlan_id =? 4000) eqn:H0; destruct (vlan_id =? 4001) eqn:H1; simpl;
    rewrite ?Z.eqb_eq, ?Z.eqb_neq in *; split; intros; try lia; try discriminate.
Qed.

(** C6.  The VLAN filter.  For a frame that carries a non-zero VLAN id,
    [cil_from_netdev] and [cil_to_netdev] return [CTX_ACT_OK] when
    [allow_vlan] accepts the interface and the id, leaving the frame as it
    is ([cil_from_netdev] leaves the whole state, [cil_to_netdev] has only
    cleared the metadata slots), and otherwise drop it with the
    notification [DROP_VLAN_FILTERED]; on interface 116 the allowed ids are
    4000 and 4001, so 4002 is not allowed. *)
Theorem vlan_filter_at_entry_points :
  (forall s : state world,
      vlan_present (ctx s) = true ->
      let vlan_id := Z.land (vlan_tci (ctx s)) 0xfff in
      vlan_id <> 0 ->
      let s1 := set_ctx s (cb_clear (ctx s)) in
      (allow_vlan (ifindex (ctx s)) vlan_id = true ->
       cil_from_netdev (R:=Z) s = (Next CTX_ACT_OK, s)
       /\ cil_to_netdev (R:=Z) s = (Next CTX_ACT_OK, s1)
       /\ frame (ctx s1) = frame (ctx s))
      /\ (allow_vlan (ifindex (ctx s)) vlan_id = false ->
          cil_from_netdev (R:=Z) s
          = (Next CTX_ACT_DROP,
             add_event s (EvDrop UNKNOWN_ID 0 0 DROP_VLAN_FILTERED 0 CTX_ACT_DROP
                                 METRIC_INGRESS))
          /\ cil_to_netdev (R:=Z) s
             = (Next CTX_ACT_DROP,
                add_event s1 (EvDrop (to_netdev_src_sec_identity (cb_clear (ctx s))) 0 0
                                     DROP_VLAN_FILTERED 0 CTX_ACT_DROP METRIC_EGRESS))))
  /\ (forall vlan_id, allow_vlan 116 vlan_id = true <-> vlan_id = 4000 \/ vlan_id = 4001)
  /\ allow_vlan 116 4002 = false.
Proof.
  split; [|split; [exact allow_vlan_116 | reflexivity]].
  intros s Hp vlan_id Hid s1.
  pose proof (cil_from_netdev_vlan s Hp Hid) as Hfrom.
  pose proof (cil_to_netdev_vlan s Hp Hid) as Hto. cbv zeta in Hto.
  fold vlan_id in Hfrom, Hto. fold s1 in Hto.
  split; intros Hallow; rewrite Hallow in Hfrom, Hto; repeat split; assumption.
Qed.

(** *** The host firewall of cil_to_netdev *)

Lemma bind_same_after {R A B} (m : prog world R A) (k1 k2 : A -> prog world R B) s :
  (forall a s', m s = (Next a, s') -> k1 a s' = k2 a s') ->
  bind m k1 s = bind m k2 s.
Proof.
  intros Hk. unfold bind. destruct (m s) as [[a|r|v] s'] eqn:Hm; try reflexivity.
  apply Hk. reflexivity.
Qed.

Lemma call_same {R R'} (b1 b2 : prog world R R) (s : state world) :
  b1 s = b2 s -> call (R':=R') b1 s = call b2 s.
Proof. unfold call. intros ->. reflexivity. Qed.

(** C10.  In [cil_to_netdev], a packet whose context has the snat-done mark
    skips the host-firewall block: the program does what the build without
    [ENABLE_HOST_FIREWALL] does, in which the ethertype check,
    [handle_to_netdev_ipv4] / [handle_to_netdev_ipv6] and their policy are
    not compiled. *)
Theorem snat_done_skips_host_firewall (s : state world) :
  ctx_snat_done (cb_clear (ctx s)) = true ->
  cil_to_netdev (R:=Z) (cfg:=cfg) s = cil_to_netdev (R:=Z) (cfg:=without_host_firewall cfg) s.
Proof.
  intros Hsnat.
  unfold cil_to_netdev. apply call_same.
  apply bind_same_after. intros c s0 [= <- <-]. cbv beta zeta.
  apply bind_same_after. intros [] s1 [= <-]. cbv beta.
  apply bind_same_after. intros c s0 [= <- <-]. cbv beta.
  change (ENABLE_IDENTITY_MARK (without_host_firewall cfg)) with (ENABLE_IDENTITY_MARK cfg).
  change (ENABLE_EGRESS_GATEWAY_COMMON (without_host_firewall cfg))
    with (ENABLE_EGRESS_GATEWAY_COMMON cfg).
  change (ENABLE_L7_LB (without_host_firewall cfg)) with (ENABLE_L7_LB cfg).
  change (ENABLE_HOST_FIREWALL (without_host_firewall cfg)) with false. cbv iota.
  set (s1 := set_ctx s (cb_clear (ctx s))).
  change (ctx s1) with (cb_clear (ctx s)).
  apply bind_same_after. intros [] s2 Hvlan.
  assert (s2 = s1) as ->.
  { destruct (vlan_present _); [|injection Hvlan; auto].
    destruct (negb _); [|injection Hvlan; auto].
    destruct (allow_vlan _ _); [discriminate|].
    unfold to_netdev_drop_err, send_drop_notify_error_ext,
      send_drop_notify_error_with_exitcode_ext, bind, emit, pure, ret in Hvlan.
    discriminate. }
  clear Hvlan.
  apply bind_same_after. intros [] s2 Hl7.
  assert (s2 = s1) as ->.
  { destruct (_ && _); [|injection Hl7; auto].
    unfold bind at 1, modify_ctx in Hl7. unfold bind at 1 in Hl7.
    destruct (extern _ _) as [[t|?|?] s3]; try discriminate.
    destruct t as [v|r]; [discriminate|].
    unfold to_netdev_drop_err, send_drop_notify_error_ext,
      send_drop_notify_error_with_exitcode_ext, bind, emit, pure, ret in Hl7.
    discriminate. }
  clear Hl7.
  apply bind_same_after. intros [ok proto] s2 [= _ <-].
  destruct (ENABLE_HOST_FIREWALL cfg); [|reflexivity].
  unfold bind, get_ctx. cbv beta. change (ctx s1) with (cb_clear (ctx s)).
  rewrite Hsnat. reflexivity.
Qed.

(** *** Programs that take no tail call *)

Lemma same_program_array_refl (s : state world) : same_program_array s s.
Proof. split; reflexivity. Qed.

Lemma same_program_array_trans (s1 s2 s3 : state world) :
  same_program_array s1 s2 -> same_program_array s2 s3 -> same_program_array s1 s3.
Proof. intros [H1 H2] [H3 H4]. split; congruence. Qed.

Lemma same_program_array_possible (s s' : state world) index :
  same_program_array s s' -> tail_call_possible s' index = tail_call_possible s index.
Proof. intros [H1 H2]. unfold tail_call_possible. rewrite H1, H2. reflexivity. Qed.

Lemma keeps_pure {R A} (a : A) : keeps_program_array (world:=world) (R:=R) (pure a).
Proof. intros s. apply same_program_array_refl. Qed.

Lemma keeps_ret {R A} (r : R) : keeps_program_array (world:=world) (A:=A) (ret r).
Proof. intros s. apply same_program_array_refl. Qed.

Lemma keeps_bind {R A B} (m : prog world R A) (k : A -> prog world R B) :
  keeps_program_array m -> (forall a, keeps_program_array (k a)) ->
  keeps_program_array (bind m k).
Proof.
  intros Hm Hk s. unfold bind. specialize (Hm s).
  destruct (m s) as [[a|r|v] s']; simpl in *; try exact Hm.
  eapply same_program_array_trans; [exact Hm | apply Hk].
Qed.

Lemma keeps_call {R R'} (body : prog world R R) :
  keeps_program_array body -> keeps_program_array (call (R':=R') body).
Proof.
  intros Hb s. unfold call. specialize (Hb s).
  destruct (body s) as [[a|r|v] s']; exact Hb.
Qed.

Lemma keeps_extern {R A} (f : eff world A) : keeps_program_array (R:=R) (extern f).
Proof. intros s. unfold extern. destruct (f (ext s) (ctx s)) as [[a c] w]. split; reflexivity. Qed.

Lemma keeps_emit {R} e : keeps_program_array (world:=world) (R:=R) (emit e).
Proof. intros s. split; reflexivity. Qed.

Lemma keeps_get_ctx {R} : keeps_program_array (world:=world) (R:=R) get_ctx.
Proof. intros s. split; reflexivity. Qed.

Lemma keeps_gets_ctx {R A} (f : ctx_buff -> A) :
  keeps_program_array (world:=world) (R:=R) (gets_ctx f).
Proof. intros s. split; reflexivity. Qed.

Lemma keeps_gets_ext {R A} (f : world -> A) : keeps_program_array (R:=R) (gets_ext f).
Proof. intros s. split; reflexivity. Qed.

Lemma keeps_modify_ctx {R} f : keeps_program_array (world:=world) (R:=R) (modify_ctx f).
Proof. intros s. split; reflexivity. Qed.

Lemma keeps_modify_ext {R} f : keeps_program_array (world:=world) (R:=R) (modify_ext f).
Proof. intros s. split; reflexivity. Qed.

Lemma keeps_when {R} c (p : prog world R unit) :
  keeps_program_array p -> keeps_program_array (when c p).
Proof. intros Hp. destruct c; [exact Hp | apply keeps_pure]. Qed.

Ltac keeps_step :=
  match goal with
  | |- keeps_program_array (bind _ _) => apply keeps_bind; [|intros ?]
  | |- keeps_program_array (call _) => apply keeps_call
  | |- keeps_program_array (when _ _) => apply keeps_when
  | |- keeps_program_array (pure _) => apply keeps_pure
  | |- keeps_program_array (ret _) => apply keeps_ret
  | |- keeps_program_array (extern _) => apply keeps_extern
  | |- keeps_program_array (emit _) => apply keeps_emit
  | |- keeps_program_array get_ctx => apply keeps_get_ctx
  | |- keeps_program_array (gets_ctx _) => apply keeps_gets_ctx
  | |- keeps_program_array (gets_ext _) => apply keeps_gets_ext
  | |- keeps_program_array (modify_ctx _) => apply keeps_modify_ctx
  | |- keeps_program_array (modify_ext _) => apply keeps_modify_ext
  | |- keeps_program_array (if ?b then _ else _) => destruct b
  | |- keeps_program_array (match ?x with _ => _ end) => destruct x
  end.

Lemma keeps_handle_l2_announcement {R} ip6 :
  keeps_program_array (handle_l2_announcement (R:=R) ip6).
Proof. unfold handle_l2_announcement. cbv zeta. repeat keeps_step. Qed.

Lemma keeps_send_drop_notify_error {R} src err dir :
  keeps_program_array (world:=world) (R:=R) (send_drop_notify_error src err dir).
Proof.
  unfold send_drop_notify_error, send_drop_notify_error_with_exitcode_ext.
  repeat keeps_step.
Qed.

Lemma keeps_do_netdev_l2_announcement6 identity ip6 :
  keeps_program_array (do_netdev_l2_announcement6 identity ip6).
Proof.
  unfold do_netdev_l2_announcement6.
  repeat first [apply keeps_handle_l2_announcement | apply keeps_send_drop_notify_error
               | keeps_step].
Qed.

Lemma keeps_resolve_srcid_ipv4 {R} ip4 id ipc from_host :
  keeps_program_array (resolve_srcid_ipv4 (R:=R) ip4 id ipc from_host).
Proof. unfold resolve_srcid_ipv4, cilium_dbg. cbv zeta. repeat keeps_step. Qed.

Lemma keeps_resolve_srcid_ipv6 {R} ip6 id ipc from_host :
  keeps_program_array (resolve_srcid_ipv6 (R:=R) ip6 id ipc from_host).
Proof. unfold resolve_srcid_ipv6, cilium_dbg. cbv zeta. repeat keeps_step. Qed.


Lemma tail_call_internal_missed {R} index target ext_err (s : state world) :
  tail_call_possible s index = false ->
  tail_call_internal (R:=R) index target ext_err s = (Next (DROP_MISSED_TAIL_CALL, index), s).
Proof.
  intros Hno. unfold tail_call_internal, bind, tail_call_static. rewrite Hno. reflexivity.
Qed.

Lemma falls_pure {R A} (a : A) : falls_through (world:=world) (R:=R) (pure a).
Proof. intros s. exists a, s. split; [reflexivity | apply same_program_array_refl]. Qed.

Lemma falls_bind {R A B} (m : prog world R A) (k : A -> prog world R B) :
  falls_through m -> (forall a, falls_through (k a)) -> falls_through (bind m k).
Proof.
  intros Hm Hk s. destruct (Hm s) as (a & s1 & Heq & Hs1).
  destruct (Hk a s1) as (b & s2 & Heq2 & Hs2).
  exists b, s2. split; [rewrite (bind_next _ _ _ _ _ Heq); exact Heq2 |].
  eapply same_program_array_trans; eassumption.
Qed.

Lemma falls_extern {R A} (f : eff world A) : falls_through (R:=R) (extern f).
Proof.
  intros s. unfold extern. destruct (f (ext s) (ctx s)) as [[a c] w].
  eexists _, _. split; [reflexivity | split; reflexivity].
Qed.

Lemma falls_emit {R} e : falls_through (world:=world) (R:=R) (emit e).
Proof. intros s. eexists _, _. split; [reflexivity | split; reflexivity]. Qed.

Lemma falls_get_ctx {R} : falls_through (world:=world) (R:=R) get_ctx.
Proof. intros s. eexists _, _. split; [reflexivity | split; reflexivity]. Qed.

Lemma falls_modify_ctx {R} f : falls_through (world:=world) (R:=R) (modify_ctx f).
Proof. intros s. eexists _, _. split; [reflexivity | split; reflexivity]. Qed.

Lemma falls_when {R} c (p : prog world R unit) :
  falls_through p -> falls_through (when c p).
Proof. intros Hp. destruct c; [exact Hp | apply falls_pure]. Qed.

Ltac falls_step :=
  match goal with
  | |- falls_through (bind _ _) => apply falls_bind; [|intros ?]
  | |- falls_through (when _ _) => apply falls_when
  | |- falls_through (pure _) => apply falls_pure
  | |- falls_through (extern _) => apply falls_extern
  | |- falls_through (emit _) => apply falls_emit
  | |- falls_through get_ctx => apply falls_get_ctx
  | |- falls_through (modify_ctx _) => apply falls_modify_ctx
  | |- falls_through (if ?b then _ else _) => destruct b
  | |- falls_through (match ?x with _ => _ end) => destruct x
  end.

(** Run the next statement of a straight-line stretch, keeping track of
    the program array through [Hno]. *)
Ltac run_next Hno :=
  match goal with
  | |- context [bind ?m ?k ?s] =>
    let Hst := fresh "Hst" in
    assert (Hst : falls_through m)
      by (unfold ctx_store_meta, send_trace_notify; repeat falls_step);
    let a := fresh "a" in
    let s' := fresh "s" in
    let Heq := fresh "Heq" in
    let Hs := fresh "Hsame" in
    destruct (Hst s) as (a & s' & Heq & Hs);
    rewrite (bind_next _ _ _ _ _ Heq);
    rewrite <- (same_program_array_possible _ _ _ Hs) in Hno;
    clear Heq Hs Hst
  end.

(** *** do_netdev *)

Lemma do_netdev_ipv4_missed (s : state world) identity obs_point (from_host : bool) ip4 :
  ENABLE_IPV4 cfg = true ->
  revalidate_data_pull4 (cb_clear (ctx s)) = Some ip4 ->
  let index := if from_host then CILIUM_CALL_IPV4_FROM_HOST
               else CILIUM_CALL_IPV4_FROM_NETDEV in
  let src := resolve_srcid_spec (WORLD_IPV4_ID cfg) (secctx_from_ipcache cfg)
               (identity_is_reserved identity)
               (lookup_ip4_remote_endpoint (ext s) (ip4_saddr ip4) 0) identity from_host in
  tail_call_possible s index = false ->
  exists s',
    do_netdev (R:=Z) (bpf_htons ETH_P_IP) identity obs_point from_host s
    = (Next CTX_ACT_OK,
       add_event s' (EvDrop src 0 0 DROP_MISSED_TAIL_CALL index CTX_ACT_OK METRIC_INGRESS)).
Proof.
  intros Hv4 Hrev index src Hno.
  unfold do_netdev, call. cbv zeta.
  set (s1 := set_ctx s (cb_clear (ctx s))).
  rewrite (bind_next _ _ s tt s1) by reflexivity.
  change (bpf_htons ETH_P_IP =? bpf_htons ETH_P_ARP) with false.
  change (bpf_htons ETH_P_IP =? bpf_htons ETH_P_IPV6) with false.
  change (bpf_htons ETH_P_IP =? bpf_htons ETH_P_IP) with true.
  rewrite !andb_false_r, Hv4. cbn [andb].
  rewrite (bind_next _ _ s1 (ctx s1) s1) by reflexivity.
  change (ctx s1) with (cb_clear (ctx s)). rewrite Hrev.
  rewrite (bind_next _ _ _ _ _ (resolve_srcid_ipv4_run ip4 identity 0 from_host s1)).
  cbv zeta. change (ext s1) with (ext s). fold src.
  match goal with |- context [bind _ _ ?st] =>
    assert (Hno2 : tail_call_possible st index = false)
      by (destruct (identity_is_reserved identity); exact Hno);
    generalize dependent st
  end.
  clear Hno. intros s2 Hno2. do 5 run_next Hno2.
  match goal with |- context [bind _ _ ?st] => exists st end.
  subst index. destruct from_host;
    rewrite (bind_next _ _ _ _ _ (tail_call_internal_missed _ _ _ _ Hno2)); reflexivity.
Qed.

Lemma do_netdev_ipv6_missed (s s2 : state world) identity obs_point (from_host : bool)
    ip6 ip6' :
  ENABLE_IPV6 cfg = true ->
  revalidate_data_pull6 (cb_clear (ctx s)) = Some ip6 ->
  do_netdev_l2_announcement6 identity ip6 (set_ctx s (cb_clear (ctx s))) = (Next ip6', s2) ->
  let index := if from_host then CILIUM_CALL_IPV6_FROM_HOST
               else CILIUM_CALL_IPV6_FROM_NETDEV in
  let src := resolve_srcid_spec (WORLD_IPV6_ID cfg) (secctx_from_ipcache cfg)
               (identity_is_reserved identity)
               (lookup_ip6_remote_endpoint (ext s2) (ip6_saddr ip6') 0) identity from_host in
  tail_call_possible s index = false ->
  exists s',
    do_netdev (R:=Z) (bpf_htons ETH_P_IPV6) identity obs_point from_host s
    = (Next CTX_ACT_OK,
       add_event s' (EvDrop src 0 0 DROP_MISSED_TAIL_CALL index CTX_ACT_OK METRIC_INGRESS)).
Proof.
  intros Hv6 Hrev Hl2 index src Hno.
  unfold do_netdev, call. cbv zeta.
  set (s1 := set_ctx s (cb_clear (ctx s))) in *.
  rewrite (bind_next _ _ s tt s1) by reflexivity.
  change (bpf_htons ETH_P_IPV6 =? bpf_htons ETH_P_ARP) with false.
  change (bpf_htons ETH_P_IPV6 =? bpf_htons ETH_P_IPV6) with true.
  rewrite !andb_false_r, Hv6. cbn [andb].
  rewrite (bind_next _ _ s1 (ctx s1) s1) by reflexivity.
  change (ctx s1) with (cb_clear (ctx s)). rewrite Hrev.
  rewrite (bind_next _ _ _ _ _ Hl2).
  assert (Hno2 : tail_call_possible s2 index = false).
  { rewrite <- Hno. transitivity (tail_call_possible s1 index); [|reflexivity].
    apply same_program_array_possible.
    pose proof (keeps_do_netdev_l2_announcement6 identity ip6 s1) as Hk.
    rewrite Hl2 in Hk. exact Hk. }
  clear Hno Hl2.
  rewrite (bind_next _ _ _ _ _ (resolve_srcid_ipv6_run ip6' identity 0 from_host s2)).
  cbv zeta. fold src.
  match goal with |- context [bind _ _ ?st] =>
    assert (Hno3 : tail_call_possible st index = false)
      by (destruct (identity_is_reserved identity); exact Hno2);
    generalize dependent st
  end.
  clear Hno2. intros s3 Hno3. do 5 run_next Hno3.
  match goal with |- context [bind _ _ ?st] => exists st end.
  subst index. destruct from_host;
    rewrite (bind_next _ _ _ _ _ (tail_call_internal_missed _ _ _ _ Hno3)); reflexivity.
Qed.

(** C7.  In [do_netdev], for an IPv4 or an IPv6 packet (revalidated, and for
    IPv6 not answered by the L2-announcement block), when the tail call
    into the protocol handler cannot be taken (no program in the slot, or
    the tail-call budget used up), the function returns [CTX_ACT_OK], and the
    last thing it does is the drop notification with the reason
    [DROP_MISSED_TAIL_CALL], the index of the call as extended error and
    [CTX_ACT_OK] as exit code. *)
Theorem do_netdev_tail_call_failure_passes_to_stack :
  (forall (s : state world) identity obs_point (from_host : bool) ip4,
      ENABLE_IPV4 cfg = true ->
      revalidate_data_pull4 (cb_clear (ctx s)) = Some ip4 ->
      let index := if from_host then CILIUM_CALL_IPV4_FROM_HOST
                   else CILIUM_CALL_IPV4_FROM_NETDEV in
      let src := resolve_srcid_spec (WORLD_IPV4_ID cfg) (secctx_from_ipcache cfg)
                   (identity_is_reserved identity)
                   (lookup_ip4_remote_endpoint (ext s) (ip4_saddr ip4) 0)
                   identity from_host in
      tail_call_possible s index = false ->
      exists s',
        do_netdev (R:=Z) (bpf_htons ETH_P_IP) identity obs_point from_host s
        = (Next CTX_ACT_OK,
           add_event s' (EvDrop src 0 0 DROP_MISSED_TAIL_CALL index CTX_ACT_OK
                                METRIC_INGRESS)))
  /\ (forall (s s2 : state world) identity obs_point (from_host : bool) ip6 ip6',
      ENABLE_IPV6 cfg = true ->
      revalidate_data_pull6 (cb_clear (ctx s)) = Some ip6 ->
      do_netdev_l2_announcement6 identity ip6 (set_ctx s (cb_clear (ctx s)))
      = (Next ip6', s2) ->
      let index := if from_host then CILIUM_CALL_IPV6_FROM_HOST
                   else CILIUM_CALL_IPV6_FROM_NETDEV in
      let src := resolve_srcid_spec (WORLD_IPV6_ID cfg) (secctx_from_ipcache cfg)
                   (identity_is_reserved identity)
                   (lookup_ip6_remote_endpoint (ext s2) (ip6_saddr ip6') 0)
                   identity from_host in
      tail_call_possible s index = false ->
      exists s',
        do_netdev (R:=Z) (bpf_htons ETH_P_IPV6) identity obs_point from_host s
        = (Next CTX_ACT_OK,
           add_event s' (EvDrop src 0 0 DROP_MISSED_TAIL_CALL index CTX_ACT_OK
                                METRIC_INGRESS))).
Proof.
  split; intros.
  - eapply do_netdev_ipv4_missed; eauto.
  - eapply do_netdev_ipv6_missed; eauto.
Qed.

End Proofs.

(** * Properties of the FIB entry points and of the host programs *)

Section HostProofs.
Context {cfg : config} {dbg : debug_config} {world : Type}
        `{!Externals world} `{!HostExternals world}.

(** *** Running a call *)

Lemma call_return {R R' : Type} (body : prog world R R) (s s1 : state world) (r : R) :
  body s = (Return r, s1) -> call (R':=R') body s = (Next r, s1).
Proof. unfold call. intros ->. reflexivity. Qed.

Lemma call_eq {R R' : Type} (b1 b2 : prog world R R) (s s1 : state world) :
  b1 s = b2 s1 -> call (R':=R') b1 s = call b2 s1.
Proof. unfold call. intros ->. reflexivity. Qed.

Lemma extern_run {R A} (f : eff world A) (s : state world) a c w :
  f (ext s) (ctx s) = (a, c, w) -> extern (R:=R) f s = (Next a, set_ctx_ext s c w).
Proof. unfold extern. intros ->. reflexivity. Qed.

Lemma bind_bind {R A B C} (m : prog world R A) (k : A -> prog world R B)
    (k2 : B -> prog world R C) (s : state world) :
  bind (bind m k) k2 s = bind m (fun a => bind (k a) k2) s.
Proof. unfold bind. destruct (m s) as [[a|r|v] s']; reflexivity. Qed.

(** *** lib/fib.h *)

(** X1.  When a FIB lookup is made ([ENABLE_SKIP_FIB] unset, or no
    neighbour resolver) and its result is neither
    [BPF_FIB_LKUP_RET_SUCCESS] nor [BPF_FIB_LKUP_RET_NO_NEIGH],
    [fib_redirect], [fib_redirect_v4] and [fib_redirect_v6] return
    [DROP_NO_FIB] with the result of the lookup, cut to a signed byte, in
    [*ext_err]; [*oif] is as it was, and nothing but the lookup has touched
    the packet. *)
Theorem fib_redirect_without_route :
  negb (ENABLE_SKIP_FIB cfg) || negb (neigh_resolver_available cfg) = true ->
  (forall (s : state world) needs_l2_check fib_params use_neigh_map ext_err oif r l c w,
      fib_lookup fib_params 0 (ext s) (ctx s) = (r, l, c, w) ->
      fib_failed r = true ->
      fib_redirect (R:=Z) needs_l2_check fib_params use_neigh_map ext_err oif s
      = (Next (DROP_NO_FIB, to_s8 r, oif), set_ctx_ext s c w))
  /\ (forall (s : state world) l3_off ip4 needs_l2_check allow_neigh_map ext_err oif r l c w,
      fib_lookup
        {| fib_l := {| fib_family := AF_INET; fib_ifindex := ctx_get_ifindex (ctx s);
                       fib_ipv6_dst := v6addr_set_p1 v6addr_zero (ip4_daddr ip4);
                       fib_smac := []; fib_dmac := [] |};
           fib_ipv6_src := v6addr_set_p1 v6addr_zero (ip4_saddr ip4) |}
        0 (ext s) (ctx s) = (r, l, c, w) ->
      fib_failed r = true ->
      fib_redirect_v4 (R:=Z) l3_off ip4 needs_l2_check allow_neigh_map ext_err oif s
      = (Next (DROP_NO_FIB, to_s8 r, oif), set_ctx_ext s c w))
  /\ (forall (s : state world) l3_off ip6 needs_l2_check allow_neigh_map ext_err oif r l c w,
      fib_lookup
        {| fib_l := {| fib_family := AF_INET6; fib_ifindex := ctx_get_ifindex (ctx s);
                       fib_ipv6_dst := ip6_daddr ip6;
                       fib_smac := []; fib_dmac := [] |};
           fib_ipv6_src := ip6_saddr ip6 |}
        0 (ext s) (ctx s) = (r, l, c, w) ->
      fib_failed r = true ->
      fib_redirect_v6 (R:=Z) l3_off ip6 needs_l2_check allow_neigh_map ext_err oif s
      = (Next (DROP_NO_FIB, to_s8 r, oif), set_ctx_ext s c w)).
Proof.
  intros Hfib. unfold fib_failed.
  split; [|split].
  - intros s n p u e oif r l c w Hlk Hfail.
    unfold fib_redirect. rewrite Hfib. apply call_return.
    rewrite (bind_next _ _ _ _ _ (extern_run _ _ _ _ _ Hlk)).
    apply negb_true_iff in Hfail. rewrite Hfail. reflexivity.
  - intros s l3 ip4 n a e oif r l c w Hlk Hfail.
    unfold fib_redirect_v4. rewrite Hfib. apply call_return. cbv zeta.
    assert (Hl : fib_lookup_v4 (R:=Z * Z * Z) fib_lookup_args_zero (ip4_saddr ip4)
                   (ip4_daddr ip4) 0 s = (Next (r, l), set_ctx_ext s c w)).
    { unfold fib_lookup_v4. apply call_return.
      unfold bind at 1, gets_ctx. simpl.
      rewrite (bind_next _ _ _ _ _ (extern_run _ _ _ _ _ Hlk)). reflexivity. }
    rewrite (bind_next _ _ _ _ _ Hl).
    apply negb_true_iff in Hfail. rewrite Hfail. reflexivity.
  - intros s l3 ip6 n a e oif r l c w Hlk Hfail.
    unfold fib_redirect_v6. rewrite Hfib. apply call_return. cbv zeta.
    assert (Hl : fib_lookup_v6 (R:=Z * Z * Z) fib_lookup_args_zero (ip6_saddr ip6)
                   (ip6_daddr ip6) 0 s = (Next (r, l), set_ctx_ext s c w)).
    { unfold fib_lookup_v6. apply call_return.
      unfold bind at 1, gets_ctx. simpl.
      rewrite (bind_next _ _ _ _ _ (extern_run _ _ _ _ _ Hlk)). reflexivity. }
    rewrite (bind_next _ _ _ _ _ Hl).
    apply negb_true_iff in Hfail. rewrite Hfail. reflexivity.
Qed.

(** X2.  In [fib_redirect_v4] and [fib_redirect_v6], a verdict of the L3
    rewrite ([ipv4_l3], [ipv6_l3]) other than [CTX_ACT_OK] is returned at
    once and the packet is not redirected.  After a lookup that found a
    route [*oif] is already the interface of the route; without a lookup
    ([ENABLE_SKIP_FIB] with the resolver) it is as it was. *)
Theorem fib_redirect_l3_verdict_is_final :
  (forall (s : state world) l3_off ip4 needs_l2_check allow_neigh_map ext_err oif
          r l c w v c' w',
      negb (ENABLE_SKIP_FIB cfg) || negb (neigh_resolver_available cfg) = true ->
      fib_lookup
        {| fib_l := {| fib_family := AF_INET; fib_ifindex := ctx_get_ifindex (ctx s);
                       fib_ipv6_dst := v6addr_set_p1 v6addr_zero (ip4_daddr ip4);
                       fib_smac := []; fib_dmac := [] |};
           fib_ipv6_src := v6addr_set_p1 v6addr_zero (ip4_saddr ip4) |}
        0 (ext s) (ctx s) = (r, l, c, w) ->
      fib_failed r = false ->
      ipv4_l3 l3_off None None ip4 w c = (v, c', w') ->
      v <> CTX_ACT_OK ->
      fib_redirect_v4 (R:=Z) l3_off ip4 needs_l2_check allow_neigh_map ext_err oif s
      = (Next (v, ext_err, fib_ifindex l), set_ctx_ext s c' w'))
  /\ (forall (s : state world) l3_off ip4 needs_l2_check allow_neigh_map ext_err oif v c' w',
      negb (ENABLE_SKIP_FIB cfg) || negb (neigh_resolver_available cfg) = false ->
      ipv4_l3 l3_off None None ip4 (ext s) (ctx s) = (v, c', w') ->
      v <> CTX_ACT_OK ->
      fib_redirect_v4 (R:=Z) l3_off ip4 needs_l2_check allow_neigh_map ext_err oif s
      = (Next (v, ext_err, oif), set_ctx_ext s c' w'))
  /\ (forall (s : state world) l3_off ip6 needs_l2_check allow_neigh_map ext_err oif
          r l c w v c' w',
      negb (ENABLE_SKIP_FIB cfg) || negb (neigh_resolver_available cfg) = true ->
      fib_lookup
        {| fib_l := {| fib_family := AF_INET6; fib_ifindex := ctx_get_ifindex (ctx s);
                       fib_ipv6_dst := ip6_daddr ip6;
                       fib_smac := []; fib_dmac := [] |};
           fib_ipv6_src := ip6_saddr ip6 |}
        0 (ext s) (ctx s) = (r, l, c, w) ->
      fib_failed r = false ->
      ipv6_l3 l3_off None None METRIC_EGRESS w c = (v, c', w') ->
      v <> CTX_ACT_OK ->
      fib_redirect_v6 (R:=Z) l3_off ip6 needs_l2_check allow_neigh_map ext_err oif s
      = (Next (v, ext_err, fib_ifindex l), set_ctx_ext s c' w'))
  /\ (forall (s : state world) l3_off ip6 needs_l2_check allow_neigh_map ext_err oif v c' w',
      negb (ENABLE_SKIP_FIB cfg) || negb (neigh_resolver_available cfg) = false ->
      ipv6_l3 l3_off None None METRIC_EGRESS (ext s) (ctx s) = (v, c', w') ->
      v <> CTX_ACT_OK ->
      fib_redirect_v6 (R:=Z) l3_off ip6 needs_l2_check allow_neigh_map ext_err oif s
      = (Next (v, ext_err, oif), set_ctx_ext s c' w')).
Proof.
  unfold fib_failed.
  split; [|split; [|split]].
  - intros s l3 ip4 n a e oif r l c w v c' w' Hfib Hlk Hok Hl3 Hv.
    unfold fib_redirect_v4. rewrite Hfib. apply call_return. cbv zeta.
    assert (Hl : fib_lookup_v4 (R:=Z * Z * Z) fib_lookup_args_zero (ip4_saddr ip4)
                   (ip4_daddr ip4) 0 s = (Next (r, l), set_ctx_ext s c w)).
    { unfold fib_lookup_v4. apply call_return.
      unfold bind at 1, gets_ctx. simpl.
      rewrite (bind_next _ _ _ _ _ (extern_run _ _ _ _ _ Hlk)). reflexivity. }
    rewrite (bind_next _ _ _ _ _ Hl).
    apply negb_false_iff in Hok. rewrite Hok.
    rewrite (bind_next _ _ _ _ _ (extern_run _ (set_ctx_ext s c w) _ _ _ Hl3)).
    apply Z.eqb_neq in Hv. rewrite Hv. reflexivity.
  - intros s l3 ip4 n a e oif v c' w' Hfib Hl3 Hv.
    unfold fib_redirect_v4. rewrite Hfib. apply call_return. cbv zeta.
    rewrite (bind_next _ _ _ _ _ (extern_run _ _ _ _ _ Hl3)).
    apply Z.eqb_neq in Hv. rewrite Hv. reflexivity.
  - intros s l3 ip6 n a e oif r l c w v c' w' Hfib Hlk Hok Hl3 Hv.
    unfold fib_redirect_v6. rewrite Hfib. apply call_return. cbv zeta.
    assert (Hl : fib_lookup_v6 (R:=Z * Z * Z) fib_lookup_args_zero (ip6_saddr ip6)
                   (ip6_daddr ip6) 0 s = (Next (r, l), set_ctx_ext s c w)).
    { unfold fib_lookup_v6. apply call_return.
      unfold bind at 1, gets_ctx. simpl.
      rewrite (bind_next _ _ _ _ _ (extern_run _ _ _ _ _ Hlk)). reflexivity. }
    rewrite (bind_next _ _ _ _ _ Hl).
    apply negb_false_iff in Hok. rewrite Hok.
    rewrite (bind_next _ _ _ _ _ (extern_run _ (set_ctx_ext s c w) _ _ _ Hl3)).
    apply Z.eqb_neq in Hv. rewrite Hv. reflexivity.
  - intros s l3 ip6 n a e oif v c' w' Hfib Hl3 Hv.
    unfold fib_redirect_v6. rewrite Hfib. apply call_return. cbv zeta.
    rewrite (bind_next _ _ _ _ _ (extern_run _ _ _ _ _ Hl3)).
    apply Z.eqb_neq in Hv. rewrite Hv. reflexivity.
Qed.

(** [fib_do_redirect] with a resolved neighbour, past the L2-header check. *)
Lemma fib_do_redirect_success (s s1 : state world) needs_l2_check l allow_neigh_map oif
    ext_err :
  fib_l2_hdr_check needs_l2_check oif ext_err s = (Next false, s1) ->
  fib_do_redirect (R:=Z) needs_l2_check (Some l) allow_neigh_map BPF_FIB_LKUP_RET_SUCCESS
    oif ext_err s
  = call (let* r := extern (eth_store_daddr (fib_dmac l) 0) in
          if r <? 0 then ret (DROP_WRITE_ERROR, ext_err)
          else
            let* r := extern (eth_store_saddr (fib_smac l) 0) in
            if r <? 0 then ret (DROP_WRITE_ERROR, ext_err)
            else
              let* r := extern (ctx_redirect oif 0) in
              ret (r, ext_err)) s1.
Proof.
  intros Hl2. unfold fib_do_redirect. apply call_eq. cbv zeta.
  rewrite (bind_next _ _ _ _ _ Hl2).
  change (BPF_FIB_LKUP_RET_SUCCESS =? BPF_FIB_LKUP_RET_SUCCESS) with true. cbv iota.
  simpl default. unfold bind, extern.
  destruct (eth_store_daddr (fib_dmac l) 0 (ext s1) (ctx s1)) as [[r1 c1] w1].
  destruct (r1 <? 0); [reflexivity|]. simpl.
  destruct (eth_store_saddr (fib_smac l) 0 w1 c1) as [[r2 c2] w2].
  destruct (r2 <? 0); [reflexivity|]. simpl.
  destruct (ctx_redirect oif 0 w2 c2) as [[r3 c3] w3]. reflexivity.
Qed.

(** X3.  [fib_do_redirect] with the FIB result [BPF_FIB_LKUP_RET_SUCCESS],
    past the L2-header check: the destination MAC of the lookup is stored,
    then the source MAC, then the packet is redirected with [ctx_redirect]
    to [oif]; a store that fails ends the function with
    [DROP_WRITE_ERROR], and the redirect is not made. *)
Theorem fib_success_rewrites_l2_addresses (s s1 : state world) needs_l2_check l
    allow_neigh_map oif ext_err :
  fib_l2_hdr_check needs_l2_check oif ext_err s = (Next false, s1) ->
  fib_do_redirect (R:=Z) needs_l2_check (Some l) allow_neigh_map BPF_FIB_LKUP_RET_SUCCESS
    oif ext_err s
  = let '(r1, c1, w1) := eth_store_daddr (fib_dmac l) 0 (ext s1) (ctx s1) in
    if r1 <? 0 then (Next (DROP_WRITE_ERROR, ext_err), set_ctx_ext s1 c1 w1)
    else
      let '(r2, c2, w2) := eth_store_saddr (fib_smac l) 0 w1 c1 in
      if r2 <? 0 then (Next (DROP_WRITE_ERROR, ext_err), set_ctx_ext s1 c2 w2)
      else
        let '(r3, c3, w3) := ctx_redirect oif 0 w2 c2 in
        (Next (r3, ext_err), set_ctx_ext s1 c3 w3).
Proof.
  intros Hl2.
  rewrite (fib_do_redirect_success _ _ _ _ _ _ _ Hl2).
  unfold call, bind, extern.
  destruct (eth_store_daddr (fib_dmac l) 0 (ext s1) (ctx s1)) as [[r1 c1] w1].
  destruct (r1 <? 0); [reflexivity|]. simpl.
  destruct (eth_store_saddr (fib_smac l) 0 w1 c1) as [[r2 c2] w2].
  destruct (r2 <? 0); [reflexivity|]. simpl.
  destruct (ctx_redirect oif 0 w2 c2) as [[r3 c3] w3]. reflexivity.
Qed.

(** X4.  Towards an L3 device, [fib_do_redirect] with the L2 check redirects
    the packet with [ctx_redirect] as it is, whatever the FIB result and
    the FIB parameters: no address is stored and no neighbour is looked
    up. *)
Theorem fib_redirect_to_l3_device_skips_l2 (s : state world) fib_params allow_neigh_map
    fib_result oif ext_err r c w :
  IS_L3_DEV cfg oif = true ->
  ctx_redirect oif 0 (ext s) (ctx s) = (r, c, w) ->
  fib_do_redirect (R:=Z) true fib_params allow_neigh_map fib_result oif ext_err s
  = (Next (r, ext_err), set_ctx_ext s c w).
Proof.
  intros Hl3 Hred. unfold fib_do_redirect. apply call_return. cbv zeta.
  assert (Hchk : fib_l2_hdr_check true oif ext_err s = (Next true, s)).
  { unfold fib_l2_hdr_check, maybe_add_l2_hdr, call, bind. rewrite Hl3. reflexivity. }
  rewrite (bind_next _ _ _ _ _ Hchk). cbv iota.
  rewrite (bind_next _ _ _ _ _ (extern_run _ _ _ _ _ Hred)). reflexivity.
Qed.

(** X5.  From a device without an Ethernet header ([ETH_HLEN] 0) to an L2
    device, [fib_do_redirect] with the L2 check first makes room for the
    header and stores the ethertype: [DROP_INVALID] when the room cannot be
    made, [DROP_WRITE_ERROR] when the store fails, and otherwise what
    [fib_do_redirect] without the L2 check does on the packet so
    prepared. *)
Theorem fib_redirect_adds_l2_header_first (s : state world) fib_params
    allow_neigh_map fib_result oif ext_err :
  IS_L3_DEV cfg oif = false ->
  ETH_HLEN cfg = 0 ->
  fib_do_redirect (R:=Z) true fib_params allow_neigh_map fib_result oif ext_err s
  = let '(r1, c1, w1) := ctx_change_head __ETH_HLEN 0 (ext s) (ctx s) in
    if negb (r1 =? 0) then (Next (DROP_INVALID, ext_err), set_ctx_ext s c1 w1)
    else
      let '(r2, c2, w2) := eth_store_proto (ctx_get_protocol (ctx s)) 0 w1 c1 in
      if r2 <? 0 then (Next (DROP_WRITE_ERROR, ext_err), set_ctx_ext s c2 w2)
      else
        fib_do_redirect false fib_params allow_neigh_map fib_result oif ext_err
          (set_ctx_ext s c2 w2).
Proof.
  intros Hl3 Heth.
  unfold fib_do_redirect, call at 1. cbv zeta.
  unfold fib_l2_hdr_check at 1, maybe_add_l2_hdr. rewrite Hl3, Heth.
  change (0 =? 0) with true. cbv iota.
  unfold add_l2_hdr, call at 1, bind at 1. unfold bind at 1. unfold call at 1.
  unfold bind at 1. unfold bind at 1. unfold gets_ctx at 1. unfold bind at 1.
  unfold extern at 1.
  destruct (ctx_change_head __ETH_HLEN 0 (ext s) (ctx s)) as [[r1 c1] w1].
  destruct (r1 =? 0); [|reflexivity]. cbn [negb].
  unfold bind at 1, extern at 1. simpl ext. simpl ctx.
  destruct (eth_store_proto _ 0 w1 c1) as [[r2 c2] w2].
  destruct (r2 <? 0); reflexivity.
Qed.

(** [fib_do_redirect] without a resolved neighbour, with the resolver. *)
Lemma fib_do_redirect_resolver (s s1 : state world) needs_l2_check fib_params
    allow_neigh_map oif ext_err r c w :
  neigh_resolver_available cfg = true ->
  fib_l2_hdr_check needs_l2_check oif ext_err s = (Next false, s1) ->
  redirect_neigh oif
    ((fun l => {| nh_family := fib_family l; ipv6_nh := fib_ipv6_dst l |}) <$> fib_params)
    0 (ext s1) (ctx s1) = (r, c, w) ->
  fib_do_redirect (R:=Z * Z * Z) needs_l2_check fib_params allow_neigh_map
    BPF_FIB_LKUP_RET_NO_NEIGH oif ext_err s
  = (Next (r, ext_err), set_ctx_ext s1 c w).
Proof.
  intros Hres Hl2 Hred. unfold fib_do_redirect. apply call_return. cbv zeta.
  rewrite (bind_next _ _ _ _ _ Hl2).
  change (BPF_FIB_LKUP_RET_NO_NEIGH =? BPF_FIB_LKUP_RET_SUCCESS) with false.
  change (BPF_FIB_LKUP_RET_NO_NEIGH =? BPF_FIB_LKUP_RET_NO_NEIGH) with true.
  cbv iota. rewrite Hres.
  destruct fib_params as [l|]; simpl in Hred;
    unfold bind, extern; rewrite Hred; reflexivity.
Qed.

(** X6.  With [ENABLE_SKIP_FIB] and the neighbour resolver, [fib_redirect],
    [fib_redirect_v4] and [fib_redirect_v6] make no FIB lookup: once the
    L3 rewrite (v4, v6) and the L2-header check have let the packet
    through, it goes to [redirect_neigh] on the direct-routing device with
    no next hop, and [*oif] is that device, whatever it was. *)
Theorem fib_redirect_skips_lookup_with_resolver :
  ENABLE_SKIP_FIB cfg = true ->
  neigh_resolver_available cfg = true ->
  let dev := direct_routing_dev_ifindex cfg in
  (forall (s s1 : state world) needs_l2_check fib_params use_neigh_map ext_err oif r c w,
      fib_l2_hdr_check needs_l2_check dev ext_err s = (Next false, s1) ->
      redirect_neigh dev None 0 (ext s1) (ctx s1) = (r, c, w) ->
      fib_redirect (R:=Z) needs_l2_check fib_params use_neigh_map ext_err oif s
      = (Next (r, ext_err, dev), set_ctx_ext s1 c w))
  /\ (forall (s s1 : state world) l3_off ip4 needs_l2_check allow_neigh_map ext_err oif
          c0 w0 r c w,
      ipv4_l3 l3_off None None ip4 (ext s) (ctx s) = (CTX_ACT_OK, c0, w0) ->
      fib_l2_hdr_check needs_l2_check dev ext_err (set_ctx_ext s c0 w0) = (Next false, s1) ->
      redirect_neigh dev None 0 (ext s1) (ctx s1) = (r, c, w) ->
      fib_redirect_v4 (R:=Z) l3_off ip4 needs_l2_check allow_neigh_map ext_err oif s
      = (Next (r, ext_err, dev), set_ctx_ext s1 c w))
  /\ (forall (s s1 : state world) l3_off ip6 needs_l2_check allow_neigh_map ext_err oif
          c0 w0 r c w,
      ipv6_l3 l3_off None None METRIC_EGRESS (ext s) (ctx s) = (CTX_ACT_OK, c0, w0) ->
      fib_l2_hdr_check needs_l2_check dev ext_err (set_ctx_ext s c0 w0) = (Next false, s1) ->
      redirect_neigh dev None 0 (ext s1) (ctx s1) = (r, c, w) ->
      fib_redirect_v6 (R:=Z) l3_off ip6 needs_l2_check allow_neigh_map ext_err oif s
      = (Next (r, ext_err, dev), set_ctx_ext s1 c w)).
Proof.
  intros Hskip Hres dev.
  split; [|split].
  - intros s s1 n p u e oif r c w Hl2 Hred.
    unfold fib_redirect. rewrite Hskip, Hres. apply call_return.
    change (negb true || negb true) with false. cbv iota zeta.
    fold dev.
    rewrite (bind_next _ _ _ _ _ (fib_do_redirect_resolver _ _ _ None _ _ _ _ _ _ Hres Hl2 Hred)).
    reflexivity.
  - intros s s1 l3 ip4 n a e oif c0 w0 r c w Hl3 Hl2 Hred.
    unfold fib_redirect_v4. rewrite Hskip, Hres. apply call_return.
    change (negb true || negb true) with false. cbv iota zeta.
    rewrite (bind_next _ _ _ _ _ (extern_run _ _ _ _ _ Hl3)).
    change (CTX_ACT_OK =? CTX_ACT_OK) with true. change (negb true) with false.
    cbv iota. fold dev.
    rewrite (bind_next _ _ _ _ _ (fib_do_redirect_resolver _ _ _ None _ _ _ _ _ _ Hres Hl2 Hred)).
    reflexivity.
  - intros s s1 l3 ip6 n a e oif c0 w0 r c w Hl3 Hl2 Hred.
    unfold fib_redirect_v6. rewrite Hskip, Hres. apply call_return.
    change (negb true || negb true) with false. cbv iota zeta.
    rewrite (bind_next _ _ _ _ _ (extern_run _ _ _ _ _ Hl3)).
    change (CTX_ACT_OK =? CTX_ACT_OK) with true. change (negb true) with false.
    cbv iota. fold dev.
    rewrite (bind_next _ _ _ _ _ (fib_do_redirect_resolver _ _ _ None _ _ _ _ _ _ Hres Hl2 Hred)).
    reflexivity.
Qed.

(** *** bpf_host.c: the gates of [handle_ipv4] and [handle_ipv6] *)

(** X7.  [handle_ipv4] and [handle_ipv6] return [DROP_INVALID] for a packet
    whose header cannot be read, and on a build without fragment support
    [DROP_FRAG_NOSUPPORT] for a fragment (for IPv6, the error of
    [ipv6_get_fraginfo] if it has one), before the NodePort load balancer
    and the host firewall: the state is untouched, [*punt_to_stack] and
    [*ext_err] are as they were. *)
Theorem handlers_reject_unreadable_and_fragmented_packets :
  (forall (s : state world) secctx ipc from_host punt e,
      revalidate_data4 (ctx s) = None ->
      handle_ipv4 (R:=Z) secctx ipc from_host punt e s = (Next (DROP_INVALID, punt, e), s))
  /\ (forall (s : state world) secctx ipc from_host punt e ip4,
      ENABLE_IPV4_FRAGMENTS cfg = false ->
      revalidate_data4 (ctx s) = Some ip4 ->
      ipfrag_is_fragment (ipfrag_encode_ipv4 ip4) = true ->
      handle_ipv4 (R:=Z) secctx ipc from_host punt e s
      = (Next (DROP_FRAG_NOSUPPORT, punt, e), s))
  /\ (forall (s : state world) secctx ipc from_host punt e,
      revalidate_data6 (ctx s) = None ->
      handle_ipv6 (R:=Z) secctx ipc from_host punt e s = (Next (DROP_INVALID, punt, e), s))
  /\ (forall (s : state world) secctx ipc from_host punt e ip6,
      ENABLE_IPV6_FRAGMENTS cfg = false ->
      revalidate_data6 (ctx s) = Some ip6 ->
      let fraginfo := ipv6_get_fraginfo (ctx s) ip6 in
      fraginfo < 0 \/ ipfrag_is_fragment fraginfo = true ->
      handle_ipv6 (R:=Z) secctx ipc from_host punt e s
      = (Next (if fraginfo <? 0 then fraginfo else DROP_FRAG_NOSUPPORT, punt, e), s)).
Proof.
  split; [|split; [|split]].
  - intros s secctx ipc fh punt e Hrv.
    unfold handle_ipv4. apply call_return. apply bind_return.
    unfold handle_ipv4_precheck, bind, get_ctx. rewrite Hrv. reflexivity.
  - intros s secctx ipc fh punt e ip4 Hfrag Hrv Hisf.
    unfold handle_ipv4. apply call_return. apply bind_return.
    unfold handle_ipv4_precheck, bind, get_ctx. rewrite Hrv, Hfrag. change (negb false) with true. cbv beta iota.
    rewrite Hisf. reflexivity.
  - intros s secctx ipc fh punt e Hrv.
    unfold handle_ipv6. apply call_return. apply bind_return.
    unfold handle_ipv6_precheck, bind, get_ctx. rewrite Hrv. reflexivity.
  - intros s secctx ipc fh punt e ip6 Hfrag Hrv fraginfo Hwhy.
    unfold handle_ipv6. apply call_return. apply bind_return.
    unfold handle_ipv6_precheck, bind, get_ctx. rewrite Hrv, Hfrag.
    change (negb false) with true. cbv beta iota.
    unfold gets_ctx; cbv beta iota; fold fraginfo.
    destruct (fraginfo <? 0) eqn:Hneg; [reflexivity|].
    destruct Hwhy as [Hlt | ->]; [|reflexivity].
    apply Z.ltb_ge in Hneg. lia.
Qed.


(** *** The pre-check found nothing to enforce *)

Lemma from_host_flags_no_need (is_host_id : bool) :
  (Z.land (from_host_flags false is_host_id) FROM_HOST_FLAG_NEED_HOSTFW =? 0) = true.
Proof. destruct is_host_id; reflexivity. Qed.

(** X8.  When the pre-check phase of [handle_ipv4] / [handle_ipv6] ends
    with [need_hostfw = false], the handler returns [CTX_ACT_OK] without
    writing the transfer buffer, and across the chain boundary the apply
    phase of the continuation lets the packet through without reading the
    buffer, whatever an earlier packet has left in it; [CB_FROM_HOST] is
    cleared. *)
Theorem transfer_buffer_not_consulted_without_enforcement :
  ENABLE_HOST_FIREWALL cfg = true ->
  (forall (s : state world) secctx ipc from_host punt ext_err is_host_id x punt' ext_err' s1,
      handle_ipv4_precheck secctx ipc from_host punt ext_err s
      = (Next (false, is_host_id, x, punt', ext_err'), s1) ->
      exists s2,
        handle_ipv4 (R:=Z) secctx ipc from_host punt ext_err s
        = (Next (CTX_ACT_OK, punt', ext_err'), s2)
        /\ cilium_tail_call_buffer4 s2 = cilium_tail_call_buffer4 s1
        /\ forall src ip4 trace e,
            let s3 := across_chain_boundary src s2 in
            ipv4_host_firewall_apply from_host ip4 trace e s3
            = (Next (ip4, trace, e), set_ctx s3 (cb_set (ctx s3) CB_FROM_HOST 0)))
  /\ (forall (s : state world) secctx ipc from_host punt ext_err is_host_id x punt' ext_err' s1,
      handle_ipv6_precheck secctx ipc from_host punt ext_err s
      = (Next (false, is_host_id, x, punt', ext_err'), s1) ->
      exists s2,
        handle_ipv6 (R:=Z) secctx ipc from_host punt ext_err s
        = (Next (CTX_ACT_OK, punt', ext_err'), s2)
        /\ cilium_tail_call_buffer6 s2 = cilium_tail_call_buffer6 s1
        /\ forall src ip6 trace e,
            let s3 := across_chain_boundary src s2 in
            ipv6_host_firewall_apply from_host ip6 trace e s3
            = (Next (ip6, trace, e), set_ctx s3 (cb_set (ctx s3) CB_FROM_HOST 0))).
Proof.
  intros Hfw; split;
    intros s secctx ipc from_host punt ext_err is_host_id x punt' ext_err' s1 Hpre.
  - exists (set_ctx s1 (cb_set (ctx s1) CB_FROM_HOST (from_host_flags false is_host_id))).
    split; [|split].
    + unfold handle_ipv4. apply call_return.
      rewrite (bind_next _ _ _ _ _ Hpre). cbv beta iota. rewrite Hfw. reflexivity.
    + reflexivity.
    + intros src ip4 trace e s3.
      destruct (across_chain_boundary_keeps src
                  (set_ctx s1 (cb_set (ctx s1) CB_FROM_HOST
                                 (from_host_flags false is_host_id)))) as (_ & _ & Hslot).
      fold s3 in Hslot.
      assert (Hflags : cb_get (ctx s3) CB_FROM_HOST = from_host_flags false is_host_id)
        by (rewrite Hslot; apply cb_get_set_eq).
      unfold ipv4_host_firewall_apply. rewrite Hfw.
      rewrite (bind_next _ _ _ _ _ (ctx_load_and_clear_meta_run _ _)).
      rewrite Hflags, from_host_flags_no_need. reflexivity.
  - exists (set_ctx s1 (cb_set (ctx s1) CB_FROM_HOST (from_host_flags false is_host_id))).
    split; [|split].
    + unfold handle_ipv6. apply call_return.
      rewrite (bind_next _ _ _ _ _ Hpre). cbv beta iota. rewrite Hfw. reflexivity.
    + reflexivity.
    + intros src ip6 trace e s3.
      destruct (across_chain_boundary_keeps src
                  (set_ctx s1 (cb_set (ctx s1) CB_FROM_HOST
                                 (from_host_flags false is_host_id)))) as (_ & _ & Hslot).
      fold s3 in Hslot.
      assert (Hflags : cb_get (ctx s3) CB_FROM_HOST = from_host_flags false is_host_id)
        by (rewrite Hslot; apply cb_get_set_eq).
      unfold ipv6_host_firewall_apply. rewrite Hfw.
      rewrite (bind_next _ _ _ _ _ (ctx_load_and_clear_meta_run _ _)).
      rewrite Hflags, from_host_flags_no_need. reflexivity.
Qed.

(** *** [tail_handle_ipv4] and [tail_handle_ipv6] before the chain boundary *)

(** X9.  [tail_handle_ipv4] / [tail_handle_ipv6] do not call the
    continuation when [handle_ipv4] / [handle_ipv6] returns anything but
    [CTX_ACT_OK], or asks to punt to the stack: an error becomes the drop
    notification with the source identity read from [CB_SRC_LABEL] and
    the extended error, any other verdict (a redirect, [CTX_ACT_OK] for the
    stack) is returned as it is, in the state the handler left. *)
Theorem tail_handlers_stop_before_chain_boundary :
  (forall (s s2 : state world) ipcache_srcid from_host r punt e,
      let src := cb_get (ctx s) CB_SRC_LABEL in
      handle_ipv4 (R:=Z) src ipcache_srcid from_host false 0
        (set_ctx s (cb_set (ctx s) CB_SRC_LABEL 0)) = (Next (r, punt, e), s2) ->
      r <> CTX_ACT_OK \/ punt = true ->
      tail_handle_ipv4 (R:=Z) ipcache_srcid from_host s
      = if IS_ERR r then send_drop_notify_error_ext src r e METRIC_INGRESS s2
        else (Next r, s2))
  /\ (forall (s s2 : state world) ipcache_srcid from_host r punt e,
      let src := cb_get (ctx s) CB_SRC_LABEL in
      handle_ipv6 (R:=Z) src ipcache_srcid from_host false 0
        (set_ctx s (cb_set (ctx s) CB_SRC_LABEL 0)) = (Next (r, punt, e), s2) ->
      r <> CTX_ACT_OK \/ punt = true ->
      tail_handle_ipv6 (R:=Z) ipcache_srcid from_host s
      = if IS_ERR r then send_drop_notify_error_ext src r e METRIC_INGRESS s2
        else (Next r, s2)).
Proof.
  split; intros s s2 ipc fh r punt e src Hhandle Hstop.
  - unfold tail_handle_ipv4, call at 1.
    rewrite (bind_next _ _ _ _ _ (ctx_load_and_clear_meta_run _ _)). fold src. cbv zeta.
    rewrite (bind_next _ _ _ _ _ Hhandle). cbv beta iota.
    destruct (r =? CTX_ACT_OK) eqn:Hr.
    + apply Z.eqb_eq in Hr. subst r.
      destruct Hstop as [Hne | ->]; [contradiction|]. reflexivity.
    + unfold bind at 1, pure at 1. cbv beta iota.
      destruct (IS_ERR r); reflexivity.
  - unfold tail_handle_ipv6, call at 1.
    rewrite (bind_next _ _ _ _ _ (ctx_load_and_clear_meta_run _ _)). fold src. cbv zeta.
    rewrite (bind_next _ _ _ _ _ Hhandle). cbv beta iota.
    destruct (r =? CTX_ACT_OK) eqn:Hr.
    + apply Z.eqb_eq in Hr. subst r.
      destruct Hstop as [Hne | ->]; [contradiction|]. reflexivity.
    + unfold bind at 1, pure at 1. cbv beta iota.
      destruct (IS_ERR r); reflexivity.
Qed.

(** *** [tail_handle_ipv4_cont] and [tail_handle_ipv6_cont] *)

(** X10.  [tail_handle_ipv4_cont] / [tail_handle_ipv6_cont], once
    [handle_ipv4_cont] / [handle_ipv6_cont] has returned: from the host
    with [CTX_ACT_OK] the destination MAC is rewritten to that of
    cilium_net, and a failed write becomes the drop [DROP_WRITE_ERROR];
    in every other case the frame is not touched again, an error becomes
    a drop notification and any other verdict is returned. *)
Theorem continuation_rewrites_dmac_only_from_host :
  (forall (s s1 : state world) from_host r e,
      let src := cb_get (ctx s) CB_SRC_LABEL in
      handle_ipv4_cont (R:=Z) src from_host 0 (set_ctx s (cb_set (ctx s) CB_SRC_LABEL 0))
      = (Next (r, e), s1) ->
      tail_handle_ipv4_cont (R:=Z) from_host s
      = if from_host && (r =? CTX_ACT_OK) then
          let '(w, c, x) := eth_store_daddr CILIUM_NET_MAC 0 (ext s1) (ctx s1) in
          if w <? 0
          then send_drop_notify_error_ext src DROP_WRITE_ERROR e METRIC_INGRESS
                 (set_ctx_ext s1 c x)
          else (Next CTX_ACT_OK, set_ctx_ext s1 c x)
        else if IS_ERR r then send_drop_notify_error_ext src r e METRIC_INGRESS s1
        else (Next r, s1))
  /\ (forall (s s1 : state world) from_host r e,
      let src := cb_get (ctx s) CB_SRC_LABEL in
      handle_ipv6_cont (R:=Z) src from_host 0 (set_ctx s (cb_set (ctx s) CB_SRC_LABEL 0))
      = (Next (r, e), s1) ->
      tail_handle_ipv6_cont (R:=Z) from_host s
      = if from_host && (r =? CTX_ACT_OK) then
          let '(w, c, x) := eth_store_daddr CILIUM_NET_MAC 0 (ext s1) (ctx s1) in
          if w <? 0
          then send_drop_notify_error_ext src DROP_WRITE_ERROR e METRIC_INGRESS
                 (set_ctx_ext s1 c x)
          else (Next CTX_ACT_OK, set_ctx_ext s1 c x)
        else if IS_ERR r then send_drop_notify_error_ext src r e METRIC_INGRESS s1
        else (Next r, s1)).
Proof.
  split; intros s s1 fh r e src Hcont.
  - rewrite tail_handle_ipv4_cont_starts. fold src. unfold call at 1.
    rewrite (bind_next _ _ _ _ _ Hcont). cbv beta iota.
    destruct (fh && (r =? CTX_ACT_OK)).
    + unfold bind at 1, rewrite_dmac_to_host, call, bind, extern.
      destruct (eth_store_daddr CILIUM_NET_MAC 0 (ext s1) (ctx s1)) as [[w c] x].
      destruct (w <? 0); reflexivity.
    + unfold bind at 1, pure at 1. cbv beta iota. destruct (IS_ERR r); reflexivity.
  - rewrite tail_handle_ipv6_cont_starts. fold src. unfold call at 1.
    rewrite (bind_next _ _ _ _ _ Hcont). cbv beta iota.
    destruct (fh && (r =? CTX_ACT_OK)).
    + unfold bind at 1, rewrite_dmac_to_host, call, bind, extern.
      destruct (eth_store_daddr CILIUM_NET_MAC 0 (ext s1) (ctx s1)) as [[w c] x].
      destruct (w <? 0); reflexivity.
    + unfold bind at 1, pure at 1. cbv beta iota. destruct (IS_ERR r); reflexivity.
Qed.

(** *** [do_netdev]: the identity handed to the protocol handler *)

Lemma run_call_load_bind_ret (cond : bool) off (p : Z -> prog world Z Z) (s : state world) :
  run (call (let* x := (if cond then ctx_load_and_clear_meta off else pure 0) in
             let* r := p x in ret r)) s
  = if cond then run (p (cb_get (ctx s) off)) (set_ctx s (cb_set (ctx s) off 0))
    else run (p 0) s.
Proof.
  destruct cond.
  - unfold run, call. rewrite (bind_next _ _ _ _ _ (ctx_load_and_clear_meta_run _ _)).
    unfold bind, ret.
    destruct (p (cb_get (ctx s) off) _) as [[r|r|v] s']; reflexivity.
  - unfold run, call, bind, pure, ret.
    destruct (p 0 s) as [[r|r|v] s']; reflexivity.
Qed.

Lemma tail_call_internal_taken {R} index target ext_err (s : state world) :
  tail_call_possible s index = true ->
  tail_call_internal (R:=R) index target ext_err s
  = (Exit (fst (run target (set_tail_call_cnt s (S (tail_call_cnt s))))),
     snd (run target (set_tail_call_cnt s (S (tail_call_cnt s))))).
Proof.
  intros Hyes. unfold tail_call_internal, bind, tail_call_static. rewrite Hyes.
  destruct (run target _); reflexivity.
Qed.

Lemma do_netdev_ipv4_taken (s s2 : state world) identity obs_point (from_host : bool) ip4
    id ipc :
  ENABLE_IPV4 cfg = true ->
  revalidate_data_pull4 (cb_clear (ctx s)) = Some ip4 ->
  resolve_srcid_ipv4 (R:=Z) ip4 identity 0 from_host (set_ctx s (cb_clear (ctx s)))
  = (Next (id, ipc), s2) ->
  let index := if from_host then CILIUM_CALL_IPV4_FROM_HOST
               else CILIUM_CALL_IPV4_FROM_NETDEV in
  let hand_ipc := ENABLE_HOST_FIREWALL cfg && negb (ENABLE_MASQUERADE_IPV4 cfg) && from_host in
  tail_call_possible s2 index = true ->
  exists s3,
    do_netdev (R:=Z) (bpf_htons ETH_P_IP) identity obs_point from_host s
    = (Exit (fst (run (tail_handle_ipv4 (if hand_ipc then ipc else 0) from_host) s3)),
       snd (run (tail_handle_ipv4 (if hand_ipc then ipc else 0) from_host) s3))
    /\ cb_get (ctx s3) CB_SRC_LABEL = id
    /\ frame (ctx s3) = frame (ctx s2) /\ mark (ctx s3) = mark (ctx s2)
    /\ ext s3 = ext s2
    /\ cilium_tail_call_buffer4 s3 = cilium_tail_call_buffer4 s2
    /\ tail_call_cnt s3 = S (tail_call_cnt s2).
Proof.
  intros Hv4 Hrev Hres index hand_ipc Hyes.
  assert (Hhead : exists t s4,
    do_netdev (R:=Z) (bpf_htons ETH_P_IP) identity obs_point from_host s
    = (let s5 := add_event s4 (EvTrace obs_point ipc UNKNOWN_ID TRACE_EP_ID_UNKNOWN
                                 (ingress_ifindex (ctx s4)) (reason t) (monitor t)
                                 (bpf_htons ETH_P_IP)) in
       call (let* (r, ext_err) :=
               (if from_host
                then tail_call_internal CILIUM_CALL_IPV4_FROM_HOST
                       tail_handle_ipv4_from_host 0
                else tail_call_internal CILIUM_CALL_IPV4_FROM_NETDEV
                       tail_handle_ipv4_from_netdev 0) in
             let* v := send_drop_notify_error_with_exitcode_ext id r ext_err CTX_ACT_OK
                         METRIC_INGRESS in
             ret v) s5)
    /\ s4 = (if hand_ipc
             then set_ctx s2 (cb_set (cb_set (ctx s2) CB_SRC_LABEL id)
                                CB_IPCACHE_SRC_LABEL ipc)
             else set_ctx s2 (cb_set (ctx s2) CB_SRC_LABEL id))).
  { unfold do_netdev, call. cbv zeta.
    set (s1 := set_ctx s (cb_clear (ctx s))) in *.
    rewrite (bind_next _ _ s tt s1) by reflexivity.
    change (bpf_htons ETH_P_IP =? bpf_htons ETH_P_ARP) with false.
    change (bpf_htons ETH_P_IP =? bpf_htons ETH_P_IPV6) with false.
    change (bpf_htons ETH_P_IP =? bpf_htons ETH_P_IP) with true.
    rewrite !andb_false_r, Hv4. cbn [andb].
    rewrite (bind_next _ _ s1 (ctx s1) s1) by reflexivity.
    change (ctx s1) with (cb_clear (ctx s)). rewrite Hrev.
    rewrite (bind_next _ _ _ _ _ Hres). cbv beta iota.
    set (s3 := set_ctx s2 (cb_set (ctx s2) CB_SRC_LABEL id)).
    rewrite (bind_next _ _ s2 tt s3) by reflexivity.
    fold hand_ipc.
    set (s4 := if hand_ipc
               then set_ctx s2 (cb_set (cb_set (ctx s2) CB_SRC_LABEL id)
                                  CB_IPCACHE_SRC_LABEL ipc)
               else s3).
    rewrite (bind_next _ _ s3 tt s4) by (unfold s4; destruct hand_ipc; reflexivity).
    match goal with |- context [bind ?m ?k s4] =>
      assert (Hwg : exists t, m s4 = (Next t, s4))
    end.
    { destruct (ENABLE_WIREGUARD cfg && negb from_host); [|eexists; reflexivity].
      unfold bind, get_ctx.
      destruct (ctx_is_wireguard _ _ _ _); eexists; reflexivity. }
    destruct Hwg as [t Hwg]. rewrite (bind_next _ _ _ _ _ Hwg). clear Hwg.
    rewrite (bind_next _ _ s4 (ctx s4) s4) by reflexivity.
    exists t, s4. split; [|reflexivity]. cbv zeta.
    match goal with |- context [send_trace_notify ?a ?b ?c ?d ?e ?f ?g ?h] =>
      rewrite (bind_next _ _ s4 tt (add_event s4 (EvTrace a b c d e f g h))) by reflexivity
    end.
    reflexivity. }
  destruct Hhead as (t & s4 & Hhead & Hs4). rewrite Hhead. clear Hhead. cbv zeta.
  set (s5 := add_event s4 _).
  assert (Hyes5 : tail_call_possible s5 index = true).
  { unfold s5. rewrite Hs4. destruct hand_ipc; exact Hyes. }
  set (s6 := set_tail_call_cnt s5 (S (tail_call_cnt s5))).
  assert (Hctx6 : ctx s6 = ctx s4) by reflexivity.
  assert (Hkeep : forall s7, ctx s7 = ctx s6 \/
                             ctx s7 = cb_set (ctx s6) CB_IPCACHE_SRC_LABEL 0 ->
                             ext s7 = ext s6 ->
                             cilium_tail_call_buffer4 s7 = cilium_tail_call_buffer4 s6 ->
                             tail_call_cnt s7 = tail_call_cnt s6 ->
    cb_get (ctx s7) CB_SRC_LABEL = id
    /\ frame (ctx s7) = frame (ctx s2) /\ mark (ctx s7) = mark (ctx s2)
    /\ ext s7 = ext s2
    /\ cilium_tail_call_buffer4 s7 = cilium_tail_call_buffer4 s2
    /\ tail_call_cnt s7 = S (tail_call_cnt s2)).
  { intros s7 Hc He Hb Hn. rewrite He, Hb, Hn.
    assert (H4 : cb_get (ctx s4) CB_SRC_LABEL = id /\ frame (ctx s4) = frame (ctx s2)
                 /\ mark (ctx s4) = mark (ctx s2) /\ ext s4 = ext s2
                 /\ cilium_tail_call_buffer4 s4 = cilium_tail_call_buffer4 s2
                 /\ tail_call_cnt s4 = tail_call_cnt s2).
    { rewrite Hs4. destruct hand_ipc; simpl; repeat split.
      - rewrite cb_get_set_ne by (unfold CB_IPCACHE_SRC_LABEL, CB_SRC_LABEL; lia).
        apply cb_get_set_eq.
      - apply cb_get_set_eq. }
    destruct H4 as (H41 & H42 & H43 & H44 & H45 & H46).
    destruct Hc as [-> | ->]; rewrite Hctx6.
    - repeat split; try assumption. simpl. f_equal. exact H46.
    - repeat split; try assumption.
      + rewrite cb_get_set_ne by (unfold CB_IPCACHE_SRC_LABEL, CB_SRC_LABEL; lia).
        exact H41.
      + simpl. f_equal. exact H46. }
  unfold call. subst index. destruct from_host.
  - rewrite (bind_exit _ _ _ _ _ (tail_call_internal_taken _ _ _ _ Hyes5)).
    fold s6. unfold tail_handle_ipv4_from_host.
    rewrite run_call_load_bind_ret.
    replace (ENABLE_HOST_FIREWALL cfg && negb (ENABLE_MASQUERADE_IPV4 cfg))
      with hand_ipc by (unfold hand_ipc; rewrite andb_true_r; reflexivity).
    destruct hand_ipc eqn:Hhand.
    + exists (set_ctx s6 (cb_set (ctx s6) CB_IPCACHE_SRC_LABEL 0)).
      split; [|apply Hkeep; auto].
      rewrite Hctx6, Hs4. simpl ctx. rewrite cb_get_set_eq. reflexivity.
    + exists s6. split; [reflexivity|apply Hkeep; auto].
  - rewrite (bind_exit _ _ _ _ _ (tail_call_internal_taken _ _ _ _ Hyes5)).
    fold s6. unfold tail_handle_ipv4_from_netdev. rewrite run_call_bind_ret.
    assert (Hhand : hand_ipc = false) by (unfold hand_ipc; apply andb_false_r).
    exists s6. rewrite Hhand. split; [reflexivity|apply Hkeep; auto].
Qed.

Lemma do_netdev_ipv6_taken (s s0 s2 : state world) identity obs_point (from_host : bool)
    ip6 ip6' id ipc :
  ENABLE_IPV6 cfg = true ->
  revalidate_data_pull6 (cb_clear (ctx s)) = Some ip6 ->
  do_netdev_l2_announcement6 identity ip6 (set_ctx s (cb_clear (ctx s))) = (Next ip6', s0) ->
  resolve_srcid_ipv6 (R:=Z) ip6' identity 0 from_host s0 = (Next (id, ipc), s2) ->
  let index := if from_host then CILIUM_CALL_IPV6_FROM_HOST
               else CILIUM_CALL_IPV6_FROM_NETDEV in
  let hand_ipc := ENABLE_HOST_FIREWALL cfg && negb (ENABLE_MASQUERADE_IPV6 cfg) && from_host in
  tail_call_possible s2 index = true ->
  exists s3,
    do_netdev (R:=Z) (bpf_htons ETH_P_IPV6) identity obs_point from_host s
    = (Exit (fst (run (tail_handle_ipv6 (if hand_ipc then ipc else 0) from_host) s3)),
       snd (run (tail_handle_ipv6 (if hand_ipc then ipc else 0) from_host) s3))
    /\ cb_get (ctx s3) CB_SRC_LABEL = id
    /\ frame (ctx s3) = frame (ctx s2) /\ mark (ctx s3) = mark (ctx s2)
    /\ ext s3 = ext s2
    /\ cilium_tail_call_buffer6 s3 = cilium_tail_call_buffer6 s2
    /\ tail_call_cnt s3 = S (tail_call_cnt s2).
Proof.
  intros Hv6 Hrev Hl2 Hres index hand_ipc Hyes.
  assert (Hhead : exists t s4,
    do_netdev (R:=Z) (bpf_htons ETH_P_IPV6) identity obs_point from_host s
    = (let s5 := add_event s4 (EvTrace obs_point ipc UNKNOWN_ID TRACE_EP_ID_UNKNOWN
                                 (ingress_ifindex (ctx s4)) (reason t) (monitor t)
                                 (bpf_htons ETH_P_IPV6)) in
       call (let* (r, ext_err) :=
               (if from_host
                then tail_call_internal CILIUM_CALL_IPV6_FROM_HOST
                       tail_handle_ipv6_from_host 0
                else tail_call_internal CILIUM_CALL_IPV6_FROM_NETDEV
                       tail_handle_ipv6_from_netdev 0) in
             let* v := send_drop_notify_error_with_exitcode_ext id r ext_err CTX_ACT_OK
                         METRIC_INGRESS in
             ret v) s5)
    /\ s4 = (if hand_ipc
             then set_ctx s2 (cb_set (cb_set (ctx s2) CB_SRC_LABEL id)
                                CB_IPCACHE_SRC_LABEL ipc)
             else set_ctx s2 (cb_set (ctx s2) CB_SRC_LABEL id))).
  { unfold do_netdev, call. cbv zeta.
    set (s1 := set_ctx s (cb_clear (ctx s))) in *.
    rewrite (bind_next _ _ s tt s1) by reflexivity.
    change (bpf_htons ETH_P_IPV6 =? bpf_htons ETH_P_ARP) with false.
    change (bpf_htons ETH_P_IPV6 =? bpf_htons ETH_P_IPV6) with true.
    rewrite !andb_false_r, Hv6. cbn [andb].
    rewrite (bind_next _ _ s1 (ctx s1) s1) by reflexivity.
    change (ctx s1) with (cb_clear (ctx s)). rewrite Hrev.
    rewrite (bind_next _ _ _ _ _ Hl2).
    rewrite (bind_next _ _ _ _ _ Hres). cbv beta iota.
    set (s3 := set_ctx s2 (cb_set (ctx s2) CB_SRC_LABEL id)).
    rewrite (bind_next _ _ s2 tt s3) by reflexivity.
    fold hand_ipc.
    set (s4 := if hand_ipc
               then set_ctx s2 (cb_set (cb_set (ctx s2) CB_SRC_LABEL id)
                                  CB_IPCACHE_SRC_LABEL ipc)
               else s3).
    rewrite (bind_next _ _ s3 tt s4) by (unfold s4; destruct hand_ipc; reflexivity).
    match goal with |- context [bind ?m ?k s4] =>
      assert (Hwg : exists t, m s4 = (Next t, s4))
    end.
    { destruct (ENABLE_WIREGUARD cfg && negb from_host); [|eexists; reflexivity].
      unfold bind, get_ctx.
      destruct (ipv6_hdrlen _ _) as [hdrlen next_proto].
      destruct ((0 <? hdrlen) && ctx_is_wireguard _ _ _ _); eexists; reflexivity. }
    destruct Hwg as [t Hwg]. rewrite (bind_next _ _ _ _ _ Hwg). clear Hwg.
    rewrite (bind_next _ _ s4 (ctx s4) s4) by reflexivity.
    exists t, s4. split; [|reflexivity]. cbv zeta.
    match goal with |- context [send_trace_notify ?a ?b ?c ?d ?e ?f ?g ?h] =>
      rewrite (bind_next _ _ s4 tt (add_event s4 (EvTrace a b c d e f g h))) by reflexivity
    end.
    reflexivity. }
  destruct Hhead as (t & s4 & Hhead & Hs4). rewrite Hhead. clear Hhead. cbv zeta.
  set (s5 := add_event s4 _).
  assert (Hyes5 : tail_call_possible s5 index = true).
  { unfold s5. rewrite Hs4. destruct hand_ipc; exact Hyes. }
  set (s6 := set_tail_call_cnt s5 (S (tail_call_cnt s5))).
  assert (Hctx6 : ctx s6 = ctx s4) by reflexivity.
  assert (Hkeep : forall s7, ctx s7 = ctx s6 \/
                             ctx s7 = cb_set (ctx s6) CB_IPCACHE_SRC_LABEL 0 ->
                             ext s7 = ext s6 ->
                             cilium_tail_call_buffer6 s7 = cilium_tail_call_buffer6 s6 ->
                             tail_call_cnt s7 = tail_call_cnt s6 ->
    cb_get (ctx s7) CB_SRC_LABEL = id
    /\ frame (ctx s7) = frame (ctx s2) /\ mark (ctx s7) = mark (ctx s2)
    /\ ext s7 = ext s2
    /\ cilium_tail_call_buffer6 s7 = cilium_tail_call_buffer6 s2
    /\ tail_call_cnt s7 = S (tail_call_cnt s2)).
  { intros s7 Hc He Hb Hn. rewrite He, Hb, Hn.
    assert (H4 : cb_get (ctx s4) CB_SRC_LABEL = id /\ frame (ctx s4) = frame (ctx s2)
                 /\ mark (ctx s4) = mark (ctx s2) /\ ext s4 = ext s2
                 /\ cilium_tail_call_buffer6 s4 = cilium_tail_call_buffer6 s2
                 /\ tail_call_cnt s4 = tail_call_cnt s2).
    { rewrite Hs4. destruct hand_ipc; simpl; repeat split.
      - rewrite cb_get_set_ne by (unfold CB_IPCACHE_SRC_LABEL, CB_SRC_LABEL; lia).
        apply cb_get_set_eq.
      - apply cb_get_set_eq. }
    destruct H4 as (H41 & H42 & H43 & H44 & H45 & H46).
    destruct Hc as [-> | ->]; rewrite Hctx6.
    - repeat split; try assumption. simpl. f_equal. exact H46.
    - repeat split; try assumption.
      + rewrite cb_get_set_ne by (unfold CB_IPCACHE_SRC_LABEL, CB_SRC_LABEL; lia).
        exact H41.
      + simpl. f_equal. exact H46. }
  unfold call. subst index. destruct from_host.
  - rewrite (bind_exit _ _ _ _ _ (tail_call_internal_taken _ _ _ _ Hyes5)).
    fold s6. unfold tail_handle_ipv6_from_host.
    rewrite run_call_load_bind_ret.
    replace (ENABLE_HOST_FIREWALL cfg && negb (ENABLE_MASQUERADE_IPV6 cfg))
      with hand_ipc by (unfold hand_ipc; rewrite andb_true_r; reflexivity).
    destruct hand_ipc eqn:Hhand.
    + exists (set_ctx s6 (cb_set (ctx s6) CB_IPCACHE_SRC_LABEL 0)).
      split; [|apply Hkeep; auto].
      rewrite Hctx6, Hs4. simpl ctx. rewrite cb_get_set_eq. reflexivity.
    + exists s6. split; [reflexivity|apply Hkeep; auto].
  - rewrite (bind_exit _ _ _ _ _ (tail_call_internal_taken _ _ _ _ Hyes5)).
    fold s6. unfold tail_handle_ipv6_from_netdev. rewrite run_call_bind_ret.
    assert (Hhand : hand_ipc = false) by (unfold hand_ipc; apply andb_false_r).
    exists s6. rewrite Hhand. split; [reflexivity|apply Hkeep; auto].
Qed.


(** X11.  [do_netdev] hands the identities to the protocol handler across
    the tail call: when the call is taken, the program runs
    [tail_handle_ipv4] / [tail_handle_ipv6] in a state whose
    [CB_SRC_LABEL] holds the identity [resolve_srcid_ipv4] /
    [resolve_srcid_ipv6] returned, with the ipcache identity of the
    resolver as [ipcache_srcid] from the host when the host firewall is
    compiled in without BPF masquerading, and 0 otherwise; the frame, the
    mark, the tables and the transfer buffer are as the resolver left
    them, and one tail call is counted. *)
Theorem do_netdev_hands_identity_to_handler :
  (forall (s s2 : state world) identity obs_point (from_host : bool) ip4 id ipc,
      ENABLE_IPV4 cfg = true ->
      revalidate_data_pull4 (cb_clear (ctx s)) = Some ip4 ->
      resolve_srcid_ipv4 (R:=Z) ip4 identity 0 from_host (set_ctx s (cb_clear (ctx s)))
      = (Next (id, ipc), s2) ->
      let index := if from_host then CILIUM_CALL_IPV4_FROM_HOST
                   else CILIUM_CALL_IPV4_FROM_NETDEV in
      let hand_ipc :=
        ENABLE_HOST_FIREWALL cfg && negb (ENABLE_MASQUERADE_IPV4 cfg) && from_host in
      tail_call_possible s2 index = true ->
      exists s3,
        do_netdev (R:=Z) (bpf_htons ETH_P_IP) identity obs_point from_host s
        = (Exit (fst (run (tail_handle_ipv4 (if hand_ipc then ipc else 0) from_host) s3)),
           snd (run (tail_handle_ipv4 (if hand_ipc then ipc else 0) from_host) s3))
        /\ cb_get (ctx s3) CB_SRC_LABEL = id
        /\ frame (ctx s3) = frame (ctx s2) /\ mark (ctx s3) = mark (ctx s2)
        /\ ext s3 = ext s2
        /\ cilium_tail_call_buffer4 s3 = cilium_tail_call_buffer4 s2
        /\ tail_call_cnt s3 = S (tail_call_cnt s2))
  /\ (forall (s s0 s2 : state world) identity obs_point (from_host : bool) ip6 ip6' id ipc,
      ENABLE_IPV6 cfg = true ->
      revalidate_data_pull6 (cb_clear (ctx s)) = Some ip6 ->
      do_netdev_l2_announcement6 identity ip6 (set_ctx s (cb_clear (ctx s)))
      = (Next ip6', s0) ->
      resolve_srcid_ipv6 (R:=Z) ip6' identity 0 from_host s0 = (Next (id, ipc), s2) ->
      let index := if from_host then CILIUM_CALL_IPV6_FROM_HOST
                   else CILIUM_CALL_IPV6_FROM_NETDEV in
      let hand_ipc :=
        ENABLE_HOST_FIREWALL cfg && negb (ENABLE_MASQUERADE_IPV6 cfg) && from_host in
      tail_call_possible s2 index = true ->
      exists s3,
        do_netdev (R:=Z) (bpf_htons ETH_P_IPV6) identity obs_point from_host s
        = (Exit (fst (run (tail_handle_ipv6 (if hand_ipc then ipc else 0) from_host) s3)),
           snd (run (tail_handle_ipv6 (if hand_ipc then ipc else 0) from_host) s3))
        /\ cb_get (ctx s3) CB_SRC_LABEL = id
        /\ frame (ctx s3) = frame (ctx s2) /\ mark (ctx s3) = mark (ctx s2)
        /\ ext s3 = ext s2
        /\ cilium_tail_call_buffer6 s3 = cilium_tail_call_buffer6 s2
        /\ tail_call_cnt s3 = S (tail_call_cnt s2)).
Proof.
  split; intros.
  - eapply do_netdev_ipv4_taken; eauto.
  - eapply do_netdev_ipv6_taken; eauto.
Qed.

(** *** [do_netdev]: protocols without a handler *)

(** X12.  [do_netdev] on a protocol it has no handler for (neither ARP,
    IPv4 nor IPv6 as far as they are compiled in): the metadata slots are
    cleared, the packet is traced, and it is dropped with
    [DROP_UNKNOWN_L3] when the host firewall is compiled in and passed to
    the stack ([CTX_ACT_OK]) when it is not. *)
Theorem do_netdev_drops_unknown_l3_only_with_host_firewall (s : state world) proto identity
    obs_point from_host :
  (ENABLE_ARP_PASSTHROUGH cfg || ENABLE_ARP_RESPONDER cfg || ENABLE_L2_ANNOUNCEMENTS cfg)
  && (proto =? bpf_htons ETH_P_ARP) = false ->
  ENABLE_IPV6 cfg && (proto =? bpf_htons ETH_P_IPV6) = false ->
  ENABLE_IPV4 cfg && (proto =? bpf_htons ETH_P_IP) = false ->
  let s1 := add_event (set_ctx s (cb_clear (ctx s)))
              (EvTrace obs_point UNKNOWN_ID UNKNOWN_ID TRACE_EP_ID_UNKNOWN
                 (ingress_ifindex (ctx s)) TRACE_REASON_UNKNOWN TRACE_PAYLOAD_LEN proto) in
  do_netdev (R:=Z) proto identity obs_point from_host s
  = if ENABLE_HOST_FIREWALL cfg
    then send_drop_notify_error identity DROP_UNKNOWN_L3 METRIC_INGRESS s1
    else (Next CTX_ACT_OK, s1).
Proof.
  intros Harp Hv6 Hv4 s1.
  unfold do_netdev, call. cbv zeta.
  rewrite (bind_next _ _ s tt (set_ctx s (cb_clear (ctx s)))) by reflexivity.
  rewrite Harp, Hv6, Hv4.
  rewrite (bind_next _ _ _ (ctx (set_ctx s (cb_clear (ctx s)))) (set_ctx s (cb_clear (ctx s))))
    by reflexivity.
  rewrite (bind_next _ _ _ tt s1) by reflexivity.
  destruct (ENABLE_HOST_FIREWALL cfg); reflexivity.
Qed.

(** *** The continuation handlers: traffic from the network *)

(** X13.  In [handle_ipv4_cont] / [handle_ipv6_cont], a packet from the
    network that the host firewall has let through (and, for IPv6, that is
    not handed to SRv6 decapsulation) is passed to the stack with
    [CTX_ACT_OK], untouched, when host routing is not compiled in or when
    its destination is no local endpoint: it is never unroutable and never
    encapsulated. *)
Theorem network_traffic_not_for_an_endpoint_passes_to_stack :
  (forall (s s1 : state world) secctx ext_err ip4 ip4' trace' ext_err',
      revalidate_data4 (ctx s) = Some ip4 ->
      ipv4_host_firewall_apply false ip4 trace_unknown ext_err s
      = (Next (ip4', trace', ext_err'), s1) ->
      ENABLE_HOST_ROUTING cfg = false \/ lookup_ip4_endpoint (ext s1) ip4' = None ->
      handle_ipv4_cont (R:=Z) secctx false ext_err s = (Next (CTX_ACT_OK, ext_err'), s1))
  /\ (forall (s s1 : state world) secctx ext_err ip6 ip6' trace' ext_err',
      revalidate_data6 (ctx s) = Some ip6 ->
      ipv6_host_firewall_apply false ip6 trace_unknown ext_err s
      = (Next (ip6', trace', ext_err'), s1) ->
      srv6_decaps (ext s1) false ip6' = false ->
      ENABLE_HOST_ROUTING cfg = false \/ lookup_ip6_endpoint (ext s1) ip6' = None ->
      handle_ipv6_cont (R:=Z) secctx false ext_err s = (Next (CTX_ACT_OK, ext_err'), s1)).
Proof.
  split.
  - intros s s1 secctx e ip4 ip4' trace' e' Hrev Happly Hwhy.
    unfold handle_ipv4_cont, call, bind, get_ctx.
    destruct (proxy_provenance false (ctx s)) as [from_proxy magic].
    rewrite Hrev. unfold bind. fold trace_unknown. rewrite Happly.
    rewrite andb_true_r.
    destruct Hwhy as [-> | Hep]; [reflexivity|].
    destruct (negb (ENABLE_HOST_ROUTING cfg)); [reflexivity|].
    unfold pure, gets_ext. rewrite Hep. reflexivity.
  - intros s s1 secctx e ip6 ip6' trace' e' Hrev Happly Hsrv Hwhy.
    unfold handle_ipv6_cont, call, bind, get_ctx.
    destruct (proxy_provenance false (ctx s)) as [from_proxy magic].
    rewrite Hrev. unfold bind. fold trace_unknown. rewrite Happly.
    unfold srv6_decaps in Hsrv. rewrite !andb_true_r. rewrite andb_true_r in Hsrv.
    destruct (ENABLE_SRV6 cfg); simpl in Hsrv.
    + unfold gets_ext, bind. rewrite Hsrv. unfold pure.
      destruct Hwhy as [-> | Hep]; [reflexivity|].
      destruct (negb (ENABLE_HOST_ROUTING cfg)); [reflexivity|].
      rewrite Hep. reflexivity.
    + unfold pure.
      destruct Hwhy as [-> | Hep]; [reflexivity|].
      destruct (negb (ENABLE_HOST_ROUTING cfg)); [reflexivity|].
      unfold gets_ext. rewrite Hep. reflexivity.
Qed.


(** *** The continuation handlers: traffic from the host to a remote node *)

(** X14.  In tunnel mode, [handle_ipv4_cont] / [handle_ipv6_cont] on a
    packet from the host that the host firewall has let through, whose
    destination is no local endpoint (nor, for IPv4, behind a VTEP) and
    has a remote-endpoint entry with a tunnel endpoint that is not to be
    skipped: the packet is encapsulated towards that endpoint with the
    identity of the entry, and the result of the encapsulation is the
    verdict. *)
Theorem from_host_tunnel_endpoint_is_encapsulated :
  TUNNEL_MODE cfg = true ->
  (forall (s s1 : state world) secctx ext_err ip4 ip4' trace' ext_err' i,
      revalidate_data4 (ctx s) = Some ip4 ->
      ipv4_host_firewall_apply true ip4 trace_unknown ext_err s
      = (Next (ip4', trace', ext_err'), s1) ->
      lookup_ip4_endpoint (ext s1) ip4' = None ->
      vtep_redirects (ext s1) ip4' = false ->
      lookup_ip4_remote_endpoint (ext s1) (ip4_daddr ip4') 0 = Some i ->
      flag_skip_tunnel i = false -> flag_has_tunnel_ep i = true ->
      handle_ipv4_cont (R:=Z) secctx true ext_err s
      = let '(r, c, w) :=
          encap_and_redirect_with_nodeid i secctx (sec_identity i) trace'
            (bpf_htons ETH_P_IP) (ext s1) (ctx s1) in
        (Next (r, ext_err'), set_ctx_ext s1 c w))
  /\ (forall (s s1 : state world) secctx ext_err ip6 ip6' trace' ext_err' i,
      revalidate_data6 (ctx s) = Some ip6 ->
      ipv6_host_firewall_apply true ip6 trace_unknown ext_err s
      = (Next (ip6', trace', ext_err'), s1) ->
      lookup_ip6_endpoint (ext s1) ip6' = None ->
      lookup_ip6_remote_endpoint (ext s1) (ip6_daddr ip6') 0 = Some i ->
      flag_skip_tunnel i = false -> flag_has_tunnel_ep i = true ->
      handle_ipv6_cont (R:=Z) secctx true ext_err s
      = let '(r, c, w) :=
          encap_and_redirect_with_nodeid i secctx (sec_identity i) trace'
            (bpf_htons ETH_P_IPV6) (ext s1) (ctx s1) in
        (Next (r, ext_err'), set_ctx_ext s1 c w)).
Proof.
  intros Htun. split.
  - intros s s1 secctx e ip4 ip4' trace' e' i Hrev Happly Hep Hvtep Hinfo Hskip Hhas.
    unfold handle_ipv4_cont, call, bind, get_ctx.
    destruct (proxy_provenance true (ctx s)) as [from_proxy magic].
    rewrite Hrev. unfold bind. fold trace_unknown. rewrite Happly.
    rewrite andb_false_r. unfold pure at 1. unfold gets_ext at 1. rewrite Hep.
    change (negb true) with false. cbv beta iota.
    rewrite (handle_ipv4_cont_vtep_skips _ _ _ _ _ Hvtep).
    unfold gets_ext. rewrite Hinfo.
    unfold handle_cont_tunnel. rewrite Htun, Hskip, Hhas. unfold bind, extern.
    destruct (encap_and_redirect_with_nodeid _ _ _ _ _ _ _) as [[r c] w]. reflexivity.
  - intros s s1 secctx e ip6 ip6' trace' e' i Hrev Happly Hep Hinfo Hskip Hhas.
    unfold handle_ipv6_cont, call, bind, get_ctx.
    destruct (proxy_provenance true (ctx s)) as [from_proxy magic].
    rewrite Hrev. unfold bind. fold trace_unknown. rewrite Happly.
    rewrite !andb_false_r. unfold pure at 1 2. unfold gets_ext at 1. rewrite Hep.
    change (negb true) with false. cbv beta iota.
    unfold gets_ext. rewrite Hinfo.
    unfold handle_cont_tunnel. rewrite Htun, Hskip, Hhas. unfold bind, extern.
    destruct (encap_and_redirect_with_nodeid _ _ _ _ _ _ _) as [[r c] w]. reflexivity.
Qed.


(** *** [handle_l2_announcement] *)

(** X15.  [handle_l2_announcement] answers nothing when the agent has not
    reported its liveness, or reported it more than
    [L2_ANNOUNCEMENTS_MAX_LIVENESS] ago (on the 64-bit clock): it returns
    [CTX_ACT_OK] and leaves the packet, the tables and the counters as
    they were. *)
Theorem l2_announcement_needs_live_agent (s : state world) ip6 :
  let time := config_get_agent_liveness (ext s) in
  time = 0 \/ L2_ANNOUNCEMENTS_MAX_LIVENESS < (ktime_get_ns (ext s) - time) mod 2 ^ 64 ->
  handle_l2_announcement (R:=Z) ip6 s = (Next CTX_ACT_OK, s).
Proof.
  intros time Hdead. unfold handle_l2_announcement. apply call_return. cbv zeta.
  rewrite (bind_next _ _ s time s) by reflexivity.
  destruct (time =? 0) eqn:Ht; [reflexivity|].
  destruct Hdead as [H0 | Hold]; [apply Z.eqb_neq in Ht; contradiction|].
  rewrite (bind_next _ _ s (ktime_get_ns (ext s)) s) by reflexivity.
  apply Z.ltb_lt in Hold. rewrite Hold. reflexivity.
Qed.

(** *** [do_netdev_encrypt_encap] *)

(** X16.  [do_netdev_encrypt_encap] encapsulates only towards a tunnel
    endpoint: for a readable IPv4 / IPv6 packet whose destination has a
    remote-endpoint entry with a tunnel endpoint the mark is zeroed and
    the packet is encapsulated with the given source identity; without
    such an entry, and for any other protocol, the result is
    [DROP_NO_TUNNEL_ENDPOINT] ([DROP_UNSUPPORTED_L2] for an unsupported
    ethertype) and the packet, its mark included, is untouched. *)
Theorem encrypt_encap_requires_tunnel_endpoint :
  (forall (s : state world) src_id ip4,
      ENABLE_IPV4 cfg = true ->
      eth_is_supported_ethertype (bpf_htons ETH_P_IP) = true ->
      revalidate_data4 (ctx s) = Some ip4 ->
      do_netdev_encrypt_encap (R:=Z) (bpf_htons ETH_P_IP) src_id s
      = match lookup_ip4_remote_endpoint (ext s) (ip4_daddr ip4) 0 with
        | Some ep =>
          if flag_has_tunnel_ep ep then
            let '(r, c, w) :=
              encap_and_redirect_with_nodeid ep src_id 0
                {| reason := TRACE_REASON_ENCRYPTED; monitor := 0 |} (bpf_htons ETH_P_IP)
                (ext s) (set_mark (ctx s) 0) in
            (Next r, set_ctx_ext s c w)
          else (Next DROP_NO_TUNNEL_ENDPOINT, s)
        | None => (Next DROP_NO_TUNNEL_ENDPOINT, s)
        end)
  /\ (forall (s : state world) src_id ip6,
      ENABLE_IPV6 cfg = true ->
      eth_is_supported_ethertype (bpf_htons ETH_P_IPV6) = true ->
      revalidate_data6 (ctx s) = Some ip6 ->
      do_netdev_encrypt_encap (R:=Z) (bpf_htons ETH_P_IPV6) src_id s
      = match lookup_ip6_remote_endpoint (ext s) (ip6_daddr ip6) 0 with
        | Some ep =>
          if flag_has_tunnel_ep ep then
            let '(r, c, w) :=
              encap_and_redirect_with_nodeid ep src_id 0
                {| reason := TRACE_REASON_ENCRYPTED; monitor := 0 |} (bpf_htons ETH_P_IPV6)
                (ext s) (set_mark (ctx s) 0) in
            (Next r, set_ctx_ext s c w)
          else (Next DROP_NO_TUNNEL_ENDPOINT, s)
        | None => (Next DROP_NO_TUNNEL_ENDPOINT, s)
        end)
  /\ (forall (s : state world) src_id proto,
      ENABLE_IPV6 cfg && (proto =? bpf_htons ETH_P_IPV6) = false ->
      ENABLE_IPV4 cfg && (proto =? bpf_htons ETH_P_IP) = false ->
      do_netdev_encrypt_encap (R:=Z) proto src_id s
      = (Next (if eth_is_supported_ethertype proto then DROP_NO_TUNNEL_ENDPOINT
               else DROP_UNSUPPORTED_L2), s)).
Proof.
  split; [|split].
  - intros s src ip4 Hv4 Hsup Hrev.
    unfold do_netdev_encrypt_encap, call. cbv zeta. rewrite Hsup, Hv4.
    change (bpf_htons ETH_P_IP =? bpf_htons ETH_P_IPV6) with false.
    change (bpf_htons ETH_P_IP =? bpf_htons ETH_P_IP) with true.
    rewrite andb_false_r. cbn [negb andb].
    unfold bind at 1 2, get_ctx. rewrite Hrev. unfold gets_ext.
    destruct (lookup_ip4_remote_endpoint _ _ _) as [ep|]; [|reflexivity].
    destruct (flag_has_tunnel_ep ep); [|reflexivity]. cbn [negb].
    unfold bind, modify_ctx, extern. simpl ext. simpl ctx.
    destruct (encap_and_redirect_with_nodeid _ _ _ _ _ _ _) as [[r c] w]. reflexivity.
  - intros s src ip6 Hv6 Hsup Hrev.
    unfold do_netdev_encrypt_encap, call. cbv zeta. rewrite Hsup, Hv6.
    change (bpf_htons ETH_P_IPV6 =? bpf_htons ETH_P_IPV6) with true.
    cbn [negb andb].
    unfold bind at 1 2, get_ctx. rewrite Hrev. unfold gets_ext.
    destruct (lookup_ip6_remote_endpoint _ _ _) as [ep|]; [|reflexivity].
    destruct (flag_has_tunnel_ep ep); [|reflexivity]. cbn [negb].
    unfold bind, modify_ctx, extern. simpl ext. simpl ctx.
    destruct (encap_and_redirect_with_nodeid _ _ _ _ _ _ _) as [[r c] w]. reflexivity.
  - intros s src proto Hv6 Hv4.
    unfold do_netdev_encrypt_encap, call. cbv zeta. rewrite Hv6, Hv4.
    destruct (eth_is_supported_ethertype proto); reflexivity.
Qed.

(** *** [cil_to_host] *)

Lemma to_proxy_magic_of_low_bits (m : Z) :
  Z.land m 0xFFFF = MARK_MAGIC_TO_PROXY -> Z.land m MARK_MAGIC_HOST_MASK = MARK_MAGIC_TO_PROXY.
Proof.
  intros Hm.
  change MARK_MAGIC_HOST_MASK with (Z.land 0xFFFF MARK_MAGIC_HOST_MASK).
  rewrite Z.land_assoc, Hm. reflexivity.
Qed.

(** X17.  [cil_to_host] redirects a packet to the proxy when the low 16
    bits of its mark are [MARK_MAGIC_TO_PROXY], or, the mark carrying
    neither that magic nor (with IPsec) the encryption magic, when those
    of the slot [CB_PROXY_MAGIC] are: the port is the upper 16 bits of the
    value that matched, the slot is cleared before the redirect, no trace
    notification is sent, and an error of the redirect becomes a drop
    notification. *)
Theorem cil_to_host_redirects_to_proxy (s : state world) (magic : Z) :
  (Z.land (mark (ctx s)) 0xFFFF = MARK_MAGIC_TO_PROXY /\ magic = mark (ctx s))
  \/ (Z.land (mark (ctx s)) MARK_MAGIC_HOST_MASK <> MARK_MAGIC_TO_PROXY
      /\ (ENABLE_IPSEC cfg = false
          \/ Z.land (mark (ctx s)) MARK_MAGIC_HOST_MASK <> MARK_MAGIC_ENCRYPT)
      /\ magic = cb_get (ctx s) CB_PROXY_MAGIC
      /\ Z.land magic 0xFFFF = MARK_MAGIC_TO_PROXY) ->
  cil_to_host (R:=Z) s
  = let '(r, c, w) :=
      ctx_redirect_to_proxy_first (Z.land (Z.shiftr magic 16) 0xffff) (ext s)
        (cb_set (ctx s) CB_PROXY_MAGIC 0) in
    if IS_ERR r
    then send_drop_notify_error_ext 0 r 0 METRIC_INGRESS (set_ctx_ext s c w)
    else (Next r, set_ctx_ext s c w).
Proof.
  intros Hmagic.
  unfold cil_to_host, call. cbv zeta.
  rewrite (bind_next _ _ s (cb_get (ctx s) CB_PROXY_MAGIC) s) by reflexivity.
  rewrite (bind_next _ _ s (ctx s) s) by reflexivity.
  assert (Hsel : (if Z.land (mark (ctx s)) MARK_MAGIC_HOST_MASK =? MARK_MAGIC_TO_PROXY
                  then mark (ctx s)
                  else if ENABLE_IPSEC cfg
                          && (Z.land (mark (ctx s)) MARK_MAGIC_HOST_MASK =? MARK_MAGIC_ENCRYPT)
                       then mark (ctx s)
                       else cb_get (ctx s) CB_PROXY_MAGIC) = magic
                 /\ Z.land magic 0xFFFF = MARK_MAGIC_TO_PROXY).
  { destruct Hmagic as [[Hlow ->] | (Hm & Hipsec & -> & Hlow)].
    - rewrite (to_proxy_magic_of_low_bits _ Hlow). split; [reflexivity | exact Hlow].
    - apply Z.eqb_neq in Hm. rewrite Hm. split; [|exact Hlow].
      destruct Hipsec as [-> | He]; [reflexivity|].
      apply Z.eqb_neq in He. rewrite He, andb_false_r. reflexivity. }
  destruct Hsel as [-> Hlow]. rewrite Hlow.
  change (MARK_MAGIC_TO_PROXY =? MARK_MAGIC_TO_PROXY) with true. cbv iota.
  rewrite (bind_next _ _ s tt (set_ctx s (cb_set (ctx s) CB_PROXY_MAGIC 0))) by reflexivity.
  unfold bind, extern. simpl ext. simpl ctx.
  destruct (ctx_redirect_to_proxy_first _ _ _) as [[r c] w].
  unfold to_host_out. destruct (IS_ERR r); reflexivity.
Qed.

(** *** The host-policy programs the to-host paths tail-call into *)

(** What the program at [CILIUM_CALL_IPV4_TO_HOST_POLICY_ONLY] does with
    the verdict of the ingress host policy. *)
Lemma tail_ipv4_host_policy_ingress_run (s : state world) r src trace e c w :
  ipv4_host_policy_ingress (cb_get (ctx s) CB_SRC_LABEL)
    {| reason := TRACE_REASON_UNKNOWN; monitor := TRACE_PAYLOAD_LEN |} 0 (ext s) (ctx s)
  = (r, src, trace, e, c, w) ->
  run tail_ipv4_host_policy_ingress s
  = run (if IS_ERR r then send_drop_notify_error_ext src r e METRIC_INGRESS
         else
           when (cb_get (ctx s) CB_TRACED =? 0)
                (send_trace_notify TRACE_TO_STACK src UNKNOWN_ID TRACE_EP_ID_UNKNOWN
                   CILIUM_HOST_IFINDEX (reason trace) (monitor trace) (bpf_htons ETH_P_IP)) ;;
           pure r)
        (set_ctx_ext s c w).
Proof.
  intros Hpol. unfold tail_ipv4_host_policy_ingress, run, call. cbv zeta.
  rewrite (bind_next _ _ s (cb_get (ctx s) CB_SRC_LABEL) s) by reflexivity.
  rewrite (bind_next _ _ s (cb_get (ctx s) CB_TRACED) s) by reflexivity.
  rewrite (bind_next _ _ _ _ _ (extern_run _ _ _ _ _ Hpol)). cbv beta iota.
  destruct (IS_ERR r); [reflexivity|].
  rewrite negb_involutive.
  destruct (cb_get (ctx s) CB_TRACED =? 0); reflexivity.
Qed.

Lemma tail_ipv6_host_policy_ingress_run (s : state world) r src trace e c w :
  ipv6_host_policy_ingress (cb_get (ctx s) CB_SRC_LABEL)
    {| reason := TRACE_REASON_UNKNOWN; monitor := 0 |} 0 (ext s) (ctx s)
  = (r, src, trace, e, c, w) ->
  run tail_ipv6_host_policy_ingress s
  = run (if IS_ERR r then send_drop_notify_error_ext src r e METRIC_INGRESS
         else
           when (cb_get (ctx s) CB_TRACED =? 0)
                (send_trace_notify TRACE_TO_STACK src UNKNOWN_ID TRACE_EP_ID_UNKNOWN
                   CILIUM_HOST_IFINDEX (reason trace) (monitor trace)
                   (bpf_htons ETH_P_IPV6)) ;;
           pure r)
        (set_ctx_ext s c w).
Proof.
  intros Hpol. unfold tail_ipv6_host_policy_ingress, run, call. cbv zeta.
  rewrite (bind_next _ _ s (cb_get (ctx s) CB_SRC_LABEL) s) by reflexivity.
  rewrite (bind_next _ _ s (cb_get (ctx s) CB_TRACED) s) by reflexivity.
  rewrite (bind_next _ _ _ _ _ (extern_run _ _ _ _ _ Hpol)). cbv beta iota.
  destruct (IS_ERR r); [reflexivity|].
  rewrite negb_involutive.
  destruct (cb_get (ctx s) CB_TRACED =? 0); reflexivity.
Qed.

(** [cil_to_host] without IPsec, for a packet that is not for the proxy:
    the host-firewall block and the label [out]. *)
Lemma cil_to_host_firewall_block (s : state world) :
  ENABLE_IPSEC cfg = false ->
  ENABLE_HOST_FIREWALL cfg = true ->
  Z.land (mark (ctx s)) MARK_MAGIC_HOST_MASK <> MARK_MAGIC_TO_PROXY ->
  Z.land (cb_get (ctx s) CB_PROXY_MAGIC) 0xFFFF <> MARK_MAGIC_TO_PROXY ->
  cil_to_host (R:=Z) s
  = call (let* (r, proto, ext_err) := to_host_firewall 0 0 false 0 in
          to_host_out r 0 ext_err false
            {| reason := TRACE_REASON_UNKNOWN; monitor := 0 |} proto) s.
Proof.
  intros Hipsec Hfw Hmark Hslot.
  unfold cil_to_host. apply call_same. cbv zeta.
  rewrite (bind_next _ _ s (cb_get (ctx s) CB_PROXY_MAGIC) s) by reflexivity.
  rewrite (bind_next _ _ s (ctx s) s) by reflexivity.
  apply Z.eqb_neq in Hmark, Hslot. rewrite Hmark, Hipsec, Hfw. cbn [andb].
  rewrite Hslot.
  rewrite (bind_next _ _ s 0 s) by reflexivity.
  rewrite (bind_next _ _ s (CTX_ACT_OK, 0, {| reason := TRACE_REASON_UNKNOWN; monitor := 0 |}, 0) s)
    by reflexivity.
  reflexivity.
Qed.

(** X18.  [cil_to_host] with the host firewall (and without IPsec), on an
    IPv4 / IPv6 packet that is not for the proxy, when the tail call is
    taken: the program at [CILIUM_CALL_IPV4_TO_HOST_POLICY_ONLY] /
    [CILIUM_CALL_IPV6_TO_HOST_POLICY_ONLY] applies the ingress host policy
    with the source identity 0 handed over in [CB_SRC_LABEL]; an error
    verdict becomes a drop notification with the identity and extended
    error the policy left, any other verdict is traced to the stack (the
    hand-over says the packet has not been traced) and is the verdict of
    the program. *)
Theorem cil_to_host_applies_ingress_host_policy :
  ENABLE_IPSEC cfg = false ->
  ENABLE_HOST_FIREWALL cfg = true ->
  (forall (s : state world) r src trace e c w,
      ENABLE_IPV4 cfg = true ->
      Z.land (mark (ctx s)) MARK_MAGIC_HOST_MASK <> MARK_MAGIC_TO_PROXY ->
      Z.land (cb_get (ctx s) CB_PROXY_MAGIC) 0xFFFF <> MARK_MAGIC_TO_PROXY ->
      validate_ethertype (ctx s) = (true, bpf_htons ETH_P_IP) ->
      tail_call_possible s CILIUM_CALL_IPV4_TO_HOST_POLICY_ONLY = true ->
      ipv4_host_policy_ingress 0
        {| reason := TRACE_REASON_UNKNOWN; monitor := TRACE_PAYLOAD_LEN |} 0 (ext s)
        (cb_set (cb_set (ctx s) CB_SRC_LABEL 0) CB_TRACED 0)
      = (r, src, trace, e, c, w) ->
      let s2 := set_ctx_ext (set_tail_call_cnt s (S (tail_call_cnt s))) c w in
      let finish : prog world Z Z :=
        if IS_ERR r then send_drop_notify_error_ext src r e METRIC_INGRESS
        else
          send_trace_notify TRACE_TO_STACK src UNKNOWN_ID TRACE_EP_ID_UNKNOWN
            CILIUM_HOST_IFINDEX (reason trace) (monitor trace) (bpf_htons ETH_P_IP) ;;
          pure r in
      cil_to_host (R:=Z) s = (Exit (fst (run finish s2)), snd (run finish s2)))
  /\ (forall (s : state world) r src trace e c w,
      ENABLE_IPV6 cfg = true ->
      Z.land (mark (ctx s)) MARK_MAGIC_HOST_MASK <> MARK_MAGIC_TO_PROXY ->
      Z.land (cb_get (ctx s) CB_PROXY_MAGIC) 0xFFFF <> MARK_MAGIC_TO_PROXY ->
      validate_ethertype (ctx s) = (true, bpf_htons ETH_P_IPV6) ->
      tail_call_possible s CILIUM_CALL_IPV6_TO_HOST_POLICY_ONLY = true ->
      ipv6_host_policy_ingress 0
        {| reason := TRACE_REASON_UNKNOWN; monitor := 0 |} 0 (ext s)
        (cb_set (cb_set (ctx s) CB_SRC_LABEL 0) CB_TRACED 0)
      = (r, src, trace, e, c, w) ->
      let s2 := set_ctx_ext (set_tail_call_cnt s (S (tail_call_cnt s))) c w in
      let finish : prog world Z Z :=
        if IS_ERR r then send_drop_notify_error_ext src r e METRIC_INGRESS
        else
          send_trace_notify TRACE_TO_STACK src UNKNOWN_ID TRACE_EP_ID_UNKNOWN
            CILIUM_HOST_IFINDEX (reason trace) (monitor trace) (bpf_htons ETH_P_IPV6) ;;
          pure r in
      cil_to_host (R:=Z) s = (Exit (fst (run finish s2)), snd (run finish s2))).
Proof.
  intros Hipsec Hfw. split.
  - intros s r src trace e c w Hv4 Hmark Hslot Hval Hyes Hpol s2 finish.
    rewrite (cil_to_host_firewall_block s Hipsec Hfw Hmark Hslot).
    unfold call, to_host_firewall.
    set (s1 := set_ctx s (cb_set (cb_set (ctx s) CB_SRC_LABEL 0) CB_TRACED 0)).
    unfold bind at 1. unfold bind at 1, gets_ctx. rewrite Hval. cbv beta iota.
    change (bpf_htons ETH_P_IP =? bpf_htons ETH_P_ARP) with false.
    change (bpf_htons ETH_P_IP =? bpf_htons ETH_P_IPV6) with false.
    change (bpf_htons ETH_P_IP =? bpf_htons ETH_P_IP) with true.
    rewrite !andb_false_r, Hv4. cbn [negb andb].
    rewrite (bind_next _ _ s tt (set_ctx s (cb_set (ctx s) CB_SRC_LABEL 0))) by reflexivity.
    rewrite (bind_next _ _ _ tt s1) by reflexivity.
    rewrite (bind_exit _ _ _ _ _
               (tail_call_internal_taken _ _ _ s1 (Hyes : tail_call_possible s1 _ = true))).
    rewrite (tail_ipv4_host_policy_ingress_run _ r src trace e c w).
    + simpl ctx. rewrite cb_get_set_eq. change (0 =? 0) with true.
      unfold when. fold s2. fold finish. reflexivity.
    + simpl ctx. simpl ext.
      rewrite cb_get_set_ne by (unfold CB_TRACED, CB_SRC_LABEL; lia).
      rewrite cb_get_set_eq. exact Hpol.
  - intros s r src trace e c w Hv6 Hmark Hslot Hval Hyes Hpol s2 finish.
    rewrite (cil_to_host_firewall_block s Hipsec Hfw Hmark Hslot).
    unfold call, to_host_firewall.
    set (s1 := set_ctx s (cb_set (cb_set (ctx s) CB_SRC_LABEL 0) CB_TRACED 0)).
    unfold bind at 1. unfold bind at 1, gets_ctx. rewrite Hval. cbv beta iota.
    change (bpf_htons ETH_P_IPV6 =? bpf_htons ETH_P_ARP) with false.
    change (bpf_htons ETH_P_IPV6 =? bpf_htons ETH_P_IPV6) with true.
    rewrite !andb_false_r, Hv6. cbn [negb andb].
    rewrite (bind_next _ _ s tt (set_ctx s (cb_set (ctx s) CB_SRC_LABEL 0))) by reflexivity.
    rewrite (bind_next _ _ _ tt s1) by reflexivity.
    rewrite (bind_exit _ _ _ _ _
               (tail_call_internal_taken _ _ _ s1 (Hyes : tail_call_possible s1 _ = true))).
    rewrite (tail_ipv6_host_policy_ingress_run _ r src trace e c w).
    + simpl ctx. rewrite cb_get_set_eq. change (0 =? 0) with true.
      unfold when. fold s2. fold finish. reflexivity.
    + simpl ctx. simpl ext.
      rewrite cb_get_set_ne by (unfold CB_TRACED, CB_SRC_LABEL; lia).
      rewrite cb_get_set_eq. exact Hpol.
Qed.

(** *** [cil_host_policy] *)

Lemma from_host_to_lxc_returns (s : state world) ext_err :
  exists r e s', from_host_to_lxc (R:=Z) ext_err s = (Next (r, e), s').
Proof.
  unfold from_host_to_lxc, call. cbv zeta. unfold bind at 1, gets_ctx.
  destruct (validate_ethertype (ctx s)) as [ok proto].
  destruct ok; cbn [negb]; [|do 3 eexists; reflexivity].
  destruct ((ENABLE_ARP_PASSTHROUGH cfg || ENABLE_ARP_RESPONDER cfg) && _);
    [do 3 eexists; reflexivity|].
  destruct (ENABLE_IPV6 cfg && _).
  { unfold bind at 1, get_ctx.
    destruct (revalidate_data6 (ctx s)) as [ip6|]; [|do 3 eexists; reflexivity].
    unfold bind, extern.
    destruct (ipv6_host_policy_egress _ _ _ _ _ _ _) as [[[[r t] e] c] w].
    do 3 eexists; reflexivity. }
  destruct (ENABLE_IPV4 cfg && _); [|do 3 eexists; reflexivity].
  unfold bind at 1, get_ctx.
  destruct (revalidate_data4 (ctx s)) as [ip4|]; [|do 3 eexists; reflexivity].
  unfold bind, extern.
  destruct (ipv4_host_policy_egress _ _ _ _ _ _ _) as [[[[r t] e] c] w].
  do 3 eexists; reflexivity.
Qed.

(** X19.  [cil_host_policy] with [CB_FROM_HOST] set never lets the packet
    pass by itself: either the policy program of the destination endpoint
    takes the packet over (the tail call is taken), or the program ends
    in the drop notification for the host identity, on egress. *)
Theorem cil_host_policy_from_host_never_passes (s : state world) :
  ENABLE_HOST_FIREWALL cfg = true ->
  cb_get (ctx s) CB_FROM_HOST <> 0 ->
  (exists r e s', cil_host_policy (R:=Z) s
                  = send_drop_notify_error_ext HOST_ID r e METRIC_EGRESS s')
  \/ (exists v c w s1,
        tail_call_policy (Z.land (cb_get (ctx s) CB_DST_ENDPOINT_ID) 0xffff) (ext s1)
          (local_delivery_fill_meta HOST_ID false true false 0 (ctx s1))
        = (TailTaken v, c, w)
        /\ cil_host_policy (R:=Z) s = (Exit v, set_ctx_ext s1 c w)).
Proof.
  intros Hfw Hfrom.
  unfold cil_host_policy, call. rewrite Hfw.
  rewrite (bind_next _ _ s (cb_get (ctx s) CB_FROM_HOST) s) by reflexivity.
  apply Z.eqb_neq in Hfrom. rewrite Hfrom. cbn [negb].
  rewrite (bind_next _ _ s (cb_get (ctx s) CB_DST_ENDPOINT_ID) s) by reflexivity.
  cbv zeta.
  destruct (from_host_to_lxc_returns s 0) as (r & e & s1 & Hr).
  rewrite (bind_next _ _ _ _ _ Hr). cbv beta iota.
  destruct (IS_ERR r) eqn:Herr.
  - left. exists r, e, s1. unfold bind, pure, send_drop_notify_error_ext,
      send_drop_notify_error_with_exitcode_ext, bind, emit, pure, ret. reflexivity.
  - set (s2 := set_ctx s1 (local_delivery_fill_meta HOST_ID false true false 0 (ctx s1))).
    destruct (tail_call_policy (Z.land (cb_get (ctx s) CB_DST_ENDPOINT_ID) 0xffff) (ext s1)
                (local_delivery_fill_meta HOST_ID false true false 0 (ctx s1)))
      as [[t c'] w] eqn:Ht.
    assert (Hinner :
      (modify_ctx (R:=Z) (local_delivery_fill_meta HOST_ID false true false 0) ;;
       let* t := extern (tail_call_policy
                           (Z.land (cb_get (ctx s) CB_DST_ENDPOINT_ID) 0xffff)) in
       match t with
       | TailTaken v => exit v
       | TailMissed r => pure r
       end) s1
      = match t with
        | TailTaken v => (Exit v, set_ctx_ext s1 c' w)
        | TailMissed r => (Next r, set_ctx_ext s1 c' w)
        end).
    { rewrite (bind_next _ _ s1 tt s2) by reflexivity.
      rewrite (bind_next _ _ _ _ _ (extern_run _ s2 _ _ _ Ht)).
      destruct t; reflexivity. }
    destruct t as [v|r'].
    + right. exists v, c', w, s1. split; [exact Ht|].
      rewrite (bind_exit _ _ _ _ _ Hinner). reflexivity.
    + left. exists r', e, (set_ctx_ext s1 c' w).
      rewrite (bind_next _ _ _ _ _ Hinner). reflexivity.
Qed.

(** *** [to_host_from_lxc] *)

Lemma host_policy_programs_return {R} (s : state world) :
  tail_ipv4_host_policy_ingress (R:=R) s
  = (Next (fst (run tail_ipv4_host_policy_ingress s)),
     snd (run tail_ipv4_host_policy_ingress s))
  /\ tail_ipv6_host_policy_ingress (R:=R) s
     = (Next (fst (run tail_ipv6_host_policy_ingress s)),
        snd (run tail_ipv6_host_policy_ingress s)).
Proof.
  split.
  - unfold tail_ipv4_host_policy_ingress.
    match goal with |- call ?b s = _ =>
      assert (Hb : exists v s', b s = (Return v, s'))
    end.
    { cbv zeta.
      rewrite (bind_next _ _ s (cb_get (ctx s) CB_SRC_LABEL) s) by reflexivity.
      rewrite (bind_next _ _ s (cb_get (ctx s) CB_TRACED) s) by reflexivity.
      unfold bind at 1, extern.
      destruct (ipv4_host_policy_ingress _ _ _ _ _) as [[[[[r src] t] e] c] w].
      destruct (IS_ERR r); [do 2 eexists; reflexivity|].
      destruct (negb (negb (cb_get (ctx s) CB_TRACED =? 0))); do 2 eexists; reflexivity. }
    destruct Hb as (v & s' & Hb). unfold run, call. rewrite Hb. reflexivity.
  - unfold tail_ipv6_host_policy_ingress.
    match goal with |- call ?b s = _ =>
      assert (Hb : exists v s', b s = (Return v, s'))
    end.
    { cbv zeta.
      rewrite (bind_next _ _ s (cb_get (ctx s) CB_SRC_LABEL) s) by reflexivity.
      rewrite (bind_next _ _ s (cb_get (ctx s) CB_TRACED) s) by reflexivity.
      unfold bind at 1, extern.
      destruct (ipv6_host_policy_ingress _ _ _ _ _) as [[[[[r src] t] e] c] w].
      destruct (IS_ERR r); [do 2 eexists; reflexivity|].
      destruct (negb (negb (cb_get (ctx s) CB_TRACED =? 0))); do 2 eexists; reflexivity. }
    destruct Hb as (v & s' & Hb). unfold run, call. rewrite Hb. reflexivity.
Qed.

(** The host-policy programs entered with [CB_TRACED] set. *)
Lemma host_policy_programs_traced (s : state world) :
  cb_get (ctx s) CB_TRACED <> 0 ->
  (exists l, events (snd (run tail_ipv4_host_policy_ingress s)) = events s ++ l
             /\ forallb (fun e => negb (is_trace e)) l = true)
  /\ (exists l, events (snd (run tail_ipv6_host_policy_ingress s)) = events s ++ l
                /\ forallb (fun e => negb (is_trace e)) l = true).
Proof.
  intros Htraced. apply Z.eqb_neq in Htraced. split.
  - destruct (ipv4_host_policy_ingress (cb_get (ctx s) CB_SRC_LABEL)
                {| reason := TRACE_REASON_UNKNOWN; monitor := TRACE_PAYLOAD_LEN |} 0
                (ext s) (ctx s)) as [[[[[r src] t] e] c] w] eqn:Hpol.
    rewrite (tail_ipv4_host_policy_ingress_run _ _ _ _ _ _ _ Hpol), Htraced.
    destruct (IS_ERR r).
    + eexists [_]. split; reflexivity.
    + exists []. split; [rewrite app_nil_r|]; reflexivity.
  - destruct (ipv6_host_policy_ingress (cb_get (ctx s) CB_SRC_LABEL)
                {| reason := TRACE_REASON_UNKNOWN; monitor := 0 |} 0
                (ext s) (ctx s)) as [[[[[r src] t] e] c] w] eqn:Hpol.
    rewrite (tail_ipv6_host_policy_ingress_run _ _ _ _ _ _ _ Hpol), Htraced.
    destruct (IS_ERR r).
    + eexists [_]. split; reflexivity.
    + exists []. split; [rewrite app_nil_r|]; reflexivity.
Qed.

(** X20.  [to_host_from_lxc] sends no trace notification, on any packet and
    in any configuration: the notifications it and the host-policy
    program it calls add to those sent before are drop notifications
    only ([CB_TRACED] is handed over as 1). *)
Theorem to_host_from_lxc_never_traces (s : state world) :
  exists l,
    events (snd (to_host_from_lxc (R:=Z) s)) = events s ++ l
    /\ forallb (fun e => negb (is_trace e)) l = true.
Proof.
  assert (Hdrop : forall (r e : Z) (s1 : state world) l,
    events s1 = events s ++ l -> forallb (fun e => negb (is_trace e)) l = true ->
    exists l',
      events (snd ((if IS_ERR r
                    then let* v := send_drop_notify_error_ext (R:=Z) UNKNOWN_ID r e
                                     METRIC_INGRESS in ret (A:=Z) v
                    else ret r) s1)) = events s ++ l'
      /\ forallb (fun e => negb (is_trace e)) l' = true).
  { intros r e s1 l Hev Hl. destruct (IS_ERR r).
    - exists (l ++ [EvDrop UNKNOWN_ID 0 0 r e CTX_ACT_DROP METRIC_INGRESS]). split.
      + simpl. rewrite Hev, app_assoc. reflexivity.
      + rewrite forallb_app, Hl. reflexivity.
    - exists l. split; assumption. }
  assert (Hnil : events s = events s ++ []) by (rewrite app_nil_r; reflexivity).
  assert (Hcall : forall (index : Z) (target : prog world Z Z) (s1 : state world),
    events s1 = events s ->
    (forall s2, target s2 = (Next (fst (run target s2)), snd (run target s2))) ->
    (forall s2, cb_get (ctx s2) CB_TRACED <> 0 ->
                exists l, events (snd (run target s2)) = events s2 ++ l
                          /\ forallb (fun e => negb (is_trace e)) l = true) ->
    cb_get (ctx s1) CB_TRACED <> 0 ->
    exists l,
      events (snd (call (R':=Z)
                     (let* (r, ext_err) :=
                        invoke_tailcall_if
                          (ENABLE_IPV4 cfg && ENABLE_IPV6 cfg || DEBUG dbg) index target 0 in
                      if IS_ERR r
                      then let* v := send_drop_notify_error_ext (R:=Z) UNKNOWN_ID r ext_err
                                       METRIC_INGRESS in ret v
                      else ret r) s1)) = events s ++ l
      /\ forallb (fun e => negb (is_trace e)) l = true).
  { intros index target s1 Hev Hnext Htgt Htraced.
    unfold invoke_tailcall_if.
    destruct (ENABLE_IPV4 cfg && ENABLE_IPV6 cfg || DEBUG dbg).
    - destruct (tail_call_possible s1 index) eqn:Hposs.
      + unfold call. rewrite (bind_exit _ _ _ _ _ (tail_call_internal_taken _ _ _ _ Hposs)).
        destruct (Htgt (set_tail_call_cnt s1 (S (tail_call_cnt s1))) Htraced) as (l & Hl & Hno).
        exists l. split; [|exact Hno]. simpl snd. rewrite Hl. simpl. rewrite Hev. reflexivity.
      + unfold call. rewrite (bind_next _ _ _ _ _ (tail_call_internal_missed _ _ _ _ Hposs)).
        cbv beta iota.
        destruct (Hdrop DROP_MISSED_TAIL_CALL index s1 [] (eq_trans Hev Hnil) eq_refl)
          as (l & Hl & Hno).
        exists l. split; [|exact Hno]. rewrite <- Hl.
        match goal with |- context [(if ?c then ?a else ?b) s1] =>
          destruct ((if c then a else b) s1) as [[v|v|v] s'] end; reflexivity.
    - destruct (Htgt s1 Htraced) as (l & Hl & Hno).
      assert (Hin : (let* r := call target in pure (r, 0)) s1
                    = (Next (fst (run target s1), 0), snd (run target s1))
                      :> outcome Z (Z * Z) * state world).
      { unfold bind, call at 1. rewrite (Hnext s1). reflexivity. }
      unfold call at 1. rewrite (bind_next _ _ _ _ _ Hin). cbv beta iota.
      destruct (Hdrop (fst (run target s1)) 0 (snd (run target s1)) l
                  (eq_trans Hl (f_equal (fun x => x ++ l) Hev)) Hno) as (l' & Hl' & Hno').
      exists l'. split; [|exact Hno']. rewrite <- Hl'.
      match goal with |- context [(if ?c then ?a else ?b) ?st] =>
        destruct ((if c then a else b) st) as [[v|v|v] s'] end; reflexivity. }
  unfold to_host_from_lxc. cbv zeta.
  destruct (validate_ethertype (ctx s)) as [ok proto] eqn:Hval.
  assert (Hhead : forall k : bool * Z -> prog world Z Z,
            call (R':=Z) (bind (gets_ctx validate_ethertype) k) s = call (k (ok, proto)) s).
  { intros k. apply call_same. unfold bind, gets_ctx. rewrite Hval. reflexivity. }
  rewrite Hhead. cbv beta iota.
  destruct ok; cbn [negb].
  2: { unfold call. rewrite (bind_next _ _ s (DROP_UNSUPPORTED_L2, 0) s) by reflexivity.
       eexists [_]. split; reflexivity. }
  destruct ((ENABLE_ARP_PASSTHROUGH cfg || ENABLE_ARP_RESPONDER cfg)
            && (proto =? bpf_htons ETH_P_ARP)).
  { unfold call. rewrite (bind_next _ _ s (CTX_ACT_OK, 0) s) by reflexivity.
    exists []. split; [exact Hnil | reflexivity]. }
  set (s1 := set_ctx s (cb_set (cb_set (ctx s) CB_SRC_LABEL 0) CB_TRACED 1)).
  assert (Htr : cb_get (ctx s1) CB_TRACED <> 0).
  { unfold s1. simpl ctx. rewrite cb_get_set_eq. discriminate. }
  assert (Hstores : forall (k : prog world Z (Z * Z)) (k' : Z * Z -> prog world Z Z),
            call (R':=Z) (bind (ctx_store_meta CB_SRC_LABEL 0 ;; ctx_store_meta CB_TRACED 1 ;; k)
                               k') s
            = call (bind k k') s1).
  { intros k k'. apply call_eq. unfold bind at 1.
    rewrite (bind_next _ _ s tt (set_ctx s (cb_set (ctx s) CB_SRC_LABEL 0))) by reflexivity.
    rewrite (bind_next _ _ _ tt s1) by reflexivity. reflexivity. }
  destruct (ENABLE_IPV6 cfg && (proto =? bpf_htons ETH_P_IPV6)).
  { rewrite Hstores. apply Hcall; [reflexivity | | | exact Htr].
    - intros s2. apply host_policy_programs_return.
    - intros s2 H2. apply (host_policy_programs_traced s2 H2). }
  destruct (ENABLE_IPV4 cfg && (proto =? bpf_htons ETH_P_IP)).
  { rewrite Hstores. apply Hcall; [reflexivity | | | exact Htr].
    - intros s2. apply host_policy_programs_return.
    - intros s2 H2. apply (host_policy_programs_traced s2 H2). }
  unfold call. rewrite (bind_next _ _ s (DROP_UNKNOWN_L3, 0) s) by reflexivity.
  eexists [_]. split; reflexivity.
Qed.

(** *** [cil_to_host]: the verdicts of the host-firewall block *)

(** X21.  [cil_to_host] with the host firewall (and without IPsec) fails
    closed on a packet that is not for the proxy: an ethertype that cannot
    be validated gives the drop [DROP_UNSUPPORTED_L2], a protocol without
    a handler [DROP_UNKNOWN_L3], and a tail call into the host-policy
    program that cannot be taken [DROP_MISSED_TAIL_CALL] with the index of
    the call as extended error; each is the drop notification for the
    source identity 0 on ingress. *)
Theorem cil_to_host_fails_closed (s : state world) ok proto :
  ENABLE_IPSEC cfg = false ->
  ENABLE_HOST_FIREWALL cfg = true ->
  Z.land (mark (ctx s)) MARK_MAGIC_HOST_MASK <> MARK_MAGIC_TO_PROXY ->
  Z.land (cb_get (ctx s) CB_PROXY_MAGIC) 0xFFFF <> MARK_MAGIC_TO_PROXY ->
  validate_ethertype (ctx s) = (ok, proto) ->
  let arp := (ENABLE_ARP_PASSTHROUGH cfg || ENABLE_ARP_RESPONDER cfg)
             && (proto =? bpf_htons ETH_P_ARP) in
  let v6 := ENABLE_IPV6 cfg && (proto =? bpf_htons ETH_P_IPV6) in
  let v4 := ENABLE_IPV4 cfg && (proto =? bpf_htons ETH_P_IP) in
  let s1 := set_ctx s (cb_set (cb_set (ctx s) CB_SRC_LABEL 0) CB_TRACED 0) in
  (ok = false ->
   cil_to_host (R:=Z) s
   = send_drop_notify_error_ext 0 DROP_UNSUPPORTED_L2 0 METRIC_INGRESS s)
  /\ (ok = true -> arp = false -> v6 = false -> v4 = false ->
      cil_to_host (R:=Z) s
      = send_drop_notify_error_ext 0 DROP_UNKNOWN_L3 0 METRIC_INGRESS s)
  /\ (ok = true -> arp = false -> v6 = true ->
      tail_call_possible s CILIUM_CALL_IPV6_TO_HOST_POLICY_ONLY = false ->
      cil_to_host (R:=Z) s
      = send_drop_notify_error_ext 0 DROP_MISSED_TAIL_CALL
          CILIUM_CALL_IPV6_TO_HOST_POLICY_ONLY METRIC_INGRESS s1)
  /\ (ok = true -> arp = false -> v6 = false -> v4 = true ->
      tail_call_possible s CILIUM_CALL_IPV4_TO_HOST_POLICY_ONLY = false ->
      cil_to_host (R:=Z) s
      = send_drop_notify_error_ext 0 DROP_MISSED_TAIL_CALL
          CILIUM_CALL_IPV4_TO_HOST_POLICY_ONLY METRIC_INGRESS s1).
Proof.
  intros Hipsec Hfw Hmark Hslot Hval arp v6 v4 s1.
  rewrite (cil_to_host_firewall_block s Hipsec Hfw Hmark Hslot).
  unfold call, to_host_firewall. rewrite bind_bind.
  rewrite (bind_next _ _ s (ok, proto) s) by (unfold gets_ctx; rewrite Hval; reflexivity).
  cbv beta iota. fold arp v6 v4.
  split; [|split; [|split]].
  - intros ->. reflexivity.
  - intros -> -> -> ->. reflexivity.
  - intros -> -> -> Hno. cbn [negb]. rewrite !bind_bind.
    rewrite (bind_next _ _ s tt (set_ctx s (cb_set (ctx s) CB_SRC_LABEL 0))) by reflexivity.
    rewrite ?bind_bind. rewrite (bind_next _ _ _ tt s1) by reflexivity.
    rewrite ?bind_bind.
    rewrite (bind_next _ _ _ _ _
               (tail_call_internal_missed _ _ _ s1 (Hno : tail_call_possible s1 _ = false))).
    reflexivity.
  - intros -> -> -> -> Hno. cbn [negb]. rewrite !bind_bind.
    rewrite (bind_next _ _ s tt (set_ctx s (cb_set (ctx s) CB_SRC_LABEL 0))) by reflexivity.
    rewrite ?bind_bind. rewrite (bind_next _ _ _ tt s1) by reflexivity.
    rewrite ?bind_bind.
    rewrite (bind_next _ _ _ _ _
               (tail_call_internal_missed _ _ _ s1 (Hno : tail_call_possible s1 _ = false))).
    reflexivity.
Qed.

(** *** [cil_from_host] *)

(** X22.  [cil_from_host] with IPsec, on a packet whose mark
    [inherit_identity_from_host] reads as [MARK_MAGIC_ENCRYPT] (and that is
    not a packet of the L7 egress proxy): the packet is traced as
    encrypted and does not reach [do_netdev]; without tunnel mode the
    verdict is [CTX_ACT_OK], in tunnel mode it is the verdict of
    [do_netdev_encrypt_encap], an error of which becomes a drop
    notification with the inherited identity. *)
Theorem cil_from_host_encrypted_packets_skip_do_netdev (s : state world) proto identity c w :
  ENABLE_IPSEC cfg = true ->
  let s1 := set_ctx s (edt_set_aggregate 0 (ctx s)) in
  validate_ethertype (ctx s1) = (true, proto) ->
  ENABLE_L7_LB cfg = false
  \/ Z.land (mark (ctx s1)) MARK_MAGIC_HOST_MASK <> MARK_MAGIC_PROXY_EGRESS_EPID ->
  inherit_identity_from_host UNKNOWN_ID (ext s1) (ctx s1)
  = (MARK_MAGIC_ENCRYPT, identity, c, w) ->
  let s2 := add_event (set_ctx_ext s c w)
              (EvTrace TRACE_FROM_STACK identity UNKNOWN_ID TRACE_EP_ID_UNKNOWN
                 (ingress_ifindex c) TRACE_REASON_ENCRYPTED 0 proto) in
  (TUNNEL_MODE cfg = false -> cil_from_host (R:=Z) s = (Next CTX_ACT_OK, s2))
  /\ (TUNNEL_MODE cfg = true ->
      forall r s3,
        do_netdev_encrypt_encap (R:=Z) proto identity s2 = (Next r, s3) ->
        cil_from_host (R:=Z) s
        = if IS_ERR r then send_drop_notify_error identity r METRIC_EGRESS s3
          else (Next r, s3)).
Proof.
  intros Hipsec s1 Hval Hl7 Hid s2.
  assert (Hhead : cil_from_host (R:=Z) s
    = call ((send_trace_notify TRACE_FROM_STACK identity UNKNOWN_ID TRACE_EP_ID_UNKNOWN
               (ingress_ifindex c) TRACE_REASON_ENCRYPTED 0 proto ;;
             let* r :=
               (if TUNNEL_MODE cfg then
                  let* r := do_netdev_encrypt_encap proto identity in
                  if IS_ERR r then
                    let* v := send_drop_notify_error identity r METRIC_EGRESS in
                    ret v
                  else pure r
                else pure CTX_ACT_OK) in
             ret (A:=unit) r) ;;
            let* r := do_netdev proto identity TRACE_FROM_HOST true in
            ret r) (set_ctx_ext s c w)).
  { unfold cil_from_host. apply call_eq. cbv zeta.
    rewrite (bind_next _ _ s tt s1) by reflexivity.
    rewrite (bind_next _ _ s1 (true, proto) s1)
      by (unfold gets_ctx; rewrite Hval; reflexivity).
    cbv beta iota. cbn [negb].
    rewrite (bind_next _ _ s1 tt s1) by reflexivity.
    assert (Hl7' : (if ENABLE_L7_LB cfg
                    then
                      let* c0 := get_ctx in
                      if Z.land (mark c0) MARK_MAGIC_HOST_MASK =? MARK_MAGIC_PROXY_EGRESS_EPID
                      then
                        let lxc_id := Z.land (get_epid c0) 0xffff in
                        modify_ctx (fun c1 => set_mark c1 0) ;;
                        let* t := extern (tail_call_egress_policy lxc_id) in
                        match t with
                        | TailTaken v => exit v
                        | TailMissed r =>
                          let* v := send_drop_notify_error UNKNOWN_ID r METRIC_EGRESS in
                          ret v
                        end
                      else pure tt
                    else pure tt) s1 = (Next tt, s1) :> outcome Z unit * state world).
    { destruct Hl7 as [-> | Hne]; [reflexivity|].
      destruct (ENABLE_L7_LB cfg); [|reflexivity].
      unfold bind, get_ctx. apply Z.eqb_neq in Hne. rewrite Hne. reflexivity. }
    rewrite (bind_next _ _ _ _ _ Hl7').
    rewrite (bind_next _ _ _ _ _ (extern_run _ s1 _ _ _ Hid)). cbv beta iota.
    rewrite Hipsec.
    change (MARK_MAGIC_ENCRYPT =? MARK_MAGIC_ENCRYPT) with true. cbn [andb].
    rewrite bind_bind.
    rewrite (bind_next _ _ _ c (set_ctx_ext s c w)) by reflexivity.
    reflexivity. }
  rewrite Hhead. unfold call. rewrite bind_bind.
  rewrite (bind_next _ _ _ tt s2) by reflexivity.
  rewrite bind_bind.
  split.
  - intros ->. reflexivity.
  - intros -> r s3 Henc.
    rewrite bind_bind. rewrite (bind_next _ _ _ _ _ Henc).
    destruct (IS_ERR r); reflexivity.
Qed.

(** *** Packets of the L7 egress proxy *)

(** X23.  With [ENABLE_L7_LB], [cil_from_host] and [cil_to_netdev] hand a
    packet whose mark carries [MARK_MAGIC_PROXY_EGRESS_EPID] to the egress
    policy program of the endpoint named in the mark, with the mark
    zeroed: if the tail call is taken the verdict is that program's, and
    if it is missed the packet is dropped with the error of the call. *)
Theorem proxy_egress_packets_go_to_endpoint_policy :
  ENABLE_L7_LB cfg = true ->
  (forall (s : state world) proto,
      let s1 := set_ctx s (edt_set_aggregate 0 (ctx s)) in
      validate_ethertype (ctx s1) = (true, proto) ->
      Z.land (mark (ctx s1)) MARK_MAGIC_HOST_MASK = MARK_MAGIC_PROXY_EGRESS_EPID ->
      cil_from_host (R:=Z) s
      = let '(t, c, w) :=
          tail_call_egress_policy (Z.land (get_epid (ctx s1)) 0xffff) (ext s)
            (set_mark (ctx s1) 0) in
        match t with
        | TailTaken v => (Exit v, set_ctx_ext s c w)
        | TailMissed r => send_drop_notify_error UNKNOWN_ID r METRIC_EGRESS (set_ctx_ext s c w)
        end)
  /\ (forall (s : state world),
      let c1 := cb_clear (ctx s) in
      vlan_present (ctx s) = false \/ Z.land (vlan_tci (ctx s)) 0xfff = 0 ->
      Z.land (mark (ctx s)) MARK_MAGIC_HOST_MASK = MARK_MAGIC_PROXY_EGRESS_EPID ->
      cil_to_netdev (R:=Z) s
      = let '(t, c, w) :=
          tail_call_egress_policy (Z.land (get_epid c1) 0xffff) (ext s) (set_mark c1 0) in
        match t with
        | TailTaken v => (Exit v, set_ctx_ext s c w)
        | TailMissed r =>
          send_drop_notify_error_ext (if ctx_mark_is_wireguard c1 then HOST_ID else UNKNOWN_ID)
            r 0 METRIC_EGRESS (set_ctx_ext s c w)
        end).
Proof.
  intros Hl7. split.
  - intros s proto s1 Hval Hmark.
    unfold cil_from_host, call. cbv zeta.
    rewrite (bind_next _ _ s tt s1) by reflexivity.
    rewrite (bind_next _ _ s1 (true, proto) s1)
      by (unfold gets_ctx; rewrite Hval; reflexivity).
    cbv beta iota. cbn [negb].
    rewrite (bind_next _ _ s1 tt s1) by reflexivity.
    rewrite Hl7. rewrite !bind_bind.
    rewrite (bind_next _ _ s1 (ctx s1) s1) by reflexivity.
    rewrite Hmark.
    change (MARK_MAGIC_PROXY_EGRESS_EPID =? MARK_MAGIC_PROXY_EGRESS_EPID) with true.
    cbv iota zeta. rewrite !bind_bind.
    rewrite (bind_next _ _ s1 tt (set_ctx s1 (set_mark (ctx s1) 0))) by reflexivity.
    rewrite !bind_bind. unfold bind at 1, extern at 1. simpl ext. simpl ctx.
    destruct (tail_call_egress_policy _ _ _) as [[[v|r] c] w]; reflexivity.
  - intros s c1 Hvlan Hmark.
    unfold cil_to_netdev, call. cbv zeta.
    rewrite (bind_next _ _ s (ctx s) s) by reflexivity.
    set (s1 := set_ctx s c1).
    rewrite (bind_next _ _ s tt s1) by reflexivity.
    rewrite (bind_next _ _ s1 c1 s1) by reflexivity.
    rewrite Hmark.
    change (MARK_MAGIC_PROXY_EGRESS_EPID =? MARK_MAGIC_HOST) with false.
    change (MARK_MAGIC_PROXY_EGRESS_EPID =? MARK_MAGIC_OVERLAY) with false.
    change (MARK_MAGIC_PROXY_EGRESS_EPID =? MARK_MAGIC_IDENTITY) with false.
    change (MARK_MAGIC_PROXY_EGRESS_EPID =? MARK_MAGIC_EGW_DONE) with false.
    change (MARK_MAGIC_PROXY_EGRESS_EPID =? MARK_MAGIC_PROXY_EGRESS_EPID) with true.
    rewrite !andb_false_r, Hl7. cbn [orb andb].
    match goal with |- context [bind ?m ?k s1] =>
      assert (Hv : m s1 = (Next tt, s1))
    end.
    { change (vlan_present c1) with (vlan_present (ctx s)).
      change (vlan_tci c1) with (vlan_tci (ctx s)).
      destruct Hvlan as [-> | ->]; [reflexivity|].
      destruct (vlan_present (ctx s)); reflexivity. }
    rewrite (bind_next _ _ _ _ _ Hv). clear Hv.
    rewrite !bind_bind.
    rewrite (bind_next _ _ s1 tt (set_ctx s1 (set_mark c1 0))) by reflexivity.
    rewrite !bind_bind. unfold bind at 1, extern at 1. simpl ext. simpl ctx.
    destruct (tail_call_egress_policy _ _ _) as [[[v|r] c] w]; [reflexivity|].
    unfold to_netdev_drop_err, bind.
    destruct (ctx_mark_is_wireguard c1); reflexivity.
Qed.

(** *** The entry points from the network and from the host *)

(** [cil_from_netdev] up to the ethertype, for a frame without a VLAN tag
    on a build without NodePort acceleration. *)
Lemma cil_from_netdev_head (s : state world) ok proto (k : bool * Z -> prog world Z Z) :
  ENABLE_NODEPORT_ACCELERATION cfg = false ->
  vlan_present (ctx s) = false \/ Z.land (vlan_tci (ctx s)) 0xfff = 0 ->
  let s1 := set_ctx s (ctx_skip_nodeport_clear (ctx s)) in
  validate_ethertype (ctx s1) = (ok, proto) ->
  call (R':=Z)
    (let* flags := (if ENABLE_NODEPORT_ACCELERATION cfg
                    then gets_ctx (fun c => ctx_get_xfer c XFER_FLAGS) else pure 0) in
     let* c := get_ctx in
     (if vlan_present c then
        let vlan_id := Z.land (vlan_tci c) 0xfff in
        if negb (vlan_id =? 0) then
          if allow_vlan (ifindex c) vlan_id then ret CTX_ACT_OK
          else from_netdev_drop_err UNKNOWN_ID DROP_VLAN_FILTERED
        else pure tt
      else pure tt) ;;
     modify_ctx ctx_skip_nodeport_clear ;;
     when (ENABLE_NODEPORT_ACCELERATION cfg)
          (when (negb (Z.land flags XFER_PKT_NO_SVC =? 0)) (modify_ctx ctx_skip_nodeport_set) ;;
           when (HAVE_ENCAP cfg && negb (Z.land flags XFER_PKT_SNAT_DONE =? 0))
                (modify_ctx ctx_snat_done_set)) ;;
     let* x := gets_ctx validate_ethertype in
     k x) s
  = call (k (ok, proto)) s1.
Proof.
  intros Hacc Hvlan s1 Hval. apply call_eq. rewrite Hacc.
  rewrite (bind_next _ _ s 0 s) by reflexivity.
  rewrite (bind_next _ _ s (ctx s) s) by reflexivity.
  match goal with |- context [bind ?m ?k s] =>
    assert (Hv : m s = (Next tt, s))
  end.
  { destruct Hvlan as [-> | ->]; [reflexivity|].
    destruct (vlan_present (ctx s)); reflexivity. }
  rewrite (bind_next _ _ _ _ _ Hv). clear Hv.
  rewrite (bind_next _ _ s tt s1) by reflexivity.
  rewrite (bind_next _ _ s1 tt s1) by reflexivity.
  rewrite (bind_next _ _ s1 (ok, proto) s1)
    by (unfold gets_ctx; rewrite Hval; reflexivity).
  reflexivity.
Qed.

(** X24.  At [cil_from_netdev] (frame without a VLAN tag, no NodePort
    acceleration) and [cil_from_host], a frame whose ethertype cannot be
    validated is dropped with [DROP_UNSUPPORTED_L2] when the host firewall
    is compiled in, and otherwise traced and passed to the stack with
    [CTX_ACT_OK]; the source identity of the notification is unknown at
    [cil_from_netdev] and the host's at [cil_from_host]. *)
Theorem entry_points_drop_unsupported_l2_only_with_host_firewall :
  (forall (s : state world) proto,
      ENABLE_NODEPORT_ACCELERATION cfg = false ->
      vlan_present (ctx s) = false \/ Z.land (vlan_tci (ctx s)) 0xfff = 0 ->
      let s1 := set_ctx s (ctx_skip_nodeport_clear (ctx s)) in
      validate_ethertype (ctx s1) = (false, proto) ->
      cil_from_netdev (R:=Z) s
      = if ENABLE_HOST_FIREWALL cfg
        then send_drop_notify_error UNKNOWN_ID DROP_UNSUPPORTED_L2 METRIC_INGRESS s1
        else (Next CTX_ACT_OK,
              add_event s1 (EvTrace TRACE_TO_STACK UNKNOWN_ID UNKNOWN_ID TRACE_EP_ID_UNKNOWN
                              TRACE_IFINDEX_UNKNOWN TRACE_REASON_UNKNOWN 0 proto)))
  /\ (forall (s : state world) proto,
      let s1 := set_ctx s (edt_set_aggregate 0 (ctx s)) in
      validate_ethertype (ctx s1) = (false, proto) ->
      cil_from_host (R:=Z) s
      = if ENABLE_HOST_FIREWALL cfg
        then send_drop_notify HOST_ID UNKNOWN_ID TRACE_EP_ID_UNKNOWN DROP_UNSUPPORTED_L2
               METRIC_EGRESS s1
        else (Next CTX_ACT_OK,
              add_event s1 (EvTrace TRACE_TO_STACK HOST_ID UNKNOWN_ID TRACE_EP_ID_UNKNOWN
                              TRACE_IFINDEX_UNKNOWN TRACE_REASON_UNKNOWN 0 proto))).
Proof.
  split.
  - intros s proto Hacc Hvlan s1 Hval.
    unfold cil_from_netdev. cbv zeta.
    rewrite (cil_from_netdev_head s false proto _ Hacc Hvlan Hval).
    unfold call. cbn [negb].
    destruct (ENABLE_HOST_FIREWALL cfg); reflexivity.
  - intros s proto s1 Hval. unfold cil_from_host, call. cbv zeta.
    rewrite (bind_next _ _ s tt s1) by reflexivity.
    rewrite (bind_next _ _ s1 (false, proto) s1)
      by (unfold gets_ctx; rewrite Hval; reflexivity).
    cbv beta iota. cbn [negb].
    destruct (ENABLE_HOST_FIREWALL cfg); reflexivity.
Qed.

(** X25.  [cil_from_netdev] with IPsec (frame without a VLAN tag, no
    NodePort acceleration): a packet whose mark is [MARK_MAGIC_DECRYPT]
    after [do_decrypt] goes straight to the stack with [CTX_ACT_OK],
    whatever [do_decrypt] returned; it is not traced and [do_netdev] is not
    run. *)
Theorem cil_from_netdev_passes_decrypt_packets_to_stack (s : state world) proto r c w :
  ENABLE_IPSEC cfg = true ->
  ENABLE_NODEPORT_ACCELERATION cfg = false ->
  vlan_present (ctx s) = false \/ Z.land (vlan_tci (ctx s)) 0xfff = 0 ->
  let s1 := set_ctx s (ctx_skip_nodeport_clear (ctx s)) in
  validate_ethertype (ctx s1) = (true, proto) ->
  do_decrypt proto (ext s) (ctx s1) = (r, c, w) ->
  mark c = MARK_MAGIC_DECRYPT ->
  cil_from_netdev (R:=Z) s = (Next CTX_ACT_OK, set_ctx_ext s c w).
Proof.
  intros Hipsec Hacc Hvlan s1 Hval Hdec Hmark.
  unfold cil_from_netdev. cbv zeta.
  rewrite (cil_from_netdev_head s true proto _ Hacc Hvlan Hval).
  unfold call. cbn [negb].
  rewrite (bind_next _ _ s1 tt s1) by reflexivity.
  rewrite Hipsec. rewrite !bind_bind.
  rewrite (bind_next _ _ _ _ _ (extern_run _ s1 _ _ _ Hdec)).
  rewrite !bind_bind.
  rewrite (bind_next _ _ _ c (set_ctx_ext s1 c w)) by reflexivity.
  rewrite Hmark.
  change (MARK_MAGIC_DECRYPT =? MARK_MAGIC_DECRYPT) with true. reflexivity.
Qed.

End HostProofs.

(** * Runs on the concrete node *)

Import Scenario.

(** From the host, with the reserved in-band identity [WORLD_ID], the source
    10.0.0.5 (fd00::5) resolves to its table identity 2000. *)
Lemma resolve_srcid_adopts_table_identity_witness :
  fst (resolve_srcid_ipv4 (cfg:=cfg_hostfw) (R:=Z) (hdr4 (ip 10 0 0 5) (ip 192 168 0 1))
         WORLD_ID 0 true (cpu to_node4 (the_node false 0)))
  = Next (2000, 2000)
  /\ fst (resolve_srcid_ipv6 (cfg:=cfg_hostfw) (R:=Z) (hdr6 (fd00 5) (fd00 1))
            WORLD_ID 0 true (cpu to_node6 (the_node false 0)))
     = Next (2000, 2000).
Proof.
  split.
  - refine (proj1 (proj1 (resolve_srcid_adopts_table_identity (cfg:=cfg_hostfw))
                     (cpu to_node4 (the_node false 0)) (hdr4 (ip 10 0 0 5) (ip 192 168 0 1))
                     WORLD_ID 0 true (entry 2000) _ _ _) _);
      vm_compute; first [reflexivity | lia].
  - refine (proj1 (proj2 (resolve_srcid_adopts_table_identity (cfg:=cfg_hostfw))
                     (cpu to_node6 (the_node false 0)) (hdr6 (fd00 5) (fd00 1))
                     WORLD_ID 0 true (entry 2000) _ _ _) _);
      vm_compute; first [reflexivity | lia].
Defined.

(** The source 10.0.0.5 is in the table with the identity 2000, which is
    neither the host's nor reserved; the packet comes from the host with
    the in-band identity 1000: the resolver returns 1000, not 2000, and
    does not report the table's identity either. *)
Lemma resolve_srcid_keeps_inband_identity :
  lookup_ip4_remote_endpoint (the_node false 0) (ip 10 0 0 5) 0 = Some (entry 2000)
  /\ sec_identity (entry 2000) <> HOST_ID
  /\ identity_is_reserved (sec_identity (entry 2000)) = false
  /\ fst (resolve_srcid_ipv4 (cfg:=cfg_hostfw) (R:=Z) (hdr4 (ip 10 0 0 5) (ip 192 168 0 1))
            1000 0 true (cpu to_node4 (the_node false 0)))
     = Next (1000, 0)
  /\ 1000 <> sec_identity (entry 2000).
Proof. repeat split; vm_compute; first [reflexivity | lia]. Qed.

(** On a CPU whose transfer buffers are gone, the packet to the node is
    dropped by both phases; and by the apply phase when the slot is there
    but was never written. *)
Lemma host_firewall_fails_closed_on_transfer_buffer_witness :
  ENABLE_HOST_FIREWALL cfg_hostfw = true
  /\ fst (handle_ipv4 (cfg:=cfg_hostfw) (R:=Z) 2000 2000 false false 0
            (cpu_without_maps to_node4 (the_node true 0)))
     = Next (DROP_INVALID_TC_BUFFER, false, 0)
  /\ fst (handle_ipv6 (cfg:=cfg_hostfw) (R:=Z) 2000 2000 false false 0
            (cpu_without_maps to_node6 (the_node true 0)))
     = Next (DROP_INVALID_TC_BUFFER, false, 0)
  /\ fst (handle_ipv4_cont (cfg:=cfg_hostfw) (R:=Z) 2000 false 0
            (enforce_without_buffer to_node4))
     = Next (DROP_INVALID_TC_BUFFER, 0)
  /\ fst (handle_ipv6_cont (cfg:=cfg_hostfw) (R:=Z) 2000 false 0
            (enforce_without_buffer to_node6))
     = Next (DROP_INVALID_TC_BUFFER, 0)
  /\ fst (handle_ipv4_cont (cfg:=cfg_hostfw) (R:=Z) 2000 false 0
            (enforce_with_zeroed_buffer to_node4))
     = Next (DROP_INVALID_TC_BUFFER, 0)
  /\ fst (handle_ipv6_cont (cfg:=cfg_hostfw) (R:=Z) 2000 false 0
            (enforce_with_zeroed_buffer to_node6))
     = Next (DROP_INVALID_TC_BUFFER, 0).
Proof.
  pose proof (host_firewall_fails_closed_on_transfer_buffer (cfg:=cfg_hostfw)
                (world:=node) eq_refl) as (Hpre4 & Hpre6 & Hcont4 & Hcont6).
  split; [reflexivity|]. split; [|split; [|split; [|split; [|split]]]].
  - eapply Hpre4; vm_compute; reflexivity.
  - eapply Hpre6; vm_compute; reflexivity.
  - eapply Hcont4; [vm_compute; reflexivity | vm_compute; lia | left; vm_compute; reflexivity].
  - eapply Hcont6; [vm_compute; reflexivity | vm_compute; lia | left; vm_compute; reflexivity].
  - eapply Hcont4; [vm_compute; reflexivity | vm_compute; lia |].
    right. exists ct_buffer4_zero. split; vm_compute; reflexivity.
  - eapply Hcont6; [vm_compute; reflexivity | vm_compute; lia |].
    right. exists ct_buffer6_zero. split; [|split]; vm_compute; reflexivity.
Defined.

(** The packet to the node under a denying and under an allowing host
    policy: what [handle_ipv4] / [handle_ipv6] stores is what the apply
    phase hands to the policy, whose verdict the continuation handler
    returns. *)
Lemma transfer_buffer_round_trip_witness :
  ENABLE_HOST_FIREWALL cfg_hostfw = true
  /\ (exists s2,
        handle_ipv4 (cfg:=cfg_hostfw) (R:=Z) 2000 2000 false false 0
          (cpu to_node4 (the_node true DROP_POLICY_DENY))
        = (Next (CTX_ACT_OK, false, 0), s2)
        /\ forall src,
            let s3 := across_chain_boundary src s2 in
            let s4 := set_ctx s3 (cb_set (ctx s3) CB_FROM_HOST 0) in
            let x := {| cb4_tuple := {| t4_daddr := ip 192 168 0 1; t4_saddr := ip 10 0 0 5;
                                        t4_dport := 0; t4_sport := 0; t4_nexthdr := 6;
                                        t4_flags := 0 |};
                        cb4_ct_state := 0; cb4_monitor := 0; cb4_ret := 0;
                        cb4_l4_off := 34 |} in
            map_lookup_elem (cilium_tail_call_buffer4 s3) 0 = Some x
            /\ (forall ip4 trace e,
                   ipv4_host_firewall_apply (cfg:=cfg_hostfw) false ip4 trace e s3
                   = (Return (DROP_POLICY_DENY, e), s4))
            /\ handle_ipv4_cont (cfg:=cfg_hostfw) (R:=Z) 2000 false 0 s3
               = (Next (DROP_POLICY_DENY, 0), s4))
  /\ (exists s2,
        handle_ipv6 (cfg:=cfg_hostfw) (R:=Z) 2000 2000 false false 0
          (cpu to_node6 (the_node true DROP_POLICY_DENY))
        = (Next (CTX_ACT_OK, false, 0), s2)
        /\ forall src,
            let s3 := across_chain_boundary src s2 in
            let s4 := set_ctx s3 (cb_set (ctx s3) CB_FROM_HOST 0) in
            let x := {| cb6_tuple := {| t6_daddr := fd00 1; t6_saddr := fd00 5;
                                        t6_dport := 0; t6_sport := 0; t6_nexthdr := 6;
                                        t6_flags := 0 |};
                        cb6_ct_state := 0; cb6_monitor := 0; cb6_ret := 0;
                        cb6_l4_off := 54 |} in
            map_lookup_elem (cilium_tail_call_buffer6 s3) 0 = Some x
            /\ (forall ip6 trace e,
                   ipv6_host_firewall_apply (cfg:=cfg_hostfw) false ip6 trace e s3
                   = (Return (DROP_POLICY_DENY, e), s4))
            /\ handle_ipv6_cont (cfg:=cfg_hostfw) (R:=Z) 2000 false 0 s3
               = (Next (DROP_POLICY_DENY, 0), s4))
  /\ (exists s2,
        handle_ipv4 (cfg:=cfg_hostfw) (R:=Z) 2000 2000 false false 0
          (cpu to_node4 (the_node true CTX_ACT_OK))
        = (Next (CTX_ACT_OK, false, 0), s2)
        /\ forall src ip4 trace e,
            let s3 := across_chain_boundary src s2 in
            ipv4_host_firewall_apply (cfg:=cfg_hostfw) false ip4 trace e s3
            = (Next (ip4, trace, e), set_ctx s3 (cb_set (ctx s3) CB_FROM_HOST 0))).
Proof.
  pose proof (transfer_buffer_round_trip (cfg:=cfg_hostfw) (world:=node) eq_refl)
    as (Hv4 & Hv6).
  split; [reflexivity|]. split; [|split].
  - edestruct (Hv4 (cpu to_node4 (the_node true DROP_POLICY_DENY)) 2000 2000 false false 0)
      as (s2 & Hrun & Hrest); [vm_compute; reflexivity | vm_compute; discriminate |].
    assert (Hs2 : s2 = snd (handle_ipv4 (cfg:=cfg_hostfw) (R:=Z) 2000 2000 false false 0
                              (cpu to_node4 (the_node true DROP_POLICY_DENY))))
      by (rewrite Hrun; reflexivity).
    exists s2. split; [exact Hrun|]. intros src.
    destruct (Hrest src) as (Hb & Happ & Hh). cbv zeta. split; [exact Hb|]. split.
    + intros ip4 trace e. rewrite Happ, Hs2. reflexivity.
    + erewrite Hh; [| rewrite Hs2; vm_compute; reflexivity | vm_compute; discriminate
                    | rewrite Hs2; eexists; vm_compute; reflexivity | reflexivity].
      rewrite Hs2. reflexivity.
  - edestruct (Hv6 (cpu to_node6 (the_node true DROP_POLICY_DENY)) 2000 2000 false false 0)
      as (s2 & Hrun & Hrest); [vm_compute; reflexivity | vm_compute; discriminate |].
    assert (Hs2 : s2 = snd (handle_ipv6 (cfg:=cfg_hostfw) (R:=Z) 2000 2000 false false 0
                              (cpu to_node6 (the_node true DROP_POLICY_DENY))))
      by (rewrite Hrun; reflexivity).
    exists s2. split; [exact Hrun|]. intros src.
    destruct (Hrest src) as (Hb & Happ & Hh). cbv zeta. split; [exact Hb|]. split.
    + intros ip6 trace e. rewrite Happ, Hs2. reflexivity.
    + erewrite Hh; [| rewrite Hs2; vm_compute; reflexivity | vm_compute; reflexivity
                    | rewrite Hs2; eexists; vm_compute; reflexivity | reflexivity].
      rewrite Hs2. reflexivity.
  - edestruct (Hv4 (cpu to_node4 (the_node true CTX_ACT_OK)) 2000 2000 false false 0)
      as (s2 & Hrun & Hrest); [vm_compute; reflexivity | vm_compute; discriminate |].
    assert (Hs2 : s2 = snd (handle_ipv4 (cfg:=cfg_hostfw) (R:=Z) 2000 2000 false false 0
                              (cpu to_node4 (the_node true CTX_ACT_OK))))
      by (rewrite Hrun; reflexivity).
    exists s2. split; [exact Hrun|]. intros src ip4 trace e.
    destruct (Hrest src) as (Hb & Happ & Hh). cbv zeta. rewrite Happ, Hs2. reflexivity.
Defined.

(** From the node to destinations the table does not know. *)
Lemma unknown_destination_from_host_is_unroutable_witness :
  (* IPv4: 8.8.8.8 falls under the catch-all prefix, the world *)
  (exists s1,
      handle_ipv4_cont (cfg:=cfg_hostfw) (R:=Z) HOST_ID true 0
        (cpu (from_node4 (ip 8 8 8 8)) (the_node false 0))
      = (Next (DROP_UNROUTABLE, 0), s1))
  (* the same packet from the proxy *)
  /\ fst (handle_ipv4_cont (cfg:=cfg_hostfw) (R:=Z) HOST_ID true 0
            (cpu (from_proxy (from_node4 (ip 8 8 8 8))) (the_node false 0)))
     = Next (CTX_ACT_OK, 0)
  (* IPv6: fd00::9 has no entry *)
  /\ (exists s1,
        handle_ipv6_cont (cfg:=cfg_hostfw) (R:=Z) HOST_ID true 0
          (cpu (from_node6 (fd00 9)) (the_node false 0))
        = (Next (DROP_UNROUTABLE, 0), s1)).
Proof.
  pose proof (unknown_destination_from_host_is_unroutable (cfg:=cfg_hostfw) (world:=node))
    as (Hv4 & Hv6).
  split; [|split].
  - eexists.
    refine (proj1 (proj2 (Hv4 (cpu (from_node4 (ip 8 8 8 8)) (the_node false 0)) _
                            HOST_ID 0 (hdr4 (ip 192 168 0 1) (ip 8 8 8 8)) _ _ _ _ _ _ _))
              (entry WORLD_ID) _ _ _ _); vm_compute; reflexivity.
  - refine (proj2 (proj2 (Hv4 (cpu (from_proxy (from_node4 (ip 8 8 8 8))) (the_node false 0)) _
                            HOST_ID 0 (hdr4 (ip 192 168 0 1) (ip 8 8 8 8)) _ _ _ _ _ _ _))
              (entry WORLD_ID) _ _ _); vm_compute; reflexivity.
  - eexists.
    refine (proj1 (Hv6 (cpu (from_node6 (fd00 9)) (the_node false 0)) _
                     HOST_ID 0 (hdr6 (fd00 1) (fd00 9)) _ _ _ _ _ _) _);
      vm_compute; reflexivity.
Defined.

(** A packet from the host to 10.0.1.7: the address falls under the
    catch-all prefix (the world identity), the packet is not from a proxy,
    yet it is not dropped: 10.0.1.7 is a local endpoint and the packet is
    delivered to it. *)
Lemma world_destination_delivered_locally :
  lookup_ip4_remote_endpoint (the_node false 0) (ip 10 0 1 7) 0 = Some (entry WORLD_ID)
  /\ identity_is_world_ipv4 (sec_identity (entry WORLD_ID)) = true
  /\ fst (proxy_provenance true (from_node4 (ip 10 0 1 7))) = false
  /\ fst (handle_ipv4_cont (cfg:=cfg_hostfw) (R:=Z) HOST_ID true 0
            (cpu (from_node4 (ip 10 0 1 7)) (the_node false 0)))
     = Next (CTX_ACT_REDIRECT, 0)
  /\ CTX_ACT_REDIRECT <> DROP_UNROUTABLE.
Proof. repeat split; vm_compute; first [reflexivity | lia]. Qed.

(** The packet to the node's own address, allowed by the host firewall. *)
Lemma host_delivery_passes_to_stack_witness :
  (exists s1,
      handle_ipv4_cont (cfg:=cfg_hostfw) (R:=Z) 2000 false 0 (to_node4_cont CTX_ACT_OK)
      = (Next (CTX_ACT_OK, 0), s1))
  /\ (exists s1,
        handle_ipv6_cont (cfg:=cfg_hostfw) (R:=Z) 2000 false 0 (to_node6_cont CTX_ACT_OK)
        = (Next (CTX_ACT_OK, 0), s1)).
Proof.
  pose proof (host_delivery_passes_to_stack (cfg:=cfg_hostfw) (world:=node)) as (Hv4 & Hv6).
  split; eexists.
  - eapply Hv4; [vm_compute; reflexivity | vm_compute; reflexivity
                | vm_compute; reflexivity | vm_compute; lia].
  - eapply Hv6; [vm_compute; reflexivity | vm_compute; reflexivity | vm_compute; reflexivity
                | vm_compute; reflexivity | vm_compute; lia].
Defined.

(** The packet to the node's own address 192.168.0.1, a local endpoint with
    the host-delivery flag, with the host firewall enforcing and its
    ingress policy denying: the continuation handler returns the policy's
    drop reason, not [CTX_ACT_OK]. *)
Lemma host_delivery_denied_by_host_firewall :
  (exists ep,
      lookup_ip4_endpoint (the_node true DROP_POLICY_DENY)
        (hdr4 (ip 10 0 0 5) (ip 192 168 0 1)) = Some ep
      /\ Z.land (ep_flags ep) ENDPOINT_MASK_HOST_DELIVERY <> 0)
  /\ revalidate_data4 (cfg:=cfg_hostfw) (ctx (to_node4_cont DROP_POLICY_DENY))
     = Some (hdr4 (ip 10 0 0 5) (ip 192 168 0 1))
  /\ fst (handle_ipv4_cont (cfg:=cfg_hostfw) (R:=Z) 2000 false 0
            (to_node4_cont DROP_POLICY_DENY))
     = Next (DROP_POLICY_DENY, 0)
  /\ DROP_POLICY_DENY <> CTX_ACT_OK.
Proof.
  split; [eexists; split; [vm_compute; reflexivity | vm_compute; lia]|].
  repeat split; vm_compute; first [reflexivity | lia].
Qed.

(** Towards the L2 device 5: with the resolver the packet goes through
    [redirect_neigh]; without it, the empty neighbour map gives
    [DROP_NO_FIB]. *)
Lemma fib_no_neigh_resolver_then_map_witness :
  (exists s1,
      fib_do_redirect (cfg:=cfg_plain) (R:=Z) true (Some (fib_to (ip 10 0 0 5))) true
        BPF_FIB_LKUP_RET_NO_NEIGH 5 0 (cpu to_node4 (the_node false 0))
      = (Next (CTX_ACT_REDIRECT, 0), s1)
      /\ redirects (ext s1) = [(true, 5)])
  /\ fib_do_redirect (cfg:=cfg_no_resolver) (R:=Z) true (Some (fib_to (ip 10 0 0 5))) true
       BPF_FIB_LKUP_RET_NO_NEIGH 5 0 (cpu to_node4 (the_node false 0))
     = (Next (DROP_NO_FIB, BPF_FIB_MAP_NO_NEIGH), cpu to_node4 (the_node false 0)).
Proof.
  split.
  - eexists. split.
    + refine (proj1 (fib_no_neigh_resolver_then_map (cfg:=cfg_plain)
                       (cpu to_node4 (the_node false 0)) _ true (Some (fib_to (ip 10 0 0 5)))
                       true 5 0 _) _ _ _ _ _); vm_compute; reflexivity.
    + vm_compute; reflexivity.
  - refine (proj1 (proj2 (proj2 (fib_no_neigh_resolver_then_map (cfg:=cfg_no_resolver)
                       (cpu to_node4 (the_node false 0)) _ true (Some (fib_to (ip 10 0 0 5)))
                       true 5 0 _) _) (fib_to (ip 10 0 0 5)) _ _) _);
      vm_compute; reflexivity.
Defined.

(** Interface 42 is an L3 device and the caller asks for the L2 check: with
    the FIB result [BPF_FIB_LKUP_RET_NO_NEIGH] and the neighbour resolver
    available the packet is sent with [ctx_redirect], not with
    [redirect_neigh]; and without the resolver, with no entry in the
    neighbour map, it is redirected all the same, not dropped. *)
Lemma fib_no_neigh_towards_l3_device :
  neigh_resolver_available cfg_l3 = true
  /\ (exists s1,
        fib_do_redirect (cfg:=cfg_l3) (R:=Z) true (Some (fib_to (ip 10 0 0 5))) true
          BPF_FIB_LKUP_RET_NO_NEIGH 42 0 (cpu to_node4 (the_node false 0))
        = (Next (CTX_ACT_REDIRECT, 0), s1)
        /\ redirects (ext s1) = [(false, 42)])
  /\ neigh_resolver_available cfg_l3_no_resolver = false
  /\ neigh_map_dmac (the_node false 0) (fib_to (ip 10 0 0 5)) = None
  /\ fst (fib_do_redirect (cfg:=cfg_l3_no_resolver) (R:=Z) true
            (Some (fib_to (ip 10 0 0 5))) true BPF_FIB_LKUP_RET_NO_NEIGH 42 0
            (cpu to_node4 (the_node false 0)))
     = Next (CTX_ACT_REDIRECT, 0)
  /\ CTX_ACT_REDIRECT <> DROP_NO_FIB.
Proof.
  split; [reflexivity|]. split; [eexists; split; vm_compute; reflexivity|].
  repeat split; vm_compute; first [reflexivity | lia].
Qed.

(** Tagged frames on interface 116. *)
Lemma vlan_filter_at_entry_points_witness :
  (* VLAN 4002 on interface 116 *)
  (cil_from_netdev (cfg:=cfg_hostfw) (R:=Z) (cpu (tagged 116 4002) (the_node false 0))
   = (Next CTX_ACT_DROP,
      add_event (cpu (tagged 116 4002) (the_node false 0))
        (EvDrop UNKNOWN_ID 0 0 DROP_VLAN_FILTERED 0 CTX_ACT_DROP METRIC_INGRESS))
   /\ fst (cil_to_netdev (cfg:=cfg_hostfw) (R:=Z) (cpu (tagged 116 4002) (the_node false 0)))
      = Next CTX_ACT_DROP)
  (* VLAN 4001 on interface 116 *)
  /\ (cil_from_netdev (cfg:=cfg_hostfw) (R:=Z) (cpu (tagged 116 4001) (the_node false 0))
      = (Next CTX_ACT_OK, cpu (tagged 116 4001) (the_node false 0))
      /\ fst (cil_to_netdev (cfg:=cfg_hostfw) (R:=Z) (cpu (tagged 116 4001) (the_node false 0)))
         = Next CTX_ACT_OK).
Proof.
  pose proof (proj1 (vlan_filter_at_entry_points (cfg:=cfg_hostfw) (world:=node))) as Hvlan.
  split.
  - destruct (Hvlan (cpu (tagged 116 4002) (the_node false 0))
                ltac:(reflexivity) ltac:(vm_compute; lia)) as [_ Hdrop].
    destruct (Hdrop ltac:(vm_compute; reflexivity)) as [Hfrom Hto].
    split; [exact Hfrom | rewrite Hto; reflexivity].
  - destruct (Hvlan (cpu (tagged 116 4001) (the_node false 0))
                ltac:(reflexivity) ltac:(vm_compute; lia)) as [Hpass _].
    destruct (Hpass ltac:(vm_compute; reflexivity)) as (Hfrom & Hto & _).
    split; [exact Hfrom | rewrite Hto; reflexivity].
Defined.

(** On a CPU whose program array is empty, the packet to the node is passed
    to the stack. *)
Lemma do_netdev_tail_call_failure_passes_to_stack_witness :
  (exists s',
      do_netdev (cfg:=cfg_hostfw) (R:=Z) (bpf_htons ETH_P_IP) UNKNOWN_ID TRACE_FROM_NETWORK false
        (cpu_without_maps to_node4 (the_node true 0))
      = (Next CTX_ACT_OK,
         add_event s' (EvDrop 9 0 0 DROP_MISSED_TAIL_CALL CILIUM_CALL_IPV4_FROM_NETDEV
                              CTX_ACT_OK METRIC_INGRESS)))
  /\ (exists s',
        do_netdev (cfg:=cfg_hostfw) (R:=Z) (bpf_htons ETH_P_IPV6) UNKNOWN_ID TRACE_FROM_NETWORK
          false (cpu_without_maps to_node6 (the_node true 0))
        = (Next CTX_ACT_OK,
           add_event s' (EvDrop 10 0 0 DROP_MISSED_TAIL_CALL CILIUM_CALL_IPV6_FROM_NETDEV
                                CTX_ACT_OK METRIC_INGRESS))).
Proof.
  pose proof (do_netdev_tail_call_failure_passes_to_stack (cfg:=cfg_hostfw) (world:=node))
    as (Hv4 & Hv6).
  split.
  - exact (Hv4 (cpu_without_maps to_node4 (the_node true 0)) UNKNOWN_ID TRACE_FROM_NETWORK
               false (hdr4 (ip 10 0 0 5) (ip 192 168 0 1))
               ltac:(reflexivity) ltac:(vm_compute; reflexivity) ltac:(reflexivity)).
  - refine (Hv6 (cpu_without_maps to_node6 (the_node true 0)) _ UNKNOWN_ID TRACE_FROM_NETWORK
               false (hdr6 (fd00 5) (fd00 1)) _ _ _ _ _);
      vm_compute; reflexivity.
Defined.

(** A packet with the snat-done mark, under a denying host policy. *)
Lemma snat_done_skips_host_firewall_witness :
  ENABLE_HOST_FIREWALL cfg_hostfw = true
  /\ cil_to_netdev (cfg:=cfg_hostfw) (R:=Z) (cpu snat_done4 (the_node true DROP_POLICY_DENY))
     = cil_to_netdev (cfg:=without_host_firewall cfg_hostfw) (R:=Z)
         (cpu snat_done4 (the_node true DROP_POLICY_DENY)).
Proof.
  split; [reflexivity|].
  apply (snat_done_skips_host_firewall (cfg:=cfg_hostfw)
           (cpu snat_done4 (the_node true DROP_POLICY_DENY))).
  vm_compute; reflexivity.
Defined.

(** The same packet without the snat-done mark goes through the host
    firewall, whose policy drops it. *)
Example host_firewall_denies_unmarked_packet :
  fst (cil_to_netdev (cfg:=cfg_hostfw) (R:=Z)
         (cpu snat_done4 (the_node true DROP_POLICY_DENY)))
  = Next CTX_ACT_OK
  /\ fst (cil_to_netdev (cfg:=cfg_hostfw) (R:=Z)
            (cpu (from_node4 (ip 8 8 8 8)) (the_node true DROP_POLICY_DENY)))
     = Next CTX_ACT_DROP.
Proof. split; vm_compute; reflexivity. Qed.

(** * Runs of the FIB entry points and of the host programs *)

Import HostScenario.

(** Towards 8.8.8.8 and fd00::9 the node has no route. *)
Lemma fib_redirect_without_route_witness :
  negb (ENABLE_SKIP_FIB cfg_plain) || negb (neigh_resolver_available cfg_plain) = true
  /\ fst (fib_redirect (cfg:=cfg_plain) (R:=Z) false
            {| fib_l := fib_to (ip 8 8 8 8);
               fib_ipv6_src := v6addr_set_p1 v6addr_zero (ip 192 168 0 1) |}
            false 0 0 (cpu (from_node4 (ip 8 8 8 8)) (the_node false 0)))
     = Next (DROP_NO_FIB, BPF_FIB_LKUP_RET_NOT_FWDED, 0)
  /\ fst (fib_redirect_v4 (cfg:=cfg_plain) (R:=Z) 14 (hdr4 (ip 192 168 0 1) (ip 8 8 8 8))
            false false 0 0 (cpu (from_node4 (ip 8 8 8 8)) (the_node false 0)))
     = Next (DROP_NO_FIB, BPF_FIB_LKUP_RET_NOT_FWDED, 0)
  /\ fst (fib_redirect_v6 (cfg:=cfg_plain) (R:=Z) 14 (hdr6 (fd00 1) (fd00 9))
            false false 0 0 (cpu (from_node6 (fd00 9)) (the_node false 0)))
     = Next (DROP_NO_FIB, BPF_FIB_LKUP_RET_NOT_FWDED, 0).
Proof.
  pose proof (fib_redirect_without_route (cfg:=cfg_plain) (world:=node) eq_refl)
    as (Hany & Hv4 & Hv6).
  split; [reflexivity|]. split; [|split].
  - erewrite Hany; [| vm_compute; reflexivity | reflexivity]. reflexivity.
  - erewrite Hv4; [| vm_compute; reflexivity | reflexivity]. reflexivity.
  - erewrite Hv6; [| vm_compute; reflexivity | reflexivity]. reflexivity.
Defined.

(** A packet to 10.0.0.5 whose TTL has run out: the route is found, the L3
    rewrite refuses the packet, nothing is redirected. *)
Lemma fib_redirect_l3_verdict_is_final_witness :
  (let r := fib_redirect_v4 (cfg:=cfg_plain) (R:=Z) 14 (hdr4 (ip 192 168 0 1) (ip 10 0 0 5))
              false false 0 0 (cpu (expired4 (ip 10 0 0 5)) (the_node false 0)) in
   fst r = Next (DROP_TTL_EXCEEDED, 0, 5) /\ redirects (ext (snd r)) = [])
  /\ (let r := fib_redirect_v4 (cfg:=cfg_skip_fib) (R:=Z) 14
                 (hdr4 (ip 192 168 0 1) (ip 10 0 0 5))
                 false false 0 0 (cpu (expired4 (ip 10 0 0 5)) (the_node false 0)) in
      fst r = Next (DROP_TTL_EXCEEDED, 0, 0) /\ redirects (ext (snd r)) = [])
  /\ (let r := fib_redirect_v6 (cfg:=cfg_plain) (R:=Z) 14 (hdr6 (fd00 1) (fd00 5))
                 false false 0 0 (cpu (expired6 (fd00 5)) (the_node false 0)) in
      fst r = Next (DROP_TTL_EXCEEDED, 0, 5) /\ redirects (ext (snd r)) = [])
  /\ (let r := fib_redirect_v6 (cfg:=cfg_skip_fib) (R:=Z) 14 (hdr6 (fd00 1) (fd00 5))
                 false false 0 0 (cpu (expired6 (fd00 5)) (the_node false 0)) in
      fst r = Next (DROP_TTL_EXCEEDED, 0, 0) /\ redirects (ext (snd r)) = []).
Proof.
  pose proof (fib_redirect_l3_verdict_is_final (cfg:=cfg_plain) (world:=node))
    as (Hv4 & _ & Hv6 & _).
  pose proof (fib_redirect_l3_verdict_is_final (cfg:=cfg_skip_fib) (world:=node))
    as (_ & Hv4s & _ & Hv6s).
  cbv zeta. split; [|split; [|split]].
  - erewrite Hv4;
      [| reflexivity | vm_compute; reflexivity | reflexivity
       | vm_compute; reflexivity | vm_compute; discriminate].
    split; reflexivity.
  - erewrite Hv4s;
      [| reflexivity | vm_compute; reflexivity | vm_compute; discriminate].
    split; reflexivity.
  - erewrite Hv6;
      [| reflexivity | vm_compute; reflexivity | reflexivity
       | vm_compute; reflexivity | vm_compute; discriminate].
    split; reflexivity.
  - erewrite Hv6s;
      [| reflexivity | vm_compute; reflexivity | vm_compute; discriminate].
    split; reflexivity.
Defined.

(** With the neighbour resolved by the FIB lookup, the frame gets the
    addresses of the lookup and is redirected with [ctx_redirect]. *)
Lemma fib_success_rewrites_l2_addresses_witness :
  fib_l2_hdr_check (cfg:=cfg_plain) false 5 0 to_workload = (Next false, to_workload)
  /\ fst (fib_do_redirect (cfg:=cfg_plain) (R:=Z) false (Some (fib_to (ip 10 0 0 5))) false
            BPF_FIB_LKUP_RET_SUCCESS 5 0 to_workload)
     = Next (CTX_ACT_REDIRECT, 0)
  /\ redirects (ext (snd (fib_do_redirect (cfg:=cfg_plain) (R:=Z) false
                            (Some (fib_to (ip 10 0 0 5))) false
                            BPF_FIB_LKUP_RET_SUCCESS 5 0 to_workload)))
     = [(false, 5)].
Proof.
  split; [reflexivity|].
  rewrite (fib_success_rewrites_l2_addresses (cfg:=cfg_plain) to_workload to_workload
             false (fib_to (ip 10 0 0 5)) false 5 0 eq_refl).
  split; reflexivity.
Defined.

(** Interface 42 is an L3 device: whatever the FIB result, the packet is
    redirected as it is. *)
Lemma fib_redirect_to_l3_device_skips_l2_witness :
  IS_L3_DEV cfg_l3 42 = true
  /\ fst (fib_do_redirect (cfg:=cfg_l3) (R:=Z) true (Some (fib_to (ip 10 0 0 5))) false
            BPF_FIB_LKUP_RET_SUCCESS 42 0 to_workload)
     = Next (CTX_ACT_REDIRECT, 0)
  /\ redirects (ext (snd (fib_do_redirect (cfg:=cfg_l3) (R:=Z) true
                            (Some (fib_to (ip 10 0 0 5))) false
                            BPF_FIB_LKUP_RET_SUCCESS 42 0 to_workload)))
     = [(false, 42)].
Proof.
  split; [reflexivity|].
  erewrite (fib_redirect_to_l3_device_skips_l2 (cfg:=cfg_l3) to_workload);
    [| reflexivity | vm_compute; reflexivity].
  split; reflexivity.
Defined.

(** From a device without an Ethernet header: the header is added, and the
    packet goes to the neighbour resolver as without the check. *)
Lemma fib_redirect_adds_l2_header_first_witness :
  IS_L3_DEV cfg_l3_src 5 = false /\ ETH_HLEN cfg_l3_src = 0
  /\ fib_do_redirect (cfg:=cfg_l3_src) (R:=Z) true (Some (fib_to (ip 10 0 0 5))) false
       BPF_FIB_LKUP_RET_NO_NEIGH 5 0 to_workload
     = fib_do_redirect (cfg:=cfg_l3_src) (R:=Z) false (Some (fib_to (ip 10 0 0 5))) false
         BPF_FIB_LKUP_RET_NO_NEIGH 5 0 to_workload
  /\ fst (fib_do_redirect (cfg:=cfg_l3_src) (R:=Z) true (Some (fib_to (ip 10 0 0 5))) false
            BPF_FIB_LKUP_RET_NO_NEIGH 5 0 to_workload)
     = Next (CTX_ACT_REDIRECT, 0).
Proof.
  split; [reflexivity|]. split; [reflexivity|].
  rewrite (fib_redirect_adds_l2_header_first (cfg:=cfg_l3_src) to_workload
             (Some (fib_to (ip 10 0 0 5))) false BPF_FIB_LKUP_RET_NO_NEIGH 5 0
             eq_refl eq_refl).
  split; reflexivity.
Defined.

(** With [ENABLE_SKIP_FIB] and the resolver, the packet goes to the
    direct-routing device 2 through [redirect_neigh], whatever [oif] was. *)
Lemma fib_redirect_skips_lookup_with_resolver_witness :
  ENABLE_SKIP_FIB cfg_skip_fib = true /\ neigh_resolver_available cfg_skip_fib = true
  /\ (let r := fib_redirect (cfg:=cfg_skip_fib) (R:=Z) false
                 {| fib_l := fib_to (ip 8 8 8 8);
                    fib_ipv6_src := v6addr_set_p1 v6addr_zero (ip 192 168 0 1) |}
                 false 0 7 (cpu (from_node4 (ip 8 8 8 8)) (the_node false 0)) in
      fst r = Next (CTX_ACT_REDIRECT, 0, 2) /\ redirects (ext (snd r)) = [(true, 2)])
  /\ (let r := fib_redirect_v4 (cfg:=cfg_skip_fib) (R:=Z) 14
                 (hdr4 (ip 192 168 0 1) (ip 8 8 8 8)) false false 0 7
                 (cpu (from_node4 (ip 8 8 8 8)) (the_node false 0)) in
      fst r = Next (CTX_ACT_REDIRECT, 0, 2) /\ redirects (ext (snd r)) = [(true, 2)])
  /\ (let r := fib_redirect_v6 (cfg:=cfg_skip_fib) (R:=Z) 14
                 (hdr6 (fd00 1) (fd00 9)) false false 0 7
                 (cpu (from_node6 (fd00 9)) (the_node false 0)) in
      fst r = Next (CTX_ACT_REDIRECT, 0, 2) /\ redirects (ext (snd r)) = [(true, 2)]).
Proof.
  pose proof (fib_redirect_skips_lookup_with_resolver (cfg:=cfg_skip_fib) (world:=node)
                eq_refl eq_refl) as (Hany & Hv4 & Hv6).
  cbv zeta in Hany, Hv4, Hv6 |- *.
  split; [reflexivity|]. split; [reflexivity|]. split; [|split].
  - erewrite Hany; [| reflexivity | vm_compute; reflexivity]. split; reflexivity.
  - erewrite Hv4; [| vm_compute; reflexivity | reflexivity | vm_compute; reflexivity].
    split; reflexivity.
  - erewrite Hv6; [| vm_compute; reflexivity | reflexivity | vm_compute; reflexivity].
    split; reflexivity.
Defined.

(** A frame too short for an IP header, and a fragment on a build without
    fragment support. *)
Lemma handlers_reject_unreadable_and_fragmented_packets_witness :
  handle_ipv4 (cfg:=cfg_no_frag) (R:=Z) 2000 0 false false 0 (cpu runt (the_node false 0))
  = (Next (DROP_INVALID, false, 0), cpu runt (the_node false 0))
  /\ ENABLE_IPV4_FRAGMENTS cfg_no_frag = false
  /\ handle_ipv4 (cfg:=cfg_no_frag) (R:=Z) 2000 0 false false 0
       (cpu fragment4 (the_node false 0))
     = (Next (DROP_FRAG_NOSUPPORT, false, 0), cpu fragment4 (the_node false 0))
  /\ handle_ipv6 (cfg:=cfg_no_frag) (R:=Z) 2000 0 false false 0 (cpu runt (the_node false 0))
     = (Next (DROP_INVALID, false, 0), cpu runt (the_node false 0)).
Proof.
  pose proof (handlers_reject_unreadable_and_fragmented_packets (cfg:=cfg_no_frag)
                (world:=node)) as (Hv4 & Hfrag & Hv6 & _).
  split; [|split; [reflexivity|split]].
  - apply Hv4. reflexivity.
  - eapply Hfrag; [reflexivity | vm_compute; reflexivity | vm_compute; reflexivity].
  - apply Hv6. reflexivity.
Defined.

(** The host firewall has nothing to enforce on the packet to the node:
    the slot of the transfer buffer stays zeroed, and the continuation does
    not read it. *)
Lemma transfer_buffer_not_consulted_without_enforcement_witness :
  ENABLE_HOST_FIREWALL cfg_hostfw = true
  /\ (exists s2,
        handle_ipv4 (cfg:=cfg_hostfw) (R:=Z) 2000 2000 false false 0
          (cpu to_node4 (the_node false 0))
        = (Next (CTX_ACT_OK, false, 0), s2)
        /\ cilium_tail_call_buffer4 s2 = [ct_buffer4_zero]
        /\ forall src ip4 trace e,
            let s3 := across_chain_boundary src s2 in
            ipv4_host_firewall_apply (cfg:=cfg_hostfw) false ip4 trace e s3
            = (Next (ip4, trace, e), set_ctx s3 (cb_set (ctx s3) CB_FROM_HOST 0)))
  /\ (exists s2,
        handle_ipv6 (cfg:=cfg_hostfw) (R:=Z) 2000 2000 false false 0
          (cpu to_node6 (the_node false 0))
        = (Next (CTX_ACT_OK, false, 0), s2)
        /\ cilium_tail_call_buffer6 s2 = [ct_buffer6_zero]
        /\ forall src ip6 trace e,
            let s3 := across_chain_boundary src s2 in
            ipv6_host_firewall_apply (cfg:=cfg_hostfw) false ip6 trace e s3
            = (Next (ip6, trace, e), set_ctx s3 (cb_set (ctx s3) CB_FROM_HOST 0))).
Proof.
  pose proof (transfer_buffer_not_consulted_without_enforcement (cfg:=cfg_hostfw)
                (world:=node) eq_refl) as (Hv4 & Hv6).
  split; [reflexivity|]. split.
  - edestruct (Hv4 (cpu to_node4 (the_node false 0)) 2000 2000 false false 0)
      as (s2 & Hrun & Hbuf & Happly); [vm_compute; reflexivity|].
    exists s2. split; [exact Hrun|]. split; [rewrite Hbuf; reflexivity | exact Happly].
  - edestruct (Hv6 (cpu to_node6 (the_node false 0)) 2000 2000 false false 0)
      as (s2 & Hrun & Hbuf & Happly); [vm_compute; reflexivity|].
    exists s2. split; [exact Hrun|]. split; [rewrite Hbuf; reflexivity | exact Happly].
Defined.

(** A frame too short for an IP header is dropped by [tail_handle_ipv4] /
    [tail_handle_ipv6] itself, with the notification as its last action. *)
Lemma tail_handlers_stop_before_chain_boundary_witness :
  (let r := tail_handle_ipv4 (cfg:=cfg_hostfw) (R:=Z) 0 false (cpu runt (the_node true 0)) in
   fst r = Next CTX_ACT_DROP
   /\ events (snd r) = [EvDrop 0 0 0 DROP_INVALID 0 CTX_ACT_DROP METRIC_INGRESS]
   /\ tail_call_cnt (snd r) = 0%nat)
  /\ (let r := tail_handle_ipv6 (cfg:=cfg_hostfw) (R:=Z) 0 false
                 (cpu runt (the_node true 0)) in
      fst r = Next CTX_ACT_DROP
      /\ events (snd r) = [EvDrop 0 0 0 DROP_INVALID 0 CTX_ACT_DROP METRIC_INGRESS]
      /\ tail_call_cnt (snd r) = 0%nat).
Proof.
  pose proof (tail_handlers_stop_before_chain_boundary (cfg:=cfg_hostfw) (world:=node))
    as (Hv4 & Hv6).
  cbv zeta in Hv4, Hv6 |- *. split.
  - erewrite (Hv4 (cpu runt (the_node true 0)));
      [| vm_compute; reflexivity | left; vm_compute; discriminate].
    repeat split.
  - erewrite (Hv6 (cpu runt (the_node true 0)));
      [| vm_compute; reflexivity | left; vm_compute; discriminate].
    repeat split.
Defined.

(** From the host to the remote workload 10.0.0.5: the continuation lets
    the packet through and rewrites its destination MAC; from the network
    to the node it lets the packet through as it is. *)
Lemma continuation_rewrites_dmac_only_from_host_witness :
  fst (tail_handle_ipv4_cont (cfg:=cfg_plain) (R:=Z) true
         (cpu (cb_set (from_node4 (ip 10 0 0 5)) CB_SRC_LABEL HOST_ID) (the_node false 0)))
  = Next CTX_ACT_OK
  /\ tail_handle_ipv4_cont (cfg:=cfg_plain) (R:=Z) false
       (cpu (cb_set to_node4 CB_SRC_LABEL 2000) (the_node false 0))
     = (Next CTX_ACT_OK, cpu (cb_set to_node4 CB_SRC_LABEL 0) (the_node false 0))
  /\ fst (tail_handle_ipv6_cont (cfg:=cfg_plain) (R:=Z) true
            (cpu (cb_set (from_node6 (fd00 5)) CB_SRC_LABEL HOST_ID) (the_node false 0)))
     = Next CTX_ACT_OK.
Proof.
  pose proof (continuation_rewrites_dmac_only_from_host (cfg:=cfg_plain) (world:=node))
    as (Hv4 & Hv6).
  cbv zeta in Hv4, Hv6. split; [|split].
  - erewrite Hv4; [| vm_compute; reflexivity]. reflexivity.
  - erewrite Hv4; [| vm_compute; reflexivity]. reflexivity.
  - erewrite Hv6; [| vm_compute; reflexivity]. reflexivity.
Defined.

(** From the host, with the host firewall and without BPF masquerading:
    the handler is entered with the identities the resolver computed. *)
Lemma do_netdev_hands_identity_to_handler_witness :
  (exists s3,
     do_netdev (cfg:=cfg_hostfw) (R:=Z) (bpf_htons ETH_P_IP) HOST_ID TRACE_FROM_HOST true
       (cpu (from_node4 (ip 10 0 0 5)) (the_node false 0))
     = (Exit (fst (run (tail_handle_ipv4 (cfg:=cfg_hostfw) HOST_ID true) s3)),
        snd (run (tail_handle_ipv4 (cfg:=cfg_hostfw) HOST_ID true) s3))
     /\ cb_get (ctx s3) CB_SRC_LABEL = HOST_ID /\ tail_call_cnt s3 = 1%nat)
  /\ (exists s3,
        do_netdev (cfg:=cfg_hostfw) (R:=Z) (bpf_htons ETH_P_IPV6) WORLD_ID
          TRACE_FROM_NETWORK false (cpu to_node6 (the_node false 0))
        = (Exit (fst (run (tail_handle_ipv6 (cfg:=cfg_hostfw) 0 false) s3)),
           snd (run (tail_handle_ipv6 (cfg:=cfg_hostfw) 0 false) s3))
        /\ cb_get (ctx s3) CB_SRC_LABEL = WORLD_IPV6_ID cfg_hostfw
        /\ tail_call_cnt s3 = 1%nat).
Proof.
  pose proof (do_netdev_hands_identity_to_handler (cfg:=cfg_hostfw) (world:=node))
    as (Hv4 & Hv6).
  cbv zeta in Hv4, Hv6. split.
  - edestruct Hv4 with (s := cpu (from_node4 (ip 10 0 0 5)) (the_node false 0))
                       (identity := HOST_ID) (obs_point := TRACE_FROM_HOST) (from_host := true)
      as (s3 & Hrun & Hsrc & _ & _ & _ & _ & Hcnt);
      [reflexivity | vm_compute; reflexivity | vm_compute; reflexivity | reflexivity |].
    exists s3. split; [exact Hrun|]. split; [exact Hsrc | exact Hcnt].
  - edestruct Hv6 with (s := cpu to_node6 (the_node false 0))
                       (identity := WORLD_ID) (obs_point := TRACE_FROM_NETWORK)
                       (from_host := false)
      as (s3 & Hrun & Hsrc & _ & _ & _ & _ & Hcnt);
      [reflexivity | vm_compute; reflexivity | vm_compute; reflexivity
       | vm_compute; reflexivity | reflexivity |].
    exists s3. split; [exact Hrun|]. split; [exact Hsrc | exact Hcnt].
Defined.

(** An LLDP frame: dropped with the host firewall, passed on without. *)
Lemma do_netdev_drops_unknown_l3_only_with_host_firewall_witness :
  fst (do_netdev (cfg:=cfg_hostfw) (R:=Z) (bpf_htons 0x88cc) UNKNOWN_ID TRACE_FROM_NETWORK
         false (cpu lldp (the_node false 0)))
  = Next CTX_ACT_DROP
  /\ fst (do_netdev (cfg:=cfg_plain) (R:=Z) (bpf_htons 0x88cc) UNKNOWN_ID TRACE_FROM_NETWORK
            false (cpu lldp (the_node false 0)))
     = Next CTX_ACT_OK.
Proof.
  split.
  - rewrite (do_netdev_drops_unknown_l3_only_with_host_firewall (cfg:=cfg_hostfw)
               (cpu lldp (the_node false 0)) (bpf_htons 0x88cc) UNKNOWN_ID TRACE_FROM_NETWORK
               false eq_refl eq_refl eq_refl).
    reflexivity.
  - rewrite (do_netdev_drops_unknown_l3_only_with_host_firewall (cfg:=cfg_plain)
               (cpu lldp (the_node false 0)) (bpf_htons 0x88cc) UNKNOWN_ID TRACE_FROM_NETWORK
               false eq_refl eq_refl eq_refl).
    reflexivity.
Defined.

(** Without host routing the packet to the local workload 10.0.1.7 is
    left to the stack; with host routing, a packet to an address that is no
    local endpoint is. *)
Lemma network_traffic_not_for_an_endpoint_passes_to_stack_witness :
  (let s := cpu (packet (ipv4_frame (ip 10 0 0 5) (ip 10 0 1 7))) (the_node false 0) in
   ENABLE_HOST_ROUTING cfg_legacy_routing = false
   /\ handle_ipv4_cont (cfg:=cfg_legacy_routing) (R:=Z) 2000 false 0 s
      = (Next (CTX_ACT_OK, 0), s))
  /\ (let s := cpu (packet (ipv4_frame (ip 10 0 0 5) (ip 10 0 9 9))) (the_node false 0) in
      handle_ipv4_cont (cfg:=cfg_plain) (R:=Z) 2000 false 0 s = (Next (CTX_ACT_OK, 0), s))
  /\ (let s := cpu (packet (ipv6_frame (fd00 5) (fd00 9))) (the_node false 0) in
      handle_ipv6_cont (cfg:=cfg_plain) (R:=Z) 2000 false 0 s = (Next (CTX_ACT_OK, 0), s)).
Proof.
  cbv zeta. split; [split; [reflexivity|]|split].
  - eapply (proj1 (network_traffic_not_for_an_endpoint_passes_to_stack
                     (cfg:=cfg_legacy_routing) (world:=node)));
      [vm_compute; reflexivity | vm_compute; reflexivity | left; reflexivity].
  - eapply (proj1 (network_traffic_not_for_an_endpoint_passes_to_stack
                     (cfg:=cfg_plain) (world:=node)));
      [vm_compute; reflexivity | vm_compute; reflexivity | right; vm_compute; reflexivity].
  - eapply (proj2 (network_traffic_not_for_an_endpoint_passes_to_stack
                     (cfg:=cfg_plain) (world:=node)));
      [vm_compute; reflexivity | vm_compute; reflexivity | vm_compute; reflexivity
       | right; vm_compute; reflexivity].
Defined.

(** From the host to 10.0.2.7 and fd00::2, behind the tunnel endpoint. *)
Lemma from_host_tunnel_endpoint_is_encapsulated_witness :
  TUNNEL_MODE cfg_tunnel = true
  /\ fst (handle_ipv4_cont (cfg:=cfg_tunnel) (R:=Z) HOST_ID true 0
            (cpu (from_node4 (ip 10 0 2 7)) node_with_tunnel))
     = Next (CTX_ACT_REDIRECT, 0)
  /\ fst (handle_ipv6_cont (cfg:=cfg_tunnel) (R:=Z) HOST_ID true 0
            (cpu (from_node6 (fd00 2)) node_with_tunnel))
     = Next (CTX_ACT_REDIRECT, 0).
Proof.
  pose proof (from_host_tunnel_endpoint_is_encapsulated (cfg:=cfg_tunnel) (world:=node)
                eq_refl) as (Hv4 & Hv6).
  split; [reflexivity|]. split.
  - erewrite Hv4;
      [| vm_compute; reflexivity | vm_compute; reflexivity | vm_compute; reflexivity
       | vm_compute; reflexivity | vm_compute; reflexivity | reflexivity | reflexivity].
    reflexivity.
  - erewrite Hv6;
      [| vm_compute; reflexivity | vm_compute; reflexivity | vm_compute; reflexivity
       | vm_compute; reflexivity | reflexivity | reflexivity].
    reflexivity.
Defined.

(** An encrypted packet to 10.0.2.7 is encapsulated, with its mark
    zeroed; one to 10.0.0.5, which is not behind a tunnel endpoint, is
    refused with its mark as it was. *)
Lemma encrypt_encap_requires_tunnel_endpoint_witness :
  (let r := do_netdev_encrypt_encap (cfg:=cfg_ipsec_tunnel) (R:=Z) (bpf_htons ETH_P_IP) 2000
              (cpu (marked_packet MARK_MAGIC_ENCRYPT (ipv4_frame (ip 192 168 0 1) (ip 10 0 2 7)))
                   node_with_tunnel) in
   fst r = Next CTX_ACT_REDIRECT /\ mark (ctx (snd r)) = 0)
  /\ (let s := cpu (marked4 MARK_MAGIC_ENCRYPT) node_with_tunnel in
      do_netdev_encrypt_encap (cfg:=cfg_ipsec_tunnel) (R:=Z) (bpf_htons ETH_P_IP) 2000 s
      = (Next DROP_NO_TUNNEL_ENDPOINT, s))
  /\ (let r := do_netdev_encrypt_encap (cfg:=cfg_ipsec_tunnel) (R:=Z) (bpf_htons ETH_P_IPV6)
                 2000 (cpu (marked_packet MARK_MAGIC_ENCRYPT (ipv6_frame (fd00 1) (fd00 2)))
                           node_with_tunnel) in
      fst r = Next CTX_ACT_REDIRECT /\ mark (ctx (snd r)) = 0)
  /\ (let s := cpu lldp node_with_tunnel in
      do_netdev_encrypt_encap (cfg:=cfg_ipsec_tunnel) (R:=Z) (bpf_htons 0x88cc) 2000 s
      = (Next DROP_NO_TUNNEL_ENDPOINT, s)).
Proof.
  pose proof (encrypt_encap_requires_tunnel_endpoint (cfg:=cfg_ipsec_tunnel) (world:=node))
    as (Hv4 & Hv6 & Hother).
  cbv zeta. split; [|split; [|split]].
  - erewrite Hv4; [| reflexivity | reflexivity | vm_compute; reflexivity].
    split; reflexivity.
  - erewrite Hv4; [| reflexivity | reflexivity | vm_compute; reflexivity]. reflexivity.
  - erewrite Hv6; [| reflexivity | reflexivity | vm_compute; reflexivity].
    split; reflexivity.
  - rewrite Hother; [reflexivity | reflexivity | reflexivity].
Defined.

(** A packet marked for the proxy at port 8080 is redirected there, and
    the metadata slot is cleared; so is one whose slot carries the magic. *)
Lemma cil_to_host_redirects_to_proxy_witness :
  (let r := cil_to_host (cfg:=cfg_plain) (R:=Z)
              (cpu (marked4 (Z.lor (Z.shiftl 8080 16) MARK_MAGIC_TO_PROXY))
                   (the_node false 0)) in
   fst r = Next CTX_ACT_REDIRECT /\ redirects (ext (snd r)) = [(false, 8080)]
   /\ events (snd r) = [] /\ cb_get (ctx (snd r)) CB_PROXY_MAGIC = 0)
  /\ (let r := cil_to_host (cfg:=cfg_plain) (R:=Z)
                 (cpu (cb_set (marked4 0) CB_PROXY_MAGIC
                         (Z.lor (Z.shiftl 8081 16) MARK_MAGIC_TO_PROXY))
                      (the_node false 0)) in
      fst r = Next CTX_ACT_REDIRECT /\ redirects (ext (snd r)) = [(false, 8081)]
      /\ events (snd r) = [] /\ cb_get (ctx (snd r)) CB_PROXY_MAGIC = 0).
Proof.
  cbv zeta. split.
  - rewrite (cil_to_host_redirects_to_proxy (cfg:=cfg_plain)
               (cpu (marked4 (Z.lor (Z.shiftl 8080 16) MARK_MAGIC_TO_PROXY)) (the_node false 0))
               (Z.lor (Z.shiftl 8080 16) MARK_MAGIC_TO_PROXY)
               (or_introl (conj eq_refl eq_refl))).
    repeat split.
  - rewrite (cil_to_host_redirects_to_proxy (cfg:=cfg_plain)
               (cpu (cb_set (marked4 0) CB_PROXY_MAGIC
                       (Z.lor (Z.shiftl 8081 16) MARK_MAGIC_TO_PROXY)) (the_node false 0))
               (Z.lor (Z.shiftl 8081 16) MARK_MAGIC_TO_PROXY)).
    + repeat split.
    + right. split; [vm_compute; discriminate|]. split; [left; reflexivity|].
      split; reflexivity.
Defined.

(** The packet to the node on its way into the host: denied by the
    ingress host policy it is dropped, admitted it is traced and passed. *)
Lemma cil_to_host_applies_ingress_host_policy_witness :
  ENABLE_IPSEC cfg_hostfw = false /\ ENABLE_HOST_FIREWALL cfg_hostfw = true
  /\ (let r := cil_to_host (cfg:=cfg_hostfw) (R:=Z)
                 (cpu to_node4 (the_node true DROP_POLICY_DENY)) in
      fst r = Exit CTX_ACT_DROP
      /\ events (snd r)
         = [EvDrop 0 0 0 DROP_POLICY_DENY 0 CTX_ACT_DROP METRIC_INGRESS])
  /\ (let r := cil_to_host (cfg:=cfg_hostfw) (R:=Z) (cpu to_node4 (the_node true 0)) in
      fst r = Exit CTX_ACT_OK
      /\ events (snd r)
         = [EvTrace TRACE_TO_STACK 0 UNKNOWN_ID TRACE_EP_ID_UNKNOWN CILIUM_HOST_IFINDEX
              TRACE_REASON_UNKNOWN TRACE_PAYLOAD_LEN (bpf_htons ETH_P_IP)])
  /\ (let r := cil_to_host (cfg:=cfg_hostfw) (R:=Z) (cpu to_node6 (the_node true 0)) in
      fst r = Exit CTX_ACT_OK
      /\ events (snd r)
         = [EvTrace TRACE_TO_STACK 0 UNKNOWN_ID TRACE_EP_ID_UNKNOWN CILIUM_HOST_IFINDEX
              TRACE_REASON_UNKNOWN 0 (bpf_htons ETH_P_IPV6)]).
Proof.
  pose proof (cil_to_host_applies_ingress_host_policy (cfg:=cfg_hostfw) (world:=node)
                eq_refl eq_refl) as (Hv4 & Hv6).
  cbv zeta in Hv4, Hv6 |- *.
  split; [reflexivity|]. split; [reflexivity|]. split; [|split].
  - erewrite Hv4;
      [| reflexivity | vm_compute; discriminate | vm_compute; discriminate
       | vm_compute; reflexivity | reflexivity | vm_compute; reflexivity].
    split; reflexivity.
  - erewrite Hv4;
      [| reflexivity | vm_compute; discriminate | vm_compute; discriminate
       | vm_compute; reflexivity | reflexivity | vm_compute; reflexivity].
    split; reflexivity.
  - erewrite Hv6;
      [| reflexivity | vm_compute; discriminate | vm_compute; discriminate
       | vm_compute; reflexivity | reflexivity | vm_compute; reflexivity].
    split; reflexivity.
Defined.

(** A packet from the host to the local workload 10.0.1.7, handed over by
    bpf_lxc with [CB_FROM_HOST] set. *)
Lemma cil_host_policy_from_host_never_passes_witness :
  ENABLE_HOST_FIREWALL cfg_hostfw = true
  /\ cb_get (ctx from_host_to_local) CB_FROM_HOST <> 0
  /\ ((exists r e s', cil_host_policy (cfg:=cfg_hostfw) (R:=Z) from_host_to_local
                      = send_drop_notify_error_ext HOST_ID r e METRIC_EGRESS s')
      \/ (exists v c w s1,
            tail_call_policy
              (Z.land (cb_get (ctx from_host_to_local) CB_DST_ENDPOINT_ID) 0xffff) (ext s1)
              (local_delivery_fill_meta HOST_ID false true false 0 (ctx s1))
            = (TailTaken v, c, w)
            /\ cil_host_policy (cfg:=cfg_hostfw) (R:=Z) from_host_to_local
               = (Exit v, set_ctx_ext s1 c w)))
  /\ fst (cil_host_policy (cfg:=cfg_hostfw) (R:=Z) from_host_to_local) = Next CTX_ACT_DROP.
Proof.
  split; [reflexivity|]. split; [vm_compute; discriminate|]. split; [|reflexivity].
  apply (cil_host_policy_from_host_never_passes (cfg:=cfg_hostfw) from_host_to_local).
  - reflexivity.
  - vm_compute. discriminate.
Defined.

(** A frame too short for an Ethernet header, an LLDP frame, and the
    packet to the node on a CPU whose program array is empty: all dropped. *)
Lemma cil_to_host_fails_closed_witness :
  fst (cil_to_host (cfg:=cfg_hostfw) (R:=Z) (cpu runt (the_node true 0))) = Next CTX_ACT_DROP
  /\ fst (cil_to_host (cfg:=cfg_hostfw) (R:=Z) (cpu lldp (the_node true 0)))
     = Next CTX_ACT_DROP
  /\ (let r := cil_to_host (cfg:=cfg_hostfw) (R:=Z)
                 (cpu_without_maps to_node6 (the_node true 0)) in
      fst r = Next CTX_ACT_DROP
      /\ events (snd r)
         = [EvDrop 0 0 0 DROP_MISSED_TAIL_CALL CILIUM_CALL_IPV6_TO_HOST_POLICY_ONLY
              CTX_ACT_DROP METRIC_INGRESS])
  /\ (let r := cil_to_host (cfg:=cfg_hostfw) (R:=Z)
                 (cpu_without_maps to_node4 (the_node true 0)) in
      fst r = Next CTX_ACT_DROP
      /\ events (snd r)
         = [EvDrop 0 0 0 DROP_MISSED_TAIL_CALL CILIUM_CALL_IPV4_TO_HOST_POLICY_ONLY
              CTX_ACT_DROP METRIC_INGRESS]).
Proof.
  cbv zeta. split; [|split; [|split]].
  - edestruct (cil_to_host_fails_closed (cfg:=cfg_hostfw) (cpu runt (the_node true 0)))
      as (H & _);
      [reflexivity | reflexivity | vm_compute; discriminate | vm_compute; discriminate
       | vm_compute; reflexivity |].
    rewrite H; reflexivity.
  - edestruct (cil_to_host_fails_closed (cfg:=cfg_hostfw) (cpu lldp (the_node true 0)))
      as (_ & H & _);
      [reflexivity | reflexivity | vm_compute; discriminate | vm_compute; discriminate
       | vm_compute; reflexivity |].
    rewrite H; reflexivity.
  - edestruct (cil_to_host_fails_closed (cfg:=cfg_hostfw)
                 (cpu_without_maps to_node6 (the_node true 0)))
      as (_ & _ & H & _);
      [reflexivity | reflexivity | vm_compute; discriminate | vm_compute; discriminate
       | vm_compute; reflexivity |].
    rewrite H; [split; reflexivity | reflexivity | reflexivity | reflexivity | reflexivity].
  - edestruct (cil_to_host_fails_closed (cfg:=cfg_hostfw)
                 (cpu_without_maps to_node4 (the_node true 0)))
      as (_ & _ & _ & H);
      [reflexivity | reflexivity | vm_compute; discriminate | vm_compute; discriminate
       | vm_compute; reflexivity |].
    rewrite H; [split; reflexivity | reflexivity | reflexivity | reflexivity | reflexivity
                | reflexivity].
Defined.

(** A packet marked for encryption, leaving the host: without tunnel
    routing it is passed on; with it, it is encapsulated towards the tunnel
    endpoint of 10.0.2.7, and dropped when the destination has none. *)
Lemma cil_from_host_encrypted_packets_skip_do_netdev_witness :
  fst (cil_from_host (cfg:=cfg_ipsec) (R:=Z)
         (cpu (marked4 (Z.lor (Z.shiftl 2000 16) MARK_MAGIC_ENCRYPT)) (the_node false 0)))
  = Next CTX_ACT_OK
  /\ fst (cil_from_host (cfg:=cfg_ipsec_tunnel) (R:=Z)
            (cpu (marked_packet (Z.lor (Z.shiftl 2000 16) MARK_MAGIC_ENCRYPT)
                    (ipv4_frame (ip 192 168 0 1) (ip 10 0 2 7))) node_with_tunnel))
     = Next CTX_ACT_REDIRECT
  /\ (let r := cil_from_host (cfg:=cfg_ipsec_tunnel) (R:=Z)
                 (cpu (marked4 (Z.lor (Z.shiftl 2000 16) MARK_MAGIC_ENCRYPT))
                      node_with_tunnel) in
      fst r = Next CTX_ACT_DROP
      /\ last (events (snd r))
         = Some (EvDrop 2000 0 0 DROP_NO_TUNNEL_ENDPOINT 0 CTX_ACT_DROP METRIC_EGRESS)).
Proof.
  cbv zeta. split; [|split].
  - edestruct (cil_from_host_encrypted_packets_skip_do_netdev (cfg:=cfg_ipsec)
                 (cpu (marked4 (Z.lor (Z.shiftl 2000 16) MARK_MAGIC_ENCRYPT))
                      (the_node false 0)))
      as (H & _);
      [reflexivity | vm_compute; reflexivity | left; reflexivity | vm_compute; reflexivity |].
    rewrite H; reflexivity.
  - edestruct (cil_from_host_encrypted_packets_skip_do_netdev (cfg:=cfg_ipsec_tunnel)
                 (cpu (marked_packet (Z.lor (Z.shiftl 2000 16) MARK_MAGIC_ENCRYPT)
                         (ipv4_frame (ip 192 168 0 1) (ip 10 0 2 7))) node_with_tunnel))
      as (_ & H);
      [reflexivity | vm_compute; reflexivity | left; reflexivity | vm_compute; reflexivity |].
    erewrite H; [| reflexivity | vm_compute; reflexivity]. reflexivity.
  - edestruct (cil_from_host_encrypted_packets_skip_do_netdev (cfg:=cfg_ipsec_tunnel)
                 (cpu (marked4 (Z.lor (Z.shiftl 2000 16) MARK_MAGIC_ENCRYPT))
                      node_with_tunnel))
      as (_ & H);
      [reflexivity | vm_compute; reflexivity | left; reflexivity | vm_compute; reflexivity |].
    erewrite H; [| reflexivity | vm_compute; reflexivity]. split; reflexivity.
Defined.

(** A packet of the L7 egress proxy for endpoint 7: its mark is zeroed and
    it is handed to the endpoint's egress policy program, which is not
    there. *)
Lemma proxy_egress_packets_go_to_endpoint_policy_witness :
  ENABLE_L7_LB cfg_l7_lb = true
  /\ (let r := cil_from_host (cfg:=cfg_l7_lb) (R:=Z)
                 (cpu (marked4 (Z.lor (Z.shiftl 7 16) MARK_MAGIC_PROXY_EGRESS_EPID))
                      (the_node false 0)) in
      fst r = Next CTX_ACT_DROP /\ mark (ctx (snd r)) = 0)
  /\ (let r := cil_to_netdev (cfg:=cfg_l7_lb) (R:=Z)
                 (cpu (marked4 (Z.lor (Z.shiftl 7 16) MARK_MAGIC_PROXY_EGRESS_EPID))
                      (the_node false 0)) in
      fst r = Next CTX_ACT_DROP /\ mark (ctx (snd r)) = 0).
Proof.
  pose proof (proxy_egress_packets_go_to_endpoint_policy (cfg:=cfg_l7_lb) (world:=node)
                eq_refl) as (Hhost & Hnetdev).
  cbv zeta in Hhost, Hnetdev |- *. split; [reflexivity|]. split.
  - erewrite Hhost; [| vm_compute; reflexivity | reflexivity]. split; reflexivity.
  - erewrite Hnetdev; [| left; reflexivity | reflexivity]. split; reflexivity.
Defined.

(** A frame too short for an Ethernet header, from the network and from
    the host: dropped with the host firewall, left to the stack without. *)
Lemma entry_points_drop_unsupported_l2_only_with_host_firewall_witness :
  fst (cil_from_netdev (cfg:=cfg_hostfw) (R:=Z) (cpu runt (the_node false 0)))
  = Next CTX_ACT_DROP
  /\ fst (cil_from_netdev (cfg:=cfg_plain) (R:=Z) (cpu runt (the_node false 0)))
     = Next CTX_ACT_OK
  /\ fst (cil_from_host (cfg:=cfg_hostfw) (R:=Z) (cpu runt (the_node false 0)))
     = Next CTX_ACT_DROP
  /\ fst (cil_from_host (cfg:=cfg_plain) (R:=Z) (cpu runt (the_node false 0)))
     = Next CTX_ACT_OK.
Proof.
  pose proof (entry_points_drop_unsupported_l2_only_with_host_firewall (cfg:=cfg_hostfw)
                (world:=node)) as (Hnetdev & Hhost).
  pose proof (entry_points_drop_unsupported_l2_only_with_host_firewall (cfg:=cfg_plain)
                (world:=node)) as (Hnetdev' & Hhost').
  cbv zeta in Hnetdev, Hhost, Hnetdev', Hhost'.
  split; [|split; [|split]].
  - erewrite Hnetdev; [| reflexivity | left; reflexivity | vm_compute; reflexivity].
    reflexivity.
  - erewrite Hnetdev'; [| reflexivity | left; reflexivity | vm_compute; reflexivity].
    reflexivity.
  - erewrite Hhost; [| vm_compute; reflexivity]. reflexivity.
  - erewrite Hhost'; [| vm_compute; reflexivity]. reflexivity.
Defined.

(** A packet that [do_decrypt] has marked for decryption goes to the stack
    as it is. *)
Lemma cil_from_netdev_passes_decrypt_packets_to_stack_witness :
  ENABLE_IPSEC cfg_ipsec = true
  /\ mark (ctx to_decrypt) = MARK_MAGIC_DECRYPT
  /\ cil_from_netdev (cfg:=cfg_ipsec) (R:=Z) to_decrypt = (Next CTX_ACT_OK, to_decrypt).
Proof.
  split; [reflexivity|]. split; [reflexivity|].
  erewrite (cil_from_netdev_passes_decrypt_packets_to_stack (cfg:=cfg_ipsec) to_decrypt);
    [| reflexivity | reflexivity | left; reflexivity | vm_compute; reflexivity
     | vm_compute; reflexivity | reflexivity].
  reflexivity.
Defined.

(** The agent of the node has not reported its liveness: no announcement
    is answered. *)
Lemma l2_announcement_needs_live_agent_witness :
  config_get_agent_liveness (ext to_workload) = 0
  /\ handle_l2_announcement (cfg:=cfg_plain) (R:=Z) None to_workload
     = (Next CTX_ACT_OK, to_workload).
Proof.
  split; [reflexivity|].
  apply (l2_announcement_needs_live_agent (cfg:=cfg_plain) to_workload None).
  left. reflexivity.
Defined.
